(** * Conversion layer of the Aerospike Python client (src/main/conversions.c)

    A shallow embedding of the functions of [conversions.c] that move data
    between the Python object model and the value model of the Aerospike C
    client, followed by the properties the specification states about them.

    Conventions of the embedding.
    - A C function [as_status f(err, in, out)] with [err] and [out] passed by
      pointer becomes a function taking the incoming [as_error] and
      returning the outgoing [as_error] together with the contents of its
      out-parameters; the returned status is the [code] of the outgoing
      error, as in the source ([return err->code]).
    - A pointer that may be [NULL] is an [option].  An out-parameter the
      function does not assign keeps what the caller has put there; the
      callers in this file pass [NULL], which is the [None] of such a
      result.  Where a function releases what its out-parameter refers to
      and leaves the pointer in place, the result is an [owned] value.
    - The module is compiled against Python 3, version 3.10 or later: the
      compatibility macros [PyInt_*] and [PyString_*] of the binding stand
      for [PyLong_*] and [PyUnicode_*], and the conversion of an object to a
      C integer goes through its [__index__] method only.  The source order
      of the type tests is kept, so the tests that Python 3 makes redundant
      are still visible.
    - A [str] is held as its UTF-8 encoding.  A [str] with a lone surrogate
      has no such encoding: [PyUnicode_AsUTF8String] and [PyUnicode_AsUTF8]
      return [NULL] on it, which [pyobject_to_record] tests for and
      [pyobject_to_val] hands on unchecked.  Such a [str] is not an object
      of the embedding, and every statement about text is about text that
      has an encoding.
    - Allocation in the host interpreter ([PyList_New], [PyTuple_New],
      [PyDict_New], [Py_BuildValue] of well-formed arguments, [strdup]) is
      taken to succeed; the branches that only handle a failed allocation
      are therefore not reachable in the embedding.
    - The interpreter's error indicator is clear when a conversion is
      entered; [PyErr_Occurred] after a call is the failure of that call. *)

From Stdlib Require Import ZArith List String Ascii Bool Lia DecimalString.
From Stdlib Require Import Strings.Byte.
Import ListNotations.

Local Open Scope string_scope.
Local Open Scope Z_scope.
Local Open Scope list_scope.

Set Implicit Arguments.

(* Induction principles for types nested in lists, pairs and options. *)
Scheme All for list.
Scheme All for prod.
Scheme All for option.

(* ====================================================================== *)
(** * Machine integers and C strings *)

(** Value of a cast to an unsigned integer of [w] bits. *)
Definition to_unsigned (w : Z) (z : Z) : Z := z mod 2 ^ w.

(** Value of a cast to a signed integer of [w] bits (two's complement). *)
Definition to_signed (w : Z) (z : Z) : Z :=
  (z + 2 ^ (w - 1)) mod 2 ^ w - 2 ^ (w - 1).

Definition LONG_MIN : Z := - 2 ^ 63.
Definition LONG_MAX : Z := 2 ^ 63 - 1.
Definition ULONG_MAX : Z := 2 ^ 64 - 1.

Definition in_long (z : Z) : bool := (LONG_MIN <=? z) && (z <=? LONG_MAX).

(** The C string a [char *] buffer denotes: the bytes before the first NUL.
    [strlen], [strcpy], [strdup] and [PyUnicode_FromString] all read a
    buffer this way. *)
Fixpoint c_str (s : string) : string :=
  match s with
  | EmptyString => EmptyString
  | String c s' => if Ascii.eqb c zero then EmptyString else String c (c_str s')
  end.

Definition strlen (s : string) : Z := Z.of_nat (String.length (c_str s)).

(** [printf]'s [%d]. *)
Definition format_d (z : Z) : string := NilZero.string_of_int (Z.to_int z).

(* ====================================================================== *)
(** * The error record ([as_error]) *)

Inductive as_status : Type :=
| AEROSPIKE_OK
| AEROSPIKE_ERR_CLIENT
| AEROSPIKE_ERR_PARAM
| AEROSPIKE_ERR_BIN_NAME
| AEROSPIKE_STATUS (n : Z).     (* any other status of the driver *)

Definition as_status_eqb (a b : as_status) : bool :=
  match a, b with
  | AEROSPIKE_OK, AEROSPIKE_OK => true
  | AEROSPIKE_ERR_CLIENT, AEROSPIKE_ERR_CLIENT => true
  | AEROSPIKE_ERR_PARAM, AEROSPIKE_ERR_PARAM => true
  | AEROSPIKE_ERR_BIN_NAME, AEROSPIKE_ERR_BIN_NAME => true
  | AEROSPIKE_STATUS n, AEROSPIKE_STATUS m => Z.eqb n m
  | _, _ => false
  end.

Record as_error : Type := mk_error { code : as_status; message : string }.

Definition as_error_reset (err : as_error) : as_error :=
  mk_error AEROSPIKE_OK "".

Definition as_error_update (err : as_error) (c : as_status) (msg : string)
  : as_error :=
  mk_error c msg.

(** [err->code == AEROSPIKE_OK] *)
Definition is_ok (err : as_error) : bool :=
  match code err with AEROSPIKE_OK => true | _ => false end.

(* ====================================================================== *)
(** * The Python object model *)

(** An IEEE-754 double.  The conversions only move doubles between the two
    models, so a double is represented by its 64-bit pattern. *)
Definition double : Type := Z.

Inductive PyObject : Type :=
| Py_None
| PyBool (b : bool)
| PyLong (z : Z)                       (* int, arbitrary precision *)
| PyFloat (d : double)
| PyUnicode (s : string)               (* str, held as its UTF-8 encoding *)
| PyBytes (b : list byte)
| PyByteArray (b : list byte)
| PyList (l : list PyObject)
| PyTuple (l : list PyObject)
| PyDict (d : list (PyObject * PyObject))      (* in insertion order *)
| PyInstance (tp : string) (attrs : list (string * PyObject)).
                                       (* an instance of any other class *)

(** [Py_TYPE(o)->tp_name] *)
Definition tp_name (o : PyObject) : string :=
  match o with
  | Py_None => "NoneType"
  | PyBool _ => "bool"
  | PyLong _ => "int"
  | PyFloat _ => "float"
  | PyUnicode _ => "str"
  | PyBytes _ => "bytes"
  | PyByteArray _ => "bytearray"
  | PyList _ => "list"
  | PyTuple _ => "tuple"
  | PyDict _ => "dict"
  | PyInstance tp _ => tp
  end.

Definition PyBool_Check (o : PyObject) : bool :=
  match o with PyBool _ => true | _ => false end.

(** [bool] is a subclass of [int]. *)
Definition PyLong_Check (o : PyObject) : bool :=
  match o with PyLong _ | PyBool _ => true | _ => false end.

Definition PyFloat_Check (o : PyObject) : bool :=
  match o with PyFloat _ => true | _ => false end.

Definition PyUnicode_Check (o : PyObject) : bool :=
  match o with PyUnicode _ => true | _ => false end.

Definition PyBytes_Check (o : PyObject) : bool :=
  match o with PyBytes _ => true | _ => false end.

Definition PyByteArray_Check (o : PyObject) : bool :=
  match o with PyByteArray _ => true | _ => false end.

Definition PyList_Check (o : PyObject) : bool :=
  match o with PyList _ => true | _ => false end.

Definition PyTuple_Check (o : PyObject) : bool :=
  match o with PyTuple _ => true | _ => false end.

Definition PyDict_Check (o : PyObject) : bool :=
  match o with PyDict _ => true | _ => false end.

(** Compatibility macros of the binding under Python 3. *)
Definition PyInt_Check := PyLong_Check.
Definition PyString_Check := PyUnicode_Check.

(** The exceptions the conversions distinguish. *)
Inductive PyExc : Type := PyExc_OverflowError | PyExc_TypeError.

Definition PyErr_ExceptionMatches (pending : option PyExc) (e : PyExc) : bool :=
  match pending, e with
  | Some PyExc_OverflowError, PyExc_OverflowError => true
  | Some PyExc_TypeError, PyExc_TypeError => true
  | _, _ => false
  end.

Definition PyErr_Occurred (pending : option PyExc) : bool :=
  match pending with Some _ => true | None => false end.

(** Integer value of an [int] or [bool] object. *)
Definition int_value (o : PyObject) : option Z :=
  match o with
  | PyLong z => Some z
  | PyBool b => Some (if b then 1 else 0)
  | _ => None
  end.

(** Association lists keyed by a name: the attributes of an instance. *)
Fixpoint assoc_string {A : Type} (k : string) (l : list (string * A)) : option A :=
  match l with
  | [] => None
  | (k', v) :: tl => if String.eqb k k' then Some v else assoc_string k tl
  end.

(** The number protocol of an object that is not an [int]: the integer its
    [__index__] method returns.  An instance of a class that defines the
    method is an instance with an attribute [__index__] holding the integer
    the call returns; a method that returns no integer, like a missing one,
    makes the conversion raise [TypeError].  None of the built-in types of
    the model other than [int] and [bool] defines [__index__]. *)
Definition nb_index (o : PyObject) : option Z :=
  match o with
  | PyInstance _ attrs =>
      match assoc_string "__index__" attrs with
      | Some r => int_value r
      | None => None
      end
  | _ => None
  end.

(** [PyLong_AsLong]: the C [long] (64 bits) value of an integer, or of the
    integer the [__index__] method of any other object returns; [-1] with an
    exception set otherwise: [OverflowError] when the integer does not fit,
    [TypeError] when the object is no integer and has no [__index__]. *)
Definition PyLong_AsLong (o : PyObject) : Z * option PyExc :=
  match int_value o with
  | Some z => if in_long z then (z, None) else (-1, Some PyExc_OverflowError)
  | None =>
      match nb_index o with
      | Some z =>
          if in_long z then (z, None) else (-1, Some PyExc_OverflowError)
      | None => (-1, Some PyExc_TypeError)
      end
  end.

(** [long long] and [long] are both 64 bits wide. *)
Definition PyLong_AsLongLong := PyLong_AsLong.
Definition PyInt_AsLong := PyLong_AsLong.

(** [PyLong_AsUnsignedLong]: [(unsigned long)-1] with an exception set when
    the integer is negative or too large, or the object is not an [int]
    (this conversion does not try [__index__]). *)
Definition PyLong_AsUnsignedLong (o : PyObject) : Z * option PyExc :=
  match int_value o with
  | Some z =>
      if (0 <=? z) && (z <=? ULONG_MAX) then (z, None)
      else (ULONG_MAX, Some PyExc_OverflowError)
  | None => (ULONG_MAX, Some PyExc_TypeError)
  end.

Definition PyLong_FromLong (z : Z) : PyObject := PyLong z.
Definition PyInt_FromLong := PyLong_FromLong.
Definition PyFloat_AsDouble (o : PyObject) : double :=
  match o with PyFloat d => d | _ => -1 end.
Definition PyFloat_FromDouble (d : double) : PyObject := PyFloat d.

(** [PyUnicode_AsUTF8String]: the UTF-8 encoding as a [bytes] object. *)
Definition PyUnicode_AsUTF8String (o : PyObject) : option PyObject :=
  match o with
  | PyUnicode s => Some (PyBytes (list_byte_of_string s))
  | _ => None
  end.

(** [PyBytes_AsString]: the internal buffer of a [bytes] object. *)
Definition PyBytes_AsString (o : option PyObject) : option string :=
  match o with
  | Some (PyBytes b) => Some (string_of_list_byte b)
  | _ => None
  end.

(** [PyString_AsString], that is [PyUnicode_AsUTF8] under Python 3. *)
Definition PyString_AsString (o : option PyObject) : option string :=
  match o with
  | Some (PyUnicode s) => Some s
  | _ => None
  end.

Definition PyByteArray_AsString (o : PyObject) : list byte :=
  match o with PyByteArray b => b | _ => [] end.

Definition PyByteArray_Size (o : PyObject) : Z :=
  match o with PyByteArray b => Z.of_nat (List.length b) | _ => 0 end.

Definition PyBytes_Size (o : PyObject) : Z :=
  match o with PyBytes b => Z.of_nat (List.length b) | _ => 0 end.

Definition PyByteArray_FromStringAndSize (b : list byte) (n : Z) : PyObject :=
  PyByteArray (firstn (Z.to_nat n) b).

Definition PyBytes_FromString (s : string) : PyObject :=
  PyBytes (list_byte_of_string (c_str s)).

Definition PyTuple_Size (o : PyObject) : Z :=
  match o with PyTuple l => Z.of_nat (List.length l) | _ => -1 end.

Definition PyTuple_GetItem (o : PyObject) (i : nat) : option PyObject :=
  match o with PyTuple l => nth_error l i | _ => None end.

(** [PyObject_GetAttrString] / [PyObject_GenericGetAttr] for the attribute
    names the conversions ask for ([id], [value], [geo_data]); none of the
    built-in types above has such an attribute. *)
Definition PyObject_GetAttrString (o : PyObject) (name : string)
  : option PyObject :=
  match o with
  | PyInstance _ attrs => assoc_string name attrs
  | _ => None
  end.

(** ** Equality of objects

    [==] of the host on the objects of the model: numbers are compared by
    value whatever their type ([True == 1 == 1.0], [0.0 == -0.0], and a NaN
    equals nothing, itself included), text and bytes item by item, lists
    and tuples element by element.  Two dicts are compared entry by entry
    in insertion order, which is finer than the host's comparison (it
    disregards the order).  Instances of other classes are compared by
    class name and attributes, as a class with value equality does; the
    host's default for a class is identity.  The value of a double is read
    off its bit pattern: sign, eleven bits of exponent, fifty-two bits of
    fraction. *)

Definition double_negative (d : double) : bool := Z.testbit d 63.
Definition double_exponent (d : double) : Z := (d / 2 ^ 52) mod 2 ^ 11.
Definition double_fraction (d : double) : Z := d mod 2 ^ 52.

Definition double_is_nan (d : double) : bool :=
  (double_exponent d =? 2047) && negb (double_fraction d =? 0).

Definition double_is_zero (d : double) : bool :=
  (double_exponent d =? 0) && (double_fraction d =? 0).

(** The integer a double is equal to, when it is equal to one: a finite
    double is [+/- m * 2 ^ e] for its significand [m] and exponent [e]. *)
Definition double_integer (d : double) : option Z :=
  if double_exponent d =? 2047 then None
  else
    let m := if double_exponent d =? 0 then double_fraction d
             else 2 ^ 52 + double_fraction d in
    let e := (if double_exponent d =? 0 then 1 else double_exponent d) - 1075 in
    let magnitude :=
      if 0 <=? e then Some (m * 2 ^ e)
      else if m mod 2 ^ (- e) =? 0 then Some (m / 2 ^ (- e))
      else None in
    option_map (fun n => if double_negative d then - n else n) magnitude.

Definition double_eq_int (d : double) (z : Z) : bool :=
  match double_integer d with Some n => n =? z | None => false end.

(** Two doubles that are no NaN are equal when they have the same bits or
    are both zero. *)
Definition double_eqb (x y : double) : bool :=
  negb (double_is_nan x) && negb (double_is_nan y)
  && ((x =? y) || (double_is_zero x && double_is_zero y)).

Section ListEqb.
Variables (A : Type) (eqb : A -> A -> bool).
Fixpoint list_eqb (l1 l2 : list A) : bool :=
  match l1, l2 with
  | [], [] => true
  | a :: t1, b :: t2 => eqb a b && list_eqb t1 t2
  | _, _ => false
  end.
End ListEqb.

Fixpoint PyObject_eqb (a b : PyObject) {struct a} : bool :=
  match a, b with
  | Py_None, Py_None => true
  | PyBool x, PyBool y => Bool.eqb x y
  | PyBool x, PyLong y => Z.eqb (if x then 1 else 0) y
  | PyLong x, PyBool y => Z.eqb x (if y then 1 else 0)
  | PyLong x, PyLong y => Z.eqb x y
  | PyBool x, PyFloat y => double_eq_int y (if x then 1 else 0)
  | PyLong x, PyFloat y => double_eq_int y x
  | PyFloat x, PyBool y => double_eq_int x (if y then 1 else 0)
  | PyFloat x, PyLong y => double_eq_int x y
  | PyFloat x, PyFloat y => double_eqb x y
  | PyUnicode x, PyUnicode y => String.eqb x y
  | PyBytes x, PyBytes y => list_eqb Byte.eqb x y
  | PyBytes x, PyByteArray y => list_eqb Byte.eqb x y
  | PyByteArray x, PyBytes y => list_eqb Byte.eqb x y
  | PyByteArray x, PyByteArray y => list_eqb Byte.eqb x y
  | PyList x, PyList y => list_eqb PyObject_eqb x y
  | PyTuple x, PyTuple y => list_eqb PyObject_eqb x y
  | PyDict x, PyDict y =>
      list_eqb (fun p q => PyObject_eqb (fst p) (fst q)
                           && PyObject_eqb (snd p) (snd q)) x y
  | PyInstance t x, PyInstance u y =>
      String.eqb t u
      && list_eqb (fun p q => String.eqb (fst p) (fst q)
                              && PyObject_eqb (snd p) (snd q)) x y
  | _, _ => false
  end.

(** ** Dictionaries

    A [dict] is the sequence of its items in insertion order, which is the
    order [PyDict_Next] yields them in.  A key that equals a key present
    takes its place in the dict: the key object present stays and the value
    is replaced, so the keys [1] and [1.0] share one entry.  (The host looks
    a key up by identity before it compares; the keys the conversions set
    are objects they have just built, so identity never decides.) *)

(** Objects with a hash: lists, dicts and bytearrays have none, a tuple has
    one when its items do. *)
Fixpoint hashable (o : PyObject) : bool :=
  match o with
  | PyList _ | PyDict _ | PyByteArray _ => false
  | PyTuple l => forallb hashable l
  | _ => true
  end.

Definition pydict : Type := list (PyObject * PyObject).

Fixpoint pydict_set (d : pydict) (k v : PyObject) : pydict :=
  match d with
  | [] => [(k, v)]
  | (k', v') :: tl =>
      if PyObject_eqb k' k then (k', v) :: tl else (k', v') :: pydict_set tl k v
  end.

(** [PyDict_SetItem]: [None] stands for the result [-1] with [TypeError]
    set, which is what an unhashable key gives. *)
Definition PyDict_SetItem (d : pydict) (k v : PyObject) : option pydict :=
  if hashable k then Some (pydict_set d k v) else None.

Fixpoint pydict_get (d : pydict) (k : PyObject) : option PyObject :=
  match d with
  | [] => None
  | (k', v) :: tl => if PyObject_eqb k' k then Some v else pydict_get tl k
  end.

(** [PyDict_GetItemString]: [NULL] when the key is absent or the object is
    not a dict. *)
Definition PyDict_GetItemString (o : PyObject) (key : string) : option PyObject :=
  match o with
  | PyDict d => pydict_get d (PyUnicode key)
  | _ => None
  end.

Definition PyDict_Size (o : PyObject) : Z :=
  match o with PyDict d => Z.of_nat (List.length d) | _ => -1 end.

Definition PyList_Size (o : PyObject) : Z :=
  match o with PyList l => Z.of_nat (List.length l) | _ => -1 end.

(* ====================================================================== *)
(** * The value model of the driver *)

(** [as_bytes]: a typed byte buffer.  The type tag tells the read path which
    deserializer produced the payload. *)
Record as_bytes : Type := mk_bytes { bytes_type : Z; bytes_value : list byte }.

Definition AS_BYTES_BLOB : Z := 4.

(** [as_bytes_new_wrap] / [as_bytes_init_wrap] wrap a buffer as a blob. *)
Definition as_bytes_new_wrap (b : list byte) (n : Z) : as_bytes :=
  mk_bytes AS_BYTES_BLOB (firstn (Z.to_nat n) b).

Definition AS_DIGEST_VALUE_SIZE : Z := 20.

Record as_digest : Type := mk_digest { init : bool; value : list byte }.

(** The user key a key carries ([key->valuep]); [AS_KEY_OTHER] stands for a
    value of any other tag, which the switch of [key_to_pyobject] skips. *)
Inductive as_key_value : Type :=
| AS_KEY_INTEGER (i : Z)
| AS_KEY_STRING (s : string)
| AS_KEY_BYTES (b : as_bytes)
| AS_KEY_OTHER.

Record as_key : Type := mk_key {
  ns : option string;
  set : option string;
  valuep : option as_key_value;
  digest : as_digest
}.

Record as_record_of (V : Type) : Type := mk_record {
  key : as_key;
  gen : Z;                          (* uint16_t *)
  ttl : Z;                          (* uint32_t *)
  bins_capacity : nat;
  bins : list (string * V)          (* the bins in wire order *)
}.

Scheme All for as_record_of.

Inductive as_val : Type :=
| AS_INTEGER (i : Z)
| AS_DOUBLE (d : double)
| AS_STRING (s : option string)     (* [NULL] or a C string *)
| AS_BYTES (b : as_bytes)
| AS_LIST (l : list as_val)
| AS_MAP (m : list (as_val * as_val))
| AS_REC (r : as_record_of as_val)
| AS_NIL
| AS_GEOJSON (s : option string)
| AS_CMP_WILDCARD
| AS_CMP_INF
| AS_UNDEF.

Definition as_record : Type := as_record_of as_val.

(** [&rec->key] *)
Definition record_key (rec : as_record) : as_key := key rec.

(** The context path of a nested collection operation ([as_cdt_ctx]): the
    driver's item types and the items added by [as_cdt_ctx_add_*]. *)
Definition AS_CDT_CTX_LIST_INDEX : Z := 0x10.
Definition AS_CDT_CTX_LIST_RANK : Z := 0x11.
Definition AS_CDT_CTX_LIST_VALUE : Z := 0x13.
Definition AS_CDT_CTX_MAP_INDEX : Z := 0x20.
Definition AS_CDT_CTX_MAP_RANK : Z := 0x21.
Definition AS_CDT_CTX_MAP_KEY : Z := 0x22.
Definition AS_CDT_CTX_MAP_VALUE : Z := 0x23.

Inductive as_cdt_ctx_item : Type :=
| ctx_ival (type : Z) (ival : Z)
| ctx_pval (type : Z) (pval : option as_val).

Definition as_cdt_ctx : Type := list as_cdt_ctx_item.

(** What the caller's storage for a result under construction holds when a
    converter returns: nothing yet, a live value the caller must release, or
    storage the converter has already released. *)
Inductive owned (A : Type) : Type :=
| Untouched
| Live (a : A)
| Destroyed.
Arguments Untouched {A}.
Arguments Live {A} a.
Arguments Destroyed {A}.

(* ====================================================================== *)
(** * Collaborators of the conversion layer *)

(** The client object: the flags of [self] the conversions read. *)
Record AerospikeClient : Type := mk_client {
  strict_types : bool;              (* self->strict_types *)
  has_geo : bool                    (* aerospike_has_geo(self->as) *)
}.

(** The pool of [as_bytes] wrappers of one conversion. *)
Record as_static_pool : Type := mk_pool { current_bytes_id : nat }.

(** What the conversions consume from outside [conversions.c]: the fallback
    serializer and the geo codec of the binding, the driver's key
    initialiser, the decoder of the host and the constants of headers.
    A collaborator that reports through [err] is given the incoming error
    and returns the outgoing one with its result; a result that is a
    pointer to an object is an [option], [None] being [NULL] (for the
    deserializer: what it leaves in the caller's pointer, which is [NULL]
    on entry).  The read path uses the object of the deserializer and of
    the geospatial constructor without a check once they have reported OK
    ([Py_DECREF(py_val)] in [do_bins_to_pyobject_each]); that they hand
    back an object then is their contract, the last two fields. *)
Class Externals : Type := {
  (** serialize_based_on_serializer_policy(self, type, &bytes, obj, err) *)
  serialize_based_on_serializer_policy :
    AerospikeClient -> Z -> option PyObject -> as_error -> as_error * as_bytes;
  (** deserialize_based_on_as_bytes_type(self, bytes, &obj, err) *)
  deserialize_based_on_as_bytes_type :
    AerospikeClient -> as_bytes -> as_error -> as_error * option PyObject;
  (** AerospikeGeospatial_DoDumps(py_data, err) *)
  AerospikeGeospatial_DoDumps :
    option PyObject -> as_error -> as_error * option PyObject;
  (** AerospikeGeospatial_DoLoads(py_str, err) *)
  AerospikeGeospatial_DoLoads :
    option PyObject -> as_error -> as_error * option PyObject;
  (** AerospikeGeospatial_New(err, py_loads) *)
  AerospikeGeospatial_New :
    as_error -> option PyObject -> as_error * option PyObject;
  (** whether the host decodes a C string as UTF-8 text *)
  utf8_decodable : string -> bool;
  (** whether the driver's [as_key_init_*] accept a namespace and a set
      (they return [NULL] otherwise) *)
  as_key_init_accepts : string -> option string -> bool;
  (** capacity of the bytes pool *)
  AS_MAX_STORE_SIZE : nat;
  (** longest bin name the driver stores *)
  AS_BIN_NAME_MAX_LEN : Z;
  (** class names of the two comparator markers *)
  AS_CDT_WILDCARD_NAME : string;
  AS_CDT_INFINITE_NAME : string;
  (** called with an error that is OK, the deserializer and the geospatial
      constructor do not report OK without an object *)
  deserialize_yields_object :
    forall self bytes err,
      is_ok err = true ->
      is_ok (fst (deserialize_based_on_as_bytes_type self bytes err)) = true ->
      snd (deserialize_based_on_as_bytes_type self bytes err) <> None;
  AerospikeGeospatial_yields_object :
    forall err py_loads,
      is_ok err = true ->
      is_ok (fst (AerospikeGeospatial_New err py_loads)) = true ->
      snd (AerospikeGeospatial_New err py_loads) <> None
}.

(* ====================================================================== *)
(** * The conversions *)

Section Conversions.

Context {ext : Externals}.
Variable self : AerospikeClient.

(** [PyString_FromString], that is [PyUnicode_FromString] under Python 3:
    decodes the C string as UTF-8; [NULL] when it does not decode. *)
Definition PyString_FromString (s : string) : option PyObject :=
  if utf8_decodable (c_str s) then Some (PyUnicode (c_str s)) else None.

(** [PyUnicode_DecodeUTF8(s, n, NULL)] *)
Definition PyUnicode_DecodeUTF8 (s : string) (n : Z) : option PyObject :=
  let t := substring 0 (Z.to_nat n) s in
  if utf8_decodable t then Some (PyUnicode t) else None.

(** [PyDict_SetItemString]: the key is built with [PyUnicode_FromString];
    when the key cannot be built or the value is [NULL] the call fails and
    leaves the dict as it was.  The callers below ignore its result. *)
Definition PyDict_SetItemString (d : pydict) (key : string)
    (v : option PyObject) : pydict :=
  match PyString_FromString key, v with
  | Some k, Some o => pydict_set d k o
  | _, _ => d
  end.

(** A [NULL] stored into a slot of a list or tuple under construction has no
    counterpart in the object model; such a slot is left out.  Lemma
    [do_val_to_pyobject_ok_some] shows that no conversion that reports OK
    yields [NULL], so this case does not arise. *)
Definition slot (o : option PyObject) : list PyObject :=
  match o with Some x => [x] | None => [] end.

(** ** Keys and metadata to Python *)

Definition or_None (o : option PyObject) : PyObject :=
  match o with Some x => x | None => Py_None end.

Definition key_to_pyobject (err : as_error) (key : option as_key)
  : as_error * option PyObject :=
  let err := as_error_reset err in
  match key with
  | None => (as_error_update err AEROSPIKE_ERR_CLIENT "key is null", None)
  | Some key =>
      let py_namespace :=
        match ns key with
        | Some n => if 0 <? strlen n then PyString_FromString n else None
        | None => None
        end in
      let py_set :=
        match set key with
        | Some s => if 0 <? strlen s then PyString_FromString s else None
        | None => None
        end in
      let py_key : option PyObject :=
        match valuep key with
        | Some (AS_KEY_INTEGER ival) => Some (PyInt_FromLong ival)
        | Some (AS_KEY_STRING sval) =>
            match PyString_FromString sval with
            | Some o => Some o
            | None =>
                match PyUnicode_DecodeUTF8 sval (strlen sval) with
                | Some o => Some o
                | None =>
                    (* the last resort cannot fail but for want of memory,
                       so the error return that follows it is not reached *)
                    Some (PyBytes_FromString sval)
                end
            end
        | Some (AS_KEY_BYTES bval) =>
            Some (PyByteArray_FromStringAndSize
                    (bytes_value bval)
                    (Z.of_nat (List.length (bytes_value bval))))
        | Some AS_KEY_OTHER => None
        | None => None
        end in
      let py_digest :=
        if init (digest key)
        then Some (PyByteArray_FromStringAndSize (value (digest key))
                                                 AS_DIGEST_VALUE_SIZE)
        else None in
      (err, Some (PyTuple [or_None py_namespace; or_None py_set;
                           or_None py_key; or_None py_digest]))
  end.

Definition metadata_to_pyobject (err : as_error) (rec : option as_record)
  : as_error * option PyObject :=
  let err := as_error_reset err in
  match rec with
  | None => (as_error_update err AEROSPIKE_ERR_CLIENT "record is null", None)
  | Some rec =>
      let py_ttl := PyInt_FromLong (ttl rec) in
      let py_gen := PyInt_FromLong (gen rec) in
      let py_meta := PyDict_SetItemString [] "ttl" (Some py_ttl) in
      let py_meta := PyDict_SetItemString py_meta "gen" (Some py_gen) in
      (err, Some (PyDict py_meta))
  end.

(** ** Values to Python

    [do_val_to_pyobject] and the converters of lists, maps and records call
    each other.  The converters are first written over the value converter
    they call back ([conv]); [do_val_to_pyobject] then closes the knot. *)

(** The converters of maps, of bins and of pair lists build their result in
    the caller's pointer and, when they fail, release it with [Py_DECREF]
    without clearing the pointer: the caller is left with a pointer to the
    released object.  Their result is therefore an [owned] object;
    [live_object] is the object such a pointer refers to, if any, which is
    what the callers in this file store once the status is OK. *)
Definition live_object (o : owned PyObject) : option PyObject :=
  match o with Live x => Some x | _ => None end.

Section Foreach.

Variable conv : as_error -> as_val -> bool -> as_error * option PyObject.

(** [val_to_pyobject] as the callbacks call it. *)
Let val_to_pyobject_ (err : as_error) (val : as_val) := conv err val false.

(** [as_list_foreach(list, list_to_pyobject_each, &convd)]: the callback
    converts an element and stores it in the next slot; it returns [false],
    which stops the iteration, when the conversion failed. *)
Fixpoint list_to_pyobject_foreach (l : list as_val) (err : as_error)
  : as_error * list PyObject :=
  match l with
  | [] => (err, [])
  | val :: tl =>
      let '(err, py_val) := val_to_pyobject_ err val in
      if negb (is_ok err) then (err, [])
      else
        let '(err, rest) := list_to_pyobject_foreach tl err in
        (err, slot py_val ++ rest)
  end.

Definition list_to_pyobject_ (err : as_error) (list : list as_val)
  : as_error * option PyObject :=
  let '(err, items) := list_to_pyobject_foreach list err in
  if negb (is_ok err) then (err, None)          (* Py_CLEAR( *py_list ) *)
  else (err, Some (PyList items)).

(** The loop of [as_list_of_map_to_py_tuple_list], two elements a turn. *)
Fixpoint tuple_list_loop (l : list as_val) (err : as_error)
  : as_error * list PyObject :=
  match l with
  | key :: value :: tl =>
      let '(err, py_key) := val_to_pyobject_ err key in
      if negb (is_ok err) then (err, [])
      else
        let '(err, py_value) := val_to_pyobject_ err value in
        if negb (is_ok err) then (err, [])
        else
          let '(err, rest) := tuple_list_loop tl err in
          (err, PyTuple (slot py_key ++ slot py_value) :: rest)
  | _ => (err, [])
  end.

Definition as_list_of_map_to_py_tuple_list_ (err : as_error)
    (list : list as_val) : as_error * owned PyObject :=
  let size := Z.of_nat (List.length list) in
  if negb (Z.rem size 2 =? 0) then
    (as_error_update err AEROSPIKE_ERR_CLIENT
       "Invalid key list of key/value pairs", Untouched)
  else
    let '(err, items) := tuple_list_loop list err in
    if negb (is_ok err) then (err, Destroyed)   (* Py_DECREF( *py_list ) *)
    else (err, Live (PyList items)).

(** [as_map_foreach(map, map_to_pyobject_each, &convd)] *)
Fixpoint map_to_pyobject_foreach (m : list (as_val * as_val))
    (err : as_error) (py_dict : pydict) : as_error * pydict :=
  match m with
  | [] => (err, py_dict)
  | (key, val) :: tl =>
      let '(err, py_key) := val_to_pyobject_ err key in
      if negb (is_ok err) then (err, py_dict)
      else
        let '(err, py_val) := val_to_pyobject_ err val in
        if negb (is_ok err) then (err, py_dict)
        else
          match py_key, py_val with
          | Some k, Some v =>
              match PyDict_SetItem py_dict k v with
              | Some d => map_to_pyobject_foreach tl err d
              | None =>
                  (as_error_update err AEROSPIKE_ERR_CLIENT
                     "Unable to use unhashable type as a dictionary key",
                   py_dict)
              end
          | _, _ =>
              (as_error_update err AEROSPIKE_ERR_CLIENT
                 "Unable to add dictionary item", py_dict)
          end
  end.

Definition map_to_pyobject_ (err : as_error) (map : list (as_val * as_val))
  : as_error * owned PyObject :=
  let '(err, py_dict) := map_to_pyobject_foreach map err [] in
  if negb (is_ok err) then (err, Destroyed)     (* Py_DECREF( *py_map ) *)
  else (err, Live (PyDict py_dict)).

(** [as_record_foreach(rec, bins_to_pyobject_each..., &convd)].  The
    callback releases [py_val] without a check after an OK conversion; by
    lemma [do_val_to_pyobject_ok_some] it is never [NULL] there. *)
Fixpoint bins_to_pyobject_foreach (b : list (string * as_val))
    (cnvt_list_to_map : bool) (err : as_error) (py_bins : pydict)
  : as_error * pydict :=
  match b with
  | [] => (err, py_bins)
  | (name, val) :: tl =>
      let '(err, py_val) := conv err val cnvt_list_to_map in
      if negb (is_ok err) then (err, py_bins)
      else
        bins_to_pyobject_foreach tl cnvt_list_to_map err
          (PyDict_SetItemString py_bins name py_val)
  end.

Definition bins_to_pyobject_ (err : as_error)
    (rec : option (as_record_of as_val)) (cnvt_list_to_map : bool)
  : as_error * owned PyObject :=
  let err := as_error_reset err in
  match rec with
  | None =>
      (as_error_update err AEROSPIKE_ERR_CLIENT "record is null", Untouched)
  | Some rec =>
      let '(err, py_bins) :=
        bins_to_pyobject_foreach (bins rec) cnvt_list_to_map err [] in
      if negb (is_ok err) then (err, Destroyed) (* Py_DECREF( *py_bins ) *)
      else (err, Live (PyDict py_bins))
  end.

Definition do_record_to_pyobject_ (err : as_error)
    (rec : option (as_record_of as_val)) (key : option as_key)
    (cnvt_list_to_map : bool) : as_error * option PyObject :=
  let err := as_error_reset err in
  match rec with
  | None => (as_error_update err AEROSPIKE_ERR_CLIENT "record is null", None)
  | Some r =>
      let '(err, py_rec_key) :=
        key_to_pyobject err
          (match key with Some k => Some k | None => Some (record_key r) end) in
      if negb (is_ok err) then (err, None)
      else
        let '(err, py_rec_meta) := metadata_to_pyobject err rec in
        if negb (is_ok err) then (err, None)
        else
          let '(err, py_rec_bins) :=
            bins_to_pyobject_ err rec cnvt_list_to_map in
          if negb (is_ok err) then (err, None)
          else
            (err, Some (PyTuple [or_None py_rec_key; or_None py_rec_meta;
                                 or_None (live_object py_rec_bins)]))
  end.

End Foreach.

Fixpoint do_val_to_pyobject (err : as_error) (val : as_val)
    (cnvt_list_to_map : bool) {struct val} : as_error * option PyObject :=
  let err := as_error_reset err in
  match val with
  | AS_INTEGER i => (err, Some (PyInt_FromLong i))
  | AS_DOUBLE d => (err, Some (PyFloat_FromDouble d))
  | AS_STRING s =>
      match s with
      | Some str =>
          match PyString_FromString str with
          | Some o => (err, Some o)
          | None =>
              match PyUnicode_DecodeUTF8 str (strlen str) with
              | Some o => (err, Some o)
              | None =>
                  (as_error_update err AEROSPIKE_ERR_CLIENT
                     "Unknown type for value", None)
              end
          end
      | None => (err, Some Py_None)
      end
  | AS_BYTES bval =>
      (* the deserializer is handed [py_val] itself; either way the function
         returns [err->code] next *)
      deserialize_based_on_as_bytes_type self bval err
  | AS_LIST l =>
      let '(err, py_list) :=
        if cnvt_list_to_map
        then
          let '(err, py_list) :=
            as_list_of_map_to_py_tuple_list_ do_val_to_pyobject err l in
          (err, live_object py_list)
        else list_to_pyobject_ do_val_to_pyobject err l in
      if is_ok err then (err, py_list) else (err, None)
  | AS_MAP m =>
      let '(err, py_map) := map_to_pyobject_ do_val_to_pyobject err m in
      if is_ok err then (err, live_object py_map) else (err, None)
  | AS_REC r =>
      let '(err, py_rec) :=
        do_record_to_pyobject_ do_val_to_pyobject err (Some r) None false in
      if is_ok err then (err, py_rec) else (err, None)
  | AS_NIL => (err, Some Py_None)
  | AS_GEOJSON gp =>
      let py_locstr :=
        match gp with Some locstr => PyString_FromString locstr | None => None end in
      (* [Py_DECREF(py_locstr)] comes next, unchecked, so the source has no
         defined behaviour on GeoJSON text the host does not decode; the
         driver is taken to hand over text that decodes *)
      let '(err, py_loads) := AerospikeGeospatial_DoLoads py_locstr err in
      if negb (is_ok err) then (err, None)
      else
        AerospikeGeospatial_New err py_loads
  | _ =>
      (as_error_update err AEROSPIKE_ERR_CLIENT "Unknown type for value", None)
  end.

Definition val_to_pyobject (err : as_error) (val : as_val)
  : as_error * option PyObject :=
  do_val_to_pyobject err val false.

Definition val_to_pyobject_cnvt_list_to_map (err : as_error) (val : as_val)
  : as_error * option PyObject :=
  do_val_to_pyobject err val true.

Definition list_to_pyobject := list_to_pyobject_ do_val_to_pyobject.
Definition as_list_of_map_to_py_tuple_list :=
  as_list_of_map_to_py_tuple_list_ do_val_to_pyobject.
Definition map_to_pyobject := map_to_pyobject_ do_val_to_pyobject.
Definition bins_to_pyobject := bins_to_pyobject_ do_val_to_pyobject.
Definition do_record_to_pyobject := do_record_to_pyobject_ do_val_to_pyobject.

Definition record_to_pyobject (err : as_error) (rec : option as_record)
    (key : option as_key) : as_error * option PyObject :=
  do_record_to_pyobject err rec key false.

Definition record_to_pyobject_cnvt_list_to_map (err : as_error)
    (rec : option as_record) (key : option as_key)
  : as_error * option PyObject :=
  do_record_to_pyobject err rec key true.

(** [Py_BuildValue("sO", name, value)]: [s] decodes the C string as UTF-8
    and the call fails when it does not decode. *)
Definition Py_BuildValue_sO (name : string) (v : PyObject) : option PyObject :=
  match PyString_FromString name with
  | Some n => Some (PyTuple [n; v])
  | None => None
  end.

(** The loop of [operate_bins_to_pyobject] over the record iterator. *)
Fixpoint operate_bins_loop (b : list (string * as_val)) (err : as_error)
  : as_error * list PyObject :=
  match b with
  | [] => (err, [])
  | (name, val) :: tl =>
      let '(err, py_bin_value) := val_to_pyobject err val in
      if negb (is_ok err) then (err, [])
      else
        match py_bin_value with
        | None =>
            (as_error_update err AEROSPIKE_ERR_CLIENT
               "Null entry in operate ordered conversion", [])
        | Some v =>
            match Py_BuildValue_sO name v with
            | None =>
                (as_error_update err AEROSPIKE_ERR_CLIENT
                   "Unable to build bin entry", [])
            | Some py_bin_pair =>
                let '(err, rest) := operate_bins_loop tl err in
                (err, py_bin_pair :: rest)
            end
        end
  end.

Definition operate_bins_to_pyobject (err : as_error) (rec : option as_record)
  : as_error * owned PyObject :=
  let err := as_error_reset err in
  match rec with
  | None =>
      (as_error_update err AEROSPIKE_ERR_CLIENT "record is null", Untouched)
  | Some rec =>
      let '(err, py_bins) := operate_bins_loop (bins rec) err in
      if negb (is_ok err) then (err, Destroyed)   (* Py_DECREF( *py_bins ) *)
      else (err, Live (PyList py_bins))
  end.

(** ** Batch results to Python *)

(** [as_batch_read]: the key is held by pointer, the record inline. *)
Record as_batch_read : Type := mk_batch_read {
  br_key : option as_key;
  br_result : as_status;
  br_record : as_record
}.

(** [as_batch_read_record]: key and record are both inline. *)
Record as_batch_read_record : Type := mk_batch_read_record {
  brr_key : as_key;
  brr_result : as_status;
  brr_record : as_record
}.

(** [Py_BuildValue("OOO", py_key, Py_None, Py_None)] *)
Definition Py_BuildValue_OOO (a b c : PyObject) : PyObject := PyTuple [a; b; c].

(** Both batch converters return their status next to [err]: the last
    statement returns [AEROSPIKE_OK] whatever [err] holds. *)
Fixpoint as_batch_read_results_loop (results : list as_batch_read)
    (err : as_error) : as_status * as_error * option (list PyObject) :=
  match results with
  | [] => (AEROSPIKE_OK, err, Some [])
  | r :: tl =>
      let next (err : as_error) (py_rec : PyObject) :=
        let '(st, err, rest) := as_batch_read_results_loop tl err in
        (st, err, option_map (cons py_rec) rest) in
      if as_status_eqb (br_result r) AEROSPIKE_OK then
        let '(err, py_rec) :=
          record_to_pyobject err (Some (br_record r)) (br_key r) in
        match py_rec with
        | Some o => if is_ok err then next err o else (code err, err, None)
        | None => (code err, err, None)
        end
      else
        let '(err, py_key) := key_to_pyobject err (br_key r) in
        match py_key with
        | Some k =>
            if is_ok err then next err (Py_BuildValue_OOO k Py_None Py_None)
            else (code err, err, None)
        | None => (code err, err, None)
        end
  end.

Definition as_batch_read_results_to_pyobject (err : as_error)
    (results : list as_batch_read)
  : as_status * as_error * option PyObject :=
  let '(st, err, recs) := as_batch_read_results_loop results err in
  (st, err, option_map PyList recs).

Fixpoint batch_read_records_loop (records : list as_batch_read_record)
    (err : as_error) : as_status * as_error * option (list PyObject) :=
  match records with
  | [] => (AEROSPIKE_OK, err, Some [])
  | batch :: tl =>
      let next (err : as_error) (py_rec : PyObject) :=
        let '(st, err, rest) := batch_read_records_loop tl err in
        (st, err, option_map (cons py_rec) rest) in
      if as_status_eqb (brr_result batch) AEROSPIKE_OK then
        let '(err, py_rec) :=
          record_to_pyobject err (Some (brr_record batch))
            (Some (brr_key batch)) in
        match py_rec with
        | Some o => if is_ok err then next err o else (code err, err, None)
        | None => (code err, err, None)
        end
      else
        let '(err, py_key) := key_to_pyobject err (Some (brr_key batch)) in
        match py_key with
        | Some k =>
            if is_ok err then next err (Py_BuildValue_OOO k Py_None Py_None)
            else (code err, err, None)
        | None => (code err, err, None)
        end
  end.

Definition batch_read_records_to_pyobject (err : as_error)
    (records : list as_batch_read_record)
  : as_status * as_error * option PyObject :=
  let '(st, err, recs) := batch_read_records_loop records err in
  (st, err, option_map PyList recs).

(* ---------------------------------------------------------------------- *)
(** ** The driver's constructors used on the write path *)

(** Equality of map keys, as the driver's map sees it. *)
Fixpoint as_val_eqb (a b : as_val) {struct a} : bool :=
  match a, b with
  | AS_INTEGER x, AS_INTEGER y => Z.eqb x y
  | AS_DOUBLE x, AS_DOUBLE y => Z.eqb x y
  | AS_STRING (Some x), AS_STRING (Some y) => String.eqb x y
  | AS_STRING None, AS_STRING None => true
  | AS_BYTES x, AS_BYTES y =>
      Z.eqb (bytes_type x) (bytes_type y)
      && list_eqb Byte.eqb (bytes_value x) (bytes_value y)
  | AS_LIST x, AS_LIST y => list_eqb as_val_eqb x y
  | AS_MAP x, AS_MAP y =>
      list_eqb (fun p q => as_val_eqb (fst p) (fst q)
                           && as_val_eqb (snd p) (snd q)) x y
  | AS_NIL, AS_NIL => true
  | AS_GEOJSON (Some x), AS_GEOJSON (Some y) => String.eqb x y
  | AS_CMP_WILDCARD, AS_CMP_WILDCARD => true
  | AS_CMP_INF, AS_CMP_INF => true
  | _, _ => false
  end.

(** [as_map_set]: the entry of an equal key is replaced, a new key is added
    after the entries present (the specification's data model has a map as
    an ordered sequence of pairs). *)
Fixpoint as_map_set (m : list (as_val * as_val)) (k v : as_val)
  : list (as_val * as_val) :=
  match m with
  | [] => [(k, v)]
  | (k', v') :: tl =>
      if as_val_eqb k' k then (k', v) :: tl else (k', v') :: as_map_set tl k v
  end.

(** [as_list_append]: a [NULL] element has no counterpart in the value
    model and is left out; [pyobject_to_val] never reports OK without a
    value (lemma [pyobject_to_val_ok_some]). *)
Definition as_list_append (l : list as_val) (v : option as_val) : list as_val :=
  match v with Some x => l ++ [x] | None => l end.

Definition empty_key : as_key := mk_key None None None (mk_digest false []).

(** [as_record_init(rec, nbins)]: the driver takes the number of bins as a
    [uint16_t], so the argument is reduced to 16 bits on the way in. *)
Definition as_record_init (nbins : Z) : as_record :=
  mk_record empty_key 0 0 (Z.to_nat (to_unsigned 16 nbins)) [].

Fixpoint bins_replace (b : list (string * as_val)) (name : string)
    (v : as_val) : option (list (string * as_val)) :=
  match b with
  | [] => None
  | (n, v') :: tl =>
      if String.eqb n name then Some ((n, v) :: tl)
      else option_map (cons (n, v')) (bins_replace tl name v)
  end.

(** [as_record_set_*]: the bin of that name is overwritten, or a bin is
    added when there is room; the call fails ([false]) on a name longer
    than [AS_BIN_NAME_MAX_LEN] and on a full record. *)
Definition as_record_set (rec : as_record) (name : string) (v : as_val)
  : as_record * bool :=
  let name := c_str name in
  if AS_BIN_NAME_MAX_LEN <? strlen name then (rec, false)
  else
    match bins_replace (bins rec) name v with
    | Some b =>
        (mk_record (key rec) (gen rec) (ttl rec) (bins_capacity rec) b, true)
    | None =>
        if (List.length (bins rec) <? bins_capacity rec)%nat then
          (mk_record (key rec) (gen rec) (ttl rec) (bins_capacity rec)
             (bins rec ++ [(name, v)]), true)
        else (rec, false)
    end.

Definition set_ttl (rec : as_record) (t : Z) : as_record :=
  mk_record (key rec) (gen rec) t (bins_capacity rec) (bins rec).

Definition set_gen (rec : as_record) (g : Z) : as_record :=
  mk_record (key rec) g (ttl rec) (bins_capacity rec) (bins rec).

(** [as_key_init_strp], [as_key_init_int64], [as_key_init_raw] and
    [as_key_init_digest]: [NULL] when the driver does not accept the
    namespace and set, the initialised key otherwise.  A [NULL] set is
    stored as the empty string. *)
Definition as_key_init (ns : string) (set : option string)
    (v : option as_key_value) (d : as_digest) : option as_key :=
  if as_key_init_accepts (c_str ns) (option_map c_str set) then
    Some (mk_key (Some (c_str ns))
                 (Some (match set with Some s => c_str s | None => "" end))
                 v d)
  else None.

Definition no_digest : as_digest := mk_digest false [].

Definition as_key_init_strp (ns : string) (set : option string) (k : string)
  : option as_key :=
  as_key_init ns set (Some (AS_KEY_STRING (c_str k))) no_digest.

Definition as_key_init_int64 (ns : string) (set : option string) (k : Z)
  : option as_key :=
  as_key_init ns set (Some (AS_KEY_INTEGER k)) no_digest.

Definition as_key_init_raw (ns : string) (set : option string)
    (b : list byte) (sz : Z) : option as_key :=
  as_key_init ns set (Some (AS_KEY_BYTES (as_bytes_new_wrap b sz))) no_digest.

Definition as_key_init_digest (ns : string) (set : option string)
    (d : list byte) : option as_key :=
  as_key_init ns set None
    (mk_digest true (firstn (Z.to_nat AS_DIGEST_VALUE_SIZE) d)).

(** Modelled from the spec: the macro [GET_BYTES_POOL] of the binding's
    headers, which are not part of the sources at hand.  The pool is "a set
    of fixed-size typed slabs with a high-water mark count and fixed
    capacity; exhaustion is a hard error, not a resize", and "pool
    exhaustion ... surfaces as ClientError".  [true] when a wrapper was
    handed out. *)
Definition GET_BYTES_POOL (static_pool : as_static_pool) (err : as_error)
  : bool * as_static_pool * as_error :=
  if (current_bytes_id static_pool <? AS_MAX_STORE_SIZE)%nat then
    (true, mk_pool (S (current_bytes_id static_pool)), err)
  else
    (false, static_pool,
     as_error_update err AEROSPIKE_ERR_CLIENT "Cannot allocate as_bytes").

(** Modelled from the spec: the helper [AS_Matches_Classname], defined
    outside [conversions.c]; the markers are "detected similarly by
    type-tag match" on the name of the value's host type. *)
Definition AS_Matches_Classname (o : PyObject) (name : string) : bool :=
  String.eqb (tp_name o) name.

(** The block every fallback branch repeats:
    [GET_BYTES_POOL(bytes, static_pool, err);
     if (err->code == AEROSPIKE_OK) {
       if (serialize_based_on_serializer_policy(...) != AEROSPIKE_OK)
         return err->code;
       ... bytes ... }].
    [Ser_return] is the early [return], [Ser_skip] the case where the guard
    is false and control falls through with nothing stored. *)
Inductive serialized : Type :=
| Ser_bytes (bytes : as_bytes)
| Ser_return
| Ser_skip.

Definition serialize_in_pool (err : as_error) (static_pool : as_static_pool)
    (serializer_type : Z) (py_obj : option PyObject)
  : as_error * as_static_pool * serialized :=
  let '(_, static_pool, err) := GET_BYTES_POOL static_pool err in
  if is_ok err then
    let '(err, bytes) :=
      serialize_based_on_serializer_policy self serializer_type py_obj err in
    if negb (is_ok err) then (err, static_pool, Ser_return)
    else (err, static_pool, Ser_bytes bytes)
  else (err, static_pool, Ser_skip).

(* ---------------------------------------------------------------------- *)
(** ** Python to values

    [pyobject_to_val], [pyobject_to_list] and [pyobject_to_map] call each
    other; as on the read path the two collection converters are written
    over the value converter they call back. *)

Section WriteKnot.

Variable conv : as_error -> PyObject -> as_static_pool -> Z ->
                as_error * as_static_pool * option as_val.

(** The [for] loop of [pyobject_to_list] over [PyList_GetItem(py_list, i)];
    a failed element leaves the loop ([break]). *)
Fixpoint pyobject_to_list_loop (items : list PyObject) (err : as_error)
    (aslist : list as_val) (static_pool : as_static_pool)
    (serializer_type : Z) : as_error * as_static_pool * list as_val :=
  match items with
  | [] => (err, static_pool, aslist)
  | py_val :: tl =>
      let '(err, static_pool, val) :=
        conv err py_val static_pool serializer_type in
      if negb (is_ok err) then (err, static_pool, aslist)
      else pyobject_to_list_loop tl err (as_list_append aslist val)
             static_pool serializer_type
  end.

(** [aslist] is the content of [*list] on entry ([NULL] makes the converter
    allocate a list); the result tells what [*list] refers to on return. *)
Definition pyobject_to_list_ (err : as_error) (items : list PyObject)
    (aslist : option (list as_val)) (static_pool : as_static_pool)
    (serializer_type : Z)
  : as_error * as_static_pool * owned (list as_val) :=
  let err := as_error_reset err in
  let aslist := match aslist with Some l => l | None => [] end in
  let '(err, static_pool, aslist) :=
    pyobject_to_list_loop items err aslist static_pool serializer_type in
  if negb (is_ok err) then (err, static_pool, Destroyed)
  else (err, static_pool, Live aslist).

(** The [while (PyDict_Next(...))] loop of [pyobject_to_map]. *)
Fixpoint pyobject_to_map_loop (items : list (PyObject * PyObject))
    (err : as_error) (map : list (as_val * as_val))
    (static_pool : as_static_pool) (serializer_type : Z)
  : as_error * as_static_pool * list (as_val * as_val) :=
  match items with
  | [] => (err, static_pool, map)
  | (py_key, py_val) :: tl =>
      let '(err, static_pool, key) :=
        conv err py_key static_pool serializer_type in
      if negb (is_ok err) then (err, static_pool, map)
      else
        let '(err, static_pool, val) :=
          conv err py_val static_pool serializer_type in
        if negb (is_ok err) then (err, static_pool, map)
                                      (* as_val_destroy(key); break *)
        else
          match key, val with
          | Some k, Some v =>
              pyobject_to_map_loop tl err (as_map_set map k v)
                static_pool serializer_type
          | _, _ =>
              pyobject_to_map_loop tl err map static_pool serializer_type
          end
  end.

Definition pyobject_to_map_ (err : as_error)
    (items : list (PyObject * PyObject))
    (map : option (list (as_val * as_val))) (static_pool : as_static_pool)
    (serializer_type : Z)
  : as_error * as_static_pool * owned (list (as_val * as_val)) :=
  let err := as_error_reset err in
  let map := match map with Some m => m | None => [] end in
  let '(err, static_pool, map) :=
    pyobject_to_map_loop items err map static_pool serializer_type in
  if negb (is_ok err) then (err, static_pool, Destroyed)
  else (err, static_pool, Live map).

End WriteKnot.

(** [if (err->code == AEROSPIKE_OK) *val = (as_val * ) list;] *)
Definition live_val {A : Type} (f : A -> as_val) (o : owned A) : option as_val :=
  match o with Live a => Some (f a) | _ => None end.

(** The integer branches: [i == -1 && PyErr_Occurred()] with an
    [OverflowError] pending is the early return. *)
Definition overflowed (r : Z * option PyExc) : bool :=
  (fst r =? -1) && PyErr_Occurred (snd r)
  && PyErr_ExceptionMatches (snd r) PyExc_OverflowError.

Definition GEOSPATIAL_NAME : string := "aerospike.Geospatial".
Definition NULL_NAME : string := "aerospike.null".

(** [pyobject_to_val] on a non-[NULL] object. *)
Fixpoint pyobject_to_val_obj (err : as_error) (py_obj : PyObject)
    (static_pool : as_static_pool) (serializer_type : Z) {struct py_obj}
  : as_error * as_static_pool * option as_val :=
  let err := as_error_reset err in
  let fallback (err : as_error) (py_obj : option PyObject) :=
    let '(err, static_pool, r) :=
      serialize_in_pool err static_pool serializer_type py_obj in
    match r with
    | Ser_bytes bytes => (err, static_pool, Some (AS_BYTES bytes))
    | Ser_return => (err, static_pool, None)
    | Ser_skip => (err, static_pool, None)
    end in
  if PyBool_Check py_obj then fallback err (Some py_obj)
  else if PyInt_Check py_obj then
    let r := PyInt_AsLong py_obj in
    if overflowed r then
      (as_error_update err AEROSPIKE_ERR_PARAM
         "integer value exceeds sys.maxsize", static_pool, None)
    else (err, static_pool, Some (AS_INTEGER (fst r)))
  else if PyLong_Check py_obj then
    let r := PyLong_AsLongLong py_obj in
    if overflowed r then
      (as_error_update err AEROSPIKE_ERR_PARAM
         "integer value exceeds sys.maxsize", static_pool, None)
    else (err, static_pool, Some (AS_INTEGER (fst r)))
  else if PyUnicode_Check py_obj then
    let py_ustr := PyUnicode_AsUTF8String py_obj in
    let str := PyBytes_AsString py_ustr in
    (err, static_pool, Some (AS_STRING (option_map c_str str)))   (* strdup *)
  else if PyString_Check py_obj then
    let s := PyString_AsString (Some py_obj) in
    (err, static_pool, Some (AS_STRING (option_map c_str s)))
  else if PyBytes_Check py_obj then
    let b := match py_obj with PyBytes b => b | _ => [] end in
    let b_len := to_unsigned 32 (PyBytes_Size py_obj) in
    (err, static_pool, Some (AS_BYTES (as_bytes_new_wrap b b_len)))
  else if String.eqb (tp_name py_obj) GEOSPATIAL_NAME then
    let py_data := PyObject_GetAttrString py_obj "geo_data" in
    let '(err, py_dumps) := AerospikeGeospatial_DoDumps py_data err in
    let geo_value := PyString_AsString py_dumps in
    if has_geo self then
      (err, static_pool, Some (AS_GEOJSON (option_map c_str geo_value)))
    else fallback err py_data
  else if PyByteArray_Check py_obj then fallback err (Some py_obj)
  else if PyList_Check py_obj then
    match py_obj with
    | PyList items =>
        let '(err, static_pool, aslist) :=
          pyobject_to_list_ pyobject_to_val_obj err items None static_pool
            serializer_type in
        (err, static_pool, live_val AS_LIST aslist)
    | _ => (err, static_pool, None)
    end
  else if PyDict_Check py_obj then
    match py_obj with
    | PyDict items =>
        let '(err, static_pool, map) :=
          pyobject_to_map_ pyobject_to_val_obj err items None static_pool
            serializer_type in
        (err, static_pool, live_val AS_MAP map)
    | _ => (err, static_pool, None)
    end
  else if match py_obj with Py_None => true | _ => false end then
    (err, static_pool, Some AS_NIL)
  else if String.eqb (tp_name py_obj) NULL_NAME then
    (err, static_pool, Some AS_NIL)
  else if AS_Matches_Classname py_obj AS_CDT_WILDCARD_NAME then
    (err, static_pool, Some AS_CMP_WILDCARD)
  else if AS_Matches_Classname py_obj AS_CDT_INFINITE_NAME then
    (err, static_pool, Some AS_CMP_INF)
  else if PyFloat_Check py_obj then
    (err, static_pool, Some (AS_DOUBLE (PyFloat_AsDouble py_obj)))
  else fallback err (Some py_obj).

Definition pyobject_to_val (err : as_error) (py_obj : option PyObject)
    (static_pool : as_static_pool) (serializer_type : Z)
  : as_error * as_static_pool * option as_val :=
  match py_obj with
  | None =>
      (as_error_update (as_error_reset err) AEROSPIKE_ERR_CLIENT
         "value is null", static_pool, None)
  | Some o => pyobject_to_val_obj err o static_pool serializer_type
  end.

(** The items [PyList_GetItem] and [PyDict_Next] enumerate. *)
Definition list_items (py_list : PyObject) : list PyObject :=
  match py_list with PyList l => l | _ => [] end.

Definition dict_items (py_dict : PyObject) : list (PyObject * PyObject) :=
  match py_dict with PyDict d => d | _ => [] end.

Definition pyobject_to_list (err : as_error) (py_list : PyObject)
    (aslist : option (list as_val)) (static_pool : as_static_pool)
    (serializer_type : Z) :=
  pyobject_to_list_ pyobject_to_val_obj err (list_items py_list) aslist
    static_pool serializer_type.

Definition pyobject_to_map (err : as_error) (py_dict : PyObject)
    (map : option (list (as_val * as_val))) (static_pool : as_static_pool)
    (serializer_type : Z) :=
  pyobject_to_map_ pyobject_to_val_obj err (dict_items py_dict) map
    static_pool serializer_type.

(* ---------------------------------------------------------------------- *)
(** ** Python to a record *)

(** How one turn of the bin loop of [pyobject_to_record] ends: with a
    [return] from the function, with [break], or by reaching the end of the
    loop body.  [ret_val] is declared outside the loop and keeps its value
    from turn to turn.  [PyDict_Next] yields no [NULL] value, so the test
    [!value] is never true. *)
Inductive bin_step : Type :=
| Step_return (err : as_error) (static_pool : as_static_pool) (rec : as_record)
| Step_break (err : as_error) (static_pool : as_static_pool) (rec : as_record)
| Step_next (err : as_error) (static_pool : as_static_pool) (rec : as_record)
            (ret_val : bool).

Definition record_bin_step (err : as_error) (static_pool : as_static_pool)
    (rec : as_record) (ret_val : bool) (serializer_type : Z)
    (key value : PyObject) : bin_step :=
  (* the bin name *)
  let name : as_error + string :=
    if PyUnicode_Check key then
      match PyBytes_AsString (PyUnicode_AsUTF8String key) with
      | Some n => inr n
      | None =>
          inl (as_error_update err AEROSPIKE_ERR_CLIENT
                 "Unicode bin name not encoded in utf-8.")
      end
    else if PyString_Check key then
      match PyString_AsString (Some key) with
      | Some n => inr n
      | None => inr ""
      end
    else
      inl (as_error_update err AEROSPIKE_ERR_CLIENT
             "A bin name must be a string or unicode string.") in
  match name with
  | inl e => Step_return e static_pool rec
  | inr name =>
      if strict_types self && (AS_BIN_NAME_MAX_LEN <? strlen name) then
        Step_return
          (as_error_update err AEROSPIKE_ERR_BIN_NAME
             "A bin name should not exceed 14 characters limit")
          static_pool rec
      else
        (* the end of the loop body, after the value has been dispatched *)
        let finish (err : as_error) (static_pool : as_static_pool)
                   (rec : as_record) (ret_val : bool) :=
          if strict_types self && negb ret_val then
            Step_return
              (as_error_update err AEROSPIKE_ERR_BIN_NAME
                 "Unable to set key-value pair")
              static_pool rec
          else Step_next err static_pool rec ret_val in
        let set (err : as_error) (static_pool : as_static_pool) (v : as_val) :=
          let '(rec, ret_val) := as_record_set rec name v in
          finish err static_pool rec ret_val in
        let fallback (err : as_error) (py_obj : option PyObject) :=
          let '(err, static_pool, r) :=
            serialize_in_pool err static_pool serializer_type py_obj in
          match r with
          | Ser_bytes bytes => set err static_pool (AS_BYTES bytes)
          | Ser_return => Step_return err static_pool rec
          | Ser_skip => finish err static_pool rec ret_val
          end in
        if PyBool_Check value then fallback err (Some value)
        else if PyInt_Check value then
          let r := PyInt_AsLong value in
          if overflowed r then
            Step_return
              (as_error_update err AEROSPIKE_ERR_PARAM
                 "integer value exceeds sys.maxsize") static_pool rec
          else set err static_pool (AS_INTEGER (fst r))
        else if PyLong_Check value then
          let r := PyLong_AsLongLong value in
          if overflowed r then
            Step_return
              (as_error_update err AEROSPIKE_ERR_PARAM
                 "integer value exceeds sys.maxsize") static_pool rec
          else set err static_pool (AS_INTEGER (fst r))
        else if String.eqb (tp_name value) GEOSPATIAL_NAME then
          let py_data := PyObject_GetAttrString value "geo_data" in
          let '(err, py_dumps) := AerospikeGeospatial_DoDumps py_data err in
          let geo_value :=
            match py_dumps with
            | Some d =>
                if PyUnicode_Check d
                then PyBytes_AsString (PyUnicode_AsUTF8String d)
                else PyString_AsString py_dumps
            | None => None
            end in
          if has_geo self then
            set err static_pool (AS_GEOJSON (option_map c_str geo_value))
          else fallback err py_data
        else if PyUnicode_Check value then
          match PyBytes_AsString (PyUnicode_AsUTF8String value) with
          | Some val => set err static_pool (AS_STRING (Some (c_str val)))
          | None =>
              Step_return
                (as_error_update err AEROSPIKE_ERR_CLIENT
                   "Unicode value not encoded in utf-8.") static_pool rec
          end
        else if PyString_Check value then
          set err static_pool
            (AS_STRING (option_map c_str (PyString_AsString (Some value))))
        else if PyByteArray_Check value then fallback err (Some value)
        else if PyList_Check value then
          let '(err, static_pool, aslist) :=
            pyobject_to_list err value None static_pool serializer_type in
          if negb (is_ok err) then Step_break err static_pool rec
          else
            match aslist with
            | Live l => set err static_pool (AS_LIST l)
            | _ => Step_break err static_pool rec
            end
        else if PyDict_Check value then
          let '(err, static_pool, map) :=
            pyobject_to_map err value None static_pool serializer_type in
          if negb (is_ok err) then Step_break err static_pool rec
          else
            match map with
            | Live m => set err static_pool (AS_MAP m)
            | _ => Step_break err static_pool rec
            end
        else if String.eqb (tp_name value) NULL_NAME then
          set err static_pool AS_NIL
        else if PyFloat_Check value then
          set err static_pool (AS_DOUBLE (PyFloat_AsDouble value))
        else fallback err (Some value)
  end.

(** [true] in the first component: the loop was left by [return]. *)
Fixpoint record_bins_loop (items : list (PyObject * PyObject))
    (err : as_error) (static_pool : as_static_pool) (rec : as_record)
    (ret_val : bool) (serializer_type : Z)
  : bool * as_error * as_static_pool * as_record :=
  match items with
  | [] => (false, err, static_pool, rec)
  | (key, value) :: tl =>
      match record_bin_step err static_pool rec ret_val serializer_type
              key value with
      | Step_return err static_pool rec => (true, err, static_pool, rec)
      | Step_break err static_pool rec => (false, err, static_pool, rec)
      | Step_next err static_pool rec ret_val =>
          record_bins_loop tl err static_pool rec ret_val serializer_type
      end
  end.

(** One metadata entry of [pyobject_to_record]: the value is cast to the
    field's width and stored, and the error is raised only when the stored
    value is the all-ones pattern, an exception is pending and that
    exception is an [OverflowError].  [pending] is the interpreter's error
    indicator, which a later successful call does not clear. *)
Definition record_meta_field (width : Z) (not_int_msg : string)
    (err : as_error) (pending : option PyExc) (py_v : PyObject)
  : as_error * option PyExc * option Z :=
  let store (r : Z * option PyExc) :=
    let pending := match snd r with Some e => Some e | None => pending end in
    let stored := to_unsigned width (fst r) in
    if (stored =? to_unsigned width (-1)) && PyErr_Occurred pending
       && PyErr_ExceptionMatches pending PyExc_OverflowError
    then (as_error_update err AEROSPIKE_ERR_PARAM
            "integer value exceeds sys.maxsize", pending, Some stored)
    else (err, pending, Some stored) in
  if PyInt_Check py_v then store (PyInt_AsLong py_v)
  else if PyLong_Check py_v then store (PyLong_AsLongLong py_v)
  else (as_error_update err AEROSPIKE_ERR_PARAM not_int_msg, pending, None).

Definition record_meta (err : as_error) (rec : as_record)
    (py_meta : option PyObject) : as_error * as_record :=
  match py_meta with
  | None => (err, rec)
  | Some Py_None => (err, rec)
  | Some py_meta =>
      if negb (PyDict_Check py_meta) then
        (as_error_update err AEROSPIKE_ERR_PARAM "meta must be a dictionary",
         rec)
      else
        let py_gen := PyDict_GetItemString py_meta "gen" in
        let py_ttl := PyDict_GetItemString py_meta "ttl" in
        let '(err, pending, rec) :=
          match py_ttl with
          | Some py_ttl =>
              let '(err, pending, v) :=
                record_meta_field 32 "TTL should be an int or long"
                  err None py_ttl in
              (err, pending,
               match v with Some t => set_ttl rec t | None => rec end)
          | None => (err, None, rec)
          end in
        match py_gen with
        | Some py_gen =>
            let '(err, _, v) :=
              record_meta_field 16 "Generation should be an int or long"
                err pending py_gen in
            (err, match v with Some g => set_gen rec g | None => rec end)
        | None => (err, rec)
        end
  end.

(** The result tells what the caller's [rec] holds on return. *)
Definition pyobject_to_record (err : as_error) (py_rec : option PyObject)
    (py_meta : option PyObject) (serializer_type : Z)
    (static_pool : as_static_pool)
  : as_error * as_static_pool * owned as_record :=
  let err := as_error_reset err in
  match py_rec with
  | None =>
      (as_error_update err AEROSPIKE_ERR_CLIENT "record is null",
       static_pool, Untouched)
  | Some py_rec =>
      if PyDict_Check py_rec then
        let size := PyDict_Size py_rec in
        let rec := as_record_init size in
        let '(returned, err, static_pool, rec) :=
          record_bins_loop (dict_items py_rec) err static_pool rec false
            serializer_type in
        if returned then (err, static_pool, Live rec)
        else
          let '(err, rec) := record_meta err rec py_meta in
          if negb (is_ok err) then (err, static_pool, Destroyed)
                                        (* as_record_destroy(rec) *)
          else (err, static_pool, Live rec)
      else
        (as_error_update err AEROSPIKE_ERR_PARAM
           "Record should be passed as bin-value pair", static_pool, Untouched)
  end.

(* ---------------------------------------------------------------------- *)
(** ** Python to a value, for the operations path *)

Definition pyobject_to_astype_write (err : as_error) (py_value : PyObject)
    (static_pool : as_static_pool) (serializer_type : Z)
  : as_error * as_static_pool * option as_val :=
  let err := as_error_reset err in
  let fallback (err : as_error) (py_obj : option PyObject) :=
    let '(err, static_pool, r) :=
      serialize_in_pool err static_pool serializer_type py_obj in
    match r with
    | Ser_bytes bytes => (err, static_pool, Some (AS_BYTES bytes))
    | Ser_return => (err, static_pool, None)
    | Ser_skip => (err, static_pool, None)
    end in
  if PyBool_Check py_value then fallback err (Some py_value)
  else if PyInt_Check py_value then
    (err, static_pool, Some (AS_INTEGER (fst (PyInt_AsLong py_value))))
  else if PyLong_Check py_value then
    (err, static_pool, Some (AS_INTEGER (fst (PyLong_AsLongLong py_value))))
  else if PyUnicode_Check py_value then
    let str := PyBytes_AsString (PyUnicode_AsUTF8String py_value) in
    (err, static_pool, Some (AS_STRING (option_map c_str str)))
  else if PyString_Check py_value then
    (err, static_pool,
     Some (AS_STRING (option_map c_str (PyString_AsString (Some py_value)))))
  else if String.eqb (tp_name py_value) GEOSPATIAL_NAME then
    let py_data := PyObject_GetAttrString py_value "geo_data" in
    let '(err, py_dumps) := AerospikeGeospatial_DoDumps py_data err in
    let geo_value := PyString_AsString py_dumps in
    if has_geo self then
      (err, static_pool, Some (AS_GEOJSON (option_map c_str geo_value)))
    else fallback err py_data
  else if PyByteArray_Check py_value then
    let b := PyByteArray_AsString py_value in
    let z := to_unsigned 32 (PyByteArray_Size py_value) in
    (err, static_pool, Some (AS_BYTES (as_bytes_new_wrap b z)))
  else if PyList_Check py_value then
    let '(err, static_pool, aslist) :=
      pyobject_to_list err py_value None static_pool serializer_type in
    (err, static_pool, live_val AS_LIST aslist)
  else if PyDict_Check py_value then
    let '(err, static_pool, map) :=
      pyobject_to_map err py_value None static_pool serializer_type in
    (err, static_pool, live_val AS_MAP map)
  else if AS_Matches_Classname py_value NULL_NAME then
    (err, static_pool, Some AS_NIL)
  else if AS_Matches_Classname py_value AS_CDT_WILDCARD_NAME then
    (err, static_pool, Some AS_CMP_WILDCARD)
  else if AS_Matches_Classname py_value AS_CDT_INFINITE_NAME then
    (err, static_pool, Some AS_CMP_INF)
  else if PyFloat_Check py_value then
    (err, static_pool, Some (AS_DOUBLE (PyFloat_AsDouble py_value)))
  else fallback err (Some py_value).

(* ---------------------------------------------------------------------- *)
(** ** Python to a key *)

(** The four items the key is read from, or the error of a wrong shape. *)
Definition key_parts (err : as_error) (py_keytuple : option PyObject)
  : as_error + (option PyObject * option PyObject * option PyObject
                * option PyObject) :=
  match py_keytuple with
  | None => inl (as_error_update err AEROSPIKE_ERR_PARAM "key is null")
  | Some py_keytuple =>
      if PyTuple_Check py_keytuple then
        let size := PyTuple_Size py_keytuple in
        if (size <? 3) || (4 <? size) then
          inl (as_error_update err AEROSPIKE_ERR_PARAM
                 "key tuple must be (Namespace, Set, Key) or (Namespace, Set, None, Digest)")
        else
          let py_ns := PyTuple_GetItem py_keytuple 0 in
          let py_set := PyTuple_GetItem py_keytuple 1 in
          let py_key := PyTuple_GetItem py_keytuple 2 in
          let py_digest :=
            if size =? 4 then PyTuple_GetItem py_keytuple 3 else None in
          inr (py_ns, py_set, py_key, py_digest)
      else if PyDict_Check py_keytuple then
        inr (PyDict_GetItemString py_keytuple "ns",
             PyDict_GetItemString py_keytuple "set",
             PyDict_GetItemString py_keytuple "key",
             PyDict_GetItemString py_keytuple "digest")
      else inl (as_error_update err AEROSPIKE_ERR_PARAM "key is invalid")
  end.

(** [p && p != Py_None] *)
Definition given (p : option PyObject) : option PyObject :=
  match p with
  | Some Py_None => None
  | Some o => Some o
  | None => None
  end.

(** The result holds the key when one of the [as_key_init_*] has
    initialised the caller's [key]. *)
Definition pyobject_to_key (err : as_error) (py_keytuple : option PyObject)
  : as_error * option as_key :=
  let err := as_error_reset err in
  match key_parts err py_keytuple with
  | inl e => (e, None)
  | inr (py_ns, py_set, py_key, py_digest) =>
      match py_ns with
      | None =>
          (as_error_update err AEROSPIKE_ERR_PARAM "namespace is required",
           None)
      | Some py_ns =>
          if negb (PyString_Check py_ns) then
            (as_error_update err AEROSPIKE_ERR_PARAM
               "namespace must be a string", None)
          else
            let ns :=
              match PyString_AsString (Some py_ns) with
              | Some n => n | None => ""
              end in
            let set : as_error + option string :=
              match given py_set with
              | Some py_set =>
                  if PyString_Check py_set then
                    inr (PyString_AsString (Some py_set))
                  else if PyUnicode_Check py_set then
                    inr (PyBytes_AsString (PyUnicode_AsUTF8String py_set))
                  else
                    inl (as_error_update err AEROSPIKE_ERR_PARAM
                           "set must be a string")
              | None => inr None
              end in
            match set with
            | inl e => (e, None)
            | inr set =>
                (* [returnResult]: [inl] while it still is [key], [inr] once
                   an initialiser has returned *)
                let result : as_error * (unit + option as_key) :=
                  match given py_key with
                  | Some py_key =>
                      if PyUnicode_Check py_key then
                        match PyBytes_AsString (PyUnicode_AsUTF8String py_key)
                        with
                        | Some k => (err, inr (as_key_init_strp ns set k))
                        | None => (err, inl tt)
                        end
                      else if PyString_Check py_key then
                        match PyString_AsString (Some py_key) with
                        | Some k => (err, inr (as_key_init_strp ns set k))
                        | None => (err, inl tt)
                        end
                      else if PyInt_Check py_key then
                        let r := PyInt_AsLong py_key in
                        if (-1 =? fst r) && PyErr_Occurred (snd r) then
                          (as_error_update err AEROSPIKE_ERR_PARAM
                             "integer value for KEY exceeds sys.maxsize",
                           inl tt)
                        else (err, inr (as_key_init_int64 ns set (fst r)))
                      else if PyLong_Check py_key then
                        let r := PyLong_AsLongLong py_key in
                        if (-1 =? fst r) && PyErr_Occurred (snd r) then
                          (as_error_update err AEROSPIKE_ERR_PARAM
                             "integer value for KEY exceeds sys.maxsize",
                           inl tt)
                        else (err, inr (as_key_init_int64 ns set (fst r)))
                      else if PyByteArray_Check py_key then
                        let sz := to_unsigned 32 (PyByteArray_Size py_key) in
                        if sz <=? 0 then
                          (as_error_update err AEROSPIKE_ERR_PARAM
                             "Byte array size cannot be 0", inl tt)
                        else
                          (err, inr (as_key_init_raw ns set
                                       (PyByteArray_AsString py_key) sz))
                      else if PyBytes_Check py_key then
                        match PyBytes_AsString (Some py_key) with
                        | Some k => (err, inr (as_key_init_strp ns set k))
                        | None => (err, inl tt)
                        end
                      else
                        (as_error_update err AEROSPIKE_ERR_PARAM
                           "key is invalid", inl tt)
                  | None =>
                      match given py_digest with
                      | Some py_digest =>
                          if PyByteArray_Check py_digest then
                            let sz :=
                              to_unsigned 32 (PyByteArray_Size py_digest) in
                            if negb (sz =? AS_DIGEST_VALUE_SIZE) then
                              (as_error_update err AEROSPIKE_ERR_PARAM
                                 ("digest size is invalid. should be 20 bytes, but received "
                                  ++ format_d (to_signed 32 sz))%string,
                               inl tt)
                            else
                              (err, inr (as_key_init_digest ns set
                                           (PyByteArray_AsString py_digest)))
                          else
                            (as_error_update err AEROSPIKE_ERR_PARAM
                               "digest is invalid. expected a bytearray",
                             inl tt)
                      | None =>
                          (as_error_update err AEROSPIKE_ERR_PARAM
                             "either key or digest is required", inl tt)
                      end
                  end in
                match result with
                | (err, inl _) => (err, None)
                | (err, inr (Some k)) => (err, Some k)
                | (err, inr None) =>          (* !returnResult *)
                    (as_error_update err AEROSPIKE_ERR_PARAM "key is invalid",
                     None)
                end
            end
      end
  end.

(* ---------------------------------------------------------------------- *)
(** ** Metadata of an operations list *)

Record as_operations : Type := mk_operations { ops_ttl : Z; ops_gen : Z }.

(** One metadata entry of [check_for_meta]: [inl] is the early [return] of
    an error, [inr] the value to store. *)
Definition check_meta_field (width : Z) (not_int_msg overflow_msg : string)
    (err : as_error) (py_v : PyObject) : as_error + Z :=
  let check (r : Z * option PyExc) : as_error + Z :=
    let v := to_unsigned width (fst r) in
    if (to_unsigned width (-1) =? v) && PyErr_Occurred (snd r) then
      inl (as_error_update err AEROSPIKE_ERR_PARAM overflow_msg)
    else inr v in
  if PyInt_Check py_v then check (PyInt_AsLong py_v)
  else if PyLong_Check py_v then check (PyLong_AsLongLong py_v)
  else inl (as_error_update err AEROSPIKE_ERR_PARAM not_int_msg).

Definition check_for_meta (py_meta : option PyObject) (ops : as_operations)
    (err : as_error) : as_error * as_operations :=
  let err := as_error_reset err in
  match py_meta with
  | None => (err, ops)
  | Some py_meta =>
      if PyDict_Check py_meta then
        let py_gen := PyDict_GetItemString py_meta "gen" in
        let py_ttl := PyDict_GetItemString py_meta "ttl" in
        let after_ttl : as_error + as_operations :=
          match py_ttl with
          | Some py_ttl =>
              match check_meta_field 32 "Ttl should be an int or long"
                      "integer value for ttl exceeds sys.maxsize" err py_ttl
              with
              | inl e => inl e
              | inr ttl => inr (mk_operations ttl (ops_gen ops))
              end
          | None => inr ops
          end in
        match after_ttl with
        | inl e => (e, ops)
        | inr ops =>
            match py_gen with
            | Some py_gen =>
                match check_meta_field 16 "Generation should be an int or long"
                        "integer value for gen exceeds sys.maxsize" err py_gen
                with
                | inl e => (e, ops)
                | inr gen => (err, mk_operations (ops_ttl ops) gen)
                end
            | None => (err, ops)
            end
        end
      else
        match py_meta with
        | Py_None => (err, ops)
        | _ =>
            (as_error_update err AEROSPIKE_ERR_PARAM
               "Metadata should be of type dictionary", ops)
        end
  end.

(* ---------------------------------------------------------------------- *)
(** ** Python to a context path *)

Definition CTX_KEY : string := "ctx".

Definition requires_int (op : Z) : bool :=
  (op =? AS_CDT_CTX_LIST_INDEX)
  || (op =? AS_CDT_CTX_LIST_RANK)
  || (op =? AS_CDT_CTX_MAP_INDEX)
  || (op =? AS_CDT_CTX_MAP_RANK).

Definition failed_to_convert : string := "Failed to convert " ++ CTX_KEY.
Definition unknown_ctx_operation : string :=
  "Failed to convert, unknown ctx operation " ++ CTX_KEY.

(** The loop of [get_cdt_ctx].  The first component is the status of a
    [return] inside the loop, [None] when the loop ran to its end; the last
    one tells what the caller's [cdt_ctx] holds. *)
Fixpoint get_cdt_ctx_loop (items : list PyObject) (err : as_error)
    (static_pool : as_static_pool) (cdt_ctx : as_cdt_ctx)
    (serializer_type : Z)
  : option as_status * as_error * as_static_pool * owned as_cdt_ctx :=
  let fail_destroy (err : as_error) (msg : string) :=
    let err := as_error_update err AEROSPIKE_ERR_PARAM msg in
    (Some (code err), err, static_pool, @Destroyed as_cdt_ctx) in
  match items with
  | [] => (None, err, static_pool, Live cdt_ctx)
  | py_val :: tl =>
      match PyObject_GetAttrString py_val "id" with
      | None => fail_destroy err failed_to_convert
      | Some id_temp =>
          match PyObject_GetAttrString py_val "value" with
          | None => fail_destroy err failed_to_convert
          | Some value_temp =>
              let r := PyLong_AsUnsignedLong id_temp in
              let item_type := fst r in
              if PyErr_Occurred (snd r) then fail_destroy err failed_to_convert
              else if requires_int item_type then
                let r := PyLong_AsLong value_temp in
                let int_val := to_signed 32 (fst r) in
                if PyErr_Occurred (snd r) then
                  fail_destroy err failed_to_convert
                else if (item_type =? AS_CDT_CTX_LIST_INDEX)
                        || (item_type =? AS_CDT_CTX_LIST_RANK)
                        || (item_type =? AS_CDT_CTX_MAP_INDEX)
                        || (item_type =? AS_CDT_CTX_MAP_RANK) then
                  get_cdt_ctx_loop tl err static_pool
                    (cdt_ctx ++ [ctx_ival item_type int_val]) serializer_type
                else fail_destroy err unknown_ctx_operation
              else
                let '(err, static_pool, val) :=
                  pyobject_to_val err (Some value_temp) static_pool
                    serializer_type in
                if negb (is_ok err) then
                  let err :=
                    as_error_update err AEROSPIKE_ERR_PARAM failed_to_convert in
                  (Some (code err), err, static_pool, Live cdt_ctx)
                else if (item_type =? AS_CDT_CTX_LIST_VALUE)
                        || (item_type =? AS_CDT_CTX_MAP_KEY)
                        || (item_type =? AS_CDT_CTX_MAP_VALUE) then
                  get_cdt_ctx_loop tl err static_pool
                    (cdt_ctx ++ [ctx_pval item_type val]) serializer_type
                else
                  let err :=
                    as_error_update err AEROSPIKE_ERR_PARAM
                      unknown_ctx_operation in
                  (Some (code err), err, static_pool, Destroyed)
          end
      end
  end.

(** The returned status stands next to [err]: [get_cdt_ctx] does not reset
    [err] and ends with [return AEROSPIKE_OK]. *)
Definition get_cdt_ctx (err : as_error) (op_dict : PyObject)
    (ctx_in_use : bool) (static_pool : as_static_pool) (serializer_type : Z)
  : as_status * as_error * as_static_pool * owned as_cdt_ctx * bool :=
  match PyDict_GetItemString op_dict CTX_KEY with
  | None => (AEROSPIKE_OK, err, static_pool, Untouched, ctx_in_use)
  | Some py_ctx =>
      let ctx_in_use := true in
      if PyList_Check py_ctx then
        (* as_cdt_ctx_init(cdt_ctx, size) *)
        let '(returned, err, static_pool, cdt_ctx) :=
          get_cdt_ctx_loop (list_items py_ctx) err static_pool []
            serializer_type in
        match returned with
        | Some st => (st, err, static_pool, cdt_ctx, ctx_in_use)
        | None => (AEROSPIKE_OK, err, static_pool, cdt_ctx, ctx_in_use)
        end
      else
        let err := as_error_update err AEROSPIKE_ERR_PARAM failed_to_convert in
        (code err, err, static_pool, Destroyed, ctx_in_use)
  end.

End Conversions.

(* ====================================================================== *)
(** * Vocabulary of the properties

    The predicates, expected results and example inputs the statements
    below are written with.  They are gathered here, ahead of the lemmas,
    inside one section so that each takes the client and the serializer
    type it mentions as arguments. *)

Section Vocabulary.

Context {ext : Externals}.
Variable self : AerospikeClient.
Variable serializer_type : Z.

(** ** A concrete set of collaborators

    Used to run the conversions on concrete inputs: a serializer that keeps
    a bytearray as a blob and tags a pickled boolean with the Python type,
    the matching deserializer, a host that decodes ASCII, and a driver that
    accepts every non-empty namespace. *)

Definition AS_BYTES_PYTHON : Z := 9.

Definition demo_serialize (self : AerospikeClient) (serializer_type : Z)
    (o : option PyObject) (err : as_error) : as_error * as_bytes :=
  match o with
  | Some (PyByteArray b) => (err, mk_bytes AS_BYTES_BLOB b)
  | Some (PyBool b) => (err, mk_bytes AS_BYTES_PYTHON [if b then x01 else x00])
  | _ =>
      (as_error_update err AEROSPIKE_ERR_CLIENT "Unable to serialize",
       mk_bytes 0 [])
  end.

Definition demo_deserialize (self : AerospikeClient) (b : as_bytes)
    (err : as_error) : as_error * option PyObject :=
  if bytes_type b =? AS_BYTES_BLOB then (err, Some (PyByteArray (bytes_value b)))
  else if bytes_type b =? AS_BYTES_PYTHON then
    (err, Some (PyBool (list_eqb Byte.eqb (bytes_value b) [x01])))
  else
    (as_error_update err AEROSPIKE_ERR_CLIENT "Unable to deserialize bytes",
     None).

Definition is_ascii (s : string) : bool :=
  forallb (fun b => (Byte.to_N b <? 128)%N) (list_byte_of_string s).

Definition demo_deserialize_yields_object (client : AerospikeClient)
    (b : as_bytes) (err : as_error) :
  is_ok err = true ->
  is_ok (fst (demo_deserialize client b err)) = true ->
  snd (demo_deserialize client b err) <> None.
Proof.
  unfold demo_deserialize. intros _.
  destruct (bytes_type b =? AS_BYTES_BLOB);
    [|destruct (bytes_type b =? AS_BYTES_PYTHON)]; cbn [fst snd]; intros H;
    discriminate.
Defined.

Definition demo_geospatial_yields_object (err : as_error)
    (py_loads : option PyObject) :
  is_ok err = true ->
  is_ok (as_error_update err AEROSPIKE_ERR_CLIENT "no geo codec") = true ->
  @None PyObject <> None.
Proof. intros _ H. discriminate H. Defined.

Definition demo_externals : Externals := {|
  serialize_based_on_serializer_policy := demo_serialize;
  deserialize_based_on_as_bytes_type := demo_deserialize;
  AerospikeGeospatial_DoDumps := fun _ err =>
    (as_error_update err AEROSPIKE_ERR_CLIENT "no geo codec", None);
  AerospikeGeospatial_DoLoads := fun _ err =>
    (as_error_update err AEROSPIKE_ERR_CLIENT "no geo codec", None);
  AerospikeGeospatial_New := fun err _ =>
    (as_error_update err AEROSPIKE_ERR_CLIENT "no geo codec", None);
  utf8_decodable := is_ascii;
  as_key_init_accepts := fun ns _ => negb (String.eqb ns "");
  AS_MAX_STORE_SIZE := 4;
  AS_BIN_NAME_MAX_LEN := 14;
  AS_CDT_WILDCARD_NAME := "aerospike.CDTWildcard";
  AS_CDT_INFINITE_NAME := "aerospike.CDTInfinite";
  deserialize_yields_object := demo_deserialize_yields_object;
  AerospikeGeospatial_yields_object := demo_geospatial_yields_object
|}.

Definition demo_client : AerospikeClient := mk_client false true.
Definition err0 : as_error := mk_error AEROSPIKE_OK "".
Definition pool0 : as_static_pool := mk_pool 0.

(** ** Externalizing keys and values *)

Definition empty_text (s : option string) : Prop :=
  match s with Some t => strlen t = 0 | None => True end.

(** [externalizes self v py]: [val_to_pyobject] converts [v] to [py] and
    reports OK. *)
Definition externalizes {ext : Externals} (self : AerospikeClient)
    (v : as_val) (py : PyObject) : Prop :=
  exists e, val_to_pyobject self err0 v = (e, Some py) /\ is_ok e = true.

(** A discipline of the two collaborators of the read path that hand back
    an object, the deserializer and the geospatial constructor, stricter
    than their contract: called with an error that is OK, as the value
    converter calls them, they hand back an object when, and only when,
    they report OK. *)
Definition object_with_ok (r : as_error * option PyObject) : Prop :=
  is_ok (fst r) = true <-> snd r <> None.

Definition collaborators_pair_object_with_ok : Prop :=
  (forall bytes err,
     is_ok err = true ->
     object_with_ok (deserialize_based_on_as_bytes_type self bytes err))
  /\ (forall err o,
        is_ok err = true -> object_with_ok (AerospikeGeospatial_New err o)).

(** The pairs the flatten mode builds from the converted elements. *)
Fixpoint pair_up (l : list PyObject) : list PyObject :=
  match l with
  | k :: v :: tl => PyTuple [k; v] :: pair_up tl
  | _ => []
  end.

(** The pairs the operate-ordered mode builds from the bins. *)
Definition bin_pairs (b : list (string * as_val)) (pys : list PyObject)
  : list PyObject :=
  map (fun p => PyTuple [PyUnicode (c_str (fst (fst p))); snd p])
      (combine b pys).

(** The record of the specification's example: bins b=5, b=6, c=[3,4,5]. *)
Definition operate_example : as_record :=
  mk_record empty_key 0 0 3
    [("b", AS_INTEGER 5); ("b", AS_INTEGER 6);
     ("c", AS_LIST [AS_INTEGER 3; AS_INTEGER 4; AS_INTEGER 5])].

(** ** Records and their metadata *)

(** The record a turn of the bin loop leaves behind. *)
Definition step_rec (s : bin_step) : as_record :=
  match s with
  | Step_return _ _ rec => rec
  | Step_break _ _ rec => rec
  | Step_next _ _ rec _ => rec
  end.


(** What an entry that is an integer or not makes of the error. *)
Inductive entry_kind : Type := Entry_fits (z : Z) | Entry_rejected.

Definition classify (v : PyObject) : entry_kind :=
  match int_value v with
  | Some z => if in_long z then Entry_fits z else Entry_rejected
  | None => Entry_rejected
  end.

(** What a metadata entry makes of a field of [width] bits that holds
    [old]: an entry that is absent leaves the field as it is, an integer of
    64 bits is stored reduced to the width of the field, and anything else
    is rejected ([None]). *)
Definition stored_entry (width : Z) (v : option PyObject) (old : Z)
  : option Z :=
  match v with
  | None => Some old
  | Some o =>
      match classify o with
      | Entry_fits z => Some (z mod 2 ^ width)
      | Entry_rejected => None
      end
  end.

(** A time-to-live that does not fit 32 bits and a generation that does not
    fit 16 bits, both well inside the host's 64-bit integer. *)
Definition wide_meta : PyObject :=
  PyDict [(PyUnicode "ttl", PyLong (2 ^ 32 + 100));
          (PyUnicode "gen", PyLong (2 ^ 16 + 2))].

(** ** Context paths *)

(** [o] is a context step of kind [kind] with payload [payload]. *)
Definition is_step (o kind payload : PyObject) : Prop :=
  PyObject_GetAttrString o "id" = Some kind
  /\ PyObject_GetAttrString o "value" = Some payload.

Definition takes_value (op : Z) : bool :=
  (op =? AS_CDT_CTX_LIST_VALUE)
  || (op =? AS_CDT_CTX_MAP_KEY)
  || (op =? AS_CDT_CTX_MAP_VALUE).

Definition recognized (op : Z) : bool := requires_int op || takes_value op.

(** The status [get_cdt_ctx] returns. *)
Definition ctx_status
    (r : as_status * as_error * as_static_pool * owned as_cdt_ctx * bool)
  : as_status :=
  fst (fst (fst (fst r))).

(** A payload the host makes no C [long] of: an object that is neither an
    integer nor has an [__index__] method, or one whose integer does not
    fit 64 bits. *)
Definition no_long (payload : PyObject) : bool :=
  match int_value payload, nb_index payload with
  | Some z, _ => negb (in_long z)
  | None, Some z => negb (in_long z)
  | None, None => true
  end.

(** A step the loop cannot take. *)
Definition bad_step (o : PyObject) : Prop :=
  exists k payload,
    is_step o (PyLong k) payload
    /\ ((requires_int k = true /\ no_long payload = true)
        \/ recognized k = false).

(** [ctx_items_of items pool ctx pool']: the items [ctx] are what the steps
    [items] stand for, one item a step and in the order of the steps.  A
    step of a requires-integer kind stands for the C [long] the host makes
    of its payload, cut to an [int]; a step of a value kind stands for the
    value [pyobject_to_val] makes of its payload, converted in the pool the
    steps before it have left.  [pool'] is the pool after the last step. *)
Fixpoint ctx_items_of (items : list PyObject) (pool : as_static_pool)
    (ctx : as_cdt_ctx) (pool' : as_static_pool) {struct items} : Prop :=
  match items, ctx with
  | [], [] => pool' = pool
  | o :: tl, c :: rest =>
      exists id payload k,
        is_step o id payload /\ int_value id = Some k
        /\ match c with
           | ctx_ival type ival =>
               type = k /\ requires_int k = true
               /\ (exists z, PyLong_AsLong payload = (z, None)
                             /\ ival = to_signed 32 z)
               /\ ctx_items_of tl pool rest pool'
           | ctx_pval type pval =>
               type = k /\ takes_value k = true
               /\ exists e p v,
                    pyobject_to_val self err0 (Some payload) pool
                      serializer_type = (e, p, Some v)
                    /\ is_ok e = true /\ pval = Some v
                    /\ ctx_items_of tl p rest pool'
           end
  | _, _ => False
  end.

(** An object that is no integer and has an [__index__] method. *)
Definition index_object (z : Z) : PyObject :=
  PyInstance "Position" [("__index__", PyLong z)].

(** A context step as the helper module builds it. *)
Definition cdt_ctx_step (id : Z) (value : PyObject) : PyObject :=
  PyInstance "_cdt_ctx" [("id", PyLong id); ("value", value)].

(** ** Batch results *)

(** The 3-tuple of one batch outcome: the externalized record when the
    outcome holds one, and (key, None, None) when it does not. *)
Definition batch_entry_tuple (key : option as_key) (result : as_status)
    (rec : as_record) (t : PyObject) : Prop :=
  if as_status_eqb result AEROSPIKE_OK then
    exists e k m b,
      record_to_pyobject self err0 (Some rec) key
      = (e, Some (PyTuple [k; m; b]))
      /\ is_ok e = true /\ t = PyTuple [k; m; b]
  else
    exists e k,
      key_to_pyobject err0 key = (e, Some k)
      /\ is_ok e = true /\ t = PyTuple [k; Py_None; Py_None].

(** The conversion of one batch outcome fails with error [e]. *)
Definition batch_entry_fails (key : option as_key) (result : as_status)
    (rec : as_record) (e : as_error) : Prop :=
  is_ok e = false
  /\ if as_status_eqb result AEROSPIKE_OK then
       exists o, record_to_pyobject self err0 (Some rec) key = (e, o)
     else exists o, key_to_pyobject err0 key = (e, o).

(** A batch of two keys: a record with one bin for the first, no record for
    the second. *)
Definition batch_key (k : Z) : as_key :=
  mk_key (Some "test") (Some "demo") (Some (AS_KEY_INTEGER k)) no_digest.

Definition batch_hit : as_batch_read_record :=
  mk_batch_read_record (batch_key 1) AEROSPIKE_OK
    (mk_record (batch_key 1) 2 100 1 [("a", AS_INTEGER 1)]).

Definition batch_miss : as_batch_read_record :=
  mk_batch_read_record (batch_key 2) (AEROSPIKE_STATUS 2)
    (mk_record empty_key 0 0 0 []).

Definition py_batch_key (k : Z) : PyObject :=
  PyTuple [PyUnicode "test"; PyUnicode "demo"; PyLong k; Py_None].

(** A record whose only bin holds a map keyed by a list, which no Python
    dict can hold. *)
Definition batch_unhashable : as_batch_read_record :=
  mk_batch_read_record (batch_key 1) AEROSPIKE_OK
    (mk_record (batch_key 1) 2 100 1
       [("a", AS_MAP [(AS_LIST [AS_INTEGER 1], AS_INTEGER 1)])]).

(** ** Parsing a key *)

(** The four items a key input supplies, by its shape: the namespace, the
    set, the user key and the digest.  A tuple of three items supplies no
    digest, a tuple of four supplies all, a mapping supplies what it holds
    under the names ns, set, key and digest; an input of any other shape
    supplies nothing. *)
Definition key_items (input : option PyObject)
  : option (option PyObject * option PyObject * option PyObject
            * option PyObject) :=
  match input with
  | Some (PyTuple [a; b; c]) => Some (Some a, Some b, Some c, None)
  | Some (PyTuple [a; b; c; d]) => Some (Some a, Some b, Some c, Some d)
  | Some (PyDict m) =>
      Some (pydict_get m (PyUnicode "ns"), pydict_get m (PyUnicode "set"),
            pydict_get m (PyUnicode "key"), pydict_get m (PyUnicode "digest"))
  | _ => None
  end.

(** The conditions under which [pyobject_to_key] succeeds, read off the
    four items of the input. *)
Definition key_ns_ok (py_ns : option PyObject) : bool :=
  match py_ns with Some o => PyUnicode_Check o | None => false end.

Definition key_set_ok (py_set : option PyObject) : bool :=
  match given py_set with Some o => PyUnicode_Check o | None => true end.

Definition user_key_ok (k : PyObject) : bool :=
  PyUnicode_Check k
  || match int_value k with Some z => in_long z | None => false end
  || (PyByteArray_Check k && negb (to_unsigned 32 (PyByteArray_Size k) <=? 0))
  || PyBytes_Check k.

Definition digest_ok (d : PyObject) : bool :=
  PyByteArray_Check d
  && (to_unsigned 32 (PyByteArray_Size d) =? AS_DIGEST_VALUE_SIZE).

Definition locator_ok (py_key py_digest : option PyObject) : bool :=
  match given py_key with
  | Some k => user_key_ok k
  | None =>
      match given py_digest with
      | Some d => digest_ok d
      | None => false
      end
  end.

Definition key_ns_text (py_ns : option PyObject) : string :=
  match py_ns with Some (PyUnicode s) => s | _ => "" end.

Definition key_set_text (py_set : option PyObject) : option string :=
  match given py_set with Some (PyUnicode s) => Some s | _ => None end.

(** The digest-only key of the specification's scenario. *)
Definition digest20 : list byte := repeat x00 20.

(** Whether an item of the key input is supplied with a non-null value. *)
Definition is_given (p : option PyObject) : bool :=
  match given p with Some _ => true | None => false end.

Definition exactly_one_locator (py_key py_digest : option PyObject) : bool :=
  xorb (is_given py_key) (is_given py_digest).

(** ** Round trip *)

Definition no_nul (s : string) : bool := String.eqb (c_str s) s.

(** Keys pairwise different, each compared with the ones after it. *)
Fixpoint distinct_keys (ks : list PyObject) : bool :=
  match ks with
  | [] => true
  | k :: tl =>
      forallb (fun k' => negb (PyObject_eqb k k')) tl && distinct_keys tl
  end.

(** The keys a dict may have for it to come back: scalars that are stored
    as themselves. *)
Definition key_ok (k : PyObject) : bool :=
  match k with
  | PyLong z => in_long z
  | PyFloat d => negb (double_is_nan d)
  | PyUnicode s => no_nul s && utf8_decodable s
  | _ => false
  end.

(** The values the round trip is stated for: integers of 64 bits, doubles
    other than NaN (which equals nothing), text free of NUL that the host
    decodes, bytes shorter than 2^32 (the length is passed on as a
    [uint32_t]), bytearrays, and lists and dicts built from these, the keys
    of a dict being scalars other than bytes and pairwise different. *)
Fixpoint representable (o : PyObject) : bool :=
  match o with
  | PyLong z => in_long z
  | PyFloat d => negb (double_is_nan d)
  | PyUnicode s => no_nul s && utf8_decodable s
  | PyBytes b => Z.of_nat (List.length b) <? 2 ^ 32
  | PyByteArray _ => true
  | PyList l => forallb representable l
  | PyDict d =>
      forallb (fun kv => key_ok (fst kv) && representable (snd kv)) d
      && distinct_keys (map fst d)
  | _ => false
  end.

(** The number of pool wrappers the conversion of a value takes. *)
Fixpoint serialized_count (o : PyObject) : nat :=
  match o with
  | PyByteArray _ => 1
  | PyList l => list_sum (map serialized_count l)
  | PyDict d => list_sum (map (fun kv => serialized_count (snd kv)) d)
  | _ => 0
  end.

(** What the fallback serializer makes of a bytearray. *)
Definition serialized_bytearray (b : list byte) : as_bytes :=
  snd (serialize_based_on_serializer_policy self serializer_type
         (Some (PyByteArray b)) err0).

(** The value a representable object is stored as ... *)
Fixpoint val_of (o : PyObject) : as_val :=
  match o with
  | PyLong z => AS_INTEGER z
  | PyFloat d => AS_DOUBLE d
  | PyUnicode s => AS_STRING (Some (c_str s))
  | PyBytes b => AS_BYTES (mk_bytes AS_BYTES_BLOB b)
  | PyByteArray b => AS_BYTES (serialized_bytearray b)
  | PyList l => AS_LIST (map val_of l)
  | PyDict d => AS_MAP (map (fun kv => (val_of (fst kv), val_of (snd kv))) d)
  | _ => AS_NIL
  end.

(** ... and the object that value is read back as. *)
Fixpoint py_of (o : PyObject) : PyObject :=
  match o with
  | PyBytes b =>
      or_None (snd (deserialize_based_on_as_bytes_type self
                      (mk_bytes AS_BYTES_BLOB b) err0))
  | PyByteArray b =>
      or_None (snd (deserialize_based_on_as_bytes_type self
                      (serialized_bytearray b) err0))
  | PyList l => PyList (map py_of l)
  | PyDict d => PyDict (map (fun kv => (fst kv, py_of (snd kv))) d)
  | _ => o
  end.

(** What the round trip asks of the black-box serializer: a bytearray is
    serialized without error, and both a wrapped blob and a serialized
    bytearray are deserialized, without error, to an object with the same
    bytes. *)
Definition faithful_serializer : Prop :=
  (forall b,
     is_ok (fst (serialize_based_on_serializer_policy self serializer_type
                   (Some (PyByteArray b)) err0)) = true)
  /\ (forall b,
        exists e o,
          deserialize_based_on_as_bytes_type self
            (mk_bytes AS_BYTES_BLOB b) err0 = (e, Some o)
          /\ is_ok e = true /\ PyObject_eqb (PyBytes b) o = true)
  /\ (forall b,
        exists e o,
          deserialize_based_on_as_bytes_type self
            (serialized_bytearray b) err0 = (e, Some o)
          /\ is_ok e = true /\ PyObject_eqb (PyByteArray b) o = true).

(** The two comparator markers are classes of the binding, not the
    built-in [float]. *)
Definition markers_are_not_float : Prop :=
  String.eqb "float" AS_CDT_WILDCARD_NAME = false
  /\ String.eqb "float" AS_CDT_INFINITE_NAME = false.

Definition pool_after (pool : as_static_pool) (n : nat) : as_static_pool :=
  mk_pool (current_bytes_id pool + n).

Definition writes (x : PyObject) : Prop :=
  representable x = true ->
  forall err pool,
    (current_bytes_id pool + serialized_count x <= AS_MAX_STORE_SIZE)%nat ->
    exists e,
      pyobject_to_val_obj self err x pool serializer_type
      = (e, pool_after pool (serialized_count x), Some (val_of x))
      /\ is_ok e = true.

Definition reads (x : PyObject) : Prop :=
  representable x = true ->
  forall err,
    exists e,
      do_val_to_pyobject self err (val_of x) false = (e, Some (py_of x))
      /\ is_ok e = true.

(** A nested value with every kind of leaf. *)
Definition round_trip_example : PyObject :=
  PyDict [(PyUnicode "a", PyLong 1);
          (PyLong 7, PyList [PyFloat 3; PyBytes [x01]; PyByteArray [x02];
                             PyUnicode "x"])].

(** Text with a NUL character in it: "a", NUL, "b". *)
Definition nul_text : string := String "a" (String zero (String "b" "")).

End Vocabulary.

(* ====================================================================== *)
(** * The conversions of the administration and operation paths

    The remaining functions of [conversions.c]: users, roles, privileges
    and UDF files of the administration calls, and the helpers the
    operation calls use for bin names, offsets and strict-type bins.

    Several of them hand the result of a host call to [Py_DECREF],
    [strcpy] or [PyDict_Check] without testing it.  Where that result is
    [NULL], or a string is copied into a buffer it does not fit, the C
    program has no defined behaviour; such a run is [None] in the
    embedding, and a result [Some _] says the run is defined. *)

(** [PyList_GetItem]: [NULL] when the index is out of range or the object
    is not a list. *)
Definition PyList_GetItem (o : PyObject) (i : nat) : option PyObject :=
  match o with PyList l => nth_error l i | _ => None end.

(** [strcpy(dst, src)] into a buffer of [size] bytes: what the buffer
    holds afterwards; undefined when [src] is [NULL] or does not fit with
    its terminator. *)
Definition strcpy_into (size : Z) (src : option string) : option string :=
  match src with
  | Some s => if strlen s <? size then Some (c_str s) else None
  | None => None
  end.

(** [as_user]: [roles] is an array of [roles_size] names. *)
Record as_user : Type := mk_user {
  user_name : string;
  user_roles : list string
}.

(** [as_privilege]: [code] is an enumeration without negative constants,
    an unsigned integer of 32 bits in the build; [ns] and [set] are
    character buffers. *)
Record as_privilege : Type := mk_privilege {
  priv_code : Z;
  priv_ns : string;
  priv_set : string
}.

(** [as_role]: [privileges] is an array of [privileges_size] entries. *)
Record as_role : Type := mk_role {
  role_name : string;
  role_privileges : list as_privilege
}.

(** [as_udf_file]: [hash] is a buffer of [AS_UDF_FILE_HASH_SIZE + 1]
    bytes, [content] a counted buffer. *)
Record as_udf_file : Type := mk_udf_file {
  udf_name : string;
  udf_hash : list byte;
  udf_type : Z;
  udf_content_size : Z;             (* content.size, uint32_t *)
  udf_content_bytes : list byte     (* content.bytes *)
}.

(** What a slot of the caller's array of privilege pointers holds when
    [pyobject_to_as_privileges] returns. *)
Inductive privilege_slot : Type :=
| Slot_untouched                    (* the pointer the caller left there *)
| Slot_allocated                    (* [cf_malloc]'ed, no field written *)
| Slot_set (p : as_privilege).

Definition owned_map {A B : Type} (f : A -> B) (o : owned A) : owned B :=
  match o with
  | Untouched => Untouched
  | Live a => Live (f a)
  | Destroyed => Destroyed
  end.

Section Administration.

Context {ext : Externals}.
Variable self : AerospikeClient.

(** Constants of headers that are not among the sources: the sizes of the
    namespace and set buffers of a privilege, the number of hash bytes of
    a UDF file and the serializer the strict-type path asks for. *)
Variable AS_NAMESPACE_MAX_SIZE : Z.
Variable AS_SET_MAX_SIZE : Z.
Variable AS_UDF_FILE_HASH_SIZE : Z.
Variable SERIALIZER_PYTHON : Z.

(** The C conversions of a [double] to [int64_t] and back. *)
Variable double_to_int64 : double -> Z.
Variable int64_to_double : Z -> double.

(* ---------------------------------------------------------------------- *)
(** ** UDF files to Python *)

Definition as_udf_file_to_pyobject (err : as_error) (entry : as_udf_file)
  : option (as_error * PyObject) :=
  let err := as_error_reset err in
  match PyString_FromString (udf_name entry) with
  | None => None                                (* Py_DECREF(py_name) *)
  | Some py_name =>
      let py_file := PyDict_SetItemString [] "name" (Some py_name) in
      let py_hash :=
        PyByteArray_FromStringAndSize (udf_hash entry) AS_UDF_FILE_HASH_SIZE in
      let py_file := PyDict_SetItemString py_file "hash" (Some py_hash) in
      let py_type := PyInt_FromLong (udf_type entry) in
      let py_file := PyDict_SetItemString py_file "type" (Some py_type) in
      let py_content :=
        PyByteArray_FromStringAndSize (udf_content_bytes entry)
          (udf_content_size entry) in
      let py_file := PyDict_SetItemString py_file "content" (Some py_content) in
      Some (err, PyDict py_file)
  end.

Fixpoint as_udf_files_loop (entries : list as_udf_file) (err : as_error)
    (py_files : list PyObject) : option (as_error * list PyObject) :=
  match entries with
  | [] => Some (err, py_files)
  | entry :: tl =>
      match as_udf_file_to_pyobject err entry with
      | None => None
      | Some (err, py_file) =>
          if negb (is_ok err) then Some (err, py_files)       (* goto END *)
          else as_udf_files_loop tl err (py_files ++ [py_file])
      end
  end.

Definition as_udf_files_to_pyobject (err : as_error)
    (files : list as_udf_file) : option (as_error * PyObject) :=
  let err := as_error_reset err in
  match as_udf_files_loop files err [] with
  | Some (err, py_files) => Some (err, PyList py_files)
  | None => None
  end.

(* ---------------------------------------------------------------------- *)
(** ** Users and roles to Python *)

(** The loop of [strArray_to_pyobject]: [Py_BuildValue("s", role)] decodes
    the name, and its result goes to [Py_DECREF] untested. *)
Fixpoint strArray_loop (str_array_ptr : list string) (py_list : list PyObject)
  : option (list PyObject) :=
  match str_array_ptr with
  | [] => Some py_list
  | role :: tl =>
      match PyString_FromString role with
      | Some py_str => strArray_loop tl (py_list ++ [py_str])
      | None => None                            (* Py_DECREF(py_str) *)
      end
  end.

Definition strArray_to_pyobject (err : as_error) (str_array_ptr : list string)
  : option (as_error * PyObject) :=
  let err := as_error_reset err in
  match strArray_loop str_array_ptr [] with
  | Some py_list => Some (err, PyList py_list)
  | None => None
  end.

Fixpoint as_user_array_loop (users : list as_user) (err : as_error)
    (py_users : pydict) : option (as_error * pydict) :=
  match users with
  | [] => Some (err, py_users)
  | user :: tl =>
      let py_user := PyString_FromString (user_name user) in
      match strArray_to_pyobject err (user_roles user) with
      | None => None
      | Some (err, py_roles) =>
          if negb (is_ok err) then Some (err, py_users)         (* break *)
          else
            match py_user with
            | None => None                (* PyDict_SetItem(py_users, NULL, ...) *)
            | Some k =>
                as_user_array_loop tl err
                  (match PyDict_SetItem py_users k py_roles with
                   | Some d => d
                   | None => py_users
                   end)
            end
      end
  end.

Definition as_user_array_to_pyobject (err : as_error) (users : list as_user)
  : option (as_error * PyObject) :=
  let err := as_error_reset err in
  match as_user_array_loop users err [] with
  | Some (err, py_users) => Some (err, PyDict py_users)
  | None => None
  end.

(** The result is [NULL] in the second component when [*py_as_user] is not
    assigned. *)
Definition as_user_to_pyobject (err : as_error) (user : as_user)
  : option (as_error * option PyObject) :=
  let err := as_error_reset err in
  match strArray_to_pyobject err (user_roles user) with
  | None => None
  | Some (err, py_roles) =>
      if negb (is_ok err) then Some (err, None) else Some (err, Some py_roles)
  end.

(** The loop of [as_privilege_to_pyobject], which appends to the list it
    is handed. *)
Fixpoint as_privilege_loop (privileges : list as_privilege)
    (py_as_privilege : list PyObject) : option (list PyObject) :=
  match privileges with
  | [] => Some py_as_privilege
  | p :: tl =>
      let py_ns := PyString_FromString (priv_ns p) in
      let py_set := PyString_FromString (priv_set p) in
      let py_code := PyInt_FromLong (priv_code p) in
      match py_ns, py_set with
      | Some _, Some _ =>
          let py_privilege := PyDict_SetItemString [] "ns" py_ns in
          let py_privilege := PyDict_SetItemString py_privilege "set" py_set in
          let py_privilege :=
            PyDict_SetItemString py_privilege "code" (Some py_code) in
          as_privilege_loop tl (py_as_privilege ++ [PyDict py_privilege])
      | _, _ => None                    (* Py_DECREF(py_ns), Py_DECREF(py_set) *)
      end
  end.

Definition as_privilege_to_pyobject (err : as_error)
    (privileges : list as_privilege) (py_as_privilege : list PyObject)
  : option (as_error * PyObject) :=
  let err := as_error_reset err in
  match as_privilege_loop privileges py_as_privilege with
  | Some l => Some (err, PyList l)
  | None => None
  end.

Definition as_role_to_pyobject (err : as_error) (role : as_role)
  : option (as_error * option PyObject) :=
  let err := as_error_reset err in
  match as_privilege_to_pyobject err (role_privileges role) [] with
  | None => None
  | Some (err, py_privileges) =>
      if negb (is_ok err) then Some (err, None)
      else Some (err, Some py_privileges)
  end.

Fixpoint as_role_array_loop (roles : list as_role) (err : as_error)
    (py_roles : pydict) : option (as_error * pydict) :=
  match roles with
  | [] => Some (err, py_roles)
  | role :: tl =>
      let py_role := PyString_FromString (role_name role) in
      match as_privilege_to_pyobject err (role_privileges role) [] with
      | None => None
      | Some (err, py_privileges) =>
          if negb (is_ok err) then Some (err, py_roles)         (* break *)
          else
            match py_role with
            | None => None                (* PyDict_SetItem(py_roles, NULL, ...) *)
            | Some k =>
                as_role_array_loop tl err
                  (match PyDict_SetItem py_roles k py_privileges with
                   | Some d => d
                   | None => py_roles
                   end)
            end
      end
  end.

Definition as_role_array_to_pyobject (err : as_error) (roles : list as_role)
  : option (as_error * PyObject) :=
  let err := as_error_reset err in
  match as_role_array_loop roles err [] with
  | Some (err, py_roles) => Some (err, PyDict py_roles)
  | None => None
  end.

(* ---------------------------------------------------------------------- *)
(** ** Python to privileges and role names *)

(** The loop of [pyobject_to_as_privileges] over the [privileges_size]
    slots of the caller's array, [i] being the index of the first of
    [slots].  An item that is not a dict leaves its slot as it was. *)
Fixpoint pyobject_to_as_privileges_loop (slots : list privilege_slot)
    (i : nat) (py_privileges : PyObject) (err : as_error)
  : option (as_error * list privilege_slot) :=
  match slots with
  | [] => Some (err, [])
  | slot :: tl =>
      match PyList_GetItem py_privileges i with
      | None => None                              (* PyDict_Check(NULL) *)
      | Some py_val =>
          if PyDict_Check py_val then
            match PyDict_GetItemString py_val "code" with
            | None =>
                Some (as_error_update err AEROSPIKE_ERR_PARAM
                        "Code is a compulsory parameter in privileges dictionary",
                      Slot_allocated :: tl)                     (* break *)
            | Some py_code =>
                let code := to_unsigned 32 (fst (PyInt_AsLong py_code)) in
                let ns :=
                  match PyDict_GetItemString py_val "ns" with
                  | Some py_ns =>
                      strcpy_into AS_NAMESPACE_MAX_SIZE
                        (PyString_AsString (Some py_ns))
                  | None => Some ""                 (* strcpy(..., "") *)
                  end in
                let set :=
                  match PyDict_GetItemString py_val "set" with
                  | Some py_set =>
                      strcpy_into AS_SET_MAX_SIZE
                        (PyString_AsString (Some py_set))
                  | None => Some ""
                  end in
                match ns, set with
                | Some ns, Some set =>
                    match pyobject_to_as_privileges_loop tl (S i)
                            py_privileges err with
                    | Some (err, rest) =>
                        Some (err, Slot_set (mk_privilege code ns set) :: rest)
                    | None => None
                    end
                | _, _ => None
                end
            end
          else
            match pyobject_to_as_privileges_loop tl (S i) py_privileges err with
            | Some (err, rest) => Some (err, slot :: rest)
            | None => None
            end
      end
  end.

(** [privileges] is the caller's array, of [privileges_size] slots. *)
Definition pyobject_to_as_privileges (err : as_error)
    (py_privileges : PyObject) (privileges : list privilege_slot)
  : option (as_error * list privilege_slot) :=
  let err := as_error_reset err in
  pyobject_to_as_privileges_loop privileges 0 py_privileges err.

(** The loop of [pyobject_to_strArray].  The result lists the strings
    copied to [arr[0]], [arr[1]], ... in order; the buffers after them are
    left as they were.  [max_len] is the value of the [uint32_t]
    argument. *)
Fixpoint pyobject_to_strArray_loop (items : list PyObject) (err : as_error)
    (max_len : Z) : as_error * list string :=
  match items with
  | [] => (err, [])
  | py_val :: tl =>
      if PyString_Check py_val then
        let s :=
          match PyString_AsString (Some py_val) with
          | Some s => s
          | None => ""
          end in
        if strlen s <? max_len then
          let '(err, rest) := pyobject_to_strArray_loop tl err max_len in
          (err, c_str s :: rest)
        else
          (as_error_update err AEROSPIKE_ERR_CLIENT "String exceeds max length",
           [])
      else if PyUnicode_Check py_val then
        match PyBytes_AsString (PyUnicode_AsUTF8String py_val) with
        | None =>
            (as_error_update err AEROSPIKE_ERR_CLIENT
               "Unable to convert unicode string", [])
        | Some s =>
            if strlen s <? max_len then
              let '(err, rest) := pyobject_to_strArray_loop tl err max_len in
              (err, c_str s :: rest)
            else
              (as_error_update err AEROSPIKE_ERR_CLIENT
                 "String exceeds max length", [])
        end
      else
        (as_error_update err AEROSPIKE_ERR_CLIENT "Item is not a string", [])
  end.

Definition pyobject_to_strArray (err : as_error) (py_list : PyObject)
    (max_len : Z) : as_error * list string :=
  let err := as_error_reset err in
  if negb (PyList_Check py_list) then
    (as_error_update err AEROSPIKE_ERR_CLIENT "not a list", [])
  else pyobject_to_strArray_loop (list_items py_list) err max_len.

(* ---------------------------------------------------------------------- *)
(** ** Bin names, offsets and strings of the operation calls *)

(** [bin] is what [*bin] holds on entry; the last component tells whether
    the function leaves a Python exception set (its value is built by
    [error_to_pyobject] and [raise_exception] from [err]). *)
Definition bin_strict_type_checking (err : as_error)
    (py_bin : option PyObject) (bin : option string)
  : as_error * option string * bool :=
  let err := as_error_reset err in
  let '(err, bin) :=
    match py_bin with
    | None => (err, bin)
    | Some py_bin =>
        let name : as_error + option string :=
          if PyString_Check py_bin then inr (PyString_AsString (Some py_bin))
          else if PyByteArray_Check py_bin then
            inr (Some (string_of_list_byte (PyByteArray_AsString py_bin)))
          else
            inl (as_error_update err AEROSPIKE_ERR_PARAM
                   "Bin name should be of type string") in
        match name with
        | inl e => (e, bin)                                (* goto CLEANUP *)
        | inr name =>
            if strict_types self then
              if AS_BIN_NAME_MAX_LEN
                 <? strlen (match name with Some n => n | None => "" end)
              then
                (as_error_update err AEROSPIKE_ERR_BIN_NAME
                   "A bin name should not exceed 14 characters limit", name)
              else (err, name)
            else (err, name)
        end
    end in
  (err, bin, negb (is_ok err)).

(** [long_val] is what [*long_val] holds on entry.  The function does not
    reset [err]. *)
Definition pyobject_to_index (err : as_error) (py_value : PyObject)
    (long_val : Z) : as_error * Z :=
  if PyInt_Check py_value then (err, fst (PyInt_AsLong py_value))
  else if PyLong_Check py_value then
    let r := PyLong_AsLong py_value in
    if (fst r =? -1) && PyErr_Occurred (snd r) && strict_types self then
      if PyErr_ExceptionMatches (snd r) PyExc_OverflowError then
        (as_error_update err AEROSPIKE_ERR_PARAM
           "integer value exceeds sys.maxsize", fst r)
      else (err, fst r)
    else (err, fst r)
  else
    (as_error_update err AEROSPIKE_ERR_PARAM
       "Offset should be of int or long type", long_val).

(** The returned status stands next to [err], which is not reset;
    [pyuni_r] is what [*pyuni_r] holds on entry.  The results are the
    status, [err], [*pyuni_r] and [*c_str_ptr]. *)
Definition string_and_pyuni_from_pystring (py_string : PyObject)
    (pyuni_r : option PyObject) (err : as_error)
  : as_status * as_error * option PyObject * option string :=
  if PyString_Check py_string then
    (AEROSPIKE_OK, err, pyuni_r, PyString_AsString (Some py_string))
  else if PyUnicode_Check py_string then
    match PyUnicode_AsUTF8String py_string with
    | None =>
        let err :=
          as_error_update err AEROSPIKE_ERR_PARAM "Invalid unicode value" in
        (code err, err, pyuni_r, None)
    | Some intermediate_uni =>
        (AEROSPIKE_OK, err, Some intermediate_uni,
         PyBytes_AsString (Some intermediate_uni))
    end
  else
    let err :=
      as_error_update err AEROSPIKE_ERR_PARAM "String value required" in
    (code err, err, pyuni_r, None).

(** [initialize_bin_for_strictypes] fills the bin of an operation: the
    results are [err], the pool, what [binop->bin.valuep] refers to and the
    name copied into [binop->bin.name], a buffer of
    [AS_BIN_NAME_MAX_LEN + 1] bytes.  The function neither resets nor
    tests [err]: the bytes of the serializer are stored whether or not it
    reports an error, and a wrapper the pool could not hand out is used
    uninitialised. *)
Definition initialize_bin_for_strictypes (err : as_error)
    (py_value : PyObject) (bin : string) (static_pool : as_static_pool)
  : option (as_error * as_static_pool * owned as_val * string) :=
  let finish (err : as_error) (static_pool : as_static_pool)
             (valuep : owned as_val) :=
    match strcpy_into (AS_BIN_NAME_MAX_LEN + 1) (Some bin) with
    | Some name => Some (err, static_pool, valuep, name)
    | None => None
    end in
  let serialized (err : as_error) (py_obj : option PyObject)
                 (wrap : as_bytes -> as_val) :=
    let '(handed_out, static_pool, err) := GET_BYTES_POOL static_pool err in
    if handed_out then
      let '(err, bytes) :=
        serialize_based_on_serializer_policy self SERIALIZER_PYTHON py_obj
          err in
      finish err static_pool (Live (wrap bytes))
    else None in
  if PyInt_Check py_value then
    (* int val = PyInt_AsLong(py_value) *)
    let val := to_signed 32 (fst (PyInt_AsLong py_value)) in
    finish err static_pool (Live (AS_INTEGER val))
  else if PyLong_Check py_value then
    let val := fst (PyLong_AsLong py_value) in
    finish err static_pool (Live (AS_INTEGER val))
  else if PyString_Check py_value then
    let val := PyString_AsString (Some py_value) in
    finish err static_pool (Live (AS_STRING (option_map c_str val)))
  else if PyUnicode_Check py_value then
    let val := PyBytes_AsString (PyUnicode_AsUTF8String py_value) in
    finish err static_pool (Live (AS_STRING (option_map c_str val)))
  else if PyFloat_Check py_value then
    (* int64_t val = PyFloat_AsDouble(py_value) *)
    let val := double_to_int64 (PyFloat_AsDouble py_value) in
    finish err static_pool (Live (AS_DOUBLE (int64_to_double val)))
  else if PyList_Check py_value then
    let '(err, static_pool, aslist) :=
      pyobject_to_list self err py_value None static_pool SERIALIZER_PYTHON in
    finish err static_pool (owned_map AS_LIST aslist)
  else if PyDict_Check py_value then
    let '(err, static_pool, map) :=
      pyobject_to_map self err py_value None static_pool SERIALIZER_PYTHON in
    finish err static_pool (owned_map AS_MAP map)
  else if String.eqb (tp_name py_value) GEOSPATIAL_NAME then
    let py_data := PyObject_GetAttrString py_value "geo_data" in
    let '(err, py_dumps) := AerospikeGeospatial_DoDumps py_data err in
    let geo_value := PyString_AsString py_dumps in
    if has_geo self then
      finish err static_pool (Live (AS_GEOJSON (option_map c_str geo_value)))
    else serialized err py_data AS_BYTES
  else if String.eqb (tp_name py_value) NULL_NAME then
    finish err static_pool (Live AS_NIL)
  else if PyByteArray_Check py_value then
    serialized err (Some py_value)
      (fun bytes =>
         AS_BYTES (as_bytes_new_wrap (bytes_value bytes)
                     (Z.of_nat (List.length (bytes_value bytes)))))
  else serialized err (Some py_value) AS_BYTES.

End Administration.

(* ====================================================================== *)
(** * Vocabulary of the further properties *)

Section FurtherVocabulary.

Context {ext : Externals}.
Variable self : AerospikeClient.

(** ** Role names *)

(** An item [pyobject_to_strArray] copies: text that fits a buffer of
    [max_len] bytes with its terminator. *)
Definition fits_buffer (max_len : Z) (o : PyObject) : bool :=
  match o with PyUnicode s => strlen s <? max_len | _ => false end.

(** The C string copied for it. *)
Definition text_of (o : PyObject) : string :=
  match o with PyUnicode s => c_str s | _ => "" end.

(** Text that comes back from a C buffer as it went in: free of NUL,
    decoded by the host, and short enough for the buffer. *)
Definition plain_text (max_len : Z) (o : PyObject) : bool :=
  match o with
  | PyUnicode s => no_nul s && utf8_decodable s && (strlen s <? max_len)
  | _ => false
  end.

(** ** Bin names *)

(** The bin names [bin_strict_type_checking] lets through. *)
Definition bin_name_accepted (py_bin : option PyObject) : bool :=
  match py_bin with
  | None => true
  | Some (PyUnicode s) =>
      negb (strict_types self && (AS_BIN_NAME_MAX_LEN <? strlen s))
  | Some (PyByteArray b) =>
      negb (strict_types self
            && (AS_BIN_NAME_MAX_LEN <? strlen (string_of_list_byte b)))
  | Some _ => false
  end.

(** ** Administration *)

(** The host decodes the names the converters use as dict keys. *)
Definition decodes_names (names : list string) : Prop :=
  Forall (fun s => utf8_decodable s = true) names.

(** The last value a list of bindings gives a name, if any. *)
Fixpoint last_value {A : Type} (k : string) (l : list (string * A))
  : option A :=
  match l with
  | [] => None
  | (k', v) :: tl =>
      match last_value k tl with
      | Some x => Some x
      | None => if String.eqb k' k then Some v else None
      end
  end.

(** The dict a UDF file is shown as. *)
Definition udf_dict (AS_UDF_FILE_HASH_SIZE : Z) (f : as_udf_file) : PyObject :=
  PyDict
    [(PyUnicode "name", PyUnicode (c_str (udf_name f)));
     (PyUnicode "hash",
      PyByteArray (firstn (Z.to_nat AS_UDF_FILE_HASH_SIZE) (udf_hash f)));
     (PyUnicode "type", PyLong (udf_type f));
     (PyUnicode "content",
      PyByteArray (firstn (Z.to_nat (udf_content_size f))
                     (udf_content_bytes f)))].

(** The list the roles of a user are shown as, and the users whose name
    and role names the host decodes. *)
Definition roles_list (roles : list string) : PyObject :=
  PyList (map (fun r => PyUnicode (c_str r)) roles).

Definition user_ok (u : as_user) : bool :=
  utf8_decodable (c_str (user_name u))
  && forallb (fun r => utf8_decodable (c_str r)) (user_roles u).

Definition user_binding (u : as_user) : string * PyObject :=
  (c_str (user_name u), roles_list (user_roles u)).

(** The dict a privilege is shown as, and the privileges whose namespace
    and set the host decodes. *)
Definition privilege_dict (p : as_privilege) : PyObject :=
  PyDict [(PyUnicode "ns", PyUnicode (c_str (priv_ns p)));
          (PyUnicode "set", PyUnicode (c_str (priv_set p)));
          (PyUnicode "code", PyLong (priv_code p))].

Definition privilege_ok (p : as_privilege) : bool :=
  utf8_decodable (c_str (priv_ns p)) && utf8_decodable (c_str (priv_set p)).

Definition privileges_list (ps : list as_privilege) : PyObject :=
  PyList (map privilege_dict ps).

Definition role_ok (r : as_role) : bool :=
  utf8_decodable (c_str (role_name r))
  && forallb privilege_ok (role_privileges r).

Definition role_binding (r : as_role) : string * PyObject :=
  (c_str (role_name r), privileges_list (role_privileges r)).

(** A privilege as the C array holds it after a round trip: the strings
    of its buffers, the code as it is. *)
Definition stored_privilege (p : as_privilege) : as_privilege :=
  mk_privilege (priv_code p) (c_str (priv_ns p)) (c_str (priv_set p)).

(** A privilege whose strings fit the buffers of the given sizes and
    whose code is a value of the enumeration's type. *)
Definition privilege_fits (ns_size set_size : Z) (p : as_privilege) : bool :=
  (strlen (priv_ns p) <? ns_size) && (strlen (priv_set p) <? set_size)
  && (0 <=? priv_code p) && (priv_code p <? 2 ^ 32).

(** Some users, roles and files to run the converters on. *)
Definition demo_users : list as_user :=
  [mk_user "ann" ["read"]; mk_user "bob" ["read"; "write"];
   mk_user "ann" ["sys-admin"]].

Definition demo_privileges : list as_privilege :=
  [mk_privilege 10 "test" "demo"; mk_privilege 11 "" ""].

Definition demo_roles : list as_role :=
  [mk_role "reader" [mk_privilege 10 "test" "demo"];
   mk_role "writer" demo_privileges].

Definition demo_udf_file : as_udf_file :=
  mk_udf_file "sum.lua" [x61; x62; x63] 0 2 [x2d; x2d; x0a].

(** ** The two value converters of the write path *)

(** The objects [pyobject_to_astype_write] and [pyobject_to_val] treat
    alike: all but [None], bytes, bytearrays and the integers that do not
    fit a C [long]. *)
Definition same_dispatch (o : PyObject) : bool :=
  match o with
  | Py_None | PyBytes _ | PyByteArray _ => false
  | PyLong z => in_long z
  | _ => true
  end.

(** ** Keys there and back *)

(** A namespace or set that comes back as it went in: text free of NUL
    that the host decodes and that is not empty. *)
Definition key_text (s : string) : bool :=
  no_nul s && utf8_decodable s && (0 <? strlen s).

(** The user keys that come back as they went in: integers of 64 bits,
    text free of NUL that the host decodes, and bytearrays that are not
    empty. *)
Definition plain_user_key (k : PyObject) : bool :=
  match k with
  | PyLong z => in_long z
  | PyUnicode s => no_nul s && utf8_decodable s
  | PyByteArray b =>
      (0 <? Z.of_nat (List.length b)) && (Z.of_nat (List.length b) <? 2 ^ 32)
  | _ => false
  end.

(** ** Lists and maps to Python *)

(** [val_to_pyobject] fails on [v] with the error [e]. *)
Definition fails_to_externalize (v : as_val) (e : as_error) : Prop :=
  is_ok e = false /\ exists o, val_to_pyobject self err0 v = (e, o).

(** ** Records there and back *)

Definition bin_name_of (k : PyObject) : string :=
  match k with PyUnicode s => s | _ => "" end.

(** The bins the round trip of a record is stated for: the name is text
    free of NUL that the host decodes and the driver has room for, and
    the value is an integer of 64 bits, a double, such text, or a list or
    dict of representable values. *)
Definition plain_bin (kv : PyObject * PyObject) : bool :=
  match fst kv with
  | PyUnicode name =>
      no_nul name && utf8_decodable name
      && (strlen name <=? AS_BIN_NAME_MAX_LEN)
  | _ => false
  end
  && representable (snd kv)
  && match snd kv with
     | PyBytes _ | PyByteArray _ => false
     | _ => true
     end.

(** The bins such a record is stored as. *)
Definition bins_of (serializer_type : Z) (d : pydict)
  : list (string * as_val) :=
  map (fun kv => (bin_name_of (fst kv), val_of self serializer_type (snd kv)))
      d.

(** A record of the sample application: a counter, a name and a nested
    value. *)
Definition record_example : pydict :=
  [(PyUnicode "count", PyLong 3);
   (PyUnicode "name", PyUnicode "ann");
   (PyUnicode "tags", PyList [PyUnicode "x"; PyByteArray [x01]])].

(** A bin named by text that holds an integer of 64 bits. *)
Definition integer_bin (kv : PyObject * PyObject) : bool :=
  PyUnicode_Check (fst kv)
  && match snd kv with PyLong z => in_long z | _ => false end.

(** A dict of 2^16 bins: bin [i] holds the integer [i]. *)
Definition wide_record : pydict :=
  map (fun i => (PyUnicode (NilZero.string_of_uint (Nat.to_uint i)),
                 PyLong (Z.of_nat i)))
      (seq 0 (2 ^ 16)).

(** An entry of a map whose key and value convert, the key to an object
    with a hash. *)
Definition entry_externalizes (kv : as_val * as_val)
    (pkv : PyObject * PyObject) : Prop :=
  externalizes self (fst kv) (fst pkv)
  /\ externalizes self (snd kv) (snd pkv)
  /\ hashable (fst pkv) = true.

(** Keys of the built-in types, which the host compares by value: [None],
    booleans, integers, floats, text, bytes, and tuples of these.  (An
    instance of another class is compared as its class defines, by
    identity unless it says otherwise.) *)
Fixpoint builtin_key (o : PyObject) : bool :=
  match o with
  | Py_None | PyBool _ | PyLong _ | PyFloat _ | PyUnicode _ | PyBytes _ => true
  | PyTuple l => forallb builtin_key l
  | _ => false
  end.

(** The dict that pairs make when they are set one after the other: a pair
    whose key equals the key of an earlier pair replaces the value of that
    one. *)
Definition pydict_of (pairs : list (PyObject * PyObject)) : pydict :=
  fold_left (fun d kv => pydict_set d (fst kv) (snd kv)) pairs [].

(** The double 1.0. *)
Definition double_one : double := 0x3FF0000000000000.

End FurtherVocabulary.

(* ====================================================================== *)
(** * Basic facts *)

Lemma is_ok_code (e : as_error) : is_ok e = true <-> code e = AEROSPIKE_OK.
Proof.
  unfold is_ok. destruct (code e); split; intro H; try reflexivity;
    discriminate H.
Qed.

Lemma is_ok_reset (e : as_error) : is_ok (as_error_reset e) = true.
Proof. reflexivity. Qed.

Lemma c_str_idem (s : string) : c_str (c_str s) = c_str s.
Proof.
  induction s as [|c s IH]; simpl; [reflexivity|].
  destruct (Ascii.eqb c zero) eqn:E; simpl; [reflexivity|].
  rewrite E, IH. reflexivity.
Qed.

Lemma strlen_nonneg (s : string) : 0 <= strlen s.
Proof. unfold strlen. lia. Qed.

Lemma strlen_zero_c_str (s : string) : strlen s = 0 -> c_str s = "".
Proof.
  unfold strlen. destruct (c_str s); simpl; [reflexivity | lia].
Qed.

Section Facts.

Context {ext : Externals}.
Variable self : AerospikeClient.

(** Every entry point of the read path resets [err], so its result does not
    depend on the error it is handed. *)
Lemma do_val_to_pyobject_reset (e1 e2 : as_error) (v : as_val) (c : bool) :
  do_val_to_pyobject self e1 v c = do_val_to_pyobject self e2 v c.
Proof. destruct v; reflexivity. Qed.

Lemma val_to_pyobject_reset (e1 e2 : as_error) (v : as_val) :
  val_to_pyobject self e1 v = val_to_pyobject self e2 v.
Proof. apply do_val_to_pyobject_reset. Qed.

Lemma key_to_pyobject_reset (e1 e2 : as_error) (k : option as_key) :
  key_to_pyobject e1 k = key_to_pyobject e2 k.
Proof. reflexivity. Qed.

Lemma record_to_pyobject_reset (e1 e2 : as_error) r k :
  record_to_pyobject self e1 r k = record_to_pyobject self e2 r k.
Proof. reflexivity. Qed.

(** A key that is present always externalizes, to a 4-tuple. *)
Lemma key_to_pyobject_some (err : as_error) (k : as_key) :
  exists a b c d,
    key_to_pyobject err (Some k) = (err0, Some (PyTuple [a; b; c; d])).
Proof. unfold key_to_pyobject. do 4 eexists. reflexivity. Qed.

End Facts.

(* ====================================================================== *)
(** * Keys *)

Section KeyFacts.

Context {ext : Externals}.

(** A successful [pyobject_to_key] returns what one of the driver's
    initialisers built from the namespace and set it was given. *)
Lemma as_key_init_fields nsv setv v d k :
  as_key_init nsv setv v d = Some k ->
  ns k = Some (c_str nsv)
  /\ set k = Some (match setv with Some s => c_str s | None => "" end)
  /\ valuep k = v /\ digest k = d.
Proof.
  unfold as_key_init.
  destruct (as_key_init_accepts _ _); [|discriminate].
  intros H; injection H as <-. simpl. repeat split.
Qed.

Ltac key_branch :=
  match goal with
  | H : (_, _) = (_, _) |- _ => injection H as ? ?; subst
  | H : context [match ?x with _ => _ end] |- _ =>
      destruct x eqn:?; simpl in H; try discriminate H
  | H : context [if ?b then _ else _] |- _ =>
      destruct b eqn:?; simpl in H; try discriminate H
  end.

Lemma pyobject_to_key_tuple3_set (err : as_error) (py_ns py_key : PyObject)
    (s : string) (e : as_error) (k : as_key) :
  pyobject_to_key err (Some (PyTuple [py_ns; PyUnicode s; py_key]))
  = (e, Some k) ->
  set k = Some (c_str s).
Proof.
  intros H.
  unfold pyobject_to_key, key_parts in H. simpl in H.
  destruct (negb (PyString_Check py_ns)); [discriminate H|].
  simpl in H.
  unfold as_key_init_strp, as_key_init_int64, as_key_init_raw,
    as_key_init_digest in H.
  repeat key_branch;
    match goal with
    | H : as_key_init _ _ _ _ = Some _ |- _ =>
        apply as_key_init_fields in H; destruct H as (_ & H & _); exact H
    end.
Qed.

End KeyFacts.

(** C10.  When a key is externalized to its 4-tuple, a namespace or set
    whose stored string is empty (or absent) is emitted as [None]; a string
    is emitted for these two slots only when the stored string has a length
    greater than zero; so a key parsed from a tuple whose set is the empty
    string externalizes with [None] in the set slot. *)
Theorem key_to_pyobject_empty_text_is_None :
  forall (ext : Externals) (err : as_error) (k : as_key),
    (empty_text (ns k) ->
     exists b c d,
       key_to_pyobject err (Some k) = (err0, Some (PyTuple [Py_None; b; c; d])))
    /\ (empty_text (set k) ->
        exists a c d,
          key_to_pyobject err (Some k)
          = (err0, Some (PyTuple [a; Py_None; c; d])))
    /\ (forall a b c d t,
          key_to_pyobject err (Some k) = (err0, Some (PyTuple [a; b; c; d])) ->
          (a = PyUnicode t -> exists s, ns k = Some s /\ 0 < strlen s)
          /\ (b = PyUnicode t -> exists s, set k = Some s /\ 0 < strlen s))
    /\ (forall py_ns py_key e,
          pyobject_to_key err (Some (PyTuple [py_ns; PyUnicode ""; py_key]))
          = (e, Some k) ->
          exists a c d,
            key_to_pyobject err (Some k)
            = (err0, Some (PyTuple [a; Py_None; c; d]))).
Proof.
  intros ext err k.
  assert (Hset : empty_text (set k) ->
                 exists a c d,
                   key_to_pyobject err (Some k)
                   = (err0, Some (PyTuple [a; Py_None; c; d]))).
  { intros H. unfold key_to_pyobject, empty_text in *.
    destruct (set k) as [s|]; [rewrite H|]; simpl; do 3 eexists; reflexivity. }
  split; [|split; [exact Hset|split]].
  - intros H. unfold key_to_pyobject, empty_text in *.
    destruct (ns k) as [s|]; [rewrite H|]; simpl; do 3 eexists; reflexivity.
  - intros a b c d t H. unfold key_to_pyobject in H.
    injection H as Ha Hb _ _. split; intros ->.
    + destruct (ns k) as [s|]; [|discriminate Ha].
      destruct (0 <? strlen s) eqn:E; [|discriminate Ha].
      exists s. split; [reflexivity|]. apply Z.ltb_lt. exact E.
    + destruct (set k) as [s|]; [|discriminate Hb].
      destruct (0 <? strlen s) eqn:E; [|discriminate Hb].
      exists s. split; [reflexivity|]. apply Z.ltb_lt. exact E.
  - intros py_ns py_key e H. apply Hset.
    apply pyobject_to_key_tuple3_set in H. rewrite H. reflexivity.
Qed.

Lemma key_to_pyobject_empty_text_is_None_witness :
  exists a c d,
    key_to_pyobject (ext := demo_externals) err0
      (Some (mk_key (Some "test") (Some "") (Some (AS_KEY_INTEGER 1)) no_digest))
    = (err0, Some (PyTuple [a; Py_None; c; d])).
Proof.
  apply (proj1 (proj2 (@key_to_pyobject_empty_text_is_None demo_externals err0
           (mk_key (Some "test") (Some "") (Some (AS_KEY_INTEGER 1)) no_digest)))).
  reflexivity.
Defined.

(* ====================================================================== *)
(** * Values to Python: order and shape *)

Lemma pair_up_length (n : nat) :
  forall l, List.length l = (2 * n)%nat -> List.length (pair_up l) = n.
Proof.
  induction n as [|n IH]; intros l H.
  - destruct l; [reflexivity | discriminate H].
  - destruct l as [|k [|v tl]]; simpl in H; try lia.
    simpl. f_equal. apply IH. lia.
Qed.

Lemma pair_up_nth (i : nat) :
  forall l k v,
    nth_error l (2 * i) = Some k ->
    nth_error l (2 * i + 1) = Some v ->
    nth_error (pair_up l) i = Some (PyTuple [k; v]).
Proof.
  induction i as [|i IH]; intros l k v Hk Hv.
  - destruct l as [|a [|b tl]]; simpl in *; try discriminate.
    injection Hk as ->. injection Hv as ->. reflexivity.
  - destruct l as [|a [|b tl]]; simpl in Hk, Hv; try discriminate.
    + replace (i + S (i + 0))%nat with (S (2 * i)) in Hk by lia.
      simpl in Hk. destruct (i + (i + 0))%nat; discriminate Hk.
    + replace (i + S (i + 0))%nat with (S (2 * i)) in Hk by lia.
      replace (i + S (i + 0) + 1)%nat with (S (2 * i + 1)) in Hv by lia.
      simpl in Hk, Hv. simpl. apply IH; assumption.
Qed.

Lemma odd_length_rem (n : nat) :
  negb (Z.rem (Z.of_nat (S (2 * n))) 2 =? 0) = true.
Proof.
  rewrite Z.rem_mod_nonneg by lia.
  replace (Z.of_nat (S (2 * n))) with (1 + Z.of_nat n * 2) by lia.
  rewrite Z_mod_plus_full. reflexivity.
Qed.

Lemma even_length_rem (n : nat) :
  negb (Z.rem (Z.of_nat (2 * n)) 2 =? 0) = false.
Proof.
  rewrite Z.rem_mod_nonneg by lia.
  replace (Z.of_nat (2 * n)) with (0 + Z.of_nat n * 2) by lia.
  rewrite Z_mod_plus_full. reflexivity.
Qed.

Section ReadShape.

Context {ext : Externals}.
Variable self : AerospikeClient.

Lemma tuple_list_loop_ok (n : nat) :
  forall l pys err,
    List.length l = (2 * n)%nat ->
    Forall2 (externalizes self) l pys ->
    is_ok err = true ->
    exists e,
      tuple_list_loop (do_val_to_pyobject self) l err = (e, pair_up pys)
      /\ is_ok e = true.
Proof.
  induction n as [|n IH]; intros l pys err Hlen Hall Hok.
  - destruct l; [|discriminate Hlen]. inversion Hall; subst.
    exists err. split; [reflexivity | exact Hok].
  - destruct l as [|k [|v tl]]; simpl in Hlen; try lia.
    inversion Hall as [|? pk ? pys1 Hk Hall1]; subst.
    inversion Hall1 as [|? pv ? pys2 Hv Hall2]; subst.
    destruct Hk as (ek & Hk & Hek). destruct Hv as (ev & Hv & Hev).
    destruct (IH tl pys2 ev) as (e & He & Heok); [lia | assumption | assumption |].
    exists e. split; [|exact Heok].
    unfold val_to_pyobject in Hk, Hv. simpl.
    rewrite (do_val_to_pyobject_reset self err err0), Hk, Hek. simpl.
    rewrite (do_val_to_pyobject_reset self ek err0), Hv, Hev. simpl.
    rewrite He. reflexivity.
Qed.

Lemma operate_bins_loop_ok :
  forall b pys err,
    Forall2 (fun bin py => externalizes self (snd bin) py
                           /\ utf8_decodable (c_str (fst bin)) = true) b pys ->
    is_ok err = true ->
    exists e,
      operate_bins_loop self b err = (e, bin_pairs b pys) /\ is_ok e = true.
Proof.
  induction b as [|[name val] tl IH]; intros pys err Hall Hok.
  - inversion Hall; subst. exists err. split; [reflexivity | exact Hok].
  - inversion Hall as [|? py ? pys1 [(e1 & Hv & He1) Hname] Hall1]; subst.
    simpl in Hv, Hname.
    destruct (IH pys1 e1 Hall1 He1) as (e & He & Heok).
    exists e. split; [|exact Heok].
    simpl. rewrite (val_to_pyobject_reset self err err0), Hv, He1. simpl.
    unfold Py_BuildValue_sO, PyString_FromString. rewrite Hname, He.
    reflexivity.
Qed.

End ReadShape.

(** C6.  The operate-ordered externalization of a record whose bin values
    convert produces one (bin-name, value) pair per bin occurrence, in the
    order of the bins and with duplicate names kept. *)
Theorem operate_bins_to_pyobject_keeps_every_bin :
  forall (ext : Externals) (self : AerospikeClient) (err : as_error)
         (rec : as_record) (pys : list PyObject),
    Forall2 (fun bin py => externalizes self (snd bin) py
                           /\ utf8_decodable (c_str (fst bin)) = true)
            (bins rec) pys ->
    exists e,
      operate_bins_to_pyobject self err (Some rec)
      = (e, Live (PyList (bin_pairs (bins rec) pys)))
      /\ is_ok e = true
      /\ List.length (bin_pairs (bins rec) pys) = List.length (bins rec).
Proof.
  intros ext self err rec pys Hall.
  destruct (operate_bins_loop_ok (as_error_reset err) Hall (is_ok_reset err))
    as (e & He & Heok).
  exists e. split; [|split; [exact Heok|]].
  - unfold operate_bins_to_pyobject. rewrite He, Heok. reflexivity.
  - unfold bin_pairs. rewrite length_map, length_combine.
    apply Forall2_length in Hall. lia.
Qed.

Lemma operate_bins_to_pyobject_keeps_every_bin_witness :
  exists e,
    operate_bins_to_pyobject (ext := demo_externals) demo_client err0
      (Some operate_example)
    = (e, Live (PyList
                  [PyTuple [PyUnicode "b"; PyLong 5];
                   PyTuple [PyUnicode "b"; PyLong 6];
                   PyTuple [PyUnicode "c";
                            PyList [PyLong 3; PyLong 4; PyLong 5]]]))
    /\ is_ok e = true
    /\ List.length
         (bin_pairs (bins operate_example)
            [PyLong 5; PyLong 6; PyList [PyLong 3; PyLong 4; PyLong 5]])
       = List.length (bins operate_example).
Proof.
  apply (@operate_bins_to_pyobject_keeps_every_bin demo_externals
           demo_client err0 operate_example
           [PyLong 5; PyLong 6; PyList [PyLong 3; PyLong 4; PyLong 5]]).
  repeat constructor; try (exists err0; split; reflexivity); reflexivity.
Defined.

(** C5.  In flatten mode a list of odd length is rejected with ClientError
    (before the result list is created, so the caller's pointer is not
    touched), and a list of even length 2n whose elements convert becomes
    exactly n 2-tuples, the i-th one holding elements 2i and 2i+1. *)
Theorem flatten_mode_parity :
  forall (ext : Externals) (self : AerospikeClient) (err : as_error)
         (l : list as_val) (n : nat),
    (List.length l = S (2 * n) ->
     as_list_of_map_to_py_tuple_list self err l
     = (mk_error AEROSPIKE_ERR_CLIENT "Invalid key list of key/value pairs",
        Untouched)
     /\ val_to_pyobject_cnvt_list_to_map self err (AS_LIST l)
        = (mk_error AEROSPIKE_ERR_CLIENT "Invalid key list of key/value pairs",
           None))
    /\ (forall pys,
          List.length l = (2 * n)%nat ->
          Forall2 (externalizes self) l pys ->
          exists e,
            as_list_of_map_to_py_tuple_list self (as_error_reset err) l
            = (e, Live (PyList (pair_up pys)))
            /\ val_to_pyobject_cnvt_list_to_map self err (AS_LIST l)
               = (e, Some (PyList (pair_up pys)))
            /\ is_ok e = true
            /\ List.length (pair_up pys) = n
            /\ forall i k v,
                 nth_error pys (2 * i) = Some k ->
                 nth_error pys (2 * i + 1) = Some v ->
                 nth_error (pair_up pys) i = Some (PyTuple [k; v])).
Proof.
  intros ext self err l n. split.
  - intros Hlen.
    assert (H : forall e,
               as_list_of_map_to_py_tuple_list self e l
               = (mk_error AEROSPIKE_ERR_CLIENT
                    "Invalid key list of key/value pairs", Untouched)).
    { intros e. unfold as_list_of_map_to_py_tuple_list,
        as_list_of_map_to_py_tuple_list_.
      rewrite Hlen, odd_length_rem. reflexivity. }
    split; [apply H|].
    unfold val_to_pyobject_cnvt_list_to_map. simpl.
    fold (as_list_of_map_to_py_tuple_list self (as_error_reset err) l).
    rewrite H. reflexivity.
  - intros pys Hlen Hall.
    destruct (@tuple_list_loop_ok ext self n l pys (as_error_reset err)
                Hlen Hall (is_ok_reset err)) as (e & He & Heok).
    assert (H : as_list_of_map_to_py_tuple_list self (as_error_reset err) l
                = (e, Live (PyList (pair_up pys)))).
    { unfold as_list_of_map_to_py_tuple_list,
        as_list_of_map_to_py_tuple_list_.
      rewrite Hlen, even_length_rem, He, Heok. reflexivity. }
    exists e. split; [exact H|]. split; [|split; [exact Heok|split]].
    + unfold val_to_pyobject_cnvt_list_to_map. simpl.
      fold (as_list_of_map_to_py_tuple_list self (as_error_reset err) l).
      rewrite H, Heok. reflexivity.
    + apply pair_up_length. apply Forall2_length in Hall. lia.
    + intros i k v. apply pair_up_nth.
Qed.

Lemma flatten_mode_parity_witness :
  (exists e,
     as_list_of_map_to_py_tuple_list (ext := demo_externals) demo_client
       (as_error_reset err0)
       [AS_STRING (Some "k1"); AS_INTEGER 1; AS_STRING (Some "k2"); AS_INTEGER 2]
     = (e, Live (PyList [PyTuple [PyUnicode "k1"; PyLong 1];
                         PyTuple [PyUnicode "k2"; PyLong 2]])))
  /\ val_to_pyobject_cnvt_list_to_map (ext := demo_externals) demo_client err0
       (AS_LIST [AS_INTEGER 1; AS_INTEGER 2; AS_INTEGER 3])
     = (mk_error AEROSPIKE_ERR_CLIENT "Invalid key list of key/value pairs",
        None).
Proof.
  split.
  - destruct (proj2 (@flatten_mode_parity demo_externals demo_client err0
                       [AS_STRING (Some "k1"); AS_INTEGER 1;
                        AS_STRING (Some "k2"); AS_INTEGER 2] 2)
                [PyUnicode "k1"; PyLong 1; PyUnicode "k2"; PyLong 2])
      as (e & H & _).
    + reflexivity.
    + repeat constructor; exists err0; split; reflexivity.
    + exists e. exact H.
  - apply (proj1 (@flatten_mode_parity demo_externals demo_client err0
                    [AS_INTEGER 1; AS_INTEGER 2; AS_INTEGER 3] 1)).
    reflexivity.
Defined.

(* ====================================================================== *)
(** * Booleans on the write path *)

Section BoolFacts.

Context {ext : Externals}.
Variable self : AerospikeClient.

Lemma serialize_in_pool_room err pool ty o e bytes :
  (current_bytes_id pool < AS_MAX_STORE_SIZE)%nat ->
  is_ok err = true ->
  serialize_based_on_serializer_policy self ty o err = (e, bytes) ->
  is_ok e = true ->
  serialize_in_pool self err pool ty o
  = (e, mk_pool (S (current_bytes_id pool)), Ser_bytes bytes).
Proof.
  intros Hroom Hok Hser He. unfold serialize_in_pool, GET_BYTES_POOL.
  apply Nat.ltb_lt in Hroom. rewrite Hroom, Hok, Hser, He. reflexivity.
Qed.

Lemma bin_name_of_unicode (name : string) :
  PyBytes_AsString (PyUnicode_AsUTF8String (PyUnicode name)) = Some name.
Proof. simpl. rewrite string_of_list_byte_of_string. reflexivity. Qed.


(** Whatever the value, one turn of the bin loop changes the record, if at
    all, by one call of [as_record_set] under the name of the key, and for
    a boolean what is set is bytes. *)
Lemma record_bin_step_sets err pool rec ret_val ty key value :
  step_rec (record_bin_step self err pool rec ret_val ty key value) = rec
  \/ exists s v,
       key = PyUnicode s
       /\ step_rec (record_bin_step self err pool rec ret_val ty key value)
          = fst (as_record_set rec s v)
       /\ (PyBool_Check value = true -> exists bytes, v = AS_BYTES bytes).
Proof.
  assert (Hset : forall e p s v,
            step_rec (let '(rec', rv) := as_record_set rec s v in
                      if strict_types self && negb rv
                      then Step_return
                             (as_error_update e AEROSPIKE_ERR_BIN_NAME
                                "Unable to set key-value pair") p rec'
                      else Step_next e p rec' rv)
            = fst (as_record_set rec s v)).
  { intros e p s v. destruct (as_record_set rec s v) as [rec' rv].
    destruct (strict_types self && negb rv); reflexivity. }
  assert (Hfin : forall e p,
            step_rec (if strict_types self && negb ret_val
                      then Step_return
                             (as_error_update e AEROSPIKE_ERR_BIN_NAME
                                "Unable to set key-value pair") p rec
                      else Step_next e p rec ret_val) = rec).
  { intros e p. destruct (strict_types self && negb ret_val); reflexivity. }
  destruct key as [| | | |s| | | | | |];
    try (left; reflexivity).
  unfold record_bin_step. cbn [PyUnicode_Check]. rewrite bin_name_of_unicode.
  destruct (strict_types self && (AS_BIN_NAME_MAX_LEN <? strlen s));
    [left; reflexivity|].
  destruct (PyBool_Check value) eqn:Hb.
  { destruct (serialize_in_pool self err pool ty (Some value))
      as [[e p] [bytes| |]].
    - right. exists s, (AS_BYTES bytes).
      split; [reflexivity|]. split; [apply Hset|]. intros _. eauto.
    - left; reflexivity.
    - left. apply Hfin. }
  destruct (PyInt_Check value).
  { destruct (overflowed (PyInt_AsLong value)); [left; reflexivity|].
    right. eexists s, _. split; [reflexivity|].
    split; [apply Hset|discriminate]. }
  destruct (PyLong_Check value).
  { destruct (overflowed (PyLong_AsLongLong value)); [left; reflexivity|].
    right. eexists s, _. split; [reflexivity|].
    split; [apply Hset|discriminate]. }
  destruct (String.eqb (tp_name value) GEOSPATIAL_NAME).
  { destruct (AerospikeGeospatial_DoDumps _ _) as [e py_dumps].
    destruct (has_geo self).
    - right. eexists s, _. split; [reflexivity|].
      split; [apply Hset|discriminate].
    - destruct (serialize_in_pool self e pool ty _) as [[e1 p1] [bytes| |]].
      + right. eexists s, _. split; [reflexivity|].
        split; [apply Hset|discriminate].
      + left; reflexivity.
      + left. apply Hfin. }
  destruct (PyUnicode_Check value).
  { destruct (PyBytes_AsString (PyUnicode_AsUTF8String value));
      [|left; reflexivity].
    right. eexists s, _. split; [reflexivity|].
    split; [apply Hset|discriminate]. }
  destruct (PyString_Check value).
  { right. eexists s, _. split; [reflexivity|].
    split; [apply Hset|discriminate]. }
  destruct (PyByteArray_Check value).
  { destruct (serialize_in_pool self err pool ty (Some value))
      as [[e p] [bytes| |]].
    - right. eexists s, _. split; [reflexivity|].
      split; [apply Hset|discriminate].
    - left; reflexivity.
    - left. apply Hfin. }
  destruct (PyList_Check value).
  { destruct (pyobject_to_list self err value None pool ty) as [[e p] [|l|]];
      destruct (negb (is_ok e)); try (left; reflexivity).
    right. eexists s, _. split; [reflexivity|].
    split; [apply Hset|discriminate]. }
  destruct (PyDict_Check value).
  { destruct (pyobject_to_map self err value None pool ty) as [[e p] [|m|]];
      destruct (negb (is_ok e)); try (left; reflexivity).
    right. eexists s, _. split; [reflexivity|].
    split; [apply Hset|discriminate]. }
  destruct (String.eqb (tp_name value) NULL_NAME).
  { right. eexists s, _. split; [reflexivity|].
    split; [apply Hset|discriminate]. }
  destruct (PyFloat_Check value).
  { right. eexists s, _. split; [reflexivity|].
    split; [apply Hset|discriminate]. }
  destruct (serialize_in_pool self err pool ty (Some value))
    as [[e p] [bytes| |]].
  - right. eexists s, _. split; [reflexivity|].
    split; [apply Hset|discriminate].
  - left; reflexivity.
  - left. apply Hfin.
Qed.




Lemma record_meta_bins err rec py_meta :
  bins (snd (record_meta err rec py_meta)) = bins rec.
Proof.
  unfold record_meta.
  destruct py_meta as [m|]; [|reflexivity].
  destruct m; try reflexivity.
  cbn [PyDict_Check negb].
  destruct (PyDict_GetItemString (PyDict d) "ttl") as [vt|];
    destruct (PyDict_GetItemString (PyDict d) "gen") as [vg|].
  - destruct (record_meta_field 32 _ err None vt) as [[e1 pd] [t|]];
      destruct (record_meta_field 16 _ e1 pd vg) as [[e2 pd2] [g|]];
      reflexivity.
  - destruct (record_meta_field 32 _ err None vt) as [[e1 pd] [t|]];
      reflexivity.
  - destruct (record_meta_field 16 _ err None vg) as [[e2 pd2] [g|]];
      reflexivity.
  - reflexivity.
Qed.

End BoolFacts.



(* ====================================================================== *)
(** * Metadata *)

Lemma int_value_check (v : PyObject) (z : Z) :
  int_value v = Some z -> PyLong_Check v = true.
Proof. destruct v; simpl; congruence. Qed.

Lemma check_int_value (v : PyObject) :
  PyLong_Check v = true -> exists z, int_value v = Some z.
Proof. destruct v; simpl; try discriminate; eauto. Qed.

Lemma PyLong_AsLong_in (v : PyObject) (z : Z) :
  int_value v = Some z -> in_long z = true -> PyLong_AsLong v = (z, None).
Proof. intros Hv Hz. unfold PyLong_AsLong. rewrite Hv, Hz. reflexivity. Qed.

Lemma PyLong_AsLong_out (v : PyObject) (z : Z) :
  int_value v = Some z -> in_long z = false ->
  PyLong_AsLong v = (-1, Some PyExc_OverflowError).
Proof. intros Hv Hz. unfold PyLong_AsLong. rewrite Hv, Hz. reflexivity. Qed.

Lemma to_unsigned_minus_one_32 : to_unsigned 32 (-1) = 4294967295.
Proof. reflexivity. Qed.

Lemma to_unsigned_minus_one_16 : to_unsigned 16 (-1) = 65535.
Proof. reflexivity. Qed.

(** The metadata block of [pyobject_to_record], entry by entry. *)
Lemma record_meta_field_in width msg err v z :
  int_value v = Some z -> in_long z = true ->
  record_meta_field width msg err None v
  = (err, None, Some (to_unsigned width z)).
Proof.
  intros Hv Hz. unfold record_meta_field, PyInt_Check, PyInt_AsLong.
  rewrite (int_value_check _ Hv), (PyLong_AsLong_in _ Hv Hz). simpl.
  rewrite andb_false_r. reflexivity.
Qed.

Lemma record_meta_field_out width msg err pending v z :
  int_value v = Some z -> in_long z = false ->
  record_meta_field width msg err pending v
  = (mk_error AEROSPIKE_ERR_PARAM "integer value exceeds sys.maxsize",
     Some PyExc_OverflowError, Some (to_unsigned width (-1))).
Proof.
  intros Hv Hz. unfold record_meta_field, PyInt_Check, PyInt_AsLong.
  rewrite (int_value_check _ Hv), (PyLong_AsLong_out _ Hv Hz). simpl.
  rewrite Z.eqb_refl. reflexivity.
Qed.

Lemma record_meta_field_not_int width msg err pending v :
  PyLong_Check v = false ->
  record_meta_field width msg err pending v
  = (mk_error AEROSPIKE_ERR_PARAM msg, pending, None).
Proof.
  intros Hv. unfold record_meta_field, PyInt_Check. rewrite Hv. reflexivity.
Qed.

(** An entry never clears an error raised before it. *)
Lemma record_meta_field_keeps_param width msg err pending v :
  code err = AEROSPIKE_ERR_PARAM ->
  code (fst (fst (record_meta_field width msg err pending v)))
  = AEROSPIKE_ERR_PARAM.
Proof.
  intros He. unfold record_meta_field.
  destruct (PyInt_Check v); [|destruct (PyLong_Check v)]; simpl;
    try reflexivity;
    match goal with
    | |- context [if ?c then _ else _] => destruct c; simpl; auto
    end.
Qed.

Lemma check_meta_field_in width m1 m2 err v z :
  int_value v = Some z -> in_long z = true ->
  check_meta_field width m1 m2 err v = inr (to_unsigned width z).
Proof.
  intros Hv Hz. unfold check_meta_field, PyInt_Check, PyInt_AsLong.
  rewrite (int_value_check _ Hv), (PyLong_AsLong_in _ Hv Hz). simpl.
  rewrite andb_false_r. reflexivity.
Qed.

Lemma check_meta_field_out width m1 m2 err v z :
  int_value v = Some z -> in_long z = false ->
  check_meta_field width m1 m2 err v = inl (mk_error AEROSPIKE_ERR_PARAM m2).
Proof.
  intros Hv Hz. unfold check_meta_field, PyInt_Check, PyInt_AsLong.
  rewrite (int_value_check _ Hv), (PyLong_AsLong_out _ Hv Hz). simpl.
  rewrite Z.eqb_refl. reflexivity.
Qed.

Lemma check_meta_field_not_int width m1 m2 err v :
  PyLong_Check v = false ->
  check_meta_field width m1 m2 err v = inl (mk_error AEROSPIKE_ERR_PARAM m1).
Proof.
  intros Hv. unfold check_meta_field, PyInt_Check. rewrite Hv. reflexivity.
Qed.

Lemma classify_fits v z :
  classify v = Entry_fits z -> int_value v = Some z /\ in_long z = true.
Proof.
  unfold classify. destruct (int_value v) as [z'|]; [|discriminate].
  destruct (in_long z') eqn:E; [|discriminate].
  intros H; injection H as <-. split; [reflexivity | exact E].
Qed.

Lemma record_meta_field_rejected width msg err pending v :
  classify v = Entry_rejected ->
  code (fst (fst (record_meta_field width msg err pending v)))
  = AEROSPIKE_ERR_PARAM.
Proof.
  unfold classify.
  destruct (int_value v) as [z|] eqn:Hv.
  - destruct (in_long z) eqn:Hz; [discriminate|]. intros _.
    rewrite (@record_meta_field_out width msg err pending v z Hv Hz).
    reflexivity.
  - intros _. rewrite record_meta_field_not_int; [reflexivity|].
    destruct v; simpl in *; congruence.
Qed.

Lemma check_meta_field_rejected width m1 m2 err v :
  classify v = Entry_rejected ->
  exists m, check_meta_field width m1 m2 err v
            = inl (mk_error AEROSPIKE_ERR_PARAM m).
Proof.
  unfold classify. destruct (int_value v) as [z|] eqn:Hv.
  - destruct (in_long z) eqn:Hz; [discriminate|]. intros _.
    exists m2. apply (@check_meta_field_out width m1 m2 err v z Hv Hz).
  - intros _. exists m1. apply check_meta_field_not_int.
    destruct v; simpl in *; congruence.
Qed.

(** The metadata block of [pyobject_to_record] on a dict, entry by entry:
    each entry that is present is stored or rejected on its own, and an
    entry that is absent leaves its field alone. *)
Lemma record_meta_entries (e : as_error) (r : as_record) (m : pydict) :
  is_ok e = true ->
  match stored_entry 32 (PyDict_GetItemString (PyDict m) "ttl") (ttl r),
        stored_entry 16 (PyDict_GetItemString (PyDict m) "gen") (gen r) with
  | Some t, Some g =>
      record_meta e r (Some (PyDict m)) = (e, set_gen (set_ttl r t) g)
  | _, _ => code (fst (record_meta e r (Some (PyDict m)))) = AEROSPIKE_ERR_PARAM
  end.
Proof.
  intros Hok. unfold record_meta, stored_entry. cbn [PyDict_Check negb].
  destruct (PyDict_GetItemString (PyDict m) "ttl") as [vt|];
    destruct (PyDict_GetItemString (PyDict m) "gen") as [vg|].
  - destruct (classify vt) as [t|] eqn:Ct.
    + destruct (classify_fits _ Ct) as [Hvt Hzt].
      rewrite (@record_meta_field_in 32 _ e vt t Hvt Hzt).
      destruct (classify vg) as [g|] eqn:Cg.
      * destruct (classify_fits _ Cg) as [Hvg Hzg].
        rewrite (@record_meta_field_in 16 _ e vg g Hvg Hzg). reflexivity.
      * pose proof (@record_meta_field_rejected 16
                      "Generation should be an int or long" e None vg Cg) as Hr.
        destruct (record_meta_field 16 _ e None vg) as [[e1 pend] v1].
        exact Hr.
    + pose proof (@record_meta_field_rejected 32
                    "TTL should be an int or long" e None vt Ct) as Hr.
      destruct (record_meta_field 32 _ e None vt) as [[e1 pend] v1].
      simpl in Hr.
      pose proof (@record_meta_field_keeps_param 16
                    "Generation should be an int or long" e1 pend vg Hr) as Hk.
      destruct (record_meta_field 16 _ e1 pend vg) as [[e2 pend2] v2].
      destruct (classify vg); exact Hk.
  - destruct (classify vt) as [t|] eqn:Ct.
    + destruct (classify_fits _ Ct) as [Hvt Hzt].
      rewrite (@record_meta_field_in 32 _ e vt t Hvt Hzt).
      destruct r; reflexivity.
    + pose proof (@record_meta_field_rejected 32
                    "TTL should be an int or long" e None vt Ct) as Hr.
      destruct (record_meta_field 32 _ e None vt) as [[e1 pend] v1].
      exact Hr.
  - destruct (classify vg) as [g|] eqn:Cg.
    + destruct (classify_fits _ Cg) as [Hvg Hzg].
      rewrite (@record_meta_field_in 16 _ e vg g Hvg Hzg).
      destruct r; reflexivity.
    + pose proof (@record_meta_field_rejected 16
                    "Generation should be an int or long" e None vg Cg) as Hr.
      destruct (record_meta_field 16 _ e None vg) as [[e1 pend] v1].
      exact Hr.
  - destruct r; reflexivity.
Qed.

(** The same for [check_for_meta]. *)
Lemma check_for_meta_entries (err : as_error) (ops : as_operations)
    (m : pydict) :
  match stored_entry 32 (PyDict_GetItemString (PyDict m) "ttl") (ops_ttl ops),
        stored_entry 16 (PyDict_GetItemString (PyDict m) "gen") (ops_gen ops)
  with
  | Some t, Some g =>
      check_for_meta (Some (PyDict m)) ops err = (err0, mk_operations t g)
  | _, _ =>
      code (fst (check_for_meta (Some (PyDict m)) ops err)) = AEROSPIKE_ERR_PARAM
  end.
Proof.
  unfold check_for_meta, stored_entry. cbn [PyDict_Check].
  destruct (PyDict_GetItemString (PyDict m) "ttl") as [vt|];
    destruct (PyDict_GetItemString (PyDict m) "gen") as [vg|].
  - destruct (classify vt) as [t|] eqn:Ct.
    + destruct (classify_fits _ Ct) as [Hvt Hzt].
      rewrite (@check_meta_field_in 32 _ _ (as_error_reset err) vt t Hvt Hzt).
      destruct (classify vg) as [g|] eqn:Cg.
      * destruct (classify_fits _ Cg) as [Hvg Hzg].
        rewrite (@check_meta_field_in 16 _ _ (as_error_reset err) vg g Hvg Hzg).
        reflexivity.
      * destruct (@check_meta_field_rejected 16
                    "Generation should be an int or long"
                    "integer value for gen exceeds sys.maxsize"
                    (as_error_reset err) vg Cg) as (msg & ->).
        reflexivity.
    + destruct (@check_meta_field_rejected 32
                  "Ttl should be an int or long"
                  "integer value for ttl exceeds sys.maxsize"
                  (as_error_reset err) vt Ct) as (msg & ->).
      destruct (classify vg); reflexivity.
  - destruct (classify vt) as [t|] eqn:Ct.
    + destruct (classify_fits _ Ct) as [Hvt Hzt].
      rewrite (@check_meta_field_in 32 _ _ (as_error_reset err) vt t Hvt Hzt).
      reflexivity.
    + destruct (@check_meta_field_rejected 32
                  "Ttl should be an int or long"
                  "integer value for ttl exceeds sys.maxsize"
                  (as_error_reset err) vt Ct) as (msg & ->).
      reflexivity.
  - destruct (classify vg) as [g|] eqn:Cg.
    + destruct (classify_fits _ Cg) as [Hvg Hzg].
      rewrite (@check_meta_field_in 16 _ _ (as_error_reset err) vg g Hvg Hzg).
      reflexivity.
    + destruct (@check_meta_field_rejected 16
                  "Generation should be an int or long"
                  "integer value for gen exceeds sys.maxsize"
                  (as_error_reset err) vg Cg) as (msg & ->).
      reflexivity.
  - destruct ops; reflexivity.
Qed.

(** C9 (as amended).  Metadata handed to the record write converter (and to
    [check_for_meta]) must be a mapping, else InvalidParam.  Each of the two
    entries [ttl] and [gen] is optional and is dealt with on its own: an
    entry that is absent leaves its field as it was; one that is not an
    integer is an InvalidParam error; an integer entry is not range checked
    against its field: when it fits the host's signed 64-bit integer it is
    stored reduced modulo 2^32 ([ttl]) or 2^16 ([gen]) without any error,
    and only an integer outside the signed 64-bit range is flagged as
    InvalidParam.  The record facts are stated for a dict of bins [d] that
    the bin loop has gone through without error, leaving the record [r]. *)
Theorem metadata_entries_are_truncated :
  forall (ext : Externals) (self : AerospikeClient) (err : as_error),
    (forall py_meta ops,
       PyDict_Check py_meta = false -> py_meta <> Py_None ->
       check_for_meta (Some py_meta) ops err
       = (mk_error AEROSPIKE_ERR_PARAM
            "Metadata should be of type dictionary", ops))
    /\ (forall m ops,
          match stored_entry 32 (PyDict_GetItemString (PyDict m) "ttl")
                  (ops_ttl ops),
                stored_entry 16 (PyDict_GetItemString (PyDict m) "gen")
                  (ops_gen ops)
          with
          | Some t, Some g =>
              check_for_meta (Some (PyDict m)) ops err
              = (err0, mk_operations t g)
          | _, _ =>
              code (fst (check_for_meta (Some (PyDict m)) ops err))
              = AEROSPIKE_ERR_PARAM
          end)
    /\ (forall (d : pydict) (ty : Z) (pool : as_static_pool)
               (e : as_error) (p : as_static_pool) (r : as_record),
          record_bins_loop self d (as_error_reset err) pool
            (as_record_init (PyDict_Size (PyDict d))) false ty
          = (false, e, p, r) ->
          is_ok e = true ->
          (forall py_meta,
             PyDict_Check py_meta = false -> py_meta <> Py_None ->
             pyobject_to_record self err (Some (PyDict d)) (Some py_meta)
               ty pool
             = (mk_error AEROSPIKE_ERR_PARAM "meta must be a dictionary", p,
                Destroyed))
          /\ (forall m,
                match stored_entry 32
                        (PyDict_GetItemString (PyDict m) "ttl") (ttl r),
                      stored_entry 16
                        (PyDict_GetItemString (PyDict m) "gen") (gen r)
                with
                | Some t, Some g =>
                    pyobject_to_record self err (Some (PyDict d))
                      (Some (PyDict m)) ty pool
                    = (e, p, Live (set_gen (set_ttl r t) g))
                | _, _ =>
                    exists e',
                      pyobject_to_record self err (Some (PyDict d))
                        (Some (PyDict m)) ty pool = (e', p, Destroyed)
                      /\ code e' = AEROSPIKE_ERR_PARAM
                end)).
Proof.
  intros ext self err. split; [|split].
  - intros py_meta ops Hnd Hnn. unfold check_for_meta. rewrite Hnd.
    destruct py_meta; try congruence; reflexivity.
  - intros m ops. apply check_for_meta_entries.
  - intros d ty pool e p r Hloop Hok. split.
    + intros py_meta Hnd Hnn.
      unfold pyobject_to_record. cbn [PyDict_Check dict_items].
      rewrite Hloop. unfold record_meta. rewrite Hnd.
      destruct py_meta; try congruence; reflexivity.
    + intros m.
      assert (Hrec : pyobject_to_record self err (Some (PyDict d))
                       (Some (PyDict m)) ty pool
                     = let '(e1, r1) := record_meta e r (Some (PyDict m)) in
                       if negb (is_ok e1) then (e1, p, Destroyed)
                       else (e1, p, Live r1)).
      { unfold pyobject_to_record. cbn [PyDict_Check dict_items].
        rewrite Hloop. reflexivity. }
      rewrite Hrec.
      pose proof (@record_meta_entries e r m Hok) as Hm.
      assert (Hbad : code (fst (record_meta e r (Some (PyDict m))))
                     = AEROSPIKE_ERR_PARAM ->
                     exists e',
                       (let '(e1, r1) := record_meta e r (Some (PyDict m)) in
                        if negb (is_ok e1) then (e1, p, Destroyed)
                        else (e1, p, Live r1)) = (e', p, Destroyed)
                       /\ code e' = AEROSPIKE_ERR_PARAM).
      { intros Hc. destruct (record_meta e r (Some (PyDict m))) as [e1 r1].
        cbn [fst] in Hc.
        assert (Hn : is_ok e1 = false) by (unfold is_ok; rewrite Hc; reflexivity).
        rewrite Hn. exists e1. split; [reflexivity|exact Hc]. }
      destruct (stored_entry 32 _ (ttl r)) as [t|];
        [destruct (stored_entry 16 _ (gen r)) as [g|]|].
      * rewrite Hm, Hok. reflexivity.
      * exact (Hbad Hm).
      * exact (Hbad Hm).
Qed.

Lemma metadata_entries_are_truncated_witness :
  pyobject_to_record (ext := demo_externals) demo_client err0
    (Some (PyDict [(PyUnicode "a", PyLong 1)])) (Some wide_meta) 0 pool0
  = (err0, pool0,
     Live (set_gen (set_ttl (mk_record empty_key 0 0 1 [("a", AS_INTEGER 1)])
                      ((2 ^ 32 + 100) mod 2 ^ 32))
             ((2 ^ 16 + 2) mod 2 ^ 16)))
  /\ pyobject_to_record (ext := demo_externals) demo_client err0
       (Some (PyDict [(PyUnicode "a", PyLong 1)]))
       (Some (PyDict [(PyUnicode "ttl", PyLong 100)])) 0 pool0
     = (err0, pool0,
        Live (set_gen (set_ttl (mk_record empty_key 0 0 1 [("a", AS_INTEGER 1)])
                         (100 mod 2 ^ 32))
                0))
  /\ check_for_meta (Some (PyDict [(PyUnicode "gen", PyLong 7)]))
       (mk_operations 5 6) err0
     = (err0, mk_operations 5 (7 mod 2 ^ 16)).
Proof.
  pose proof (@metadata_entries_are_truncated demo_externals demo_client err0)
    as (_ & Hops & Hrec).
  destruct (Hrec [(PyUnicode "a", PyLong 1)] 0 pool0 err0 pool0
              (mk_record empty_key 0 0 1 [("a", AS_INTEGER 1)])
              eq_refl eq_refl) as (_ & Hm).
  split; [|split].
  - exact (Hm [(PyUnicode "ttl", PyLong (2 ^ 32 + 100));
               (PyUnicode "gen", PyLong (2 ^ 16 + 2))]).
  - exact (Hm [(PyUnicode "ttl", PyLong 100)]).
  - exact (Hops [(PyUnicode "gen", PyLong 7)] (mk_operations 5 6)).
Defined.

(** C9, as stated, fails: a [ttl] of 2^32 + 100 and a [gen] of 2^16 + 2 are
    outside the unsigned 32-bit and 16-bit ranges, yet both converters
    report OK and store 100 and 2. *)
Lemma metadata_out_of_range_is_not_flagged :
  ~ (0 <= 2 ^ 32 + 100 < 2 ^ 32) /\ ~ (0 <= 2 ^ 16 + 2 < 2 ^ 16)
  /\ (exists r,
        pyobject_to_record (ext := demo_externals) demo_client err0
          (Some (PyDict [])) (Some wide_meta) 0 pool0
        = (mk_error AEROSPIKE_OK "", pool0, Live r)
        /\ ttl r = 100 /\ gen r = 2)
  /\ check_for_meta (Some wide_meta) (mk_operations 0 0) err0
     = (mk_error AEROSPIKE_OK "", mk_operations 100 2).
Proof.
  split; [lia|]. split; [lia|]. split.
  - eexists. split; [reflexivity|]. split; reflexivity.
  - reflexivity.
Qed.

(* ====================================================================== *)
(** * Context paths *)

Section CtxFacts.

Context {ext : Externals}.
Variable self : AerospikeClient.

Lemma pyobject_to_val_reset e1 e2 o pool ty :
  pyobject_to_val self e1 o pool ty = pyobject_to_val self e2 o pool ty.
Proof. destruct o as [o|]; [destruct o|]; reflexivity. Qed.

(** Every [return] inside the loop returns InvalidParam. *)
Lemma get_cdt_ctx_loop_status items :
  forall err pool ctx ty st e p c,
    get_cdt_ctx_loop self items err pool ctx ty = (Some st, e, p, c) ->
    st = AEROSPIKE_ERR_PARAM.
Proof.
  induction items as [|o tl IH]; intros err pool ctx ty st e p c H.
  - discriminate H.
  - cbn [get_cdt_ctx_loop] in H.
    destruct (PyObject_GetAttrString o "id") as [id_temp|];
      [|injection H as <-; reflexivity].
    destruct (PyObject_GetAttrString o "value") as [value_temp|];
      [|injection H as <-; reflexivity].
    destruct (PyErr_Occurred (snd (PyLong_AsUnsignedLong id_temp)));
      [injection H as <-; reflexivity|].
    destruct (requires_int (fst (PyLong_AsUnsignedLong id_temp))).
    + destruct (PyErr_Occurred (snd (PyLong_AsLong value_temp)));
        [injection H as <-; reflexivity|].
      destruct (_ || _); [|injection H as <-; reflexivity].
      apply IH in H. exact H.
    + destruct (pyobject_to_val self err (Some value_temp) pool ty)
        as [[e1 p1] v1].
      destruct (negb (is_ok e1)); [injection H as <-; reflexivity|].
      destruct (_ || _); [|injection H as <-; reflexivity].
      apply IH in H. exact H.
Qed.

Lemma requires_int_range k :
  requires_int k = true -> (0 <=? k) && (k <=? ULONG_MAX) = true.
Proof.
  unfold requires_int. intros H.
  apply orb_true_iff in H. destruct H as [H|H];
    [apply orb_true_iff in H; destruct H as [H|H];
     [apply orb_true_iff in H; destruct H as [H|H]|]|];
    apply Z.eqb_eq in H; subst; reflexivity.
Qed.

Lemma takes_value_range k :
  takes_value k = true ->
  (0 <=? k) && (k <=? ULONG_MAX) = true /\ requires_int k = false.
Proof.
  unfold takes_value. intros Hk.
  apply orb_true_iff in Hk. destruct Hk as [Hk|Hk];
    [apply orb_true_iff in Hk; destruct Hk as [Hk|Hk]|];
    apply Z.eqb_eq in Hk; subst; split; reflexivity.
Qed.

(** [PyLong_AsLong] raises exactly on the payloads of [no_long]. *)
Lemma no_long_AsLong payload :
  PyErr_Occurred (snd (PyLong_AsLong payload)) = no_long payload.
Proof.
  unfold PyLong_AsLong, no_long.
  destruct (int_value payload) as [z|];
    [|destruct (nb_index payload) as [z|]]; try reflexivity;
    destruct (in_long z); reflexivity.
Qed.

Lemma AsUnsignedLong_of_kind id k :
  int_value id = Some k -> (0 <=? k) && (k <=? ULONG_MAX) = true ->
  PyLong_AsUnsignedLong id = (k, None).
Proof.
  intros Hid Hr. unfold PyLong_AsUnsignedLong. rewrite Hid, Hr. reflexivity.
Qed.

Lemma get_cdt_ctx_loop_bad items :
  forall err pool ctx ty o,
    In o items -> bad_step o ->
    exists st e p c,
      get_cdt_ctx_loop self items err pool ctx ty = (Some st, e, p, c).
Proof.
  induction items as [|h tl IH]; intros err pool ctx ty o Hin Hbad.
  - destruct Hin.
  - cbn [get_cdt_ctx_loop].
    destruct (PyObject_GetAttrString h "id") as [id_temp|] eqn:Hid;
      [|do 4 eexists; reflexivity].
    destruct (PyObject_GetAttrString h "value") as [value_temp|] eqn:Hval;
      [|do 4 eexists; reflexivity].
    destruct (PyErr_Occurred (snd (PyLong_AsUnsignedLong id_temp))) eqn:Hu;
      [do 4 eexists; reflexivity|].
    destruct Hin as [->|Hin].
    + (* the bad step itself *)
      destruct Hbad as (k & payload & [Hk Hp] & Hwhy).
      rewrite Hk in Hid. injection Hid as <-.
      rewrite Hp in Hval. injection Hval as <-.
      assert (Hfst : fst (PyLong_AsUnsignedLong (PyLong k)) = k).
      { unfold PyLong_AsUnsignedLong in *. simpl in *.
        destruct ((0 <=? k) && (k <=? ULONG_MAX)); [reflexivity|].
        discriminate Hu. }
      rewrite Hfst.
      destruct Hwhy as [[Hreq Hni]|Hnr].
      * rewrite Hreq, no_long_AsLong, Hni. do 4 eexists; reflexivity.
      * unfold recognized in Hnr. apply orb_false_iff in Hnr.
        destruct Hnr as [Hreq Htv]. rewrite Hreq.
        destruct (pyobject_to_val self err (Some payload) pool ty)
          as [[e1 p1] v1].
        destruct (negb (is_ok e1)); [do 4 eexists; reflexivity|].
        unfold takes_value in Htv. rewrite Htv. do 4 eexists; reflexivity.
    + destruct (requires_int (fst (PyLong_AsUnsignedLong id_temp))).
      * destruct (PyErr_Occurred (snd (PyLong_AsLong value_temp)));
          [do 4 eexists; reflexivity|].
        destruct (_ || _); [|do 4 eexists; reflexivity].
        eapply IH; eassumption.
      * destruct (pyobject_to_val self err (Some value_temp) pool ty)
          as [[e1 p1] v1].
        destruct (negb (is_ok e1)); [do 4 eexists; reflexivity|].
        destruct (_ || _); [|do 4 eexists; reflexivity].
        eapply IH; eassumption.
Qed.

Lemma get_cdt_ctx_bad err op_dict items in_use pool ty o :
  PyDict_GetItemString op_dict CTX_KEY = Some (PyList items) ->
  In o items -> bad_step o ->
  ctx_status (get_cdt_ctx self err op_dict in_use pool ty)
  = AEROSPIKE_ERR_PARAM.
Proof.
  intros Hctx Hin Hbad. unfold get_cdt_ctx. rewrite Hctx.
  cbn [PyList_Check list_items].
  destruct (@get_cdt_ctx_loop_bad items err pool [] ty o Hin Hbad)
    as (st & e & p & c & H).
  rewrite H. simpl. eapply get_cdt_ctx_loop_status. exact H.
Qed.

(** Steps that all stand for an item are taken one after the other, each
    adding its item to the context. *)
Lemma get_cdt_ctx_loop_accepts ty items :
  forall err pool ctx0 ctx pool',
    ctx_items_of self ty items pool ctx pool' ->
    exists e,
      get_cdt_ctx_loop self items err pool ctx0 ty
      = (None, e, pool', Live (ctx0 ++ ctx)).
Proof.
  induction items as [|o tl IH]; intros err pool ctx0 ctx pool' H.
  - destruct ctx as [|c rest]; [|destruct H].
    cbn [ctx_items_of] in H. subst pool'.
    exists err. rewrite app_nil_r. reflexivity.
  - destruct ctx as [|c rest]; [destruct H|].
    cbn [ctx_items_of] in H.
    destruct H as (id & payload & k & [Hid Hval] & Hk & Hc).
    cbn [get_cdt_ctx_loop]. rewrite Hid, Hval.
    destruct c as [type ival|type pval].
    + destruct Hc as (-> & Hreq & (z & Hz & ->) & Hrest).
      rewrite (@AsUnsignedLong_of_kind id k Hk (requires_int_range k Hreq)).
      cbn [fst snd PyErr_Occurred]. rewrite Hreq, Hz.
      cbn [fst snd PyErr_Occurred].
      unfold requires_int in Hreq. rewrite Hreq.
      destruct (IH err pool (ctx0 ++ [ctx_ival k (to_signed 32 z)]) rest pool'
                  Hrest) as (e & He).
      exists e. rewrite He, <- app_assoc. reflexivity.
    + destruct Hc as (-> & Htv & e1 & p1 & v & Hconv & Hok & -> & Hrest).
      destruct (takes_value_range k Htv) as [Hrange Hni].
      rewrite (@AsUnsignedLong_of_kind id k Hk Hrange).
      cbn [fst snd PyErr_Occurred]. rewrite Hni.
      rewrite (pyobject_to_val_reset err err0), Hconv, Hok. cbn [negb].
      unfold takes_value in Htv. rewrite Htv.
      destruct (IH e1 p1 (ctx0 ++ [ctx_pval k (Some v)]) rest pool' Hrest)
        as (e & He).
      exists e. rewrite He, <- app_assoc. reflexivity.
Qed.

(** Every integer of 64 bits converts, in any pool and without touching
    it. *)
Lemma pyobject_to_val_integer err pool ty z :
  in_long z = true ->
  pyobject_to_val self err (Some (PyLong z)) pool ty
  = (err0, pool, Some (AS_INTEGER z)).
Proof.
  intros Hz. unfold pyobject_to_val, pyobject_to_val_obj.
  cbn [PyBool_Check PyInt_Check PyLong_Check].
  unfold overflowed, PyInt_AsLong.
  rewrite (@PyLong_AsLong_in (PyLong z) z eq_refl Hz).
  simpl. rewrite andb_false_r. reflexivity.
Qed.

End CtxFacts.

(** C7 (as amended).  In a context path a step of one of the four
    requires-integer kinds is rejected with InvalidParam when the host
    makes no C [long] of its payload: the payload is neither an integer nor
    an object with an [__index__] method, or its integer does not fit 64
    bits.  A step of an unrecognized kind is rejected with InvalidParam.
    A path all of whose steps stand for an item is converted, whatever its
    length, to these items in order: a step of a requires-integer kind
    with a payload the host makes a C [long] of (an integer, or an object
    with [__index__]), a step of one of the three value kinds with a
    payload [pyobject_to_val] converts, which it does for every integer of
    64 bits. *)
Theorem context_step_payload_rules :
  forall (ext : Externals) (self : AerospikeClient) (err : as_error)
         (op_dict : PyObject) (items : list PyObject) (in_use : bool)
         (pool : as_static_pool) (ty : Z),
    PyDict_GetItemString op_dict CTX_KEY = Some (PyList items) ->
    (forall o k payload,
       In o items -> is_step o (PyLong k) payload ->
       requires_int k = true -> no_long payload = true ->
       ctx_status (get_cdt_ctx self err op_dict in_use pool ty)
       = AEROSPIKE_ERR_PARAM)
    /\ (forall o k payload,
          In o items -> is_step o (PyLong k) payload ->
          recognized k = false ->
          ctx_status (get_cdt_ctx self err op_dict in_use pool ty)
          = AEROSPIKE_ERR_PARAM)
    /\ (forall ctx pool',
          ctx_items_of self ty items pool ctx pool' ->
          exists e,
            get_cdt_ctx self err op_dict in_use pool ty
            = (AEROSPIKE_OK, e, pool', Live ctx, true))
    /\ (forall z e p,
          in_long z = true ->
          pyobject_to_val self e (Some (PyLong z)) p ty
          = (err0, p, Some (AS_INTEGER z))).
Proof.
  intros ext self err op_dict items in_use pool ty Hctx.
  split; [|split; [|split]].
  - intros o k payload Hin Hstep Hreq Hni.
    apply (@get_cdt_ctx_bad ext self err op_dict items in_use pool ty o Hctx Hin).
    exists k, payload. split; [exact Hstep|]. left. split; assumption.
  - intros o k payload Hin Hstep Hnr.
    apply (@get_cdt_ctx_bad ext self err op_dict items in_use pool ty o Hctx Hin).
    exists k, payload. split; [exact Hstep|]. right. exact Hnr.
  - intros ctx pool' H.
    destruct (@get_cdt_ctx_loop_accepts ext self ty items err pool [] ctx pool' H)
      as (e & He).
    exists e. unfold get_cdt_ctx. rewrite Hctx. cbn [PyList_Check list_items].
    rewrite He. reflexivity.
  - intros z e p Hz. apply pyobject_to_val_integer. exact Hz.
Qed.

(** A path of three steps: a list index given as an integer, a map rank
    given as an object with [__index__], and a map key given as an
    integer. *)
Lemma context_step_payload_rules_witness :
  ctx_status
    (get_cdt_ctx (ext := demo_externals) demo_client err0
       (PyDict [(PyUnicode "ctx",
                 PyList [cdt_ctx_step AS_CDT_CTX_LIST_INDEX (PyUnicode "first")])])
       false pool0 0)
  = AEROSPIKE_ERR_PARAM
  /\ exists e,
       get_cdt_ctx (ext := demo_externals) demo_client err0
         (PyDict [(PyUnicode "ctx",
                   PyList [cdt_ctx_step AS_CDT_CTX_LIST_INDEX (PyLong 1);
                           cdt_ctx_step AS_CDT_CTX_MAP_RANK (index_object 2);
                           cdt_ctx_step AS_CDT_CTX_MAP_KEY (PyLong 5)])])
         false pool0 0
       = (AEROSPIKE_OK, e, pool0,
          Live [ctx_ival AS_CDT_CTX_LIST_INDEX 1;
                ctx_ival AS_CDT_CTX_MAP_RANK 2;
                ctx_pval AS_CDT_CTX_MAP_KEY (Some (AS_INTEGER 5))], true).
Proof.
  split.
  - apply (proj1 (@context_step_payload_rules demo_externals demo_client err0
                    (PyDict [(PyUnicode "ctx",
                              PyList [cdt_ctx_step AS_CDT_CTX_LIST_INDEX
                                        (PyUnicode "first")])])
                    [cdt_ctx_step AS_CDT_CTX_LIST_INDEX (PyUnicode "first")]
                    false pool0 0 eq_refl)
             (cdt_ctx_step AS_CDT_CTX_LIST_INDEX (PyUnicode "first"))
             AS_CDT_CTX_LIST_INDEX (PyUnicode "first")).
    + left; reflexivity.
    + split; reflexivity.
    + reflexivity.
    + reflexivity.
  - apply (proj1 (proj2 (proj2
             (@context_step_payload_rules demo_externals demo_client err0
                (PyDict [(PyUnicode "ctx",
                          PyList [cdt_ctx_step AS_CDT_CTX_LIST_INDEX (PyLong 1);
                                  cdt_ctx_step AS_CDT_CTX_MAP_RANK
                                    (index_object 2);
                                  cdt_ctx_step AS_CDT_CTX_MAP_KEY (PyLong 5)])])
                [cdt_ctx_step AS_CDT_CTX_LIST_INDEX (PyLong 1);
                 cdt_ctx_step AS_CDT_CTX_MAP_RANK (index_object 2);
                 cdt_ctx_step AS_CDT_CTX_MAP_KEY (PyLong 5)]
                false pool0 0 eq_refl)))).
    cbn [ctx_items_of].
    exists (PyLong AS_CDT_CTX_LIST_INDEX), (PyLong 1), AS_CDT_CTX_LIST_INDEX.
    split; [split; reflexivity|]. split; [reflexivity|].
    split; [reflexivity|]. split; [reflexivity|].
    split; [exists 1; split; reflexivity|].
    exists (PyLong AS_CDT_CTX_MAP_RANK), (index_object 2), AS_CDT_CTX_MAP_RANK.
    split; [split; reflexivity|]. split; [reflexivity|].
    split; [reflexivity|]. split; [reflexivity|].
    split; [exists 2; split; reflexivity|].
    exists (PyLong AS_CDT_CTX_MAP_KEY), (PyLong 5), AS_CDT_CTX_MAP_KEY.
    split; [split; reflexivity|]. split; [reflexivity|].
    split; [reflexivity|]. split; [reflexivity|].
    exists err0, pool0, (AS_INTEGER 5).
    split; [reflexivity|]. split; [reflexivity|]. split; reflexivity.
Defined.

(** C7, as stated, fails: a step of a requires-integer kind whose payload is
    not an integer is accepted when the payload has an [__index__] method,
    the unguarded [PyLong_AsLong] converting it. *)
Lemma context_step_accepts_index_object :
  PyLong_Check (index_object 2) = false
  /\ requires_int AS_CDT_CTX_LIST_INDEX = true
  /\ get_cdt_ctx (ext := demo_externals) demo_client err0
       (PyDict [(PyUnicode "ctx",
                 PyList [cdt_ctx_step AS_CDT_CTX_LIST_INDEX (index_object 2)])])
       false pool0 0
     = (AEROSPIKE_OK, err0, pool0,
        Live [ctx_ival AS_CDT_CTX_LIST_INDEX 2], true).
Proof. split; [reflexivity|]. split; reflexivity. Qed.

(* ====================================================================== *)
(** * Release of a result under construction *)

Section Release.

Context {ext : Externals}.
Variable self : AerospikeClient.

(** The list and map converters release what they built when they fail. *)
Lemma pyobject_to_list_releases err py_list aslist pool ty :
  let '(e, _, o) := pyobject_to_list self err py_list aslist pool ty in
  if is_ok e then exists l, o = Live l else o = Destroyed.
Proof.
  unfold pyobject_to_list, pyobject_to_list_.
  destruct (pyobject_to_list_loop _ _ _ _ _ _) as [[e p] l].
  destruct (is_ok e) eqn:E; simpl; rewrite E; eauto.
Qed.

Lemma pyobject_to_map_releases err py_dict map pool ty :
  let '(e, _, o) := pyobject_to_map self err py_dict map pool ty in
  if is_ok e then exists m, o = Live m else o = Destroyed.
Proof.
  unfold pyobject_to_map, pyobject_to_map_.
  destruct (pyobject_to_map_loop _ _ _ _ _ _) as [[e p] m].
  destruct (is_ok e) eqn:E; simpl; rewrite E; eauto.
Qed.

(** So does the record converter on the paths that reach its last
    statement: when the bin loop is not left by [return], a failure leaves
    the record destroyed. *)
Lemma pyobject_to_record_releases_at_end err d py_meta ty pool e p r :
  record_bins_loop self d (as_error_reset err) pool
    (as_record_init (PyDict_Size (PyDict d))) false ty = (false, e, p, r) ->
  let '(e', _, o) :=
    pyobject_to_record self err (Some (PyDict d)) py_meta ty pool in
  if is_ok e' then exists r', o = Live r' else o = Destroyed.
Proof.
  intros Hloop. unfold pyobject_to_record. cbn [PyDict_Check dict_items].
  rewrite Hloop. destruct (record_meta e r py_meta) as [e1 r1].
  destruct (is_ok e1) eqn:E; simpl; rewrite E; eauto.
Qed.

End Release.

(** C3 (the code departs from it).  Two converters return a failure while
    the result they were building is still live.  [pyobject_to_record]
    leaves the bin loop by [return] on a bin name that is not a string,
    after [as_record_init] and without [as_record_destroy]; [get_cdt_ctx]
    returns without [as_cdt_ctx_destroy] when the payload of a value step
    does not convert, with the steps added before still in the context. *)
Theorem early_return_leaves_result_live :
  forall (ext : Externals) (self : AerospikeClient) (err : as_error)
         (pool : as_static_pool) (ty : Z) (in_use : bool),
    pyobject_to_record self err
      (Some (PyDict [(PyLong 3, PyUnicode "x")])) None ty pool
    = (mk_error AEROSPIKE_ERR_CLIENT
         "A bin name must be a string or unicode string.",
       pool, Live (as_record_init 1))
    /\ get_cdt_ctx self err
         (PyDict [(PyUnicode "ctx",
                   PyList [cdt_ctx_step AS_CDT_CTX_LIST_INDEX (PyLong 0);
                           cdt_ctx_step AS_CDT_CTX_MAP_KEY (PyLong (2 ^ 64))])])
         in_use pool ty
       = (AEROSPIKE_ERR_PARAM,
          mk_error AEROSPIKE_ERR_PARAM "Failed to convert ctx",
          pool, Live [ctx_ival AS_CDT_CTX_LIST_INDEX 0], true).
Proof.
  intros ext self err pool ty in_use. split; reflexivity.
Qed.

(* ====================================================================== *)
(** * Batch results *)

Section Batch.

Context {ext : Externals}.
Variable self : AerospikeClient.

Local Abbreviation batch_entry_tuple := (batch_entry_tuple self).
Local Abbreviation batch_entry_fails := (batch_entry_fails self).

Lemma as_batch_read_results_loop_ok results tuples :
  Forall2 (fun r t => batch_entry_tuple (br_key r) (br_result r)
                        (br_record r) t) results tuples ->
  forall err,
  exists e,
    as_batch_read_results_loop self results err
    = (AEROSPIKE_OK, e, Some tuples).
Proof.
  induction 1 as [|r t results tuples Hr _ IH]; intros err.
  - exists err. reflexivity.
  - unfold batch_entry_tuple in Hr. cbn [as_batch_read_results_loop].
    destruct (as_status_eqb (br_result r) AEROSPIKE_OK).
    + destruct Hr as (e & k & m & b & Hr & He & ->).
      rewrite (record_to_pyobject_reset self err err0), Hr, He.
      destruct (IH e) as (e' & ->). exists e'. reflexivity.
    + destruct Hr as (e & k & Hr & He & ->).
      rewrite (key_to_pyobject_reset err err0), Hr, He.
      destruct (IH e) as (e' & ->). exists e'. reflexivity.
Qed.

Lemma as_batch_read_results_loop_fail pre tuples :
  Forall2 (fun r t => batch_entry_tuple (br_key r) (br_result r)
                        (br_record r) t) pre tuples ->
  forall bad post e err,
    batch_entry_fails (br_key bad) (br_result bad) (br_record bad) e ->
    as_batch_read_results_loop self (pre ++ bad :: post) err
    = (code e, e, None).
Proof.
  induction 1 as [|r t pre tuples Hr _ IH]; intros bad post e err [He Hbad].
  - cbn [app as_batch_read_results_loop].
    destruct (as_status_eqb (br_result bad) AEROSPIKE_OK);
      destruct Hbad as (o & Hbad).
    + rewrite (record_to_pyobject_reset self err err0), Hbad, He.
      destruct o; reflexivity.
    + rewrite (key_to_pyobject_reset err err0), Hbad, He.
      destruct o; reflexivity.
  - unfold batch_entry_tuple in Hr.
    cbn [app as_batch_read_results_loop].
    destruct (as_status_eqb (br_result r) AEROSPIKE_OK).
    + destruct Hr as (e1 & k & m & b & Hr & He1 & ->).
      rewrite (record_to_pyobject_reset self err err0), Hr, He1.
      rewrite (IH bad post e e1 (conj He Hbad)). reflexivity.
    + destruct Hr as (e1 & k & Hr & He1 & ->).
      rewrite (key_to_pyobject_reset err err0), Hr, He1.
      rewrite (IH bad post e e1 (conj He Hbad)). reflexivity.
Qed.

Lemma batch_read_records_loop_ok records tuples :
  Forall2 (fun r t => batch_entry_tuple (Some (brr_key r)) (brr_result r)
                        (brr_record r) t) records tuples ->
  forall err,
  exists e,
    batch_read_records_loop self records err = (AEROSPIKE_OK, e, Some tuples).
Proof.
  induction 1 as [|r t records tuples Hr _ IH]; intros err.
  - exists err. reflexivity.
  - unfold batch_entry_tuple in Hr. cbn [batch_read_records_loop].
    destruct (as_status_eqb (brr_result r) AEROSPIKE_OK).
    + destruct Hr as (e & k & m & b & Hr & He & ->).
      rewrite (record_to_pyobject_reset self err err0), Hr, He.
      destruct (IH e) as (e' & ->). exists e'. reflexivity.
    + destruct Hr as (e & k & Hr & He & ->).
      rewrite (key_to_pyobject_reset err err0), Hr, He.
      destruct (IH e) as (e' & ->). exists e'. reflexivity.
Qed.

Lemma batch_read_records_loop_fail pre tuples :
  Forall2 (fun r t => batch_entry_tuple (Some (brr_key r)) (brr_result r)
                        (brr_record r) t) pre tuples ->
  forall bad post e err,
    batch_entry_fails (Some (brr_key bad)) (brr_result bad) (brr_record bad) e ->
    batch_read_records_loop self (pre ++ bad :: post) err = (code e, e, None).
Proof.
  induction 1 as [|r t pre tuples Hr _ IH]; intros bad post e err [He Hbad].
  - cbn [app batch_read_records_loop].
    destruct (as_status_eqb (brr_result bad) AEROSPIKE_OK);
      destruct Hbad as (o & Hbad).
    + rewrite (record_to_pyobject_reset self err err0), Hbad, He.
      destruct o; reflexivity.
    + rewrite (key_to_pyobject_reset err err0), Hbad, He.
      destruct o; reflexivity.
  - unfold batch_entry_tuple in Hr.
    cbn [app batch_read_records_loop].
    destruct (as_status_eqb (brr_result r) AEROSPIKE_OK).
    + destruct Hr as (e1 & k & m & b & Hr & He1 & ->).
      rewrite (record_to_pyobject_reset self err err0), Hr, He1.
      rewrite (IH bad post e e1 (conj He Hbad)). reflexivity.
    + destruct Hr as (e1 & k & Hr & He1 & ->).
      rewrite (key_to_pyobject_reset err err0), Hr, He1.
      rewrite (IH bad post e e1 (conj He Hbad)). reflexivity.
Qed.

End Batch.

(** C4 (as amended).  Batch externalization produces exactly one 3-tuple
    per input entry, in order -- (key, meta, bins) for an entry that holds a
    record and (key, None, None) for one that does not -- when every entry
    converts; at the first entry whose record or key does not convert it
    stops and the whole conversion fails with that entry's error, the
    entries after it being left unprocessed. *)
Theorem batch_conversion_stops_at_first_failure :
  forall (ext : Externals) (self : AerospikeClient) (err : as_error),
    (forall results tuples,
       Forall2 (fun r t => batch_entry_tuple self (br_key r) (br_result r)
                             (br_record r) t) results tuples ->
       List.length tuples = List.length results
       /\ exists e,
            as_batch_read_results_to_pyobject self err results
            = (AEROSPIKE_OK, e, Some (PyList tuples)))
    /\ (forall pre tuples bad post e,
          Forall2 (fun r t => batch_entry_tuple self (br_key r) (br_result r)
                                (br_record r) t) pre tuples ->
          batch_entry_fails self (br_key bad) (br_result bad)
            (br_record bad) e ->
          as_batch_read_results_to_pyobject self err (pre ++ bad :: post)
          = (code e, e, None))
    /\ (forall records tuples,
          Forall2 (fun r t => batch_entry_tuple self (Some (brr_key r))
                                (brr_result r) (brr_record r) t)
                  records tuples ->
          List.length tuples = List.length records
          /\ exists e,
               batch_read_records_to_pyobject self err records
               = (AEROSPIKE_OK, e, Some (PyList tuples)))
    /\ (forall pre tuples bad post e,
          Forall2 (fun r t => batch_entry_tuple self (Some (brr_key r))
                                (brr_result r) (brr_record r) t) pre tuples ->
          batch_entry_fails self (Some (brr_key bad)) (brr_result bad)
            (brr_record bad) e ->
          batch_read_records_to_pyobject self err (pre ++ bad :: post)
          = (code e, e, None)).
Proof.
  intros ext self err. split; [|split; [|split]].
  - intros results tuples H. split.
    + symmetry. eapply Forall2_length. exact H.
    + destruct (@as_batch_read_results_loop_ok ext self results tuples H err)
        as (e & He).
      exists e. unfold as_batch_read_results_to_pyobject. rewrite He.
      reflexivity.
  - intros pre tuples bad post e H Hbad.
    unfold as_batch_read_results_to_pyobject.
    rewrite (@as_batch_read_results_loop_fail ext self pre tuples H bad post
               e err Hbad).
    reflexivity.
  - intros records tuples H. split.
    + symmetry. eapply Forall2_length. exact H.
    + destruct (@batch_read_records_loop_ok ext self records tuples H err)
        as (e & He).
      exists e. unfold batch_read_records_to_pyobject. rewrite He.
      reflexivity.
  - intros pre tuples bad post e H Hbad.
    unfold batch_read_records_to_pyobject.
    rewrite (@batch_read_records_loop_fail ext self pre tuples H bad post
               e err Hbad).
    reflexivity.
Qed.

Lemma batch_conversion_stops_at_first_failure_witness :
  exists e,
    batch_read_records_to_pyobject (ext := demo_externals) demo_client err0
      [batch_hit; batch_miss]
    = (AEROSPIKE_OK, e,
       Some (PyList
               [PyTuple [py_batch_key 1;
                         PyDict [(PyUnicode "ttl", PyLong 100);
                                 (PyUnicode "gen", PyLong 2)];
                         PyDict [(PyUnicode "a", PyLong 1)]];
                PyTuple [py_batch_key 2; Py_None; Py_None]])).
Proof.
  apply (proj1 (proj2 (proj2
           (@batch_conversion_stops_at_first_failure demo_externals
              demo_client err0)))
           [batch_hit; batch_miss]).
  constructor.
  - exists err0. do 3 eexists. repeat split; reflexivity.
  - constructor; [|constructor].
    exists err0. eexists. repeat split; reflexivity.
Defined.

(** C4, as stated, fails: with no allocation failing, one record that does
    not convert makes both batch converters fail as a whole, with
    ClientError and no list, the entry after it unprocessed. *)
Lemma batch_conversion_fails_on_one_record :
  batch_read_records_to_pyobject (ext := demo_externals) demo_client err0
    [batch_unhashable; batch_miss]
  = (AEROSPIKE_ERR_CLIENT,
     mk_error AEROSPIKE_ERR_CLIENT
       "Unable to use unhashable type as a dictionary key", None)
  /\ as_batch_read_results_to_pyobject (ext := demo_externals) demo_client err0
       [mk_batch_read (Some (batch_key 1)) AEROSPIKE_OK
          (brr_record batch_unhashable);
        mk_batch_read (Some (batch_key 2)) (AEROSPIKE_STATUS 2)
          (brr_record batch_miss)]
     = (AEROSPIKE_ERR_CLIENT,
        mk_error AEROSPIKE_ERR_CLIENT
          "Unable to use unhashable type as a dictionary key", None).
Proof. split; reflexivity. Qed.

(* ====================================================================== *)
(** * Parsing a key *)

Section KeyParsing.

Context {ext : Externals}.

Lemma key_parts_inl err input e :
  key_parts err input = inl e -> is_ok e = false.
Proof.
  unfold key_parts. destruct input as [o|]; [|intros H; injection H as <-; reflexivity].
  destruct (PyTuple_Check o).
  - destruct (_ || _); [intros H; injection H as <-; reflexivity | discriminate].
  - destruct (PyDict_Check o); [discriminate|].
    intros H; injection H as <-; reflexivity.
Qed.

Ltac crush_key :=
  repeat
    (cbn [is_ok code fst snd as_error_update as_error_reset negb andb orb
          PyString_Check PyUnicode_Check PyInt_Check PyLong_Check
          PyByteArray_Check PyBytes_Check given int_value
          PyString_AsString PyBytes_AsString PyUnicode_AsUTF8String
          PyInt_AsLong PyLong_AsLongLong PyLong_AsLong PyErr_Occurred
          option_map
          key_ns_ok key_set_ok locator_ok user_key_ok digest_ok
          key_ns_text key_set_text];
     rewrite ?andb_false_r, ?andb_true_r;
     try reflexivity;
     match goal with
     | |- context [match ?x with _ => _ end] =>
         lazymatch x with
         | context [match _ with _ => _ end] => fail
         | _ => destruct x eqn:?
         end
     end).

Lemma pyobject_to_key_ok_eq err input :
  is_ok (fst (pyobject_to_key err input))
  = match key_parts (as_error_reset err) input with
    | inl _ => false
    | inr (py_ns, py_set, py_key, py_digest) =>
        key_ns_ok py_ns && key_set_ok py_set && locator_ok py_key py_digest
        && as_key_init_accepts (c_str (key_ns_text py_ns))
             (option_map c_str (key_set_text py_set))
    end.
Proof.
  unfold pyobject_to_key.
  destruct (key_parts (as_error_reset err) input)
    as [e|[[[py_ns py_set] py_key] py_digest]] eqn:K.
  - cbn [fst]. apply (key_parts_inl _ _ K).
  - destruct py_ns as [py_ns|]; [|reflexivity].
    destruct py_ns; try reflexivity.
    cbn [PyString_Check PyUnicode_Check negb PyString_AsString key_ns_ok
         key_ns_text andb].
    destruct py_set as [py_set|]; [destruct py_set|]; try reflexivity.
    all: cbn [given PyString_Check PyUnicode_Check key_set_ok key_set_text
              PyString_AsString option_map andb].
    all: destruct py_key as [py_key|]; [destruct py_key|].
    all: try (destruct py_digest as [py_digest|]; [destruct py_digest|]).
    all: unfold as_key_init_strp, as_key_init_int64, as_key_init_raw,
           as_key_init_digest, as_key_init.
    all: crush_key.
    all: repeat match goal with
           | H : negb ?x = true |- _ => apply negb_true_iff in H
           | H : negb ?x = false |- _ => apply negb_false_iff in H
           end.
    all: repeat match goal with
           | H : ?l = _ |- context [?l] => rewrite H
           end.
    all: try match goal with
             | H : (?a =? ?a) = false |- _ =>
                 rewrite Z.eqb_refl in H; discriminate H
             end.
    all: unfold user_key_ok, digest_ok;
         cbn [is_ok code fst as_error_update as_error_reset andb orb negb
              PyUnicode_Check PyByteArray_Check PyBytes_Check int_value];
         repeat match goal with
           | H : ?l = _ |- context [?l] => rewrite H
           end;
         rewrite ?andb_false_r, ?andb_true_r, ?orb_false_r, ?orb_true_r;
         try reflexivity.
Qed.

Lemma key_parts_inl_code err input e :
  key_parts err input = inl e -> code e = AEROSPIKE_ERR_PARAM.
Proof.
  unfold key_parts. destruct input as [o|]; [|intros H; injection H as <-; reflexivity].
  destruct (PyTuple_Check o).
  - destruct (_ || _); [intros H; injection H as <-; reflexivity | discriminate].
  - destruct (PyDict_Check o); [discriminate|].
    intros H; injection H as <-; reflexivity.
Qed.

(** Every failure of [pyobject_to_key] is InvalidParam and yields no key;
    a success leaves the error reset. *)
Lemma pyobject_to_key_result err input :
  match pyobject_to_key err input with
  | (e, None) => code e = AEROSPIKE_ERR_PARAM
  | (e, Some _) => e = as_error_reset err
  end.
Proof.
  unfold pyobject_to_key.
  destruct (key_parts (as_error_reset err) input)
    as [e|[[[py_ns py_set] py_key] py_digest]] eqn:K.
  - apply (key_parts_inl_code _ _ K).
  - destruct py_ns as [py_ns|]; [|reflexivity].
    destruct py_ns; try reflexivity.
    cbn [PyString_Check PyUnicode_Check negb PyString_AsString].
    destruct py_set as [py_set|]; [destruct py_set|]; try reflexivity.
    all: cbn [given PyString_Check PyUnicode_Check PyString_AsString
              option_map].
    all: destruct py_key as [py_key|]; [destruct py_key|].
    all: try (destruct py_digest as [py_digest|]; [destruct py_digest|]).
    all: unfold as_key_init_strp, as_key_init_int64, as_key_init_raw,
           as_key_init_digest, as_key_init.
    all: crush_key.
Qed.

(** With a user key supplied the digest is not looked at. *)
Lemma pyobject_to_key_precedence err py_ns py_set py_key py_digest :
  py_key <> Py_None ->
  pyobject_to_key err (Some (PyTuple [py_ns; py_set; py_key; py_digest]))
  = pyobject_to_key err (Some (PyTuple [py_ns; py_set; py_key])).
Proof.
  intros Hk. unfold pyobject_to_key, key_parts.
  cbn [PyTuple_Check PyTuple_Size List.length PyTuple_GetItem nth_error].
  cbn -[as_key_init_strp as_key_init_int64 as_key_init_raw as_key_init_digest
        to_unsigned to_signed format_d PyInt_AsLong PyLong_AsLongLong
        String.append].
  destruct py_key; try congruence; reflexivity.
Qed.

Lemma to_unsigned_small w z : 0 <= z < 2 ^ w -> to_unsigned w z = z.
Proof. intros H. unfold to_unsigned. apply Z.mod_small. exact H. Qed.

Lemma to_signed_32_small z : 0 <= z < 2 ^ 31 -> to_signed 32 z = z.
Proof.
  intros H. unfold to_signed. change (32 - 1) with 31.
  rewrite Z.mod_small; [lia|].
  change (2 ^ 32) with (2 * 2 ^ 31). lia.
Qed.

(** A digest of a wrong length is reported with that length. *)
Lemma pyobject_to_key_digest_length err nsv py_set b :
  key_set_ok (Some py_set) = true ->
  Z.of_nat (List.length b) <> AS_DIGEST_VALUE_SIZE ->
  Z.of_nat (List.length b) < 2 ^ 31 ->
  pyobject_to_key err
    (Some (PyTuple [PyUnicode nsv; py_set; Py_None; PyByteArray b]))
  = (mk_error AEROSPIKE_ERR_PARAM
       ("digest size is invalid. should be 20 bytes, but received "
        ++ format_d (Z.of_nat (List.length b)))%string,
     None).
Proof.
  intros Hset Hlen Hsmall.
  assert (Hsz : to_unsigned 32 (PyByteArray_Size (PyByteArray b))
                = Z.of_nat (List.length b)).
  { cbn [PyByteArray_Size]. apply to_unsigned_small.
    change (2 ^ 32) with (2 * 2 ^ 31). lia. }
  assert (Hne : negb (Z.of_nat (List.length b) =? AS_DIGEST_VALUE_SIZE) = true).
  { apply negb_true_iff. apply Z.eqb_neq. exact Hlen. }
  unfold pyobject_to_key, key_parts.
  cbn [PyTuple_Check PyTuple_Size List.length PyTuple_GetItem nth_error].
  cbn [Z.of_nat Pos.of_succ_nat Pos.succ Z.ltb Z.eqb Z.compare Pos.compare
       Pos.compare_cont Pos.eqb orb PyString_Check PyUnicode_Check negb
       PyString_AsString].
  unfold key_set_ok in Hset.
  destruct py_set; cbn [given PyUnicode_Check] in Hset; try discriminate Hset;
    cbn [given PyString_Check PyUnicode_Check PyByteArray_Check
         PyString_AsString];
    rewrite Hsz, Hne, to_signed_32_small by lia; reflexivity.
Qed.

(** The items the converter reads are the ones the shape of the input
    supplies, and an input of another shape is refused. *)
Lemma key_parts_items e input :
  match key_items input with
  | Some parts => key_parts e input = inr parts
  | None =>
      exists msg, key_parts e input = inl (mk_error AEROSPIKE_ERR_PARAM msg)
  end.
Proof.
  destruct input as [o|]; [|eexists; reflexivity].
  destruct o; try (eexists; reflexivity); try reflexivity.
  destruct l as [|a [|b [|c [|d [|x l]]]]]; try (eexists; reflexivity);
    try reflexivity.
  unfold key_items, key_parts. cbn [PyTuple_Check PyTuple_Size].
  assert (H : (4 <? Z.of_nat (List.length (a :: b :: c :: d :: x :: l))) = true).
  { apply Z.ltb_lt. cbn [List.length]. lia. }
  rewrite H, orb_true_r. eexists; reflexivity.
Qed.

Lemma pyobject_to_key_wrong_length err l :
  List.length l <> 3%nat -> List.length l <> 4%nat ->
  pyobject_to_key err (Some (PyTuple l))
  = (mk_error AEROSPIKE_ERR_PARAM
       "key tuple must be (Namespace, Set, Key) or (Namespace, Set, None, Digest)",
     None).
Proof.
  intros H3 H4. unfold pyobject_to_key, key_parts.
  cbn [PyTuple_Check PyTuple_Size].
  assert (H : (Z.of_nat (List.length l) <? 3) || (4 <? Z.of_nat (List.length l))
              = true).
  { apply orb_true_iff.
    destruct (Z.ltb_spec (Z.of_nat (List.length l)) 3) as [|Hge];
      [left; reflexivity|right].
    apply Z.ltb_lt. lia. }
  rewrite H. reflexivity.
Qed.

End KeyParsing.

(** C2 (as amended).  [pyobject_to_key] succeeds if and only if the input
    is a tuple of length 3 or 4 or a mapping, the namespace is text, the set
    is absent, [None] or text, the driver's key initialiser accepts the
    namespace and set, and either the user key is supplied with a non-null
    value that is text, an integer of 64 bits, a non-empty bytearray or
    bytes, or no user key is supplied and the digest is a bytearray of
    exactly 20 bytes.  A tuple of any other length, an object that is
    neither a tuple nor a mapping, and no object at all are refused, each
    with its message.  Every failure is InvalidParam; a digest of another
    length is reported with the received length in the message; a user key
    that is supplied takes precedence over the digest, which is then not
    looked at. *)
Theorem pyobject_to_key_succeeds_iff :
  forall (ext : Externals) (err : as_error),
    (forall input,
       is_ok (fst (pyobject_to_key err input)) = true <->
       exists py_ns py_set py_key py_digest,
         key_items input = Some (py_ns, py_set, py_key, py_digest)
         /\ key_ns_ok py_ns = true
         /\ key_set_ok py_set = true
         /\ locator_ok py_key py_digest = true
         /\ as_key_init_accepts (c_str (key_ns_text py_ns))
              (option_map c_str (key_set_text py_set)) = true)
    /\ (forall l,
          List.length l <> 3%nat -> List.length l <> 4%nat ->
          pyobject_to_key err (Some (PyTuple l))
          = (mk_error AEROSPIKE_ERR_PARAM
               "key tuple must be (Namespace, Set, Key) or (Namespace, Set, None, Digest)",
             None))
    /\ (forall o,
          PyTuple_Check o = false -> PyDict_Check o = false ->
          pyobject_to_key err (Some o)
          = (mk_error AEROSPIKE_ERR_PARAM "key is invalid", None))
    /\ pyobject_to_key err None
       = (mk_error AEROSPIKE_ERR_PARAM "key is null", None)
    /\ (forall input,
          is_ok (fst (pyobject_to_key err input)) = false ->
          code (fst (pyobject_to_key err input)) = AEROSPIKE_ERR_PARAM
          /\ snd (pyobject_to_key err input) = None)
    /\ (forall nsv py_set b,
          key_set_ok (Some py_set) = true ->
          Z.of_nat (List.length b) <> AS_DIGEST_VALUE_SIZE ->
          Z.of_nat (List.length b) < 2 ^ 31 ->
          pyobject_to_key err
            (Some (PyTuple [PyUnicode nsv; py_set; Py_None; PyByteArray b]))
          = (mk_error AEROSPIKE_ERR_PARAM
               ("digest size is invalid. should be 20 bytes, but received "
                ++ format_d (Z.of_nat (List.length b)))%string,
             None))
    /\ (forall py_ns py_set py_key py_digest,
          py_key <> Py_None ->
          pyobject_to_key err
            (Some (PyTuple [py_ns; py_set; py_key; py_digest]))
          = pyobject_to_key err (Some (PyTuple [py_ns; py_set; py_key]))).
Proof.
  intros ext err.
  split; [|split; [|split; [|split; [|split; [|split]]]]].
  - intros input. rewrite pyobject_to_key_ok_eq.
    pose proof (key_parts_items (as_error_reset err) input) as Hparts.
    destruct (key_items input) as [[[[py_ns py_set] py_key] py_digest]|].
    + rewrite Hparts. split.
      * intros H.
        apply andb_true_iff in H. destruct H as [H H4].
        apply andb_true_iff in H. destruct H as [H H3].
        apply andb_true_iff in H. destruct H as [H1 H2].
        exists py_ns, py_set, py_key, py_digest. repeat split; assumption.
      * intros (a & b & c & d & H & H1 & H2 & H3 & H4).
        injection H as <- <- <- <-. rewrite H1, H2, H3, H4. reflexivity.
    + destruct Hparts as (msg & ->).
      split; [discriminate|]. intros (a & b & c & d & H & _). discriminate H.
  - intros l. apply pyobject_to_key_wrong_length.
  - intros o Ht Hd. unfold pyobject_to_key, key_parts. rewrite Ht, Hd.
    reflexivity.
  - reflexivity.
  - intros input Hfail.
    pose proof (pyobject_to_key_result err input) as Hr.
    destruct (pyobject_to_key err input) as [e [k|]]; cbn [fst snd] in *.
    + subst e. discriminate Hfail.
    + split; [exact Hr | reflexivity].
  - intros nsv py_set b. apply pyobject_to_key_digest_length.
  - intros py_ns py_set py_key py_digest. apply pyobject_to_key_precedence.
Qed.

Lemma pyobject_to_key_succeeds_iff_witness :
  is_ok (fst (pyobject_to_key (ext := demo_externals) err0
                (Some (PyTuple [PyUnicode "test"; PyUnicode "demo"; Py_None;
                                PyByteArray digest20])))) = true.
Proof.
  apply (proj1 (@pyobject_to_key_succeeds_iff demo_externals err0)).
  exists (Some (PyUnicode "test")), (Some (PyUnicode "demo")),
    (Some Py_None), (Some (PyByteArray digest20)).
  repeat split; reflexivity.
Defined.

(** C2, as stated, fails in both directions: a key with both a user key and
    a digest is accepted although not exactly one of them is supplied, and a
    key whose only locator is a float user key is rejected although the
    namespace is non-empty text and exactly one locator is supplied. *)
Lemma pyobject_to_key_not_exactly_one :
  (is_ok (fst (pyobject_to_key (ext := demo_externals) err0
                 (Some (PyTuple [PyUnicode "test"; PyUnicode "demo"; PyLong 1;
                                 PyByteArray digest20])))) = true
   /\ exactly_one_locator (Some (PyLong 1)) (Some (PyByteArray digest20))
      = false)
  /\ (pyobject_to_key (ext := demo_externals) err0
        (Some (PyTuple [PyUnicode "test"; PyUnicode "demo"; PyFloat 1]))
      = (mk_error AEROSPIKE_ERR_PARAM "key is invalid", None)
      /\ exactly_one_locator (Some (PyFloat 1)) None = true
      /\ "test" <> "").
Proof.
  repeat split; try reflexivity. discriminate.
Qed.

(* ====================================================================== *)
(** * A conversion that reports OK has a result *)

Section OkSome.

Context {ext : Externals}.
Variable self : AerospikeClient.

Ltac split_result H :=
  repeat
    (match type of H with
     | context [match ?x with _ => _ end] =>
         lazymatch x with
         | context [match _ with _ => _ end] => fail
         | _ => destruct x eqn:?
         end
     end;
     cbn [fst snd negb is_ok code as_error_update as_error_reset live_val]
       in H).

(** No conversion to Python reports OK without an object: the code hands
    one back on each of its own paths, and the two collaborators whose
    object it passes on do so by their contract. *)
Lemma do_val_to_pyobject_ok_some err v c e o :
  do_val_to_pyobject self err v c = (e, o) -> is_ok e = true -> o <> None.
Proof.
  intros H Hok.
  destruct v; cbn [do_val_to_pyobject] in H;
    try (unfold list_to_pyobject_, as_list_of_map_to_py_tuple_list_,
           map_to_pyobject_, do_record_to_pyobject_, bins_to_pyobject_,
           key_to_pyobject, metadata_to_pyobject in H;
         split_result H; injection H as <- <-; try discriminate;
         try match goal with
             | H1 : is_ok ?a = true, H2 : context [is_ok ?a] |- _ =>
                 rewrite H1 in H2; discriminate H2
             end;
         try (unfold is_ok in *; simpl in *; congruence); fail).
  - (* bytes: what the deserializer hands back *)
    pose proof (deserialize_yields_object self b (as_error_reset err) eq_refl)
      as Hd.
    rewrite H in Hd. apply Hd. exact Hok.
  - (* GeoJSON: what the constructor hands back *)
    destruct (AerospikeGeospatial_DoLoads _ _) as [e1 py_loads].
    destruct (negb (is_ok e1)) eqn:E1.
    + injection H as <- <-. apply negb_true_iff in E1. congruence.
    + apply negb_false_iff in E1.
      pose proof (AerospikeGeospatial_yields_object e1 py_loads E1) as Hg.
      rewrite H in Hg. apply Hg. exact Hok.
Qed.

Lemma pyobject_to_val_ok_some err py_obj pool ty e p o :
  pyobject_to_val self err py_obj pool ty = (e, p, o) ->
  is_ok e = true -> o <> None.
Proof.
  intros H Hok. destruct py_obj as [py_obj|];
    [|injection H as <- _ _; discriminate Hok].
  cbn [pyobject_to_val] in H.
  destruct py_obj; cbn [pyobject_to_val_obj] in H;
    cbn [PyBool_Check PyInt_Check PyLong_Check PyUnicode_Check PyString_Check
         PyBytes_Check PyByteArray_Check PyList_Check PyDict_Check
         PyFloat_Check] in H;
    unfold pyobject_to_list_, pyobject_to_map_, serialize_in_pool,
      GET_BYTES_POOL in H;
    split_result H; injection H as <- <- <-; try discriminate;
    try match goal with
        | H1 : is_ok ?a = true, H2 : context [is_ok ?a] |- _ =>
            rewrite H1 in H2; discriminate H2
        end;
    try (unfold is_ok in *; simpl in *; congruence).
Qed.

End OkSome.

(* ====================================================================== *)
(** * Round trip *)

Lemma no_nul_c_str s : no_nul s = true -> c_str s = s.
Proof. apply String.eqb_eq. Qed.

Lemma list_all_Forall (A : Type) (P : A -> Prop) (l : list A) :
  list_all P l -> Forall P l.
Proof. induction 1; constructor; assumption. Qed.

Lemma pair_all_Forall (A : Type) (P : A -> Prop) (l : list (A * A)) :
  list_all (prod_all P P) l ->
  Forall (fun kv => P (fst kv) /\ P (snd kv)) l.
Proof.
  induction 1 as [|kv H l _ IH]; constructor; [|assumption].
  destruct H. split; assumption.
Qed.

Section RoundTrip.

Context {ext : Externals}.
Variable self : AerospikeClient.
Variable serializer_type : Z.

Local Abbreviation serialized_bytearray :=
  (serialized_bytearray self serializer_type).
Local Abbreviation val_of := (val_of self serializer_type).
Local Abbreviation py_of := (py_of self serializer_type).
Local Abbreviation faithful_serializer :=
  (faithful_serializer self serializer_type).
Local Abbreviation writes := (writes self serializer_type).
Local Abbreviation reads := (reads self serializer_type).

Hypothesis Hser : faithful_serializer.
Hypothesis Hmarkers : markers_are_not_float.

(** Unfolding of the two value converters on collections. *)
Lemma pyobject_to_val_obj_list err l pool :
  pyobject_to_val_obj self err (PyList l) pool serializer_type
  = let '(e, p, r) :=
      pyobject_to_list_ (pyobject_to_val_obj self) (as_error_reset err) l None
        pool serializer_type in
    (e, p, live_val AS_LIST r).
Proof. reflexivity. Qed.

Lemma pyobject_to_val_obj_dict err d pool :
  pyobject_to_val_obj self err (PyDict d) pool serializer_type
  = let '(e, p, r) :=
      pyobject_to_map_ (pyobject_to_val_obj self) (as_error_reset err) d None
        pool serializer_type in
    (e, p, live_val AS_MAP r).
Proof. reflexivity. Qed.

Lemma do_val_to_pyobject_list err l :
  do_val_to_pyobject self err (AS_LIST l) false
  = let '(e, py_list) :=
      list_to_pyobject_ (do_val_to_pyobject self) (as_error_reset err) l in
    if is_ok e then (e, py_list) else (e, None).
Proof. reflexivity. Qed.

Lemma do_val_to_pyobject_map err m :
  do_val_to_pyobject self err (AS_MAP m) false
  = let '(e, py_map) :=
      map_to_pyobject_ (do_val_to_pyobject self) (as_error_reset err) m in
    if is_ok e then (e, live_object py_map) else (e, None).
Proof. reflexivity. Qed.

(** ** Writing *)

Lemma pool_after_0 pool : pool_after pool 0 = pool.
Proof. destruct pool. unfold pool_after. simpl. rewrite Nat.add_0_r. reflexivity. Qed.

Lemma pool_after_add pool n m :
  pool_after (pool_after pool n) m = pool_after pool (n + m).
Proof. unfold pool_after. simpl. rewrite Nat.add_assoc. reflexivity. Qed.

Lemma writes_scalar_key k err pool :
  key_ok k = true ->
  pyobject_to_val_obj self err k pool serializer_type
  = (err0, pool, Some (val_of k)).
Proof.
  destruct k; try discriminate; intros Hk; simpl in Hk.
  - unfold pyobject_to_val_obj.
    cbn [PyBool_Check PyInt_Check PyLong_Check].
    unfold overflowed, PyInt_AsLong.
    rewrite (@PyLong_AsLong_in (PyLong z) z eq_refl Hk).
    cbn. rewrite andb_false_r. reflexivity.
  - destruct Hmarkers as [Hw Hi].
    unfold pyobject_to_val_obj, AS_Matches_Classname.
    cbn [tp_name]. rewrite Hw, Hi. reflexivity.
  - unfold pyobject_to_val_obj.
    cbn [PyBool_Check PyInt_Check PyLong_Check PyUnicode_Check
         PyUnicode_AsUTF8String PyBytes_AsString option_map val_of].
    rewrite string_of_list_byte_of_string. reflexivity.
Qed.

Lemma firstn_whole (b : list byte) :
  (Z.of_nat (List.length b) <? 2 ^ 32) = true ->
  firstn (Z.to_nat (to_unsigned 32 (Z.of_nat (List.length b)))) b = b.
Proof.
  intros H. apply Z.ltb_lt in H.
  rewrite to_unsigned_small by lia. rewrite Nat2Z.id. apply firstn_all.
Qed.

Lemma as_map_set_fresh m k v :
  (forall k0 v0, In (k0, v0) m -> as_val_eqb k0 k = false) ->
  as_map_set m k v = m ++ [(k, v)].
Proof.
  induction m as [|[k0 v0] tl IH]; intros H; [reflexivity|].
  simpl. rewrite (H k0 v0 (or_introl eq_refl)).
  rewrite IH; [reflexivity|]. intros k1 v1 Hin. apply (H k1 v1). right. exact Hin.
Qed.

Lemma pydict_set_fresh d k v :
  (forall k0 v0, In (k0, v0) d -> PyObject_eqb k0 k = false) ->
  pydict_set d k v = d ++ [(k, v)].
Proof.
  induction d as [|[k0 v0] tl IH]; intros H; [reflexivity|].
  simpl. rewrite (H k0 v0 (or_introl eq_refl)).
  rewrite IH; [reflexivity|]. intros k1 v1 Hin. apply (H k1 v1). right. exact Hin.
Qed.

Lemma double_eqb_refl d : double_is_nan d = false -> double_eqb d d = true.
Proof.
  intros H. unfold double_eqb. rewrite H, Z.eqb_refl. reflexivity.
Qed.

Lemma double_eqb_bits x y :
  double_is_nan x = false -> double_is_nan y = false ->
  double_eqb x y = false -> (x =? y) = false.
Proof.
  intros Hx Hy. unfold double_eqb. rewrite Hx, Hy. cbn [negb andb].
  intros H. apply orb_false_iff in H. apply H.
Qed.

(** Keys that differ as Python objects are stored as different values. *)
Lemma key_image_eqb k1 k2 :
  key_ok k1 = true -> key_ok k2 = true ->
  PyObject_eqb k1 k2 = false ->
  as_val_eqb (val_of k1) (val_of k2) = false.
Proof.
  destruct k1; try discriminate; destruct k2; try discriminate;
    cbn [key_ok val_of as_val_eqb PyObject_eqb]; intros H1 H2 H;
    try reflexivity; try exact H.
  - apply negb_true_iff in H1. apply negb_true_iff in H2.
    exact (double_eqb_bits _ _ H1 H2 H).
  - apply andb_true_iff in H1. destruct H1 as [H1 _].
    apply andb_true_iff in H2. destruct H2 as [H2 _].
    rewrite (no_nul_c_str _ H1), (no_nul_c_str _ H2). exact H.
Qed.

Lemma key_ok_hashable k : key_ok k = true -> hashable k = true.
Proof. destruct k; try discriminate; reflexivity. Qed.

Lemma key_ok_refl k : key_ok k = true -> PyObject_eqb k k = true.
Proof.
  destruct k; try discriminate; simpl; intros H.
  - apply Z.eqb_refl.
  - apply double_eqb_refl. apply negb_true_iff. exact H.
  - apply String.eqb_refl.
Qed.

Lemma key_ok_count k : key_ok k = true -> serialized_count k = 0%nat.
Proof. destruct k; try discriminate; reflexivity. Qed.

Lemma key_ok_py_of k : key_ok k = true -> py_of k = k.
Proof. destruct k; try discriminate; reflexivity. Qed.

Lemma distinct_keys_head k tl k' :
  distinct_keys (k :: tl) = true -> In k' tl -> PyObject_eqb k k' = false.
Proof.
  simpl. intros H Hin. apply andb_true_iff in H. destruct H as [H _].
  rewrite forallb_forall in H. apply negb_true_iff. apply H. exact Hin.
Qed.

Lemma list_sum_map_cons (A : Type) (f : A -> nat) (a : A) (l : list A) :
  list_sum (map f (a :: l)) = (f a + list_sum (map f l))%nat.
Proof. reflexivity. Qed.

Lemma write_list_loop l :
  Forall writes l ->
  forallb representable l = true ->
  forall err pool acc,
    is_ok err = true ->
    (current_bytes_id pool + list_sum (map serialized_count l)
     <= AS_MAX_STORE_SIZE)%nat ->
    exists e,
      pyobject_to_list_loop (pyobject_to_val_obj self) l err acc pool
        serializer_type
      = (e, pool_after pool (list_sum (map serialized_count l)),
         acc ++ map val_of l)
      /\ is_ok e = true.
Proof.
  induction 1 as [|x l Hx _ IH]; intros Hrep err pool acc Hok Hroom.
  - exists err. simpl. rewrite pool_after_0, app_nil_r. split; [reflexivity | exact Hok].
  - simpl in Hrep. apply andb_true_iff in Hrep. destruct Hrep as [Hrx Hrl].
    rewrite list_sum_map_cons in Hroom |- *.
    destruct (Hx Hrx err pool) as (e1 & Hw & He1); [lia|].
    cbn [pyobject_to_list_loop map]. rewrite Hw, He1.
    cbn [negb as_list_append].
    destruct (IH Hrl e1 (pool_after pool (serialized_count x))
                (acc ++ [val_of x]) He1) as (e & Hl & He).
    { unfold pool_after. cbn [current_bytes_id]. lia. }
    exists e. split; [|exact He].
    rewrite Hl, pool_after_add, <- app_assoc. reflexivity.
Qed.

Lemma write_map_loop d :
  Forall (fun kv => writes (fst kv) /\ writes (snd kv)) d ->
  forallb (fun kv => key_ok (fst kv) && representable (snd kv)) d = true ->
  distinct_keys (map fst d) = true ->
  forall err pool acc,
    is_ok err = true ->
    (current_bytes_id pool
     + list_sum (map (fun kv => serialized_count (snd kv)) d)
     <= AS_MAX_STORE_SIZE)%nat ->
    (forall k0 v0 k, In (k0, v0) acc -> In k (map fst d) ->
                     as_val_eqb k0 (val_of k) = false) ->
    exists e,
      pyobject_to_map_loop (pyobject_to_val_obj self) d err acc pool
        serializer_type
      = (e,
         pool_after pool
           (list_sum (map (fun kv => serialized_count (snd kv)) d)),
         acc ++ map (fun kv => (val_of (fst kv), val_of (snd kv))) d)
      /\ is_ok e = true.
Proof.
  induction 1 as [|[k v] d [_ Hv] _ IH]; intros Hrep Hdist err pool acc Hok Hroom Hacc.
  - exists err. simpl. rewrite pool_after_0, app_nil_r. split; [reflexivity | exact Hok].
  - cbn [forallb fst snd] in Hrep.
    apply andb_true_iff in Hrep. destruct Hrep as [Hkv Hrl].
    apply andb_true_iff in Hkv. destruct Hkv as [Hk Hrv].
    rewrite list_sum_map_cons in Hroom |- *.
    cbn [map fst snd] in Hroom, Hdist, Hacc, Hv |- *.
    cbn [pyobject_to_map_loop].
    rewrite (@writes_scalar_key k err pool Hk). cbn [is_ok code err0 negb].
    destruct (Hv Hrv err0 pool) as (e1 & Hw & He1); [lia|].
    rewrite Hw, He1. cbn [negb].
    rewrite as_map_set_fresh
      by (intros k0 v0 Hin; apply (Hacc k0 v0 k Hin); left; reflexivity).
    assert (Hd : distinct_keys (map fst d) = true).
    { simpl in Hdist. apply andb_true_iff in Hdist. apply Hdist. }
    destruct (IH Hrl Hd e1 (pool_after pool (serialized_count v))
                (acc ++ [(val_of k, val_of v)]) He1) as (e & Hl & He).
    { unfold pool_after. cbn [current_bytes_id]. lia. }
    { intros k0 v0 k' Hin Hin'. apply in_app_or in Hin.
      destruct Hin as [Hin|[Hin|[]]].
      - apply (Hacc k0 v0 k' Hin). right. exact Hin'.
      - injection Hin as <- <-.
        assert (Hk' : key_ok k' = true).
        { rewrite forallb_forall in Hrl. apply in_map_iff in Hin'.
          destruct Hin' as ([k2 v2] & <- & Hin2).
          specialize (Hrl _ Hin2). apply andb_true_iff in Hrl. apply Hrl. }
        apply (@key_image_eqb k k' Hk Hk').
        apply (@distinct_keys_head k (map fst d) k' Hdist Hin'). }
    exists e. split; [|exact He].
    rewrite Hl, pool_after_add, <- app_assoc. reflexivity.
Qed.

Lemma writes_all x : writes x.
Proof.
  induction x as [| | | | | | |l IH|l IH|d IH|tp attrs IH];
    intros Hrep err pool Hroom; try discriminate Hrep.
  - (* int *)
    rewrite (@writes_scalar_key (PyLong z) err pool Hrep), pool_after_0.
    exists err0. split; reflexivity.
  - rewrite (@writes_scalar_key (PyFloat d) err pool Hrep), pool_after_0.
    exists err0. split; reflexivity.
  - rewrite (@writes_scalar_key (PyUnicode s) err pool Hrep), pool_after_0.
    exists err0. split; reflexivity.
  - (* bytes *)
    exists err0. split; [|reflexivity].
    simpl in Hrep. unfold pyobject_to_val_obj.
    cbn [PyBool_Check PyInt_Check PyLong_Check PyUnicode_Check PyString_Check
         PyBytes_Check PyBytes_Size].
    unfold as_bytes_new_wrap. rewrite (firstn_whole _ Hrep), pool_after_0.
    reflexivity.
  - (* bytearray *)
    destruct Hser as (Hs & _ & _).
    destruct (serialize_based_on_serializer_policy self serializer_type
                (Some (PyByteArray b)) err0) as [e bytes] eqn:E.
    exists e. specialize (Hs b). rewrite E in Hs. cbn [fst] in Hs.
    split; [|exact Hs].
    unfold pyobject_to_val_obj.
    cbn [PyBool_Check PyInt_Check PyLong_Check PyUnicode_Check PyString_Check
         PyBytes_Check PyByteArray_Check tp_name].
    change (String.eqb "bytearray" GEOSPATIAL_NAME) with false. cbv iota.
    rewrite (@serialize_in_pool_room ext self (as_error_reset err) pool
               serializer_type (Some (PyByteArray b)) e bytes);
      [| simpl in Hroom; lia | reflexivity | exact E | exact Hs].
    unfold pool_after, val_of, serialized_bytearray. rewrite E.
    cbn [snd serialized_count]. rewrite Nat.add_1_r. reflexivity.
  - (* list *)
    rewrite pyobject_to_val_obj_list. unfold pyobject_to_list_.
    destruct (@write_list_loop l (list_all_Forall IH) Hrep
                (as_error_reset (as_error_reset err)) pool []
                eq_refl Hroom) as (e & Hl & He).
    rewrite Hl, He. exists e. split; [reflexivity | exact He].
  - (* dict *)
    simpl in Hrep. apply andb_true_iff in Hrep. destruct Hrep as [Hrep Hdist].
    rewrite pyobject_to_val_obj_dict. unfold pyobject_to_map_.
    destruct (@write_map_loop d (pair_all_Forall IH) Hrep Hdist
                (as_error_reset (as_error_reset err)) pool []
                eq_refl Hroom) as (e & Hl & He).
    { intros k0 v0 k []. }
    rewrite Hl, He. exists e. split; [reflexivity | exact He].
Qed.

(** ** Reading back *)

Lemma reads_scalar_key k err :
  key_ok k = true ->
  do_val_to_pyobject self err (val_of k) false = (err0, Some k).
Proof.
  destruct k; try discriminate; intros Hk; try reflexivity.
  simpl in Hk. apply andb_true_iff in Hk. destruct Hk as [Hn Hd].
  cbn [val_of do_val_to_pyobject]. unfold PyString_FromString.
  rewrite c_str_idem, (no_nul_c_str _ Hn), Hd. reflexivity.
Qed.

Lemma read_list_loop l :
  Forall reads l ->
  forallb representable l = true ->
  forall err,
    is_ok err = true ->
    exists e,
      list_to_pyobject_foreach (do_val_to_pyobject self) (map val_of l) err
      = (e, map py_of l)
      /\ is_ok e = true.
Proof.
  induction 1 as [|x l Hx _ IH]; intros Hrep err Hok.
  - exists err. split; [reflexivity | exact Hok].
  - simpl in Hrep. apply andb_true_iff in Hrep. destruct Hrep as [Hrx Hrl].
    destruct (Hx Hrx err) as (e1 & Hr & He1).
    destruct (IH Hrl e1 He1) as (e & Hl & He).
    exists e. split; [|exact He].
    cbn [map list_to_pyobject_foreach]. rewrite Hr, He1. cbn [negb].
    rewrite Hl. reflexivity.
Qed.

Lemma read_map_loop d :
  Forall (fun kv => reads (fst kv) /\ reads (snd kv)) d ->
  forallb (fun kv => key_ok (fst kv) && representable (snd kv)) d = true ->
  distinct_keys (map fst d) = true ->
  forall err acc,
    is_ok err = true ->
    (forall k0 v0 k, In (k0, v0) acc -> In k (map fst d) ->
                     PyObject_eqb k0 k = false) ->
    exists e,
      map_to_pyobject_foreach (do_val_to_pyobject self)
        (map (fun kv => (val_of (fst kv), val_of (snd kv))) d) err acc
      = (e, acc ++ map (fun kv => (fst kv, py_of (snd kv))) d)
      /\ is_ok e = true.
Proof.
  induction 1 as [|[k v] d [_ Hv] _ IH]; intros Hrep Hdist err acc Hok Hacc.
  - exists err. simpl. rewrite app_nil_r. split; [reflexivity | exact Hok].
  - cbn [forallb fst snd] in Hrep.
    apply andb_true_iff in Hrep. destruct Hrep as [Hkv Hrl].
    apply andb_true_iff in Hkv. destruct Hkv as [Hk Hrv].
    cbn [map fst snd] in Hdist, Hacc, Hv |- *.
    cbn [map_to_pyobject_foreach].
    rewrite (@reads_scalar_key k err Hk). cbn [is_ok code err0 negb].
    destruct (Hv Hrv err0) as (e1 & Hr & He1).
    rewrite Hr, He1. cbn [negb].
    unfold PyDict_SetItem. rewrite (key_ok_hashable _ Hk).
    rewrite pydict_set_fresh
      by (intros k0 v0 Hin; apply (Hacc k0 v0 k Hin); left; reflexivity).
    assert (Hd : distinct_keys (map fst d) = true).
    { simpl in Hdist. apply andb_true_iff in Hdist. apply Hdist. }
    destruct (IH Hrl Hd e1 (acc ++ [(k, py_of v)]) He1) as (e & Hl & He).
    { intros k0 v0 k' Hin Hin'. apply in_app_or in Hin.
      destruct Hin as [Hin|[Hin|[]]].
      - apply (Hacc k0 v0 k' Hin). right. exact Hin'.
      - injection Hin as <- <-.
        apply (@distinct_keys_head k (map fst d) k' Hdist Hin'). }
    exists e. split; [|exact He].
    rewrite Hl, <- app_assoc. reflexivity.
Qed.

Lemma reads_all x : reads x.
Proof.
  induction x as [| | | | | | |l IH|l IH|d IH|tp attrs IH];
    intros Hrep err; try discriminate Hrep.
  - exists err0. rewrite (@reads_scalar_key (PyLong z) err Hrep).
    split; reflexivity.
  - exists err0. rewrite (@reads_scalar_key (PyFloat d) err Hrep).
    split; reflexivity.
  - exists err0. rewrite (@reads_scalar_key (PyUnicode s) err Hrep).
    split; reflexivity.
  - (* bytes *)
    destruct Hser as (_ & Hb & _). destruct (Hb b) as (e & o & Hd & Hok & _).
    cbn [val_of py_of do_val_to_pyobject].
    change (as_error_reset err) with err0. rewrite Hd.
    exists e. split; [reflexivity | exact Hok].
  - (* bytearray *)
    destruct Hser as (_ & _ & Hb). destruct (Hb b) as (e & o & Hd & Hok & _).
    cbn [val_of py_of do_val_to_pyobject].
    change (as_error_reset err) with err0. rewrite Hd.
    exists e. split; [reflexivity | exact Hok].
  - (* list *)
    cbn [val_of py_of]. rewrite do_val_to_pyobject_list.
    unfold list_to_pyobject_.
    destruct (@read_list_loop l (list_all_Forall IH) Hrep
                (as_error_reset err) eq_refl) as (e & Hl & He).
    rewrite Hl, He. cbn [negb]. rewrite He.
    exists e. split; [reflexivity | exact He].
  - (* dict *)
    simpl in Hrep. apply andb_true_iff in Hrep. destruct Hrep as [Hrep Hdist].
    cbn [val_of py_of]. rewrite do_val_to_pyobject_map.
    unfold map_to_pyobject_.
    destruct (@read_map_loop d (pair_all_Forall IH) Hrep Hdist
                (as_error_reset err) [] eq_refl) as (e & Hl & He).
    { intros k0 v0 k []. }
    rewrite Hl, He. cbn [negb app live_object]. rewrite He.
    exists e. split; [reflexivity | exact He].
Qed.

(** ** The two ends compare equal *)

Lemma equal_all x : representable x = true -> PyObject_eqb x (py_of x) = true.
Proof.
  induction x as [| | | | | | |l IH|l IH|d IH|tp attrs IH];
    intros Hrep; try discriminate Hrep.
  - apply Z.eqb_refl.
  - apply double_eqb_refl. apply negb_true_iff. exact Hrep.
  - apply String.eqb_refl.
  - destruct Hser as (_ & Hb & _). destruct (Hb b) as (e & o & Hd & _ & Heq).
    cbn [py_of]. rewrite Hd. exact Heq.
  - destruct Hser as (_ & _ & Hb). destruct (Hb b) as (e & o & Hd & _ & Heq).
    cbn [py_of]. rewrite Hd. exact Heq.
  - cbn [py_of PyObject_eqb]. apply list_all_Forall in IH.
    cbn [representable] in Hrep.
    induction IH as [|x l Hx _ IHl]; [reflexivity|].
    simpl in Hrep. apply andb_true_iff in Hrep. destruct Hrep as [Hrx Hrl].
    cbn [map list_eqb]. rewrite (Hx Hrx), (IHl Hrl). reflexivity.
  - cbn [py_of PyObject_eqb]. apply pair_all_Forall in IH.
    cbn [representable] in Hrep.
    apply andb_true_iff in Hrep. destruct Hrep as [Hrep _].
    induction IH as [|[k v] d [_ Hv] _ IHd]; [reflexivity|].
    cbn [forallb fst snd] in Hrep.
    apply andb_true_iff in Hrep. destruct Hrep as [Hkv Hrl].
    apply andb_true_iff in Hkv. destruct Hkv as [Hk Hrv].
    cbn [map list_eqb fst snd]. cbn [snd] in Hv.
    rewrite (key_ok_refl _ Hk), (Hv Hrv), (IHd Hrl). reflexivity.
Qed.

End RoundTrip.

Lemma list_eqb_bytes_refl (b : list byte) : list_eqb Byte.eqb b b = true.
Proof.
  induction b as [|x b IH]; [reflexivity|].
  simpl. rewrite IH, andb_true_r. destruct x; reflexivity.
Qed.

Lemma demo_serializer_is_faithful (ty : Z) :
  faithful_serializer (ext := demo_externals) demo_client ty.
Proof.
  split; [reflexivity|]. split; intros b.
  - exists err0, (PyByteArray b).
    split; [reflexivity|]. split; [reflexivity|]. apply list_eqb_bytes_refl.
  - exists err0, (PyByteArray b).
    split; [reflexivity|]. split; [reflexivity|]. apply list_eqb_bytes_refl.
Qed.

Lemma demo_markers_are_not_float :
  markers_are_not_float (ext := demo_externals).
Proof. split; reflexivity. Qed.

(** C1 (as amended).  For every Python value built from integers of 64
    bits, doubles other than NaN, text that has a UTF-8 encoding, holds no
    NUL character and is decoded by the host, bytes shorter than 2^32,
    bytearrays, and lists and dicts nested from these whose dict keys are
    such integers, doubles or text, converting it with [pyobject_to_val] and
    converting the result back with [val_to_pyobject] succeeds and yields a
    value equal to it -- numerically for integers and doubles, byte for
    byte for raw bytes, element by element and in order for lists and dicts
    -- provided the fallback serializer gives raw bytes back unchanged, the
    two comparator markers are not named like the built-in float, and the
    bytes pool has a wrapper for every bytearray. *)
Theorem round_trip_of_representable_values :
  forall (ext : Externals) (self : AerospikeClient) (ty : Z) (x : PyObject)
         (err : as_error) (pool : as_static_pool),
    faithful_serializer self ty ->
    markers_are_not_float ->
    representable x = true ->
    (current_bytes_id pool + serialized_count x <= AS_MAX_STORE_SIZE)%nat ->
    exists e v e' y,
      pyobject_to_val self err (Some x) pool ty
      = (e, pool_after pool (serialized_count x), Some v)
      /\ is_ok e = true
      /\ val_to_pyobject self e v = (e', Some y)
      /\ is_ok e' = true
      /\ PyObject_eqb x y = true.
Proof.
  intros ext self ty x err pool Hser Hmark Hrep Hroom.
  destruct (@writes_all ext self ty Hser Hmark x Hrep err pool Hroom)
    as (e & Hw & He).
  destruct (@reads_all ext self ty Hser x Hrep e) as (e' & Hr & He').
  exists e, (val_of self ty x), e', (py_of self ty x).
  split; [exact Hw|]. split; [exact He|]. split; [exact Hr|].
  split; [exact He'|]. apply (@equal_all ext self ty Hser x Hrep).
Qed.

Lemma round_trip_of_representable_values_witness :
  exists e v e' y,
    pyobject_to_val (ext := demo_externals) demo_client err0
      (Some round_trip_example) pool0 0
    = (e, pool_after pool0 (serialized_count round_trip_example), Some v)
    /\ is_ok e = true
    /\ val_to_pyobject (ext := demo_externals) demo_client e v = (e', Some y)
    /\ is_ok e' = true
    /\ PyObject_eqb round_trip_example y = true.
Proof.
  apply (@round_trip_of_representable_values demo_externals demo_client 0
           round_trip_example err0 pool0
           (demo_serializer_is_faithful 0) demo_markers_are_not_float).
  - reflexivity.
  - apply Nat.leb_le. reflexivity.
Defined.

(** C1, as stated, fails: text is stored as a C string, so what follows the
    first NUL character is lost on the way in and the value that comes back
    differs from the one sent. *)
Lemma round_trip_truncates_text_at_nul :
  pyobject_to_val (ext := demo_externals) demo_client err0
    (Some (PyUnicode nul_text)) pool0 0
  = (err0, pool0, Some (AS_STRING (Some "a")))
  /\ val_to_pyobject (ext := demo_externals) demo_client err0
       (AS_STRING (Some "a"))
     = (err0, Some (PyUnicode "a"))
  /\ PyObject_eqb (PyUnicode nul_text) (PyUnicode "a") = false.
Proof. repeat split; reflexivity. Qed.

(** A dict keyed by bytes does not come back either when, as here, the
    deserializer returns a blob as a bytearray: a bytearray has no hash. *)
Lemma round_trip_loses_bytes_keys :
  pyobject_to_val (ext := demo_externals) demo_client err0
    (Some (PyDict [(PyBytes [x01], PyLong 1)])) pool0 0
  = (err0, pool0,
     Some (AS_MAP [(AS_BYTES (mk_bytes AS_BYTES_BLOB [x01]), AS_INTEGER 1)]))
  /\ val_to_pyobject (ext := demo_externals) demo_client err0
       (AS_MAP [(AS_BYTES (mk_bytes AS_BYTES_BLOB [x01]), AS_INTEGER 1)])
     = (mk_error AEROSPIKE_ERR_CLIENT
          "Unable to use unhashable type as a dictionary key", None).
Proof. split; reflexivity. Qed.

(* ====================================================================== *)
(** * Role names *)

Lemma strlen_c_str (s : string) : strlen (c_str s) = strlen s.
Proof. unfold strlen. rewrite c_str_idem. reflexivity. Qed.

Lemma pyobject_to_strArray_loop_ok (max_len : Z) (items : list PyObject) :
  forallb (fits_buffer max_len) items = true ->
  forall err,
    pyobject_to_strArray_loop items err max_len = (err, map text_of items).
Proof.
  induction items as [|o tl IH]; intros H err; [reflexivity|].
  simpl in H. apply andb_true_iff in H. destruct H as [Ho Htl].
  destruct o; try discriminate Ho. simpl in Ho.
  cbn [pyobject_to_strArray_loop PyString_Check PyUnicode_Check
       PyString_AsString map text_of].
  rewrite Ho, (IH Htl). reflexivity.
Qed.

Lemma pyobject_to_strArray_loop_bad (max_len : Z) (pre : list PyObject) :
  forallb (fits_buffer max_len) pre = true ->
  forall bad post err,
    fits_buffer max_len bad = false ->
    pyobject_to_strArray_loop (pre ++ bad :: post) err max_len
    = (mk_error AEROSPIKE_ERR_CLIENT
         (if PyUnicode_Check bad then "String exceeds max length"
          else "Item is not a string"),
       map text_of pre).
Proof.
  induction pre as [|o tl IH]; intros H bad post err Hbad.
  - cbn [app pyobject_to_strArray_loop map].
    destruct bad; simpl in Hbad |- *; try reflexivity.
    rewrite Hbad. reflexivity.
  - simpl in H. apply andb_true_iff in H. destruct H as [Ho Htl].
    destruct o; try discriminate Ho. simpl in Ho.
    cbn [app pyobject_to_strArray_loop PyString_Check PyUnicode_Check
         PyString_AsString map text_of].
    rewrite Ho, (IH Htl bad post err Hbad). reflexivity.
Qed.

(** The first item that does not fit, with what stands before it. *)
Lemma first_unfit (max_len : Z) (items : list PyObject) :
  forallb (fits_buffer max_len) items = false ->
  exists pre bad post,
    items = pre ++ bad :: post
    /\ forallb (fits_buffer max_len) pre = true
    /\ fits_buffer max_len bad = false.
Proof.
  induction items as [|o tl IH]; intros H; [discriminate H|].
  simpl in H. destruct (fits_buffer max_len o) eqn:Ho.
  - destruct (IH H) as (pre & bad & post & -> & Hpre & Hbad).
    exists (o :: pre), bad, post. simpl. rewrite Ho. auto.
  - exists [], o, tl. auto.
Qed.

Lemma text_of_fits (max_len : Z) (l : list PyObject) :
  forallb (fits_buffer max_len) l = true ->
  Forall (fun s => strlen s < max_len) (map text_of l).
Proof.
  induction l as [|o tl IH]; intros H; [constructor|].
  simpl in H. apply andb_true_iff in H. destruct H as [Ho Htl].
  constructor; [|apply IH; exact Htl].
  destruct o; try discriminate Ho. simpl in *.
  rewrite strlen_c_str. apply Z.ltb_lt. exact Ho.
Qed.

(** X1.  [pyobject_to_strArray] reports OK exactly for a list all of whose
    items are text shorter than [max_len]; it then has copied the C string
    of every item, in order.  Whatever the outcome, every string it has
    copied is shorter than [max_len], so none overruns its buffer. *)
Theorem pyobject_to_strArray_accepts_short_text :
  forall (err : as_error) (py_list : PyObject) (max_len : Z),
    (is_ok (fst (pyobject_to_strArray err py_list max_len)) = true
     <-> PyList_Check py_list = true
         /\ forallb (fits_buffer max_len) (list_items py_list) = true)
    /\ (is_ok (fst (pyobject_to_strArray err py_list max_len)) = true ->
        snd (pyobject_to_strArray err py_list max_len)
        = map text_of (list_items py_list))
    /\ Forall (fun s => strlen s < max_len)
              (snd (pyobject_to_strArray err py_list max_len)).
Proof.
  intros err py_list max_len. unfold pyobject_to_strArray.
  destruct (PyList_Check py_list) eqn:Hl; cbn [negb].
  - destruct (forallb (fits_buffer max_len) (list_items py_list)) eqn:Hf.
    + rewrite (pyobject_to_strArray_loop_ok _ _ Hf). cbn [fst snd].
      split; [split; auto|]. split; [reflexivity|].
      apply text_of_fits. exact Hf.
    + destruct (first_unfit _ _ Hf) as (pre & bad & post & -> & Hpre & Hbad).
      rewrite (pyobject_to_strArray_loop_bad _ _ Hpre bad post _ Hbad).
      cbn [fst snd is_ok code].
      split; [split; [discriminate | intros [_ H]; discriminate H]|].
      split; [discriminate|]. apply text_of_fits. exact Hpre.
  - cbn [fst snd is_ok code as_error_update].
    split; [split; [discriminate | intros [H _]; discriminate H]|].
    split; [discriminate | constructor].
Qed.

Lemma pyobject_to_strArray_accepts_short_text_witness :
  snd (pyobject_to_strArray err0
         (PyList [PyUnicode "read"; PyUnicode "write"]) 64)
  = ["read"; "write"].
Proof.
  apply (proj1 (proj2 (@pyobject_to_strArray_accepts_short_text err0
                         (PyList [PyUnicode "read"; PyUnicode "write"]) 64))).
  reflexivity.
Defined.

(** X2.  [pyobject_to_strArray] stops at the first item that is not text
    shorter than [max_len]: the error is ClientError, its message tells
    whether the item is text that is too long or not text at all, the
    strings before it have been copied and the items after it are not
    looked at. *)
Theorem pyobject_to_strArray_stops_at_first_unfit_item :
  forall (err : as_error) (pre : list PyObject) (bad : PyObject)
         (post : list PyObject) (max_len : Z),
    forallb (fits_buffer max_len) pre = true ->
    fits_buffer max_len bad = false ->
    pyobject_to_strArray err (PyList (pre ++ bad :: post)) max_len
    = (mk_error AEROSPIKE_ERR_CLIENT
         (if PyUnicode_Check bad then "String exceeds max length"
          else "Item is not a string"),
       map text_of pre).
Proof.
  intros err pre bad post max_len Hpre Hbad. unfold pyobject_to_strArray.
  cbn [PyList_Check negb list_items].
  apply pyobject_to_strArray_loop_bad; assumption.
Qed.

Lemma pyobject_to_strArray_stops_at_first_unfit_item_witness :
  pyobject_to_strArray err0
    (PyList ([PyUnicode "read"] ++ PyLong 7 :: [PyUnicode "write"])) 64
  = (mk_error AEROSPIKE_ERR_CLIENT "Item is not a string", ["read"]).
Proof.
  apply (@pyobject_to_strArray_stops_at_first_unfit_item err0
           [PyUnicode "read"] (PyLong 7) [PyUnicode "write"] 64);
    reflexivity.
Defined.

Section RoleNames.

Context {ext : Externals}.

Lemma strArray_loop_plain (max_len : Z) (items : list PyObject) :
  forallb (plain_text max_len) items = true ->
  forall acc,
    strArray_loop (map text_of items) acc = Some (acc ++ items).
Proof.
  induction items as [|o tl IH]; intros H acc.
  - simpl. rewrite app_nil_r. reflexivity.
  - simpl in H. apply andb_true_iff in H. destruct H as [Ho Htl].
    destruct o; try discriminate Ho. simpl in Ho.
    apply andb_true_iff in Ho. destruct Ho as [Ho _].
    apply andb_true_iff in Ho. destruct Ho as [Hn Hd].
    cbn [map text_of strArray_loop]. unfold PyString_FromString.
    rewrite c_str_idem, (no_nul_c_str _ Hn), Hd.
    rewrite (IH Htl), <- app_assoc. reflexivity.
Qed.

Lemma plain_text_fits (max_len : Z) (items : list PyObject) :
  forallb (plain_text max_len) items = true ->
  forallb (fits_buffer max_len) items = true.
Proof.
  induction items as [|o tl IH]; intros H; [reflexivity|].
  simpl in H. apply andb_true_iff in H. destruct H as [Ho Htl].
  simpl. rewrite (IH Htl), andb_true_r.
  destruct o; try discriminate Ho. simpl in *.
  apply andb_true_iff in Ho. apply Ho.
Qed.

End RoleNames.

(** X3.  Role names survive the way into the C array and back: a list of
    texts that are free of NUL, decoded by the host and shorter than
    [max_len] is copied by [pyobject_to_strArray] without error, and
    [strArray_to_pyobject] makes of the array the list it came from. *)
Theorem role_names_round_trip :
  forall (ext : Externals) (err err' : as_error) (items : list PyObject)
         (max_len : Z),
    forallb (plain_text max_len) items = true ->
    exists arr,
      pyobject_to_strArray err (PyList items) max_len = (err0, arr)
      /\ strArray_to_pyobject err' arr = Some (err0, PyList items).
Proof.
  intros ext err err' items max_len H.
  exists (map text_of items). split.
  - unfold pyobject_to_strArray. cbn [PyList_Check negb list_items].
    apply pyobject_to_strArray_loop_ok. apply plain_text_fits. exact H.
  - unfold strArray_to_pyobject.
    rewrite (strArray_loop_plain _ _ H). reflexivity.
Qed.

Lemma role_names_round_trip_witness :
  exists arr,
    pyobject_to_strArray err0
      (PyList [PyUnicode "read-write"; PyUnicode "sys-admin"]) 64
    = (err0, arr)
    /\ strArray_to_pyobject (ext := demo_externals) err0 arr
       = Some (err0, PyList [PyUnicode "read-write"; PyUnicode "sys-admin"]).
Proof.
  apply (@role_names_round_trip demo_externals err0 err0
           [PyUnicode "read-write"; PyUnicode "sys-admin"] 64).
  reflexivity.
Defined.

(* ====================================================================== *)
(** * Offsets, bin names and strict-type bins *)

(** X4.  [pyobject_to_index] never reports an overflow: every integer
    object takes the first branch, whose result is not tested, so an
    integer outside the range of a C [long] yields the offset -1 and the
    error the caller passed in, with strict types on or off.  Only an
    object that is not an integer is rejected, with InvalidParam, and
    then the offset is left as it was. *)
Theorem pyobject_to_index_never_reports_overflow :
  forall (self : AerospikeClient) (err : as_error) (o : PyObject)
         (long_val : Z),
    (forall z, int_value o = Some z ->
               pyobject_to_index self err o long_val
               = (err, if in_long z then z else -1))
    /\ (PyLong_Check o = false ->
        pyobject_to_index self err o long_val
        = (mk_error AEROSPIKE_ERR_PARAM "Offset should be of int or long type",
           long_val)).
Proof.
  intros self err o long_val. split.
  - intros z Hz. unfold pyobject_to_index, PyInt_Check, PyInt_AsLong.
    rewrite (int_value_check _ Hz). unfold PyLong_AsLong. rewrite Hz.
    destruct (in_long z); reflexivity.
  - intros Hn. unfold pyobject_to_index, PyInt_Check. rewrite Hn.
    reflexivity.
Qed.

Lemma pyobject_to_index_never_reports_overflow_witness :
  pyobject_to_index (mk_client true true) err0 (PyLong (2 ^ 70)) 0
  = (err0, -1).
Proof.
  apply (proj1 (@pyobject_to_index_never_reports_overflow
                  (mk_client true true) err0 (PyLong (2 ^ 70)) 0)
           (2 ^ 70)).
  reflexivity.
Defined.

(** X5.  [bin_strict_type_checking] reports OK exactly when no bin is
    given, or the bin is text or a bytearray whose C string, with strict
    types on, is not longer than [AS_BIN_NAME_MAX_LEN]; with strict types
    off a name of any length passes.  It leaves a Python exception set
    exactly when it does not report OK, and the status is then
    InvalidParam for a bin of another type and BinNameError for a name
    that is too long. *)
Theorem bin_strict_type_checking_accepts :
  forall (ext : Externals) (self : AerospikeClient) (err : as_error)
         (py_bin : option PyObject) (bin : option string),
    (is_ok (fst (fst (bin_strict_type_checking self err py_bin bin)))
     = bin_name_accepted self py_bin)
    /\ snd (bin_strict_type_checking self err py_bin bin)
       = negb (bin_name_accepted self py_bin)
    /\ (bin_name_accepted self py_bin = false ->
        code (fst (fst (bin_strict_type_checking self err py_bin bin)))
        = match py_bin with
          | Some (PyUnicode _) | Some (PyByteArray _) => AEROSPIKE_ERR_BIN_NAME
          | _ => AEROSPIKE_ERR_PARAM
          end)
    /\ (strict_types self = false ->
        forall s,
          bin_strict_type_checking self err (Some (PyUnicode s)) bin
          = (err0, Some s, false)).
Proof.
  intros ext self err py_bin bin.
  unfold bin_strict_type_checking, bin_name_accepted.
  destruct py_bin as [o|]; [|repeat split; try reflexivity; try discriminate].
  - destruct o; cbn [PyString_Check PyUnicode_Check PyByteArray_Check
                     PyString_AsString PyByteArray_AsString];
      try (repeat split; try reflexivity; try discriminate;
           intros Hs s; rewrite Hs; reflexivity).
    + destruct (strict_types self) eqn:Hs; cbn [andb negb].
      * destruct (AS_BIN_NAME_MAX_LEN <? strlen s) eqn:Hl;
          repeat split; try reflexivity; try discriminate.
      * repeat split; try reflexivity; try discriminate.
    + destruct (strict_types self) eqn:Hs; cbn [andb negb].
      * destruct (AS_BIN_NAME_MAX_LEN <? strlen (string_of_list_byte b)) eqn:Hl;
          repeat split; try reflexivity; try discriminate.
      * repeat split; try reflexivity; try discriminate.
  - intros Hs s. rewrite Hs. reflexivity.
Qed.

Lemma bin_strict_type_checking_accepts_witness :
  bin_strict_type_checking (ext := demo_externals) demo_client err0
    (Some (PyUnicode "a-bin-name-of-great-length")) None
  = (err0, Some "a-bin-name-of-great-length", false)
  /\ code (fst (fst (bin_strict_type_checking (ext := demo_externals)
                       (mk_client true true) err0
                       (Some (PyUnicode "a-bin-name-of-great-length")) None)))
     = AEROSPIKE_ERR_BIN_NAME.
Proof.
  split.
  - apply (proj2 (proj2 (proj2
             (@bin_strict_type_checking_accepts demo_externals demo_client
                err0 (Some (PyUnicode "a-bin-name-of-great-length")) None)))).
    reflexivity.
  - apply (proj1 (proj2 (proj2
             (@bin_strict_type_checking_accepts demo_externals
                (mk_client true true) err0
                (Some (PyUnicode "a-bin-name-of-great-length")) None)))).
    reflexivity.
Defined.

Lemma to_signed_32_fixed (z : Z) :
  to_signed 32 z = z <-> - 2 ^ 31 <= z < 2 ^ 31.
Proof.
  unfold to_signed. change (32 - 1) with 31. split.
  - intros H.
    pose proof (Z.mod_pos_bound (z + 2 ^ 31) (2 ^ 32) ltac:(lia)) as Hb.
    change (2 ^ 32) with (2 * 2 ^ 31) in *. lia.
  - intros H. rewrite Z.mod_small; lia.
Qed.

(** X6.  [initialize_bin_for_strictypes] passes an integer through a C
    [int]: a Python integer (or boolean) that fits a C [long] is stored as
    an Integer reduced to 32 bits, two's complement, with the error and
    the pool left as they were; the stored number is the one given exactly
    when it lies between -2^31 and 2^31 - 1. *)
Theorem initialize_bin_for_strictypes_reduces_integers :
  forall (ext : Externals) (self : AerospikeClient) (SERIALIZER_PYTHON : Z)
         (double_to_int64 : double -> Z) (int64_to_double : Z -> double)
         (err : as_error) (o : PyObject) (z : Z) (bin : string)
         (pool : as_static_pool),
    int_value o = Some z ->
    in_long z = true ->
    strlen bin <= AS_BIN_NAME_MAX_LEN ->
    initialize_bin_for_strictypes self SERIALIZER_PYTHON double_to_int64
      int64_to_double err o bin pool
    = Some (err, pool, Live (AS_INTEGER (to_signed 32 z)), c_str bin)
    /\ (to_signed 32 z = z <-> - 2 ^ 31 <= z < 2 ^ 31).
Proof.
  intros ext self SP d2i i2d err o z bin pool Hz Hin Hbin.
  split; [|apply to_signed_32_fixed].
  unfold initialize_bin_for_strictypes, PyInt_Check, PyInt_AsLong.
  rewrite (int_value_check _ Hz), (PyLong_AsLong_in _ Hz Hin).
  unfold strcpy_into.
  assert (Hfit : (strlen bin <? AS_BIN_NAME_MAX_LEN + 1) = true)
    by (apply Z.ltb_lt; lia).
  rewrite Hfit. reflexivity.
Qed.

Lemma initialize_bin_for_strictypes_reduces_integers_witness :
  initialize_bin_for_strictypes (ext := demo_externals) demo_client 1
    (fun d => d) (fun z => z) err0 (PyLong (2 ^ 32 + 5)) "count" pool0
  = Some (err0, pool0, Live (AS_INTEGER 5), "count").
Proof.
  apply (@initialize_bin_for_strictypes_reduces_integers demo_externals
           demo_client 1 (fun d => d) (fun z => z) err0 (PyLong (2 ^ 32 + 5))
           (2 ^ 32 + 5) "count" pool0).
  - reflexivity.
  - reflexivity.
  - apply Z.leb_le. reflexivity.
Defined.

(* ====================================================================== *)
(** * Dicts keyed by text *)

Lemma PyObject_eqb_text (k : PyObject) (a : string) :
  PyObject_eqb k (PyUnicode a) = true -> k = PyUnicode a.
Proof.
  destruct k; simpl; try discriminate.
  intros H. apply String.eqb_eq in H. subst. reflexivity.
Qed.

Lemma pydict_get_set_text (d : pydict) (a b : string) (v : PyObject) :
  pydict_get (pydict_set d (PyUnicode a) v) (PyUnicode b)
  = if String.eqb a b then Some v else pydict_get d (PyUnicode b).
Proof.
  induction d as [|[k' v'] tl IH].
  - simpl. destruct (String.eqb a b); reflexivity.
  - cbn [pydict_set]. destruct (PyObject_eqb k' (PyUnicode a)) eqn:Ha.
    + apply PyObject_eqb_text in Ha. subst k'.
      cbn [pydict_get PyObject_eqb]. destruct (String.eqb a b); reflexivity.
    + cbn [pydict_get]. destruct (PyObject_eqb k' (PyUnicode b)) eqn:Hb.
      * apply PyObject_eqb_text in Hb. subst k'. simpl in Ha.
        destruct (String.eqb a b) eqn:Hab; [|reflexivity].
        apply String.eqb_eq in Hab. subst b.
        rewrite String.eqb_refl in Ha. discriminate Ha.
      * exact IH.
Qed.

Lemma pydict_set_fresh_text (d : pydict) (a : string) (v : PyObject) :
  pydict_get d (PyUnicode a) = None ->
  pydict_set d (PyUnicode a) v = d ++ [(PyUnicode a, v)].
Proof.
  induction d as [|[k' v'] tl IH]; intros H; [reflexivity|].
  cbn [pydict_get] in H. cbn [pydict_set].
  destruct (PyObject_eqb k' (PyUnicode a)); [discriminate H|].
  rewrite (IH H). reflexivity.
Qed.

Section AdminFacts.

Context {ext : Externals}.

Lemma set_item_string (d : pydict) (key : string) (v : PyObject) :
  utf8_decodable key = true -> no_nul key = true ->
  PyDict_SetItemString d key (Some v) = pydict_set d (PyUnicode key) v.
Proof.
  intros Hd Hn. unfold PyDict_SetItemString, PyString_FromString.
  rewrite (no_nul_c_str _ Hn), Hd. reflexivity.
Qed.

(** ** UDF files *)

Lemma as_udf_file_to_pyobject_ok hash_size err f :
  decodes_names ["name"; "hash"; "type"; "content"] ->
  utf8_decodable (c_str (udf_name f)) = true ->
  as_udf_file_to_pyobject hash_size err f
  = Some (err0, udf_dict hash_size f).
Proof.
  intros Hk Hn. unfold as_udf_file_to_pyobject, PyString_FromString at 1.
  rewrite Hn.
  inversion Hk as [|? ? H1 Hk1]; subst.
  inversion Hk1 as [|? ? H2 Hk2]; subst.
  inversion Hk2 as [|? ? H3 Hk3]; subst.
  inversion Hk3 as [|? ? H4 _]; subst.
  rewrite !set_item_string by (assumption || reflexivity).
  reflexivity.
Qed.

Lemma as_udf_files_loop_ok hash_size files :
  decodes_names ["name"; "hash"; "type"; "content"] ->
  forallb (fun f => utf8_decodable (c_str (udf_name f))) files = true ->
  forall err acc,
    as_udf_files_loop hash_size files err acc
    = Some (match files with [] => err | _ => err0 end,
            acc ++ map (udf_dict hash_size) files).
Proof.
  intros Hk. induction files as [|f tl IH]; intros H err acc.
  - simpl. rewrite app_nil_r. reflexivity.
  - simpl in H. apply andb_true_iff in H. destruct H as [Hf Htl].
    cbn [as_udf_files_loop]. rewrite (@as_udf_file_to_pyobject_ok hash_size err f Hk Hf).
    cbn [is_ok code err0 negb]. rewrite (IH Htl).
    cbn [map]. rewrite <- app_assoc. destruct tl; reflexivity.
Qed.

(** ** Users and roles *)

Lemma strArray_loop_ok roles :
  forallb (fun r => utf8_decodable (c_str r)) roles = true ->
  forall acc,
    strArray_loop roles acc
    = Some (acc ++ map (fun r => PyUnicode (c_str r)) roles).
Proof.
  induction roles as [|r tl IH]; intros H acc.
  - simpl. rewrite app_nil_r. reflexivity.
  - simpl in H. apply andb_true_iff in H. destruct H as [Hr Htl].
    cbn [strArray_loop]. unfold PyString_FromString. rewrite Hr.
    rewrite (IH Htl). cbn [map]. rewrite <- app_assoc. reflexivity.
Qed.

Lemma strArray_loop_undefined pre bad post acc :
  utf8_decodable (c_str bad) = false ->
  strArray_loop (pre ++ bad :: post) acc = None.
Proof.
  revert acc. induction pre as [|r tl IH]; intros acc Hbad.
  - cbn [app strArray_loop]. unfold PyString_FromString. rewrite Hbad.
    reflexivity.
  - cbn [app strArray_loop].
    destruct (PyString_FromString r); [apply IH; exact Hbad | reflexivity].
Qed.

Lemma strArray_to_pyobject_ok err roles :
  forallb (fun r => utf8_decodable (c_str r)) roles = true ->
  strArray_to_pyobject err roles = Some (err0, roles_list roles).
Proof.
  intros H. unfold strArray_to_pyobject. rewrite (@strArray_loop_ok roles H []).
  reflexivity.
Qed.

(** The dict that setting the bindings of [l] one after the other makes
    of [d]. *)
Lemma as_user_array_loop_ok users :
  forallb user_ok users = true ->
  forall err d,
  exists e d',
    as_user_array_loop users err d = Some (e, d')
    /\ (users <> [] -> e = err0)
    /\ forall name,
         pydict_get d' (PyUnicode name)
         = match last_value name (map user_binding users) with
           | Some v => Some v
           | None => pydict_get d (PyUnicode name)
           end.
Proof.
  induction users as [|u tl IH]; intros H err d.
  - exists err, d. split; [reflexivity|]. split; [congruence | reflexivity].
  - simpl in H. apply andb_true_iff in H. destruct H as [Hu Htl].
    unfold user_ok in Hu. apply andb_true_iff in Hu. destruct Hu as [Hn Hr].
    cbn [as_user_array_loop]. rewrite (@strArray_to_pyobject_ok err (user_roles u) Hr).
    cbn [is_ok code err0 negb]. unfold PyString_FromString. rewrite Hn.
    unfold PyDict_SetItem. cbn [hashable].
    destruct (IH Htl err0
                (pydict_set d (PyUnicode (c_str (user_name u)))
                   (roles_list (user_roles u))))
      as (e & d' & Hl & He & Hget).
    exists e, d'. split; [exact Hl|]. split.
    + intros _. destruct tl as [|u' tl'].
      * simpl in Hl. injection Hl as <- _. reflexivity.
      * apply He. discriminate.
    + intros name. rewrite Hget. cbn [map last_value user_binding].
      destruct (last_value name (map user_binding tl)); [reflexivity|].
      rewrite pydict_get_set_text.
      destruct (String.eqb _ name); reflexivity.
Qed.

Lemma as_privilege_loop_ok privileges :
  decodes_names ["ns"; "set"; "code"] ->
  forallb privilege_ok privileges = true ->
  forall acc,
    as_privilege_loop privileges acc
    = Some (acc ++ map privilege_dict privileges).
Proof.
  intros Hk. induction privileges as [|p tl IH]; intros H acc.
  - simpl. rewrite app_nil_r. reflexivity.
  - simpl in H. apply andb_true_iff in H. destruct H as [Hp Htl].
    unfold privilege_ok in Hp. apply andb_true_iff in Hp.
    destruct Hp as [Hns Hset].
    inversion Hk as [|? ? H1 Hk1]; subst.
    inversion Hk1 as [|? ? H2 Hk2]; subst.
    inversion Hk2 as [|? ? H3 _]; subst.
    assert (Ens : PyString_FromString (priv_ns p)
                  = Some (PyUnicode (c_str (priv_ns p))))
      by (unfold PyString_FromString; rewrite Hns; reflexivity).
    assert (Eset : PyString_FromString (priv_set p)
                   = Some (PyUnicode (c_str (priv_set p))))
      by (unfold PyString_FromString; rewrite Hset; reflexivity).
    cbn [as_privilege_loop]. rewrite Ens, Eset.
    rewrite !set_item_string by (assumption || reflexivity).
    rewrite (IH Htl). cbn [map]. rewrite <- app_assoc. reflexivity.
Qed.

Lemma as_privilege_to_pyobject_ok err privileges acc :
  decodes_names ["ns"; "set"; "code"] ->
  forallb privilege_ok privileges = true ->
  as_privilege_to_pyobject err privileges acc
  = Some (err0, PyList (acc ++ map privilege_dict privileges)).
Proof.
  intros Hk H. unfold as_privilege_to_pyobject.
  rewrite (@as_privilege_loop_ok privileges Hk H acc). reflexivity.
Qed.

Lemma as_role_array_loop_ok roles :
  decodes_names ["ns"; "set"; "code"] ->
  forallb role_ok roles = true ->
  forall err d,
  exists e d',
    as_role_array_loop roles err d = Some (e, d')
    /\ (roles <> [] -> e = err0)
    /\ forall name,
         pydict_get d' (PyUnicode name)
         = match last_value name (map role_binding roles) with
           | Some v => Some v
           | None => pydict_get d (PyUnicode name)
           end.
Proof.
  intros Hk. induction roles as [|r tl IH]; intros H err d.
  - exists err, d. split; [reflexivity|]. split; [congruence | reflexivity].
  - simpl in H. apply andb_true_iff in H. destruct H as [Hr Htl].
    unfold role_ok in Hr. apply andb_true_iff in Hr. destruct Hr as [Hn Hp].
    cbn [as_role_array_loop].
    rewrite (@as_privilege_to_pyobject_ok err (role_privileges r) [] Hk Hp).
    cbn [is_ok code err0 negb app]. unfold PyString_FromString. rewrite Hn.
    unfold PyDict_SetItem. cbn [hashable].
    destruct (IH Htl err0
                (pydict_set d (PyUnicode (c_str (role_name r)))
                   (privileges_list (role_privileges r))))
      as (e & d' & Hl & He & Hget).
    exists e, d'. split; [exact Hl|]. split.
    + intros _. destruct tl as [|r' tl'].
      * simpl in Hl. injection Hl as <- _. reflexivity.
      * apply He. discriminate.
    + intros name. rewrite Hget. cbn [map last_value role_binding].
      destruct (last_value name (map role_binding tl)); [reflexivity|].
      rewrite pydict_get_set_text.
      destruct (String.eqb _ name); reflexivity.
Qed.

End AdminFacts.

(** X7.  [as_udf_files_to_pyobject] makes of the files whose names the
    host decodes a list with one dict per file, in the order of the
    files, holding the file's name, the first [AS_UDF_FILE_HASH_SIZE]
    bytes of its hash, its type and the first [content.size] bytes of its
    content; it reports OK whatever error it was handed. *)
Theorem as_udf_files_to_pyobject_lists_every_file :
  forall (ext : Externals) (hash_size : Z) (err : as_error)
         (files : list as_udf_file),
    decodes_names ["name"; "hash"; "type"; "content"] ->
    forallb (fun f => utf8_decodable (c_str (udf_name f))) files = true ->
    as_udf_files_to_pyobject hash_size err files
    = Some (err0, PyList (map (udf_dict hash_size) files)).
Proof.
  intros ext hash_size err files Hk H. unfold as_udf_files_to_pyobject.
  rewrite (@as_udf_files_loop_ok ext hash_size files Hk H). destruct files; reflexivity.
Qed.

Lemma as_udf_files_to_pyobject_lists_every_file_witness :
  as_udf_files_to_pyobject (ext := demo_externals) 2 err0 [demo_udf_file]
  = Some (err0,
          PyList [PyDict [(PyUnicode "name", PyUnicode "sum.lua");
                          (PyUnicode "hash", PyByteArray [x61; x62]);
                          (PyUnicode "type", PyLong 0);
                          (PyUnicode "content", PyByteArray [x2d; x2d])]]).
Proof.
  apply (@as_udf_files_to_pyobject_lists_every_file demo_externals 2 err0
           [demo_udf_file]).
  - repeat constructor.
  - reflexivity.
Defined.

(** X8.  [as_user_array_to_pyobject] makes of the users whose names and
    role names the host decodes a dict from user name to the list of the
    user's roles, and reports OK; when a name occurs more than once the
    dict holds the roles of its last occurrence, and a name that names no
    user is not in the dict.  For one user, [as_user_to_pyobject] gives
    the list of roles alone. *)
Theorem as_user_array_to_pyobject_maps_names_to_roles :
  forall (ext : Externals) (err : as_error) (users : list as_user),
    forallb user_ok users = true ->
    (exists d,
       as_user_array_to_pyobject err users = Some (err0, PyDict d)
       /\ forall name,
            pydict_get d (PyUnicode name)
            = last_value name (map user_binding users))
    /\ forall u,
         In u users ->
         as_user_to_pyobject err u
         = Some (err0, Some (roles_list (user_roles u))).
Proof.
  intros ext err users H. split.
  - destruct (@as_user_array_loop_ok ext users H (as_error_reset err) [])
      as (e & d & Hl & He & Hget).
    exists d. split.
    + unfold as_user_array_to_pyobject. rewrite Hl.
      destruct users as [|u tl].
      * simpl in Hl. injection Hl as <- <-. reflexivity.
      * rewrite He by discriminate. reflexivity.
    + intros name. rewrite Hget.
      destruct (last_value name (map user_binding users)); reflexivity.
  - intros u Hin. rewrite forallb_forall in H. specialize (H u Hin).
    unfold user_ok in H. apply andb_true_iff in H. destruct H as [_ Hr].
    unfold as_user_to_pyobject.
    rewrite (@strArray_to_pyobject_ok ext (as_error_reset err) (user_roles u) Hr).
    reflexivity.
Qed.

Lemma as_user_array_to_pyobject_maps_names_to_roles_witness :
  exists d,
    as_user_array_to_pyobject (ext := demo_externals) err0 demo_users
    = Some (err0, PyDict d)
    /\ forall name,
         pydict_get d (PyUnicode name)
         = last_value name (map user_binding demo_users).
Proof.
  apply (proj1 (@as_user_array_to_pyobject_maps_names_to_roles
                  demo_externals err0 demo_users eq_refl)).
Defined.

(** X9.  [as_role_array_to_pyobject] makes of the roles whose names,
    namespaces and sets the host decodes a dict from role name to the
    list of the role's privileges, each privilege a dict with its
    namespace, set and code, and reports OK; a role name that occurs more
    than once keeps the privileges of its last occurrence.  For one role,
    [as_role_to_pyobject] gives the list of privileges alone, and
    [as_privilege_to_pyobject] appends the privileges, in order, to the
    list it is handed. *)
Theorem as_role_array_to_pyobject_maps_names_to_privileges :
  forall (ext : Externals) (err : as_error) (roles : list as_role),
    decodes_names ["ns"; "set"; "code"] ->
    forallb role_ok roles = true ->
    (exists d,
       as_role_array_to_pyobject err roles = Some (err0, PyDict d)
       /\ forall name,
            pydict_get d (PyUnicode name)
            = last_value name (map role_binding roles))
    /\ forall r,
         In r roles ->
         as_role_to_pyobject err r
         = Some (err0, Some (privileges_list (role_privileges r)))
         /\ forall acc,
              as_privilege_to_pyobject err (role_privileges r) acc
              = Some (err0,
                      PyList (acc ++ map privilege_dict (role_privileges r))).
Proof.
  intros ext err roles Hk H. split.
  - destruct (@as_role_array_loop_ok ext roles Hk H (as_error_reset err) [])
      as (e & d & Hl & He & Hget).
    exists d. split.
    + unfold as_role_array_to_pyobject. rewrite Hl.
      destruct roles as [|r tl].
      * simpl in Hl. injection Hl as <- <-. reflexivity.
      * rewrite He by discriminate. reflexivity.
    + intros name. rewrite Hget.
      destruct (last_value name (map role_binding roles)); reflexivity.
  - intros r Hin. rewrite forallb_forall in H. specialize (H r Hin).
    unfold role_ok in H. apply andb_true_iff in H. destruct H as [_ Hp].
    split.
    + unfold as_role_to_pyobject.
      rewrite (@as_privilege_to_pyobject_ok ext (as_error_reset err) (role_privileges r) [] Hk Hp).
      reflexivity.
    + intros acc. apply (@as_privilege_to_pyobject_ok ext err (role_privileges r) acc Hk Hp).
Qed.

Lemma as_role_array_to_pyobject_maps_names_to_privileges_witness :
  exists d,
    as_role_array_to_pyobject (ext := demo_externals) err0 demo_roles
    = Some (err0, PyDict d)
    /\ forall name,
         pydict_get d (PyUnicode name)
         = last_value name (map role_binding demo_roles).
Proof.
  apply (proj1 (@as_role_array_to_pyobject_maps_names_to_privileges
                  demo_externals err0 demo_roles
                  ltac:(repeat constructor) eq_refl)).
Defined.

(* ====================================================================== *)
(** * Privileges from Python *)

Lemma nth_error_middle (A : Type) (l0 : list A) (a : A) (l : list A) :
  nth_error (l0 ++ a :: l) (List.length l0) = Some a.
Proof. induction l0 as [|x l0 IH]; [reflexivity | exact IH]. Qed.

Lemma length_snoc (A : Type) (l0 : list A) (a : A) :
  List.length (l0 ++ [a]) = S (List.length l0).
Proof. rewrite length_app. simpl. lia. Qed.

Lemma app_snoc (A : Type) (l0 : list A) (a : A) (l : list A) :
  l0 ++ a :: l = (l0 ++ [a]) ++ l.
Proof. rewrite <- app_assoc. reflexivity. Qed.

Section PrivilegeFacts.

Variables ns_size set_size : Z.

Lemma privileges_loop_skips items :
  Forall (fun o => PyDict_Check o = false) items ->
  forall slots pre err,
    List.length slots = List.length items ->
    pyobject_to_as_privileges_loop ns_size set_size slots (List.length pre)
      (PyList (pre ++ items)) err
    = Some (err, slots).
Proof.
  induction 1 as [|o items Ho _ IH]; intros slots pre err Hlen.
  - destruct slots; [reflexivity | discriminate Hlen].
  - destruct slots as [|s slots]; [discriminate Hlen|].
    cbn [pyobject_to_as_privileges_loop PyList_GetItem].
    rewrite nth_error_middle, Ho.
    rewrite (app_snoc pre o items), <- (length_snoc pre o).
    rewrite IH by (simpl in Hlen; lia). reflexivity.
Qed.

Lemma privilege_dict_fields p :
  PyDict_GetItemString (privilege_dict p) "code" = Some (PyLong (priv_code p))
  /\ PyDict_GetItemString (privilege_dict p) "ns"
     = Some (PyUnicode (c_str (priv_ns p)))
  /\ PyDict_GetItemString (privilege_dict p) "set"
     = Some (PyUnicode (c_str (priv_set p))).
Proof. repeat split. Qed.

Lemma in_long_code (c : Z) : 0 <= c < 2 ^ 32 -> in_long c = true.
Proof.
  intros H. unfold in_long, LONG_MIN, LONG_MAX.
  apply andb_true_iff. split; apply Z.leb_le; lia.
Qed.

Lemma privileges_loop_reads privs :
  forallb (privilege_fits ns_size set_size) privs = true ->
  forall slots pre err,
    List.length slots = List.length privs ->
    pyobject_to_as_privileges_loop ns_size set_size slots (List.length pre)
      (PyList (pre ++ map privilege_dict privs)) err
    = Some (err, map (fun p => Slot_set (stored_privilege p)) privs).
Proof.
  induction privs as [|p privs IH]; intros H slots pre err Hlen.
  - destruct slots; [reflexivity | discriminate Hlen].
  - destruct slots as [|s slots]; [discriminate Hlen|].
    simpl in H. apply andb_true_iff in H. destruct H as [Hp Hrest].
    unfold privilege_fits in Hp.
    apply andb_true_iff in Hp. destruct Hp as [Hp Hc2].
    apply andb_true_iff in Hp. destruct Hp as [Hp Hc1].
    apply andb_true_iff in Hp. destruct Hp as [Hns Hset].
    apply Z.leb_le in Hc1. apply Z.ltb_lt in Hc2.
    cbn [map pyobject_to_as_privileges_loop PyList_GetItem].
    rewrite nth_error_middle.
    destruct (privilege_dict_fields p) as (Ec & En & Es).
    rewrite Ec, En, Es. cbn [PyDict_Check privilege_dict].
    unfold PyInt_AsLong.
    rewrite (@PyLong_AsLong_in (PyLong (priv_code p)) (priv_code p) eq_refl
               (in_long_code (conj Hc1 Hc2))).
    cbn [fst PyString_AsString]. unfold strcpy_into.
    rewrite !strlen_c_str, Hns, Hset, !c_str_idem.
    rewrite to_unsigned_small by lia.
    rewrite (app_snoc pre (privilege_dict p) (map privilege_dict privs)),
      <- (length_snoc pre (privilege_dict p)).
    rewrite IH by (assumption || (simpl in Hlen; lia)). reflexivity.
Qed.

Lemma privileges_loop_missing_code s1 :
  forall pre0 pre d post s s2 err e r1,
    List.length s1 = List.length pre ->
    PyDict_GetItemString (PyDict d) "code" = None ->
    is_ok err = true ->
    pyobject_to_as_privileges_loop ns_size set_size s1 (List.length pre0)
      (PyList (pre0 ++ pre)) err = Some (e, r1) ->
    is_ok e = true ->
    pyobject_to_as_privileges_loop ns_size set_size (s1 ++ s :: s2)
      (List.length pre0) (PyList (pre0 ++ pre ++ PyDict d :: post)) err
    = Some (mk_error AEROSPIKE_ERR_PARAM
              "Code is a compulsory parameter in privileges dictionary",
            r1 ++ Slot_allocated :: s2).
Proof.
  induction s1 as [|x s1 IH];
    intros pre0 pre d post s s2 err e r1 Hlen Hcode Herr Hrun He.
  - destruct pre; [|discriminate Hlen]. simpl in Hrun.
    injection Hrun as <- <-.
    cbn [app pyobject_to_as_privileges_loop PyList_GetItem].
    rewrite nth_error_middle. cbn [PyDict_Check]. rewrite Hcode. reflexivity.
  - destruct pre as [|o pre]; [discriminate Hlen|].
    cbn [app pyobject_to_as_privileges_loop PyList_GetItem] in Hrun |- *.
    rewrite nth_error_middle in Hrun |- *.
    destruct (PyDict_Check o).
    + destruct (PyDict_GetItemString o "code") as [py_code|];
        [|injection Hrun as <- _; discriminate He].
      destruct (match PyDict_GetItemString o "ns" with
                | Some py_ns => _ | None => _ end) as [nsv|];
        [|discriminate Hrun].
      destruct (match PyDict_GetItemString o "set" with
                | Some py_set => _ | None => _ end) as [setv|];
        [|discriminate Hrun].
      rewrite (app_snoc pre0 o pre), <- (length_snoc pre0 o) in Hrun.
      rewrite (app_snoc pre0 o (pre ++ PyDict d :: post)),
        <- (length_snoc pre0 o).
      destruct (pyobject_to_as_privileges_loop ns_size set_size s1
                  (List.length (pre0 ++ [o])) (PyList ((pre0 ++ [o]) ++ pre))
                  err) as [[e1 rest]|] eqn:E; [|discriminate Hrun].
      injection Hrun as <- <-.
      rewrite (IH (pre0 ++ [o]) pre d post s s2 err e1 rest
                 ltac:(simpl in Hlen; lia) Hcode Herr E He).
      reflexivity.
    + rewrite (app_snoc pre0 o pre), <- (length_snoc pre0 o) in Hrun.
      rewrite (app_snoc pre0 o (pre ++ PyDict d :: post)),
        <- (length_snoc pre0 o).
      destruct (pyobject_to_as_privileges_loop ns_size set_size s1
                  (List.length (pre0 ++ [o])) (PyList ((pre0 ++ [o]) ++ pre))
                  err) as [[e1 rest]|] eqn:E; [|discriminate Hrun].
      injection Hrun as <- <-.
      rewrite (IH (pre0 ++ [o]) pre d post s s2 err e1 rest
                 ltac:(simpl in Hlen; lia) Hcode Herr E He).
      reflexivity.
Qed.

End PrivilegeFacts.

(** X10.  [pyobject_to_as_privileges] passes over every item that is not
    a dict without a word: for a list none of whose items is a dict it
    reports OK and leaves every slot of the caller's array as it was, so
    the caller gets no privilege and no error. *)
Theorem pyobject_to_as_privileges_skips_what_is_no_dict :
  forall (ns_size set_size : Z) (err : as_error) (items : list PyObject)
         (slots : list privilege_slot),
    Forall (fun o => PyDict_Check o = false) items ->
    List.length slots = List.length items ->
    pyobject_to_as_privileges ns_size set_size err (PyList items) slots
    = Some (err0, slots).
Proof.
  intros ns_size set_size err items slots Hitems Hlen.
  unfold pyobject_to_as_privileges.
  apply (@privileges_loop_skips ns_size set_size items Hitems slots []
           (as_error_reset err) Hlen).
Qed.

Lemma pyobject_to_as_privileges_skips_what_is_no_dict_witness :
  pyobject_to_as_privileges 32 64 err0
    (PyList [PyUnicode "read"; PyLong 10]) [Slot_untouched; Slot_untouched]
  = Some (err0, [Slot_untouched; Slot_untouched]).
Proof.
  apply (@pyobject_to_as_privileges_skips_what_is_no_dict 32 64 err0
           [PyUnicode "read"; PyLong 10] [Slot_untouched; Slot_untouched]).
  - repeat constructor.
  - reflexivity.
Defined.

(** X11.  A dict without a [code] entry stops [pyobject_to_as_privileges]:
    when the items before it convert without error, the call reports
    InvalidParam, the slots of those items hold what their conversion
    gave, the slot of the dict has been allocated but holds no field, and
    the slots after it are as the caller left them. *)
Theorem pyobject_to_as_privileges_requires_code :
  forall (ns_size set_size : Z) (err : as_error) (pre : list PyObject)
         (d : pydict) (post : list PyObject)
         (s1 : list privilege_slot) (s : privilege_slot)
         (s2 : list privilege_slot) (e : as_error)
         (r1 : list privilege_slot),
    List.length s1 = List.length pre ->
    PyDict_GetItemString (PyDict d) "code" = None ->
    pyobject_to_as_privileges ns_size set_size err (PyList pre) s1
    = Some (e, r1) ->
    is_ok e = true ->
    pyobject_to_as_privileges ns_size set_size err
      (PyList (pre ++ PyDict d :: post)) (s1 ++ s :: s2)
    = Some (mk_error AEROSPIKE_ERR_PARAM
              "Code is a compulsory parameter in privileges dictionary",
            r1 ++ Slot_allocated :: s2).
Proof.
  intros ns_size set_size err pre d post s1 s s2 e r1 Hlen Hcode Hrun He.
  unfold pyobject_to_as_privileges in *.
  apply (@privileges_loop_missing_code ns_size set_size s1 [] pre d post s s2
           (as_error_reset err) e r1 Hlen Hcode eq_refl Hrun He).
Qed.

Lemma pyobject_to_as_privileges_requires_code_witness :
  pyobject_to_as_privileges 32 64 err0
    (PyList ([PyDict [(PyUnicode "code", PyLong 10)]]
             ++ PyDict [(PyUnicode "ns", PyUnicode "test")]
             :: [PyDict [(PyUnicode "code", PyLong 11)]]))
    ([Slot_untouched] ++ Slot_untouched :: [Slot_untouched])
  = Some (mk_error AEROSPIKE_ERR_PARAM
            "Code is a compulsory parameter in privileges dictionary",
          [Slot_set (mk_privilege 10 "" "")]
          ++ Slot_allocated :: [Slot_untouched]).
Proof.
  apply (@pyobject_to_as_privileges_requires_code 32 64 err0
           [PyDict [(PyUnicode "code", PyLong 10)]]
           [(PyUnicode "ns", PyUnicode "test")]
           [PyDict [(PyUnicode "code", PyLong 11)]]
           [Slot_untouched] Slot_untouched [Slot_untouched] err0
           [Slot_set (mk_privilege 10 "" "")]);
    reflexivity.
Defined.

(** X12.  Privileges survive the way to Python and back: a list of
    privileges whose namespaces and sets the host decodes and the buffers
    hold, and whose codes are values of the enumeration's 32 bits, is
    shown by [as_privilege_to_pyobject] as a list of dicts which
    [pyobject_to_as_privileges] reads back, without error, as the same
    codes and strings, one privilege per slot and in order. *)
Theorem privileges_round_trip :
  forall (ext : Externals) (ns_size set_size : Z) (err err' : as_error)
         (privs : list as_privilege) (slots : list privilege_slot),
    decodes_names ["ns"; "set"; "code"] ->
    forallb privilege_ok privs = true ->
    forallb (privilege_fits ns_size set_size) privs = true ->
    List.length slots = List.length privs ->
    exists py,
      as_privilege_to_pyobject err privs [] = Some (err0, py)
      /\ pyobject_to_as_privileges ns_size set_size err' py slots
         = Some (err0, map (fun p => Slot_set (stored_privilege p)) privs).
Proof.
  intros ext ns_size set_size err err' privs slots Hk Hok Hfit Hlen.
  exists (PyList (map privilege_dict privs)). split.
  - apply (@as_privilege_to_pyobject_ok ext err privs [] Hk Hok).
  - unfold pyobject_to_as_privileges.
    apply (@privileges_loop_reads ns_size set_size privs Hfit slots []
             (as_error_reset err') Hlen).
Qed.

Lemma privileges_round_trip_witness :
  exists py,
    as_privilege_to_pyobject (ext := demo_externals) err0 demo_privileges []
    = Some (err0, py)
    /\ pyobject_to_as_privileges 32 64 err0 py [Slot_untouched; Slot_untouched]
       = Some (err0,
               map (fun p => Slot_set (stored_privilege p)) demo_privileges).
Proof.
  apply (@privileges_round_trip demo_externals 32 64 err0 err0
           demo_privileges [Slot_untouched; Slot_untouched]).
  - repeat constructor.
  - reflexivity.
  - reflexivity.
  - reflexivity.
Defined.

(* ====================================================================== *)
(** * Results and statuses of the read path *)

Ltac split_matches H :=
  repeat
    (match type of H with
     | context [match ?x with _ => _ end] =>
         lazymatch x with
         | context [match _ with _ => _ end] => fail
         | _ => destruct x eqn:?
         end
     end;
     cbn [fst snd negb is_ok code as_error_update as_error_reset live_val]
       in H).

Section ReadResults.

Context {ext : Externals}.
Variable self : AerospikeClient.

Lemma do_val_to_pyobject_some_ok err v c e o :
  collaborators_pair_object_with_ok self ->
  do_val_to_pyobject self err v c = (e, Some o) -> is_ok e = true.
Proof.
  intros [Hdes Hgeo] H. destruct v; cbn [do_val_to_pyobject] in H;
    try (unfold list_to_pyobject_, as_list_of_map_to_py_tuple_list_,
           map_to_pyobject_, do_record_to_pyobject_, bins_to_pyobject_,
           key_to_pyobject, metadata_to_pyobject in H;
         split_matches H; try discriminate H;
         injection H as <- <-; try reflexivity; try assumption;
         try match goal with
             | H1 : negb (is_ok ?a) = false |- is_ok ?a = true =>
                 apply negb_false_iff; exact H1
             end; fail).
  - (* bytes *)
    pose proof (Hdes b (as_error_reset err) eq_refl) as Hd.
    unfold object_with_ok in Hd. rewrite H in Hd. apply Hd. discriminate.
  - (* GeoJSON *)
    destruct (AerospikeGeospatial_DoLoads _ _) as [e1 py_loads].
    destruct (negb (is_ok e1)) eqn:E1; [discriminate H|].
    apply negb_false_iff in E1. pose proof (Hgeo e1 py_loads E1) as Hg.
    unfold object_with_ok in Hg. rewrite H in Hg. apply Hg. discriminate.
Qed.

Lemma do_record_to_pyobject_some_ok err r k c e o :
  do_record_to_pyobject self err r k c = (e, Some o) -> is_ok e = true.
Proof.
  intros H. unfold do_record_to_pyobject, do_record_to_pyobject_,
    bins_to_pyobject_, key_to_pyobject, metadata_to_pyobject in H.
  split_matches H; try discriminate H;
    injection H as <- <-; try reflexivity; try assumption;
    try match goal with
        | H1 : negb (is_ok ?a) = false |- is_ok ?a = true =>
            apply negb_false_iff; exact H1
        end.
Qed.

Lemma do_record_to_pyobject_ok_some err r k c e o :
  do_record_to_pyobject self err r k c = (e, o) -> is_ok e = true ->
  o <> None.
Proof.
  intros H Hok. unfold do_record_to_pyobject, do_record_to_pyobject_,
    bins_to_pyobject_, key_to_pyobject, metadata_to_pyobject in H.
  split_matches H; injection H as <- <-; try discriminate;
    try match goal with
        | H1 : is_ok ?a = true, H2 : context [is_ok ?a] |- _ =>
            rewrite H1 in H2; discriminate H2
        end;
    try (unfold is_ok in *; simpl in *; congruence).
Qed.

End ReadResults.

(** X13.  On the read path a result and the status OK go together.
    [do_record_to_pyobject] (behind [record_to_pyobject]) clears the
    caller's pointer on entry and hands back a tuple exactly when it
    reports OK, whatever the collaborators do.  [do_val_to_pyobject] (and so
    [val_to_pyobject] and [val_to_pyobject_cnvt_list_to_map]) passes on what
    the deserializer and the geospatial constructor hand back; when these
    two hand back an object exactly when they report OK, so does the value
    converter, for every value however nested. *)
Theorem read_path_yields_object_iff_ok :
  forall (ext : Externals) (self : AerospikeClient) (err : as_error)
         (cnvt_list_to_map : bool),
    (forall rec key,
       is_ok (fst (do_record_to_pyobject self err rec key cnvt_list_to_map))
       = true
       <-> exists o,
             snd (do_record_to_pyobject self err rec key cnvt_list_to_map)
             = Some o)
    /\ (collaborators_pair_object_with_ok self ->
        forall v,
          is_ok (fst (do_val_to_pyobject self err v cnvt_list_to_map)) = true
          <-> exists o,
                snd (do_val_to_pyobject self err v cnvt_list_to_map) = Some o).
Proof.
  intros ext self err c. split.
  - intros rec key.
    destruct (do_record_to_pyobject self err rec key c) as [e o] eqn:E.
    cbn [fst snd]. split.
    + intros Hok. destruct o as [o|]; [exists o; reflexivity|].
      exfalso.
      exact (@do_record_to_pyobject_ok_some ext self err rec key c e None
               E Hok eq_refl).
    + intros [o' ->].
      exact (@do_record_to_pyobject_some_ok ext self err rec key c e o' E).
  - intros Hcol v.
    destruct (do_val_to_pyobject self err v c) as [e o] eqn:E. cbn [fst snd].
    split.
    + intros Hok. destruct o as [o|]; [exists o; reflexivity|].
      exfalso.
      exact (@do_val_to_pyobject_ok_some ext self err v c e None E Hok
               eq_refl).
    + intros [o' ->].
      exact (@do_val_to_pyobject_some_ok ext self err v c e o' Hcol E).
Qed.

Lemma demo_collaborators_pair_object_with_ok :
  collaborators_pair_object_with_ok (ext := demo_externals) demo_client.
Proof.
  split.
  - intros bytes err Hok. unfold object_with_ok.
    cbn [deserialize_based_on_as_bytes_type demo_externals].
    unfold demo_deserialize.
    destruct (bytes_type bytes =? AS_BYTES_BLOB);
      [|destruct (bytes_type bytes =? AS_BYTES_PYTHON)]; cbn [fst snd].
    + split; [discriminate|]. intros _. exact Hok.
    + split; [discriminate|]. intros _. exact Hok.
    + split; [discriminate|]. intros H. exfalso. apply H. reflexivity.
  - intros err o _. unfold object_with_ok. cbn. split; [discriminate|].
    intros H. exfalso. apply H. reflexivity.
Qed.

(** A map that holds a blob, read with the demonstration collaborators. *)
Lemma read_path_yields_object_iff_ok_witness :
  is_ok (fst (do_val_to_pyobject (ext := demo_externals) demo_client err0
                (AS_MAP [(AS_INTEGER 1, AS_BYTES (mk_bytes AS_BYTES_BLOB [x01]))])
                false)) = true
  <-> exists o,
        snd (do_val_to_pyobject (ext := demo_externals) demo_client err0
               (AS_MAP [(AS_INTEGER 1, AS_BYTES (mk_bytes AS_BYTES_BLOB [x01]))])
               false) = Some o.
Proof.
  exact (proj2 (@read_path_yields_object_iff_ok demo_externals demo_client
                  err0 false)
           demo_collaborators_pair_object_with_ok
           (AS_MAP [(AS_INTEGER 1, AS_BYTES (mk_bytes AS_BYTES_BLOB [x01]))])).
Defined.

(* ====================================================================== *)
(** * The two value converters of the write path *)

(** X14.  [pyobject_to_astype_write], the converter of the operation
    calls, and [pyobject_to_val] give the same error, pool and value for
    every object but [None], bytes, a bytearray and an integer that does
    not fit a C [long]; inside a list or dict every object is converted
    alike, both converters handing collections to [pyobject_to_list] and
    [pyobject_to_map]. *)
Theorem pyobject_to_astype_write_agrees_with_pyobject_to_val :
  forall (ext : Externals) (self : AerospikeClient) (err : as_error)
         (o : PyObject) (pool : as_static_pool) (ty : Z),
    same_dispatch o = true ->
    pyobject_to_astype_write self err o pool ty
    = pyobject_to_val self err (Some o) pool ty.
Proof.
  intros ext self err o pool ty H.
  destruct o; try discriminate H; try reflexivity.
  - (* int *)
    simpl in H. unfold pyobject_to_astype_write, pyobject_to_val,
      pyobject_to_val_obj.
    cbn [PyBool_Check PyInt_Check PyLong_Check]. unfold overflowed, PyInt_AsLong.
    rewrite (@PyLong_AsLong_in (PyLong z) z eq_refl H).
    cbn [fst snd PyErr_Occurred]. rewrite andb_false_r. reflexivity.
Qed.

Lemma pyobject_to_astype_write_agrees_with_pyobject_to_val_witness :
  pyobject_to_astype_write (ext := demo_externals) demo_client err0
    (PyList [PyLong 1; PyByteArray [x01]; Py_None]) pool0 0
  = pyobject_to_val (ext := demo_externals) demo_client err0
      (Some (PyList [PyLong 1; PyByteArray [x01]; Py_None])) pool0 0.
Proof.
  apply (@pyobject_to_astype_write_agrees_with_pyobject_to_val demo_externals
           demo_client err0 (PyList [PyLong 1; PyByteArray [x01]; Py_None])
           pool0 0).
  reflexivity.
Defined.

(** X15.  Where the two converters part.  An integer that does not fit a
    C [long] is stored by [pyobject_to_astype_write] as the Integer -1
    with status OK, the overflow going unnoticed, while [pyobject_to_val]
    reports InvalidParam.  A bytearray of less than 2^32 bytes is wrapped
    as a blob of the same bytes by [pyobject_to_astype_write], which takes
    no wrapper from the pool and does not call the serializer.  [None] is
    Nil for [pyobject_to_val]; [pyobject_to_astype_write] never makes Nil
    of it, and hands it to the serializer like any other object it does
    not know. *)
Theorem pyobject_to_astype_write_parts_from_pyobject_to_val :
  forall (ext : Externals) (self : AerospikeClient) (err : as_error)
         (pool : as_static_pool) (ty : Z),
    (forall z,
       in_long z = false ->
       pyobject_to_astype_write self err (PyLong z) pool ty
       = (err0, pool, Some (AS_INTEGER (-1)))
       /\ pyobject_to_val self err (Some (PyLong z)) pool ty
          = (mk_error AEROSPIKE_ERR_PARAM "integer value exceeds sys.maxsize",
             pool, None))
    /\ (forall b,
          Z.of_nat (List.length b) < 2 ^ 32 ->
          pyobject_to_astype_write self err (PyByteArray b) pool ty
          = (err0, pool, Some (AS_BYTES (mk_bytes AS_BYTES_BLOB b))))
    /\ pyobject_to_val self err (Some Py_None) pool ty
       = (err0, pool, Some AS_NIL)
    /\ snd (pyobject_to_astype_write self err Py_None pool ty) <> Some AS_NIL.
Proof.
  intros ext self err pool ty. split; [|split; [|split]].
  - intros z Hz. split.
    + unfold pyobject_to_astype_write.
      cbn [PyBool_Check PyInt_Check PyLong_Check]. unfold PyInt_AsLong.
      rewrite (@PyLong_AsLong_out (PyLong z) z eq_refl Hz). reflexivity.
    + unfold pyobject_to_val, pyobject_to_val_obj.
      cbn [PyBool_Check PyInt_Check PyLong_Check].
      unfold overflowed, PyInt_AsLong.
      rewrite (@PyLong_AsLong_out (PyLong z) z eq_refl Hz). reflexivity.
  - intros b Hb. unfold pyobject_to_astype_write.
    cbn [PyBool_Check PyInt_Check PyLong_Check PyUnicode_Check PyString_Check
         PyByteArray_Check PyByteArray_AsString PyByteArray_Size tp_name].
    change (String.eqb "bytearray" GEOSPATIAL_NAME) with false. cbv iota.
    unfold as_bytes_new_wrap.
    rewrite firstn_whole by (apply Z.ltb_lt; exact Hb). reflexivity.
  - reflexivity.
  - unfold pyobject_to_astype_write.
    cbn [PyBool_Check PyInt_Check PyLong_Check PyUnicode_Check PyString_Check
         PyByteArray_Check PyList_Check PyDict_Check PyFloat_Check tp_name].
    change (String.eqb "NoneType" GEOSPATIAL_NAME) with false.
    unfold AS_Matches_Classname. cbn [tp_name].
    change (String.eqb "NoneType" NULL_NAME) with false. cbv iota.
    destruct (String.eqb "NoneType" AS_CDT_WILDCARD_NAME);
      [discriminate|].
    destruct (String.eqb "NoneType" AS_CDT_INFINITE_NAME);
      [discriminate|].
    destruct (serialize_in_pool self (as_error_reset err) pool ty
                (Some Py_None)) as [[e p] [bytes| |]];
      discriminate.
Qed.

Lemma pyobject_to_astype_write_parts_from_pyobject_to_val_witness :
  pyobject_to_astype_write (ext := demo_externals) demo_client err0
    (PyLong (2 ^ 64)) pool0 0
  = (err0, pool0, Some (AS_INTEGER (-1)))
  /\ pyobject_to_val (ext := demo_externals) demo_client err0
       (Some (PyLong (2 ^ 64))) pool0 0
     = (mk_error AEROSPIKE_ERR_PARAM "integer value exceeds sys.maxsize",
        pool0, None).
Proof.
  apply (proj1 (@pyobject_to_astype_write_parts_from_pyobject_to_val
                  demo_externals demo_client err0 pool0 0) (2 ^ 64)).
  reflexivity.
Defined.

(* ====================================================================== *)
(** * Keys there and back *)

Lemma given_or_None (p : option PyObject) : given (Some (or_None p)) = given p.
Proof. destruct p as [o|]; [destruct o|]; reflexivity. Qed.

Lemma firstn_length_Z (A : Type) (b : list A) :
  firstn (Z.to_nat (Z.of_nat (List.length b))) b = b.
Proof. rewrite Nat2Z.id. apply firstn_all. Qed.

Section KeyRoundTrip.

Context {ext : Externals}.

Lemma key_text_parts s :
  key_text s = true ->
  c_str s = s /\ utf8_decodable s = true /\ (0 <? strlen s) = true.
Proof.
  unfold key_text. intros H.
  apply andb_true_iff in H. destruct H as [H H3].
  apply andb_true_iff in H. destruct H as [H1 H2].
  split; [apply no_nul_c_str; exact H1 | split; assumption].
Qed.

(** What [key_to_pyobject] makes of a key the driver initialised from a
    namespace and a set that are plain text. *)
Lemma key_to_pyobject_of_init err nsv setv v d :
  key_text nsv = true -> key_text setv = true ->
  key_to_pyobject err (Some (mk_key (Some nsv) (Some setv) v d))
  = (err0,
     Some (PyTuple
             [PyUnicode nsv; PyUnicode setv;
              or_None
                (match v with
                 | Some (AS_KEY_INTEGER ival) => Some (PyInt_FromLong ival)
                 | Some (AS_KEY_STRING sval) =>
                     match PyString_FromString sval with
                     | Some o => Some o
                     | None =>
                         match PyUnicode_DecodeUTF8 sval (strlen sval) with
                         | Some o => Some o
                         | None => Some (PyBytes_FromString sval)
                         end
                     end
                 | Some (AS_KEY_BYTES bval) =>
                     Some (PyByteArray_FromStringAndSize (bytes_value bval)
                             (Z.of_nat (List.length (bytes_value bval))))
                 | _ => None
                 end);
              or_None
                (if init d
                 then Some (PyByteArray_FromStringAndSize (value d)
                              AS_DIGEST_VALUE_SIZE)
                 else None)])).
Proof.
  intros Hns Hset.
  destruct (key_text_parts _ Hns) as (Hn1 & Hn2 & Hn3).
  destruct (key_text_parts _ Hset) as (Hs1 & Hs2 & Hs3).
  unfold key_to_pyobject. cbn [ns set valuep digest].
  rewrite Hn3, Hs3. unfold PyString_FromString at 1 2.
  rewrite Hn1, Hs1, Hn2, Hs2. cbn [or_None].
  destruct v as [[ival|sval|bval|]|]; reflexivity.
Qed.

End KeyRoundTrip.

(** X16.  Keys survive [pyobject_to_key] followed by [key_to_pyobject].
    A tuple (namespace, set, key) whose namespace and set are non-empty
    text free of NUL that the host decodes and the driver accepts, and
    whose key is an integer of 64 bits, such text, or a non-empty
    bytearray, is parsed without error and externalizes to the same
    namespace, set and key with [None] for the digest; a tuple
    (namespace, set, None, digest) with a bytearray of 20 bytes comes back
    with that digest and [None] for the key. *)
Theorem key_round_trip :
  forall (ext : Externals) (err err' : as_error) (nsv setv : string),
    key_text nsv = true ->
    key_text setv = true ->
    as_key_init_accepts nsv (Some setv) = true ->
    (forall k,
       plain_user_key k = true ->
       exists key,
         pyobject_to_key err
           (Some (PyTuple [PyUnicode nsv; PyUnicode setv; k]))
         = (err0, Some key)
         /\ key_to_pyobject err' (Some key)
            = (err0,
               Some (PyTuple [PyUnicode nsv; PyUnicode setv; k; Py_None])))
    /\ (forall d,
          List.length d = 20%nat ->
          exists key,
            pyobject_to_key err
              (Some (PyTuple [PyUnicode nsv; PyUnicode setv; Py_None;
                              PyByteArray d]))
            = (err0, Some key)
            /\ key_to_pyobject err' (Some key)
               = (err0,
                  Some (PyTuple [PyUnicode nsv; PyUnicode setv; Py_None;
                                 PyByteArray d]))).
Proof.
  intros ext err err' nsv setv Hns Hset Hacc.
  destruct (key_text_parts _ Hns) as (Hn1 & Hn2 & Hn3).
  destruct (key_text_parts _ Hset) as (Hs1 & Hs2 & Hs3).
  assert (Hinit : forall v d,
            as_key_init nsv (Some setv) v d
            = Some (mk_key (Some nsv) (Some setv) v d)).
  { intros v d. unfold as_key_init. cbn [option_map].
    rewrite Hn1, Hs1, Hacc. reflexivity. }
  split.
  - intros k Hk. destruct k; try discriminate Hk; simpl in Hk.
    + (* an integer *)
      eexists. split.
      * unfold pyobject_to_key, key_parts.
        cbn [PyTuple_Check PyTuple_Size PyTuple_GetItem List.length nth_error
             Z.of_nat Pos.of_succ_nat Pos.succ Z.ltb Z.compare Pos.compare
             Pos.compare_cont orb Z.eqb Pos.eqb PyString_Check PyUnicode_Check
             negb PyString_AsString given PyBytes_AsString
             PyUnicode_AsUTF8String PyInt_Check PyLong_Check].
        unfold PyInt_AsLong.
        rewrite (@PyLong_AsLong_in (PyLong z) z eq_refl Hk).
        cbn [fst snd PyErr_Occurred]. rewrite andb_false_r.
        unfold as_key_init_int64. rewrite Hinit. reflexivity.
      * rewrite (@key_to_pyobject_of_init ext err' nsv setv _ _ Hns Hset). reflexivity.
    + (* text *)
      apply andb_true_iff in Hk. destruct Hk as [Hk1 Hk2].
      eexists. split.
      * unfold pyobject_to_key, key_parts.
        cbn [PyTuple_Check PyTuple_Size PyTuple_GetItem List.length nth_error
             Z.of_nat Pos.of_succ_nat Pos.succ Z.ltb Z.compare Pos.compare
             Pos.compare_cont orb Z.eqb Pos.eqb PyString_Check PyUnicode_Check
             negb PyString_AsString given PyBytes_AsString
             PyUnicode_AsUTF8String].
        rewrite string_of_list_byte_of_string.
        unfold as_key_init_strp. rewrite Hinit. reflexivity.
      * rewrite (@key_to_pyobject_of_init ext err' nsv setv _ _ Hns Hset).
        unfold PyString_FromString.
        rewrite c_str_idem, (no_nul_c_str _ Hk1), Hk2. reflexivity.
    + (* a bytearray *)
      apply andb_true_iff in Hk. destruct Hk as [Hk1 Hk2].
      apply Z.ltb_lt in Hk1. apply Z.ltb_lt in Hk2.
      eexists. split.
      * unfold pyobject_to_key, key_parts.
        cbn [PyTuple_Check PyTuple_Size PyTuple_GetItem List.length nth_error
             Z.of_nat Pos.of_succ_nat Pos.succ Z.ltb Z.compare Pos.compare
             Pos.compare_cont orb Z.eqb Pos.eqb PyString_Check PyUnicode_Check
             negb PyString_AsString given PyBytes_AsString
             PyUnicode_AsUTF8String PyInt_Check PyLong_Check
             PyByteArray_Check PyByteArray_Size PyByteArray_AsString].
        rewrite to_unsigned_small by lia.
        assert (Hpos : (Z.of_nat (List.length b) <=? 0) = false)
          by (apply Z.leb_gt; exact Hk1).
        rewrite Hpos. unfold as_key_init_raw. rewrite Hinit. reflexivity.
      * rewrite (@key_to_pyobject_of_init ext err' nsv setv _ _ Hns Hset).
        unfold as_bytes_new_wrap, PyByteArray_FromStringAndSize.
        cbn [bytes_value init no_digest or_None].
        rewrite !firstn_length_Z. reflexivity.
  - intros d Hd. eexists. split.
    + unfold pyobject_to_key, key_parts.
      cbn [PyTuple_Check PyTuple_Size PyTuple_GetItem List.length nth_error
           Z.of_nat Pos.of_succ_nat Pos.succ Z.ltb Z.compare Pos.compare
           Pos.compare_cont orb Z.eqb Pos.eqb PyString_Check PyUnicode_Check
           negb PyString_AsString given PyBytes_AsString
           PyUnicode_AsUTF8String PyByteArray_Check PyByteArray_Size
           PyByteArray_AsString].
      rewrite Hd. change (to_unsigned 32 (Z.of_nat 20)) with 20.
      change (negb (20 =? AS_DIGEST_VALUE_SIZE)) with false. cbv iota.
      unfold as_key_init_digest. rewrite Hinit. reflexivity.
    + rewrite (@key_to_pyobject_of_init ext err' nsv setv _ _ Hns Hset).
      cbn [init value or_None]. unfold PyByteArray_FromStringAndSize.
      change (Z.to_nat AS_DIGEST_VALUE_SIZE) with 20%nat.
      rewrite <- Hd, !firstn_all. reflexivity.
Qed.

Lemma key_round_trip_witness :
  exists key,
    pyobject_to_key (ext := demo_externals) err0
      (Some (PyTuple [PyUnicode "test"; PyUnicode "demo"; PyLong 7]))
    = (err0, Some key)
    /\ key_to_pyobject (ext := demo_externals) err0 (Some key)
       = (err0,
          Some (PyTuple [PyUnicode "test"; PyUnicode "demo"; PyLong 7;
                         Py_None])).
Proof.
  apply (proj1 (@key_round_trip demo_externals err0 err0 "test" "demo"
                  eq_refl eq_refl eq_refl) (PyLong 7)).
  reflexivity.
Defined.

(** X17.  A key given as a dict parses as the tuple of its entries: when
    the dict has a namespace under [ns], [pyobject_to_key] gives for it
    what it gives for the 4-tuple of the entries under [ns], [set], [key]
    and [digest], with [None] in the place of an entry the dict does not
    have. *)
Theorem pyobject_to_key_dict_is_its_tuple :
  forall (ext : Externals) (err : as_error) (d : pydict) (py_ns : PyObject),
    PyDict_GetItemString (PyDict d) "ns" = Some py_ns ->
    pyobject_to_key err (Some (PyDict d))
    = pyobject_to_key err
        (Some (PyTuple [py_ns;
                        or_None (PyDict_GetItemString (PyDict d) "set");
                        or_None (PyDict_GetItemString (PyDict d) "key");
                        or_None (PyDict_GetItemString (PyDict d) "digest")])).
Proof.
  intros ext err d py_ns Hns.
  unfold pyobject_to_key, key_parts.
  cbn [PyTuple_Check PyDict_Check PyTuple_Size PyTuple_GetItem List.length
       nth_error Z.of_nat Pos.of_succ_nat Pos.succ Z.ltb Z.compare Pos.compare
       Pos.compare_cont orb Z.eqb Pos.eqb].
  rewrite Hns, !given_or_None. reflexivity.
Qed.

Lemma pyobject_to_key_dict_is_its_tuple_witness :
  pyobject_to_key (ext := demo_externals) err0
    (Some (PyDict [(PyUnicode "ns", PyUnicode "test");
                   (PyUnicode "key", PyLong 7)]))
  = pyobject_to_key (ext := demo_externals) err0
      (Some (PyTuple [PyUnicode "test"; Py_None; PyLong 7; Py_None])).
Proof.
  apply (@pyobject_to_key_dict_is_its_tuple demo_externals err0
           [(PyUnicode "ns", PyUnicode "test"); (PyUnicode "key", PyLong 7)]
           (PyUnicode "test")).
  reflexivity.
Defined.

(* ====================================================================== *)
(** * Metadata there and back *)

Section MetaFacts.

Context {ext : Externals}.
Variable self : AerospikeClient.

(** The dict [metadata_to_pyobject] builds when the host decodes its two
    names. *)
Lemma metadata_to_pyobject_dict err rec :
  decodes_names ["ttl"; "gen"] ->
  metadata_to_pyobject err (Some rec)
  = (err0, Some (PyDict [(PyUnicode "ttl", PyLong (ttl rec));
                         (PyUnicode "gen", PyLong (gen rec))])).
Proof.
  intros Hk.
  inversion Hk as [|? ? H1 Hk1]; subst.
  inversion Hk1 as [|? ? H2 _]; subst.
  unfold metadata_to_pyobject.
  rewrite !set_item_string by (assumption || reflexivity).
  reflexivity.
Qed.

(** A turn of the bin loop that leaves by [return] carries an error. *)
Lemma record_bin_step_return err pool rec rv ty key value e p r :
  record_bin_step self err pool rec rv ty key value = Step_return e p r ->
  is_ok e = false.
Proof.
  intros H. unfold record_bin_step in H.
  unfold serialize_in_pool, GET_BYTES_POOL, pyobject_to_list, pyobject_to_map,
    pyobject_to_list_, pyobject_to_map_ in H.
  repeat
    (match type of H with
     | context [match ?x with _ => _ end] =>
         lazymatch x with
         | context [match _ with _ => _ end] => fail
         | _ => destruct x eqn:?
         end
     end;
     cbn [fst snd negb is_ok code as_error_update as_error_reset] in H);
    try discriminate H; injection H as <- _ _; try reflexivity;
    try match goal with
        | H1 : negb (is_ok ?a) = true |- is_ok ?a = false =>
            apply negb_true_iff; exact H1
        end.
Qed.

Lemma record_bins_loop_return items :
  forall err pool rec rv ty e p r,
    record_bins_loop self items err pool rec rv ty = (true, e, p, r) ->
    is_ok e = false.
Proof.
  induction items as [|[key value] tl IH]; intros err pool rec rv ty e p r H.
  - discriminate H.
  - cbn [record_bins_loop] in H.
    destruct (record_bin_step self err pool rec rv ty key value)
      as [e1 p1 r1|e1 p1 r1|e1 p1 r1 rv1] eqn:E.
    + injection H as <- _ _.
      exact (record_bin_step_return _ _ _ _ _ _ _ E).
    + discriminate H.
    + exact (IH _ _ _ _ _ _ _ _ H).
Qed.

End MetaFacts.

(** X18.  The metadata of a record read from the server can be handed
    back on a write.  For a record whose [ttl] and [gen] are values of
    their unsigned 32-bit and 16-bit fields, [metadata_to_pyobject] builds
    a dict which [check_for_meta] stores into the operations as the same
    [ttl] and [gen], and which [pyobject_to_record], wherever it converts
    the bins without error, stores into the record as the same [ttl] and
    [gen], the bins, the error and the pool being what they are without
    metadata. *)
Theorem metadata_round_trip :
  forall (ext : Externals) (self : AerospikeClient) (err err' : as_error)
         (rec : as_record),
    decodes_names ["ttl"; "gen"] ->
    0 <= ttl rec < 2 ^ 32 ->
    0 <= gen rec < 2 ^ 16 ->
    exists py_meta,
      metadata_to_pyobject err (Some rec) = (err0, Some py_meta)
      /\ (forall ops,
            check_for_meta (Some py_meta) ops err'
            = (err0, mk_operations (ttl rec) (gen rec)))
      /\ (forall py_rec ty pool e p r,
            pyobject_to_record self err' (Some py_rec) None ty pool
            = (e, p, Live r) ->
            is_ok e = true ->
            pyobject_to_record self err' (Some py_rec) (Some py_meta) ty pool
            = (e, p, Live (set_gen (set_ttl r (ttl rec)) (gen rec)))).
Proof.
  intros ext self err err' rec Hk Httl Hgen.
  exists (PyDict [(PyUnicode "ttl", PyLong (ttl rec));
                  (PyUnicode "gen", PyLong (gen rec))]).
  split; [apply metadata_to_pyobject_dict; exact Hk|].
  assert (Ht : in_long (ttl rec) = true) by (apply in_long_code; exact Httl).
  assert (Hg : in_long (gen rec) = true) by (apply in_long_code; lia).
  split.
  - intros ops. unfold check_for_meta.
    cbn [PyDict_Check PyDict_GetItemString pydict_get PyObject_eqb String.eqb
         Ascii.eqb Bool.eqb].
    rewrite (@check_meta_field_in 32 _ _ (as_error_reset err')
               (PyLong (ttl rec)) (ttl rec) eq_refl Ht).
    rewrite (@check_meta_field_in 16 _ _ (as_error_reset err')
               (PyLong (gen rec)) (gen rec) eq_refl Hg).
    rewrite !to_unsigned_small by lia. reflexivity.
  - intros py_rec ty pool e p r H He.
    unfold pyobject_to_record in H |- *.
    destruct (PyDict_Check py_rec); [|discriminate H].
    destruct (record_bins_loop self (dict_items py_rec) (as_error_reset err')
                pool (as_record_init (PyDict_Size py_rec)) false ty)
      as [[[returned e1] p1] r1] eqn:E.
    destruct returned.
    + injection H as <- _ _.
      rewrite (record_bins_loop_return _ _ _ _ _ _ _ E) in He.
      discriminate He.
    + cbn [record_meta] in H.
      destruct (negb (is_ok e1)) eqn:Hn; [discriminate H|].
      injection H as <- <- <-.
      unfold record_meta.
      cbn [PyDict_Check negb PyDict_GetItemString pydict_get PyObject_eqb
           String.eqb Ascii.eqb Bool.eqb].
      rewrite (@record_meta_field_in 32 _ e1 (PyLong (ttl rec)) (ttl rec)
                 eq_refl Ht).
      rewrite (@record_meta_field_in 16 _ e1 (PyLong (gen rec)) (gen rec)
                 eq_refl Hg).
      rewrite !to_unsigned_small by lia. rewrite Hn. reflexivity.
Qed.

Lemma metadata_round_trip_witness :
  exists py_meta,
    metadata_to_pyobject (ext := demo_externals) err0
      (Some (mk_record empty_key 3 4294967295 0 []))
    = (err0, Some py_meta)
    /\ forall ops,
         check_for_meta (Some py_meta) ops err0
         = (err0, mk_operations 4294967295 3).
Proof.
  destruct (@metadata_round_trip demo_externals demo_client err0 err0
              (mk_record empty_key 3 4294967295 0 []))
    as (m & H1 & H2 & _).
  - repeat constructor.
  - simpl. lia.
  - simpl. lia.
  - exists m. split; [exact H1 | exact H2].
Defined.

(** X19.  [check_for_meta] stores as it goes: when the [ttl] entry is an
    integer of 64 bits and the [gen] entry is rejected, it reports
    InvalidParam with the [ttl] of the operations already overwritten and
    their [gen] as it was; when the [ttl] entry itself is rejected the
    operations are left as they were. *)
Theorem check_for_meta_stores_ttl_before_it_rejects_gen :
  forall (m : pydict) (ops : as_operations) (err : as_error)
         (vt vg : PyObject),
    PyDict_GetItemString (PyDict m) "ttl" = Some vt ->
    PyDict_GetItemString (PyDict m) "gen" = Some vg ->
    (forall t,
       classify vt = Entry_fits t ->
       classify vg = Entry_rejected ->
       code (fst (check_for_meta (Some (PyDict m)) ops err))
       = AEROSPIKE_ERR_PARAM
       /\ snd (check_for_meta (Some (PyDict m)) ops err)
          = mk_operations (t mod 2 ^ 32) (ops_gen ops))
    /\ (classify vt = Entry_rejected ->
        code (fst (check_for_meta (Some (PyDict m)) ops err))
        = AEROSPIKE_ERR_PARAM
        /\ snd (check_for_meta (Some (PyDict m)) ops err) = ops).
Proof.
  intros m ops err vt vg Ht Hg. unfold check_for_meta.
  cbn [PyDict_Check]. rewrite Ht, Hg. split.
  - intros t Ct Cg. destruct (classify_fits _ Ct) as [Hvt Hzt].
    rewrite (@check_meta_field_in 32 _ _ (as_error_reset err) vt t Hvt Hzt).
    destruct (@check_meta_field_rejected 16
                "Generation should be an int or long"
                "integer value for gen exceeds sys.maxsize"
                (as_error_reset err) vg Cg) as (msg & ->).
    split; reflexivity.
  - intros Ct.
    destruct (@check_meta_field_rejected 32
                "Ttl should be an int or long"
                "integer value for ttl exceeds sys.maxsize"
                (as_error_reset err) vt Ct) as (msg & ->).
    split; reflexivity.
Qed.

Lemma check_for_meta_stores_ttl_before_it_rejects_gen_witness :
  code (fst (check_for_meta
               (Some (PyDict [(PyUnicode "ttl", PyLong 100);
                              (PyUnicode "gen", PyUnicode "two")]))
               (mk_operations 0 7) err0))
  = AEROSPIKE_ERR_PARAM
  /\ snd (check_for_meta
            (Some (PyDict [(PyUnicode "ttl", PyLong 100);
                           (PyUnicode "gen", PyUnicode "two")]))
            (mk_operations 0 7) err0)
     = mk_operations (100 mod 2 ^ 32) 7.
Proof.
  apply (proj1 (@check_for_meta_stores_ttl_before_it_rejects_gen
                  [(PyUnicode "ttl", PyLong 100);
                   (PyUnicode "gen", PyUnicode "two")]
                  (mk_operations 0 7) err0 (PyLong 100) (PyUnicode "two")
                  eq_refl eq_refl) 100);
    reflexivity.
Defined.

(* ====================================================================== *)
(** * Bins *)

(** X20.  A bin whose name is longer than [AS_BIN_NAME_MAX_LEN] is lost
    without a word when strict types are off: [pyobject_to_record], given
    a record whose only bin has such a name and an integer value, reports
    OK and hands back a record with no bin.  With strict types on it
    reports BinNameError; the record it has initialised is then still
    live with the caller. *)
Theorem pyobject_to_record_long_bin_name :
  forall (ext : Externals) (self : AerospikeClient) (err : as_error)
         (name : string) (z : Z) (ty : Z) (pool : as_static_pool),
    AS_BIN_NAME_MAX_LEN < strlen name ->
    in_long z = true ->
    pyobject_to_record self err (Some (PyDict [(PyUnicode name, PyLong z)]))
      None ty pool
    = if strict_types self then
        (mk_error AEROSPIKE_ERR_BIN_NAME
           "A bin name should not exceed 14 characters limit",
         pool, Live (as_record_init 1))
      else (err0, pool, Live (as_record_init 1)).
Proof.
  intros ext self err name z ty pool Hname Hz.
  assert (Hlong : (AS_BIN_NAME_MAX_LEN <? strlen name) = true)
    by (apply Z.ltb_lt; exact Hname).
  unfold pyobject_to_record.
  cbn [PyDict_Check PyDict_Size dict_items record_bins_loop].
  unfold record_bin_step. cbn [PyUnicode_Check].
  rewrite bin_name_of_unicode, Hlong.
  destruct (strict_types self) eqn:Hs; cbn [andb]; [reflexivity|].
  cbn [PyBool_Check PyInt_Check PyLong_Check].
  unfold overflowed, PyInt_AsLong.
  rewrite (@PyLong_AsLong_in (PyLong z) z eq_refl Hz).
  cbn [fst snd PyErr_Occurred]. rewrite andb_false_r. cbv iota.
  unfold as_record_set. rewrite strlen_c_str, Hlong. reflexivity.
Qed.

Lemma pyobject_to_record_long_bin_name_witness :
  pyobject_to_record (ext := demo_externals) demo_client err0
    (Some (PyDict [(PyUnicode "a-bin-name-of-great-length", PyLong 1)]))
    None 0 pool0
  = (err0, pool0, Live (as_record_init 1)).
Proof.
  apply (@pyobject_to_record_long_bin_name demo_externals demo_client err0
           "a-bin-name-of-great-length" 1 0 pool0).
  - apply Z.ltb_lt. reflexivity.
  - reflexivity.
Defined.

Section BinFacts.

Context {ext : Externals}.
Variable self : AerospikeClient.

Lemma bins_to_pyobject_foreach_ok b pys :
  Forall2 (fun bin py => externalizes self (snd bin) py
                         /\ utf8_decodable (c_str (fst bin)) = true) b pys ->
  forall err d,
    is_ok err = true ->
    exists e d',
      bins_to_pyobject_foreach (do_val_to_pyobject self) b false err d
      = (e, d')
      /\ is_ok e = true
      /\ forall name,
           pydict_get d' (PyUnicode name)
           = match last_value name (combine (map (fun bin => c_str (fst bin)) b)
                                      pys) with
             | Some v => Some v
             | None => pydict_get d (PyUnicode name)
             end.
Proof.
  induction 1 as [|[name val] py b pys [(e1 & Hv & He1) Hname] _ IH];
    intros err d Hok.
  - exists err, d. split; [reflexivity|]. split; [exact Hok | reflexivity].
  - cbn [fst snd] in Hv, Hname. unfold val_to_pyobject in Hv.
    cbn [bins_to_pyobject_foreach].
    rewrite (do_val_to_pyobject_reset self err err0), Hv, He1. cbn [negb].
    unfold PyDict_SetItemString, PyString_FromString. rewrite Hname.
    destruct (IH e1 (pydict_set d (PyUnicode (c_str name)) py) He1)
      as (e & d' & Hl & He & Hget).
    exists e, d'. split; [exact Hl|]. split; [exact He|].
    intros k. rewrite Hget. cbn [map combine last_value fst].
    destruct (last_value k _); [reflexivity|].
    rewrite pydict_get_set_text. destruct (String.eqb _ k); reflexivity.
Qed.

End BinFacts.

(** X21.  [bins_to_pyobject] keeps one value per bin name: for a record
    whose bin values convert and whose bin names the host decodes it
    reports OK and builds a dict in which every name has the converted
    value of the last bin of that name, a name that names no bin being
    absent; so a record with the same bin twice shows the later value
    only. *)
Theorem bins_to_pyobject_keeps_the_last_value :
  forall (ext : Externals) (self : AerospikeClient) (err : as_error)
         (rec : as_record) (pys : list PyObject),
    Forall2 (fun bin py => externalizes self (snd bin) py
                           /\ utf8_decodable (c_str (fst bin)) = true)
            (bins rec) pys ->
    exists e d,
      bins_to_pyobject self err (Some rec) false = (e, Live (PyDict d))
      /\ is_ok e = true
      /\ forall name,
           pydict_get d (PyUnicode name)
           = last_value name
               (combine (map (fun bin => c_str (fst bin)) (bins rec)) pys).
Proof.
  intros ext self err rec pys Hall.
  destruct (@bins_to_pyobject_foreach_ok ext self (bins rec) pys Hall
              (as_error_reset err) [] eq_refl) as (e & d & Hl & He & Hget).
  exists e, d. split; [|split; [exact He|]].
  - unfold bins_to_pyobject, bins_to_pyobject_. rewrite Hl, He. reflexivity.
  - intros name. rewrite Hget. destruct (last_value name _); reflexivity.
Qed.

Lemma bins_to_pyobject_keeps_the_last_value_witness :
  exists e d,
    bins_to_pyobject (ext := demo_externals) demo_client err0
      (Some operate_example) false
    = (e, Live (PyDict d))
    /\ is_ok e = true
    /\ forall name,
         pydict_get d (PyUnicode name)
         = last_value name
             (combine (map (fun bin => c_str (fst bin)) (bins operate_example))
                [PyLong 5; PyLong 6; PyList [PyLong 3; PyLong 4; PyLong 5]]).
Proof.
  apply (@bins_to_pyobject_keeps_the_last_value demo_externals demo_client
           err0 operate_example
           [PyLong 5; PyLong 6; PyList [PyLong 3; PyLong 4; PyLong 5]]).
  repeat constructor; try (exists err0; split; reflexivity); reflexivity.
Defined.

(* ====================================================================== *)
(** * Text the host does not decode *)

Lemma substring_c_str (s : string) :
  substring 0 (String.length (c_str s)) s = c_str s.
Proof.
  induction s as [|c s IH]; [reflexivity|].
  simpl. destruct (Ascii.eqb c zero); [reflexivity|].
  simpl. rewrite IH. reflexivity.
Qed.

(** X22.  A string the host does not decode as UTF-8 fares differently as
    a key and as a value: [key_to_pyobject] falls back to a bytes object
    of the same C string and reports OK, while [val_to_pyobject] reports
    ClientError and hands back nothing. *)
Theorem undecodable_text_is_bytes_as_key_and_error_as_value :
  forall (ext : Externals) (self : AerospikeClient) (err : as_error)
         (nsv setv : option string) (d : as_digest) (s : string),
    utf8_decodable (c_str s) = false ->
    (exists a b c,
       key_to_pyobject err (Some (mk_key nsv setv (Some (AS_KEY_STRING s)) d))
       = (err0,
          Some (PyTuple [a; b; PyBytes (list_byte_of_string (c_str s)); c])))
    /\ val_to_pyobject self err (AS_STRING (Some s))
       = (mk_error AEROSPIKE_ERR_CLIENT "Unknown type for value", None).
Proof.
  intros ext self err nsv setv d s Hs.
  assert (Hdec : PyUnicode_DecodeUTF8 s (strlen s) = None).
  { unfold PyUnicode_DecodeUTF8, strlen. rewrite Nat2Z.id, substring_c_str, Hs.
    reflexivity. }
  split.
  - unfold key_to_pyobject. cbn [valuep].
    unfold PyString_FromString at 3. rewrite Hs, Hdec.
    do 3 eexists. reflexivity.
  - unfold val_to_pyobject. cbn [do_val_to_pyobject].
    unfold PyString_FromString. rewrite Hs, Hdec. reflexivity.
Qed.

Lemma undecodable_text_is_bytes_as_key_and_error_as_value_witness :
  val_to_pyobject (ext := demo_externals) demo_client err0
    (AS_STRING (Some (String (ascii_of_nat 233) "")))
  = (mk_error AEROSPIKE_ERR_CLIENT "Unknown type for value", None).
Proof.
  apply (proj2 (@undecodable_text_is_bytes_as_key_and_error_as_value
                  demo_externals demo_client err0 None None no_digest
                  (String (ascii_of_nat 233) "") eq_refl)).
Defined.

(* ====================================================================== *)
(** * Context paths, item by item *)

Lemma AsUnsignedLong_clear (o : PyObject) :
  PyErr_Occurred (snd (PyLong_AsUnsignedLong o)) = false ->
  int_value o = Some (fst (PyLong_AsUnsignedLong o)).
Proof.
  unfold PyLong_AsUnsignedLong. destruct (int_value o) as [z|]; [|discriminate].
  destruct ((0 <=? z) && (z <=? ULONG_MAX)); [reflexivity | discriminate].
Qed.

Lemma AsLong_clear (o : PyObject) :
  PyErr_Occurred (snd (PyLong_AsLong o)) = false ->
  PyLong_AsLong o = (fst (PyLong_AsLong o), None).
Proof.
  destruct (PyLong_AsLong o) as [z [x|]]; [discriminate|reflexivity].
Qed.

Section CtxItems.

Context {ext : Externals}.
Variable self : AerospikeClient.

Lemma get_cdt_ctx_loop_items ty items :
  forall err pool acc e p ctx,
    get_cdt_ctx_loop self items err pool acc ty = (None, e, p, Live ctx) ->
    exists added, ctx = acc ++ added /\ ctx_items_of self ty items pool added p.
Proof.
  induction items as [|o tl IH]; intros err pool acc e p ctx H.
  - injection H as _ <- <-. exists []. rewrite app_nil_r.
    split; reflexivity.
  - cbn [get_cdt_ctx_loop] in H.
    destruct (PyObject_GetAttrString o "id") as [id_temp|] eqn:Hid;
      [|discriminate H].
    destruct (PyObject_GetAttrString o "value") as [value_temp|] eqn:Hval;
      [|discriminate H].
    destruct (PyErr_Occurred (snd (PyLong_AsUnsignedLong id_temp))) eqn:Hu;
      [discriminate H|].
    pose proof (AsUnsignedLong_clear _ Hu) as Hk.
    destruct (requires_int (fst (PyLong_AsUnsignedLong id_temp))) eqn:Hreq.
    + destruct (PyErr_Occurred (snd (PyLong_AsLong value_temp))) eqn:Hl;
        [discriminate H|].
      pose proof (AsLong_clear _ Hl) as Hz.
      destruct (_ || _); [|discriminate H].
      destruct (IH _ _ _ _ _ _ H) as (added & -> & Hall).
      eexists (_ :: added). rewrite <- app_assoc. split; [reflexivity|].
      cbn [ctx_items_of].
      exists id_temp, value_temp, (fst (PyLong_AsUnsignedLong id_temp)).
      split; [split; assumption|]. split; [exact Hk|].
      split; [reflexivity|]. split; [exact Hreq|].
      split; [|exact Hall].
      exists (fst (PyLong_AsLong value_temp)). split; [exact Hz|reflexivity].
    + destruct (pyobject_to_val self err (Some value_temp) pool ty)
        as [[e1 p1] v1] eqn:Hconv.
      destruct (negb (is_ok e1)) eqn:Hn; [discriminate H|].
      destruct (_ || _) eqn:Htv; [|discriminate H].
      apply negb_false_iff in Hn.
      destruct v1 as [v|];
        [|exfalso;
          exact (@pyobject_to_val_ok_some ext self err (Some value_temp) pool
                   ty e1 p1 None Hconv Hn eq_refl)].
      destruct (IH _ _ _ _ _ _ H) as (added & -> & Hall).
      eexists (_ :: added). rewrite <- app_assoc. split; [reflexivity|].
      cbn [ctx_items_of].
      exists id_temp, value_temp, (fst (PyLong_AsUnsignedLong id_temp)).
      split; [split; assumption|]. split; [exact Hk|].
      split; [reflexivity|]. split; [exact Htv|].
      exists e1, p1, v. rewrite (pyobject_to_val_reset self err0 err).
      split; [exact Hconv|]. split; [exact Hn|]. split; [reflexivity|exact Hall].
Qed.

(** A loop that runs to its end leaves the context live. *)
Lemma get_cdt_ctx_loop_none items :
  forall err pool acc ty e p c,
    get_cdt_ctx_loop self items err pool acc ty = (None, e, p, c) ->
    exists ctx, c = Live ctx.
Proof.
  induction items as [|o tl IH]; intros err pool acc ty e p c E.
  - injection E as _ _ <-. eexists. reflexivity.
  - cbn [get_cdt_ctx_loop] in E.
    repeat match type of E with
           | context [match ?x with _ => _ end] =>
               lazymatch x with
               | context [match _ with _ => _ end] => fail
               | _ => destruct x eqn:?
               end
           end; try discriminate E; eapply IH; exact E.
Qed.

End CtxItems.

(** X23.  When [get_cdt_ctx] finds a context list and returns OK, the
    context it has built is live and holds exactly one item per step of
    the list, in the order of the steps.  The item of a step of one of the
    four integer kinds has the step's kind and holds the C [long] the host
    makes of the step's payload, reduced to a C [int]; the item of a step
    of one of the three value kinds has the step's kind and holds the very
    value [pyobject_to_val] makes of the step's payload, converted in the
    pool the steps before it have left; the pool handed back is the one
    the last step has left. *)
Theorem get_cdt_ctx_builds_one_item_per_step :
  forall (ext : Externals) (self : AerospikeClient) (err : as_error)
         (op_dict : PyObject) (items : list PyObject) (in_use : bool)
         (pool : as_static_pool) (ty : Z),
    PyDict_GetItemString op_dict CTX_KEY = Some (PyList items) ->
    ctx_status (get_cdt_ctx self err op_dict in_use pool ty) = AEROSPIKE_OK ->
    exists e p ctx,
      get_cdt_ctx self err op_dict in_use pool ty
      = (AEROSPIKE_OK, e, p, Live ctx, true)
      /\ ctx_items_of self ty items pool ctx p.
Proof.
  intros ext self err op_dict items in_use pool ty Hctx Hst.
  unfold get_cdt_ctx in *. rewrite Hctx in *.
  cbn [PyList_Check list_items] in *.
  destruct (get_cdt_ctx_loop self items err pool [] ty)
    as [[[returned e] p] c] eqn:E.
  destruct returned as [st|].
  - unfold ctx_status in Hst. cbn [fst] in Hst.
    rewrite (get_cdt_ctx_loop_status self _ _ _ _ _ E) in Hst.
    discriminate Hst.
  - destruct c as [|ctx|].
    + destruct (get_cdt_ctx_loop_none self _ _ _ _ _ E) as (c & Hc).
      discriminate Hc.
    + destruct (@get_cdt_ctx_loop_items ext self ty items err pool [] e p ctx E)
        as (added & -> & Hall).
      exists e, p, added. split; [reflexivity | exact Hall].
    + destruct (get_cdt_ctx_loop_none self _ _ _ _ _ E) as (c & Hc).
      discriminate Hc.
Qed.

Lemma get_cdt_ctx_builds_one_item_per_step_witness :
  exists e p ctx,
    get_cdt_ctx (ext := demo_externals) demo_client err0
      (PyDict [(PyUnicode "ctx",
                PyList [cdt_ctx_step AS_CDT_CTX_LIST_INDEX (PyLong 1);
                        cdt_ctx_step AS_CDT_CTX_MAP_KEY (PyUnicode "k")])])
      false pool0 0
    = (AEROSPIKE_OK, e, p, Live ctx, true)
    /\ ctx_items_of (ext := demo_externals) demo_client 0
         [cdt_ctx_step AS_CDT_CTX_LIST_INDEX (PyLong 1);
          cdt_ctx_step AS_CDT_CTX_MAP_KEY (PyUnicode "k")] pool0 ctx p.
Proof.
  apply (@get_cdt_ctx_builds_one_item_per_step demo_externals demo_client err0
           (PyDict [(PyUnicode "ctx",
                     PyList [cdt_ctx_step AS_CDT_CTX_LIST_INDEX (PyLong 1);
                             cdt_ctx_step AS_CDT_CTX_MAP_KEY (PyUnicode "k")])])
           [cdt_ctx_step AS_CDT_CTX_LIST_INDEX (PyLong 1);
            cdt_ctx_step AS_CDT_CTX_MAP_KEY (PyUnicode "k")]
           false pool0 0);
    reflexivity.
Defined.

(** X24.  [get_cdt_ctx] passes the payload of an integer step through a C
    [int]: a step of one of the four integer kinds whose payload fits a C
    [long] is accepted and stored reduced to 32 bits, two's complement,
    the error and the pool being left as they were; so an index of 2^32
    is stored as 0 and reported OK. *)
Theorem get_cdt_ctx_reduces_an_index_to_32_bits :
  forall (ext : Externals) (self : AerospikeClient) (err : as_error)
         (op_dict o : PyObject) (k z : Z) (in_use : bool)
         (pool : as_static_pool) (ty : Z),
    PyDict_GetItemString op_dict CTX_KEY = Some (PyList [o]) ->
    is_step o (PyLong k) (PyLong z) ->
    requires_int k = true ->
    in_long z = true ->
    get_cdt_ctx self err op_dict in_use pool ty
    = (AEROSPIKE_OK, err, pool, Live [ctx_ival k (to_signed 32 z)], true).
Proof.
  intros ext self err op_dict o k z in_use pool ty Hctx [Hid Hval] Hk Hz.
  unfold get_cdt_ctx. rewrite Hctx. cbn [PyList_Check list_items].
  cbn [get_cdt_ctx_loop]. rewrite Hid, Hval.
  unfold PyLong_AsUnsignedLong. cbn [int_value].
  rewrite (requires_int_range _ Hk). cbn [fst snd PyErr_Occurred].
  rewrite Hk, (@PyLong_AsLong_in (PyLong z) z eq_refl Hz).
  cbn [fst snd PyErr_Occurred]. unfold requires_int in Hk. rewrite Hk.
  reflexivity.
Qed.

Lemma get_cdt_ctx_reduces_an_index_to_32_bits_witness :
  get_cdt_ctx (ext := demo_externals) demo_client err0
    (PyDict [(PyUnicode "ctx",
              PyList [cdt_ctx_step AS_CDT_CTX_LIST_INDEX (PyLong (2 ^ 32))])])
    false pool0 0
  = (AEROSPIKE_OK, err0, pool0, Live [ctx_ival AS_CDT_CTX_LIST_INDEX 0], true).
Proof.
  apply (@get_cdt_ctx_reduces_an_index_to_32_bits demo_externals demo_client
           err0
           (PyDict [(PyUnicode "ctx",
                     PyList [cdt_ctx_step AS_CDT_CTX_LIST_INDEX
                               (PyLong (2 ^ 32))])])
           (cdt_ctx_step AS_CDT_CTX_LIST_INDEX (PyLong (2 ^ 32)))
           AS_CDT_CTX_LIST_INDEX (2 ^ 32) false pool0 0).
  - reflexivity.
  - split; reflexivity.
  - reflexivity.
  - reflexivity.
Defined.

(* ====================================================================== *)
(** * Lists to Python and back *)

Section ListFacts.

Context {ext : Externals}.
Variable self : AerospikeClient.

Lemma list_to_pyobject_foreach_ok l pys :
  Forall2 (externalizes self) l pys ->
  forall err,
  exists e,
    list_to_pyobject_foreach (do_val_to_pyobject self) l err = (e, pys)
    /\ (l = [] -> e = err) /\ (l <> [] -> is_ok e = true).
Proof.
  induction 1 as [|v py l pys (e1 & Hv & He1) Hall IH]; intros err.
  - exists err. split; [reflexivity|]. split; [reflexivity | congruence].
  - unfold val_to_pyobject in Hv. cbn [list_to_pyobject_foreach].
    rewrite (do_val_to_pyobject_reset self err err0), Hv, He1. cbn [negb].
    destruct (IH e1) as (e & Hl & Hnil & Hcons).
    exists e. rewrite Hl. split; [reflexivity|].
    split; [discriminate|]. intros _.
    destruct l as [|v' l']; [rewrite (Hnil eq_refl); exact He1|].
    apply Hcons. discriminate.
Qed.

Lemma list_to_pyobject_foreach_fail pre pys :
  Forall2 (externalizes self) pre pys ->
  forall bad post e err,
    fails_to_externalize self bad e ->
    fst (list_to_pyobject_foreach (do_val_to_pyobject self)
           (pre ++ bad :: post) err) = e.
Proof.
  induction 1 as [|v py l pys (e1 & Hv & He1) _ IH];
    intros bad post e err [He (o & Hbad)].
  - unfold val_to_pyobject in Hbad. cbn [app list_to_pyobject_foreach].
    rewrite (do_val_to_pyobject_reset self err err0), Hbad, He. reflexivity.
  - unfold val_to_pyobject in Hv. cbn [app list_to_pyobject_foreach].
    rewrite (do_val_to_pyobject_reset self err err0), Hv, He1. cbn [negb].
    specialize (IH bad post e e1 (conj He (ex_intro _ o Hbad))).
    destruct (list_to_pyobject_foreach _ _ _) as [e' r]. exact IH.
Qed.

Lemma pyobject_to_list_loop_prefix items :
  forall err l0 acc pool ty,
    pyobject_to_list_loop (pyobject_to_val_obj self) items err (l0 ++ acc)
      pool ty
    = let '(e, p, l) :=
        pyobject_to_list_loop (pyobject_to_val_obj self) items err acc pool
          ty in
      (e, p, l0 ++ l).
Proof.
  induction items as [|o tl IH]; intros err l0 acc pool ty; [reflexivity|].
  cbn [pyobject_to_list_loop].
  destruct (pyobject_to_val_obj self err o pool ty) as [[e1 p1] v1].
  destruct (negb (is_ok e1)); [reflexivity|].
  replace (as_list_append (l0 ++ acc) v1) with (l0 ++ as_list_append acc v1)
    by (destruct v1; simpl; [rewrite app_assoc|]; reflexivity).
  apply IH.
Qed.

End ListFacts.

(** X25.  [list_to_pyobject] makes of a list whose elements convert a
    Python list of the converted elements, one per element and in order.
    It does not reset the error it is handed: a list with elements
    forgets that error with its first conversion and reports OK, while
    the empty list reports the error it was handed and, if that is not
    OK, gives up the list it has built.  At the first element that does
    not convert it stops, reports that element's error and hands back no
    list. *)
Theorem list_to_pyobject_keeps_order_and_stops_at_first_failure :
  forall (ext : Externals) (self : AerospikeClient) (err : as_error),
    (forall l pys,
       Forall2 (externalizes self) l pys ->
       l <> [] ->
       exists e,
         list_to_pyobject self err l = (e, Some (PyList pys))
         /\ is_ok e = true)
    /\ list_to_pyobject self err []
       = (err, if is_ok err then Some (PyList []) else None)
    /\ (forall pre pys bad post e,
          Forall2 (externalizes self) pre pys ->
          fails_to_externalize self bad e ->
          list_to_pyobject self err (pre ++ bad :: post) = (e, None)).
Proof.
  intros ext self err. split; [|split].
  - intros l pys Hall Hne.
    destruct (@list_to_pyobject_foreach_ok ext self l pys Hall err)
      as (e & Hl & _ & He).
    exists e. unfold list_to_pyobject, list_to_pyobject_.
    rewrite Hl, (He Hne). split; reflexivity.
  - unfold list_to_pyobject, list_to_pyobject_. cbn [list_to_pyobject_foreach].
    destruct (is_ok err); reflexivity.
  - intros pre pys bad post e Hall Hbad.
    pose proof (@list_to_pyobject_foreach_fail ext self pre pys Hall bad post
                  e err Hbad) as Hf.
    unfold list_to_pyobject, list_to_pyobject_.
    destruct (list_to_pyobject_foreach _ _ _) as [e' r]. cbn [fst] in Hf.
    subst e'. destruct Hbad as [He _]. rewrite He. reflexivity.
Qed.

Lemma list_to_pyobject_keeps_order_and_stops_at_first_failure_witness :
  (exists e,
     list_to_pyobject (ext := demo_externals) demo_client
       (mk_error AEROSPIKE_ERR_CLIENT "stale")
       [AS_INTEGER 1; AS_STRING (Some "two")]
     = (e, Some (PyList [PyLong 1; PyUnicode "two"]))
     /\ is_ok e = true)
  /\ list_to_pyobject (ext := demo_externals) demo_client err0
       ([AS_INTEGER 1] ++ AS_UNDEF :: [AS_INTEGER 3])
     = (mk_error AEROSPIKE_ERR_CLIENT "Unknown type for value", None).
Proof.
  split.
  - apply (proj1 (@list_to_pyobject_keeps_order_and_stops_at_first_failure
                    demo_externals demo_client
                    (mk_error AEROSPIKE_ERR_CLIENT "stale"))
             [AS_INTEGER 1; AS_STRING (Some "two")]
             [PyLong 1; PyUnicode "two"]).
    + repeat constructor; exists err0; split; reflexivity.
    + discriminate.
  - apply (proj2 (proj2
             (@list_to_pyobject_keeps_order_and_stops_at_first_failure
                demo_externals demo_client err0))
             [AS_INTEGER 1] [PyLong 1] AS_UNDEF [AS_INTEGER 3]
             (mk_error AEROSPIKE_ERR_CLIENT "Unknown type for value")).
    + repeat constructor; exists err0; split; reflexivity.
    + split; [reflexivity|]. eexists. reflexivity.
Defined.

(** X26.  [pyobject_to_list] appends to the list it is handed: converting
    a Python list into a list the caller supplies gives the error and
    the pool of converting it into a fresh list, and a list that holds
    the caller's elements followed by the elements of that fresh list; on
    failure the list is destroyed in both cases. *)
Theorem pyobject_to_list_appends_to_the_list_it_is_handed :
  forall (ext : Externals) (self : AerospikeClient) (err : as_error)
         (py_list : PyObject) (l0 : list as_val) (pool : as_static_pool)
         (ty : Z),
    pyobject_to_list self err py_list (Some l0) pool ty
    = (fst (fst (pyobject_to_list self err py_list None pool ty)),
       snd (fst (pyobject_to_list self err py_list None pool ty)),
       owned_map (app l0)
         (snd (pyobject_to_list self err py_list None pool ty))).
Proof.
  intros ext self err py_list l0 pool ty.
  unfold pyobject_to_list, pyobject_to_list_.
  pose proof (@pyobject_to_list_loop_prefix ext self (list_items py_list)
                (as_error_reset err) l0 [] pool ty) as H.
  rewrite app_nil_r in H. cbn [option_map] in H |- *. rewrite H.
  destruct (pyobject_to_list_loop (pyobject_to_val_obj self)
              (list_items py_list) (as_error_reset err) [] pool ty)
    as [[e p] l].
  destruct (negb (is_ok e)); reflexivity.
Qed.

(* ====================================================================== *)
(** * Records there and back *)

Lemma bins_replace_absent (b : list (string * as_val)) (name : string)
    (v : as_val) :
  ~ In name (map fst b) -> bins_replace b name v = None.
Proof.
  induction b as [|[n v'] tl IH]; intros H; [reflexivity|].
  cbn [bins_replace]. destruct (String.eqb n name) eqn:E.
  - apply String.eqb_eq in E. subst n. exfalso. apply H. left. reflexivity.
  - rewrite IH; [reflexivity|]. intros Hin. apply H. right. exact Hin.
Qed.

Section RecordRoundTrip.

Context {ext : Externals}.
Variable self : AerospikeClient.
Variable serializer_type : Z.

Local Abbreviation val_of := (val_of self serializer_type).
Local Abbreviation py_of := (py_of self serializer_type).

Hypothesis Hser : faithful_serializer self serializer_type.
Hypothesis Hmarkers : markers_are_not_float.

Lemma as_record_set_fresh rec name v :
  c_str name = name ->
  strlen name <= AS_BIN_NAME_MAX_LEN ->
  ~ In name (map fst (bins rec)) ->
  (List.length (bins rec) < bins_capacity rec)%nat ->
  as_record_set rec name v
  = (mk_record (key rec) (gen rec) (ttl rec) (bins_capacity rec)
       (bins rec ++ [(name, v)]), true).
Proof.
  intros Hc Hlen Hfresh Hroom. unfold as_record_set. rewrite Hc.
  assert (E : (AS_BIN_NAME_MAX_LEN <? strlen name) = false)
    by (apply Z.ltb_ge; exact Hlen).
  rewrite E, (@bins_replace_absent (bins rec) name v Hfresh).
  apply Nat.ltb_lt in Hroom. rewrite Hroom. reflexivity.
Qed.

(** One turn of the bin loop on a plain bin adds the bin to the record. *)
Lemma record_bin_step_plain err pool rec rv k v :
  plain_bin (k, v) = true ->
  is_ok err = true ->
  (current_bytes_id pool + serialized_count v <= AS_MAX_STORE_SIZE)%nat ->
  ~ In (bin_name_of k) (map fst (bins rec)) ->
  (List.length (bins rec) < bins_capacity rec)%nat ->
  exists e,
    record_bin_step self err pool rec rv serializer_type k v
    = Step_next e (pool_after pool (serialized_count v))
        (mk_record (key rec) (gen rec) (ttl rec) (bins_capacity rec)
           (bins rec ++ [(bin_name_of k, val_of v)]))
        true
    /\ is_ok e = true.
Proof.
  intros Hbin Hok Hpool Hfresh Hroom.
  unfold plain_bin in Hbin. cbn [fst snd] in Hbin.
  apply andb_true_iff in Hbin. destruct Hbin as [Hbin Hkind].
  apply andb_true_iff in Hbin. destruct Hbin as [Hname Hrep].
  destruct k as [| | | |name| | | | | |]; try discriminate Hname.
  apply andb_true_iff in Hname. destruct Hname as [Hname Hlen].
  apply andb_true_iff in Hname. destruct Hname as [Hnul Hdec].
  apply Z.leb_le in Hlen. cbn [bin_name_of] in *.
  pose proof (no_nul_c_str _ Hnul) as Hc.
  assert (Hshort : (AS_BIN_NAME_MAX_LEN <? strlen name) = false)
    by (apply Z.ltb_ge; exact Hlen).
  unfold record_bin_step. cbn [PyUnicode_Check].
  rewrite bin_name_of_unicode, Hshort, andb_false_r.
  destruct v as [| |z|dv|s| | |l| |d|]; try discriminate Hrep;
    try discriminate Hkind.
  - (* an integer *)
    simpl in Hrep. cbn [PyBool_Check PyInt_Check PyLong_Check].
    unfold overflowed, PyInt_AsLong.
    rewrite (@PyLong_AsLong_in (PyLong z) z eq_refl Hrep).
    cbn [fst snd PyErr_Occurred]. rewrite andb_false_r. cbv iota.
    rewrite (@as_record_set_fresh rec name (AS_INTEGER z) Hc Hlen Hfresh Hroom).
    rewrite andb_false_r, pool_after_0. exists err. split; [reflexivity|exact Hok].
  - (* a double *)
    cbn [PyBool_Check PyInt_Check PyLong_Check PyUnicode_Check PyString_Check
         PyByteArray_Check PyList_Check PyDict_Check PyFloat_Check tp_name].
    change (String.eqb "float" GEOSPATIAL_NAME) with false.
    change (String.eqb "float" NULL_NAME) with false. cbv iota.
    rewrite (@as_record_set_fresh rec name (AS_DOUBLE (PyFloat_AsDouble (PyFloat dv)))
               Hc Hlen Hfresh Hroom).
    rewrite andb_false_r, pool_after_0. exists err. split; [reflexivity|exact Hok].
  - (* text *)
    cbn [PyBool_Check PyInt_Check PyLong_Check PyUnicode_Check tp_name].
    change (String.eqb "str" GEOSPATIAL_NAME) with false. cbv iota.
    rewrite bin_name_of_unicode.
    rewrite (@as_record_set_fresh rec name (AS_STRING (Some (c_str s)))
               Hc Hlen Hfresh Hroom).
    rewrite andb_false_r, pool_after_0. exists err. split; [reflexivity|exact Hok].
  - (* a list *)
    cbn [PyBool_Check PyInt_Check PyLong_Check PyUnicode_Check PyString_Check
         PyByteArray_Check PyList_Check tp_name].
    change (String.eqb "list" GEOSPATIAL_NAME) with false. cbv iota.
    destruct (@writes_all ext self serializer_type Hser Hmarkers (PyList l)
                Hrep err pool Hpool) as (e & Hw & He).
    rewrite pyobject_to_val_obj_list in Hw.
    unfold pyobject_to_list. cbn [list_items].
    change (pyobject_to_list_ (pyobject_to_val_obj self) err l None pool
              serializer_type)
      with (pyobject_to_list_ (pyobject_to_val_obj self) (as_error_reset err)
              l None pool serializer_type).
    destruct (pyobject_to_list_ (pyobject_to_val_obj self) (as_error_reset err)
                l None pool serializer_type) as [[e1 p1] r1].
    injection Hw as -> -> Hr. rewrite He. cbn [negb].
    destruct r1 as [|l1|]; try discriminate Hr. injection Hr as ->.
    rewrite (@as_record_set_fresh rec name (AS_LIST (map val_of l))
               Hc Hlen Hfresh Hroom).
    rewrite andb_false_r. exists e. split; [reflexivity|exact He].
  - (* a dict *)
    cbn [PyBool_Check PyInt_Check PyLong_Check PyUnicode_Check PyString_Check
         PyByteArray_Check PyList_Check PyDict_Check tp_name].
    change (String.eqb "dict" GEOSPATIAL_NAME) with false. cbv iota.
    destruct (@writes_all ext self serializer_type Hser Hmarkers (PyDict d)
                Hrep err pool Hpool) as (e & Hw & He).
    rewrite pyobject_to_val_obj_dict in Hw.
    unfold pyobject_to_map. cbn [dict_items].
    change (pyobject_to_map_ (pyobject_to_val_obj self) err d None pool
              serializer_type)
      with (pyobject_to_map_ (pyobject_to_val_obj self) (as_error_reset err)
              d None pool serializer_type).
    destruct (pyobject_to_map_ (pyobject_to_val_obj self) (as_error_reset err)
                d None pool serializer_type) as [[e1 p1] r1].
    injection Hw as -> -> Hr. rewrite He. cbn [negb].
    destruct r1 as [|m1|]; try discriminate Hr. injection Hr as ->.
    rewrite (@as_record_set_fresh rec name
               (AS_MAP (map (fun kv => (val_of (fst kv), val_of (snd kv))) d))
               Hc Hlen Hfresh Hroom).
    rewrite andb_false_r. exists e. split; [reflexivity|exact He].
Qed.

Lemma plain_bin_name k v :
  plain_bin (k, v) = true -> k = PyUnicode (bin_name_of k).
Proof.
  unfold plain_bin. cbn [fst]. destruct k; try discriminate. reflexivity.
Qed.

(** Names that differ as Python objects differ as strings. *)
Lemma distinct_bin_names d :
  forallb plain_bin d = true ->
  distinct_keys (map fst d) = true ->
  NoDup (map (fun kv => bin_name_of (fst kv)) d).
Proof.
  induction d as [|[k v] d IH]; intros Hall Hdist; [constructor|].
  simpl in Hall. apply andb_true_iff in Hall. destruct Hall as [Hkv Hall].
  cbn [map fst distinct_keys] in Hdist |- *.
  apply andb_true_iff in Hdist. destruct Hdist as [Hk Hdist].
  constructor; [|apply IH; assumption].
  intros Hin. apply in_map_iff in Hin. destruct Hin as ([k' v'] & Heq & Hin').
  cbn [fst] in Heq.
  rewrite forallb_forall in Hk. specialize (Hk k' (in_map fst _ _ Hin')).
  rewrite forallb_forall in Hall. specialize (Hall _ Hin').
  rewrite (@plain_bin_name k v Hkv), (@plain_bin_name k' v' Hall) in Hk.
  cbn [PyObject_eqb] in Hk. rewrite Heq, String.eqb_refl in Hk.
  discriminate Hk.
Qed.

Lemma write_bins_loop d :
  forallb plain_bin d = true ->
  NoDup (map (fun kv => bin_name_of (fst kv)) d) ->
  forall err pool rec rv,
    is_ok err = true ->
    (current_bytes_id pool
     + list_sum (map (fun kv => serialized_count (snd kv)) d)
     <= AS_MAX_STORE_SIZE)%nat ->
    (forall kv, In kv d -> ~ In (bin_name_of (fst kv)) (map fst (bins rec))) ->
    (List.length (bins rec) + List.length d <= bins_capacity rec)%nat ->
    exists e,
      record_bins_loop self d err pool rec rv serializer_type
      = (false, e,
         pool_after pool
           (list_sum (map (fun kv => serialized_count (snd kv)) d)),
         mk_record (key rec) (gen rec) (ttl rec) (bins_capacity rec)
           (bins rec ++ bins_of self serializer_type d))
      /\ is_ok e = true.
Proof.
  induction d as [|[k v] d IH];
    intros Hall Hnd err pool rec rv Hok Hpool Hfresh Hcap.
  - exists err. cbn [record_bins_loop map list_sum bins_of].
    rewrite pool_after_0, app_nil_r. destruct rec. split; [reflexivity|exact Hok].
  - simpl in Hall. apply andb_true_iff in Hall. destruct Hall as [Hkv Hall].
    cbn [map fst snd] in Hnd. inversion Hnd as [|? ? Hnotin Hnd']; subst.
    rewrite list_sum_map_cons in Hpool |- *. cbn [snd] in Hpool |- *.
    destruct (@record_bin_step_plain err pool rec rv k v Hkv Hok)
      as (e1 & Hstep & He1).
    { lia. }
    { apply (Hfresh (k, v)). left. reflexivity. }
    { simpl in Hcap. lia. }
    cbn [record_bins_loop]. rewrite Hstep.
    destruct (IH Hall Hnd' e1 (pool_after pool (serialized_count v))
                (mk_record (key rec) (gen rec) (ttl rec) (bins_capacity rec)
                   (bins rec ++ [(bin_name_of k, val_of v)]))
                true He1) as (e & Hl & He).
    { unfold pool_after. cbn [current_bytes_id]. lia. }
    { intros kv Hin. cbn [bins]. rewrite map_app. intros Hin'.
      apply in_app_or in Hin'. destruct Hin' as [Hin'|[Hin'|[]]].
      - apply (Hfresh kv (or_intror Hin)). exact Hin'.
      - cbn [fst] in Hin'. apply Hnotin. rewrite Hin'.
        apply (in_map (fun kv => bin_name_of (fst kv)) _ _ Hin). }
    { cbn [bins bins_capacity]. rewrite length_app. simpl in Hcap |- *. lia. }
    exists e. split; [|exact He].
    rewrite Hl, pool_after_add. cbn [key gen ttl bins_capacity bins].
    rewrite <- app_assoc. reflexivity.
Qed.

Lemma read_bins_loop d :
  forallb plain_bin d = true ->
  NoDup (map (fun kv => bin_name_of (fst kv)) d) ->
  forall err acc,
    is_ok err = true ->
    (forall kv, In kv d ->
                pydict_get acc (PyUnicode (bin_name_of (fst kv))) = None) ->
    exists e,
      bins_to_pyobject_foreach (do_val_to_pyobject self)
        (bins_of self serializer_type d) false err
        acc
      = (e, acc ++ map (fun kv => (fst kv, py_of (snd kv))) d)
      /\ is_ok e = true.
Proof.
  induction d as [|[k v] d IH]; intros Hall Hnd err acc Hok Hfresh.
  - exists err. simpl. rewrite app_nil_r. split; [reflexivity|exact Hok].
  - simpl in Hall. apply andb_true_iff in Hall. destruct Hall as [Hkv Hall].
    cbn [map fst snd] in Hnd. inversion Hnd as [|? ? Hnotin Hnd']; subst.
    pose proof (@plain_bin_name k v Hkv) as Hk.
    unfold plain_bin in Hkv. cbn [fst snd] in Hkv.
    apply andb_true_iff in Hkv. destruct Hkv as [Hkv _].
    apply andb_true_iff in Hkv. destruct Hkv as [Hname Hrep].
    rewrite Hk in Hname.
    apply andb_true_iff in Hname. destruct Hname as [Hname _].
    apply andb_true_iff in Hname. destruct Hname as [Hnul Hdec].
    destruct (@reads_all ext self serializer_type Hser v Hrep err)
      as (e1 & Hr & He1).
    cbn [bins_of map fst snd bins_to_pyobject_foreach].
    rewrite Hr, He1. cbn [negb].
    rewrite (@set_item_string ext acc (bin_name_of k) (py_of v) Hdec Hnul).
    rewrite pydict_set_fresh_text
      by (apply (Hfresh (k, v)); left; reflexivity).
    destruct (IH Hall Hnd' e1 (acc ++ [(PyUnicode (bin_name_of k), py_of v)])
                He1) as (e & Hl & He).
    { intros kv Hin.
      assert (Hne : String.eqb (bin_name_of k) (bin_name_of (fst kv)) = false).
      { apply String.eqb_neq. intros Heq. apply Hnotin. rewrite Heq.
        apply (in_map (fun kv => bin_name_of (fst kv)) _ _ Hin). }
      rewrite <- (@pydict_set_fresh_text acc (bin_name_of k) (py_of v))
        by (apply (Hfresh (k, v)); left; reflexivity).
      rewrite pydict_get_set_text, Hne.
      apply (Hfresh kv). right. exact Hin. }
    exists e. split; [|exact He].
    fold (bins_of self serializer_type d). rewrite Hl, <- app_assoc. cbn [app].
    rewrite <- Hk. reflexivity.
Qed.

Lemma bins_compare_equal d :
  forallb plain_bin d = true ->
  list_eqb (fun p q => PyObject_eqb (fst p) (fst q)
                       && PyObject_eqb (snd p) (snd q))
    d (map (fun kv => (fst kv, py_of (snd kv))) d) = true.
Proof.
  induction d as [|[k v] d IH]; intros Hall; [reflexivity|].
  simpl in Hall. apply andb_true_iff in Hall. destruct Hall as [Hkv Hall].
  pose proof (@plain_bin_name k v Hkv) as Hk.
  unfold plain_bin in Hkv. cbn [fst snd] in Hkv.
  apply andb_true_iff in Hkv. destruct Hkv as [Hkv _].
  apply andb_true_iff in Hkv. destruct Hkv as [_ Hrep].
  cbn [map list_eqb fst snd].
  rewrite (@equal_all ext self serializer_type Hser v Hrep), (IH Hall).
  rewrite Hk. cbn [PyObject_eqb]. rewrite String.eqb_refl. reflexivity.
Qed.

End RecordRoundTrip.

(** X27.  A record survives the way to the driver and back.  A dict of
    fewer than 2^16 bins (the driver takes the number of bins as a
    [uint16_t]) with pairwise different names that are text free of NUL,
    decoded by the host and no longer than [AS_BIN_NAME_MAX_LEN], and with
    values that are integers of 64 bits, doubles other than NaN, such text,
    or lists and dicts of representable values, is converted by
    [pyobject_to_record] without error to a record with one bin per entry,
    in order; and [bins_to_pyobject] makes of that record a dict equal to
    the one given -- provided the serializer gives raw bytes back
    unchanged, the two comparator markers are not named like the built-in
    float, and the pool has a wrapper for every bytearray inside the
    values. *)
Theorem record_round_trip :
  forall (ext : Externals) (self : AerospikeClient) (ty : Z) (d : pydict)
         (err : as_error) (pool : as_static_pool),
    faithful_serializer self ty ->
    markers_are_not_float ->
    forallb plain_bin d = true ->
    distinct_keys (map fst d) = true ->
    Z.of_nat (List.length d) < 2 ^ 16 ->
    (current_bytes_id pool
     + list_sum (map (fun kv => serialized_count (snd kv)) d)
     <= AS_MAX_STORE_SIZE)%nat ->
    exists e p rec e' py,
      pyobject_to_record self err (Some (PyDict d)) None ty pool
      = (e, p, Live rec)
      /\ is_ok e = true
      /\ bins rec = bins_of self ty d
      /\ bins_to_pyobject self e (Some rec) false = (e', Live py)
      /\ is_ok e' = true
      /\ PyObject_eqb (PyDict d) py = true.
Proof.
  intros ext self ty d err pool Hser Hmark Hall Hdist Hsize Hpool.
  assert (Hcap : Z.to_nat (to_unsigned 16 (PyDict_Size (PyDict d)))
                 = List.length d).
  { cbn [PyDict_Size]. rewrite to_unsigned_small by lia. apply Nat2Z.id. }
  pose proof (@distinct_bin_names ext d Hall Hdist) as Hnd.
  destruct (@write_bins_loop ext self ty Hser Hmark d Hall Hnd
              (as_error_reset err) pool
              (as_record_init (PyDict_Size (PyDict d))) false eq_refl Hpool)
    as (e & Hw & He).
  { intros kv _ []. }
  { unfold as_record_init. cbn [bins bins_capacity List.length].
    rewrite Hcap. lia. }
  destruct (@read_bins_loop ext self ty Hser d Hall Hnd (as_error_reset e) []
              eq_refl) as (e' & Hr & He').
  { intros kv _. reflexivity. }
  cbn [as_record_init key gen ttl bins bins_capacity app] in Hw, Hr.
  exists e,
    (pool_after pool
       (list_sum (map (fun kv => serialized_count (snd kv)) d))),
    (mk_record empty_key 0 0
       (Z.to_nat (to_unsigned 16 (PyDict_Size (PyDict d))))
       (bins_of self ty d)),
    e',
    (PyDict (map (fun kv => (fst kv, py_of self ty (snd kv))) d)).
  split; [|split; [exact He|split; [|split; [|split]]]].
  - unfold pyobject_to_record. cbn [PyDict_Check dict_items].
    rewrite Hw. cbn [record_meta]. rewrite He. reflexivity.
  - reflexivity.
  - unfold bins_to_pyobject, bins_to_pyobject_. cbn [bins].
    rewrite Hr, He'. reflexivity.
  - exact He'.
  - cbn [PyObject_eqb].
    apply (@bins_compare_equal ext self ty Hser d Hall).
Qed.

Lemma record_round_trip_witness :
  exists e p rec e' py,
    pyobject_to_record (ext := demo_externals) demo_client err0
      (Some (PyDict record_example)) None 0 pool0
    = (e, p, Live rec)
    /\ is_ok e = true
    /\ bins rec = bins_of (ext := demo_externals) demo_client 0 record_example
    /\ bins_to_pyobject (ext := demo_externals) demo_client e (Some rec) false
       = (e', Live py)
    /\ is_ok e' = true
    /\ PyObject_eqb (PyDict record_example) py = true.
Proof.
  apply (@record_round_trip demo_externals demo_client 0 record_example err0
           pool0 (demo_serializer_is_faithful 0) demo_markers_are_not_float).
  - reflexivity.
  - reflexivity.
  - reflexivity.
  - apply Nat.leb_le. reflexivity.
Defined.

(* ====================================================================== *)
(** * Maps to Python *)

Section MapFacts.

Context {ext : Externals}.
Variable self : AerospikeClient.

Lemma map_to_pyobject_foreach_ok m pm :
  Forall2 (entry_externalizes self) m pm ->
  forall err d,
    (m = [] -> is_ok err = true) ->
    exists e,
      map_to_pyobject_foreach (do_val_to_pyobject self) m err d
      = (e, fold_left (fun d kv => pydict_set d (fst kv) (snd kv)) pm d)
      /\ is_ok e = true.
Proof.
  induction 1 as [|[k v] [pk pv] m pm (Hk & Hv & Hh) _ IH]; intros err d Hok.
  - exists err. split; [reflexivity|auto].
  - cbn [fst snd] in Hk, Hv, Hh.
    destruct Hk as (ek & Hk & Hek). destruct Hv as (ev & Hv & Hev).
    unfold val_to_pyobject in Hk, Hv. cbn [map_to_pyobject_foreach].
    rewrite (do_val_to_pyobject_reset self err err0), Hk, Hek. cbn [negb].
    rewrite (do_val_to_pyobject_reset self ek err0), Hv, Hev. cbn [negb].
    unfold PyDict_SetItem. rewrite Hh.
    destruct (IH ev (pydict_set d pk pv) (fun _ => Hev)) as (e & Hl & He).
    exists e. split; [exact Hl|exact He].
Qed.

Lemma pydict_set_length d k v :
  (List.length (pydict_set d k v) <= S (List.length d))%nat.
Proof.
  induction d as [|[k' v'] tl IHd]; simpl; [lia|].
  destruct (PyObject_eqb k' k); simpl; lia.
Qed.

Lemma pydict_fold_length pm :
  forall d,
    (List.length (fold_left (fun d kv => pydict_set d (fst kv) (snd kv)) pm d)
     <= List.length d + List.length pm)%nat.
Proof.
  induction pm as [|[k v] pm IH]; intros d; simpl; [lia|].
  pose proof (IH (pydict_set d k v)) as H.
  pose proof (pydict_set_length d k v). lia.
Qed.

Lemma map_to_pyobject_foreach_unhashable pre ppre :
  Forall2 (entry_externalizes self) pre ppre ->
  forall k v pk pv post err d,
    externalizes self k pk -> externalizes self v pv ->
    hashable pk = false ->
    fst (map_to_pyobject_foreach (do_val_to_pyobject self)
           (pre ++ (k, v) :: post) err d)
    = mk_error AEROSPIKE_ERR_CLIENT
        "Unable to use unhashable type as a dictionary key".
Proof.
  induction 1 as [|[k0 v0] [pk0 pv0] m pm (Hk0 & Hv0 & Hh0) _ IH];
    intros k v pk pv post err d Hk Hv Hh.
  - destruct Hk as (ek & Hk & Hek). destruct Hv as (ev & Hv & Hev).
    unfold val_to_pyobject in Hk, Hv. cbn [app map_to_pyobject_foreach].
    rewrite (do_val_to_pyobject_reset self err err0), Hk, Hek. cbn [negb].
    rewrite (do_val_to_pyobject_reset self ek err0), Hv, Hev. cbn [negb].
    unfold PyDict_SetItem. rewrite Hh. reflexivity.
  - cbn [fst snd] in Hk0, Hv0, Hh0.
    destruct Hk0 as (ek & Hk0 & Hek). destruct Hv0 as (ev & Hv0 & Hev).
    unfold val_to_pyobject in Hk0, Hv0. cbn [app map_to_pyobject_foreach].
    rewrite (do_val_to_pyobject_reset self err err0), Hk0, Hek. cbn [negb].
    rewrite (do_val_to_pyobject_reset self ek err0), Hv0, Hev. cbn [negb].
    unfold PyDict_SetItem. rewrite Hh0.
    apply (IH k v pk pv post ev (pydict_set d pk0 pv0) Hk Hv Hh).
Qed.

End MapFacts.

(** X28.  [map_to_pyobject] makes a dict of a map whose keys and values
    convert when every converted key has a hash: the dict that results
    from setting the converted pairs one after the other, so that a pair
    whose key equals an earlier key as the host compares them ([1] and
    [1.0], say) does not add an entry but replaces the value of the
    earlier one; the dict has at most one entry per entry of the map.
    This part is stated for keys of the built-in types, which the host
    compares by value.  At the first key that converts to an object
    without a hash -- a list, a dict or a bytearray -- the converter
    releases the dict and reports ClientError, leaving the caller with a
    pointer to the released dict; so a map keyed by such values cannot be
    read at all. *)
Theorem map_to_pyobject_needs_hashable_keys :
  forall (ext : Externals) (self : AerospikeClient) (err : as_error),
    (forall m pm,
       Forall2 (entry_externalizes self) m pm ->
       Forall (fun pkv => builtin_key (fst pkv) = true) pm ->
       m <> [] ->
       exists e,
         map_to_pyobject self err m = (e, Live (PyDict (pydict_of pm)))
         /\ is_ok e = true
         /\ (List.length (pydict_of pm) <= List.length m)%nat)
    /\ (forall pre ppre k v pk pv post,
          Forall2 (entry_externalizes self) pre ppre ->
          externalizes self k pk ->
          externalizes self v pv ->
          hashable pk = false ->
          map_to_pyobject self err (pre ++ (k, v) :: post)
          = (mk_error AEROSPIKE_ERR_CLIENT
               "Unable to use unhashable type as a dictionary key",
             Destroyed)).
Proof.
  intros ext self err. split.
  - intros m pm Hall _ Hne.
    destruct (@map_to_pyobject_foreach_ok ext self m pm Hall err [])
      as (e & Hl & He).
    { intros ->. congruence. }
    exists e. unfold map_to_pyobject, map_to_pyobject_, pydict_of.
    rewrite Hl, He. split; [reflexivity|]. split; [reflexivity|].
    pose proof (pydict_fold_length pm []) as Hlen.
    rewrite <- (Forall2_length Hall) in Hlen. simpl in Hlen. exact Hlen.
  - intros pre ppre k v pk pv post Hall Hk Hv Hh.
    pose proof (@map_to_pyobject_foreach_unhashable ext self pre ppre Hall
                  k v pk pv post err [] Hk Hv Hh) as Hf.
    unfold map_to_pyobject, map_to_pyobject_.
    destruct (map_to_pyobject_foreach _ _ _ _) as [e d]. cbn [fst] in Hf.
    subst e. reflexivity.
Qed.

(** A map keyed by the integer 1 and the double 1.0 comes back as a dict
    with the one key 1; a map keyed by a list does not come back. *)
Lemma map_to_pyobject_needs_hashable_keys_witness :
  (exists e,
     map_to_pyobject (ext := demo_externals) demo_client err0
       [(AS_INTEGER 1, AS_INTEGER 10); (AS_DOUBLE double_one, AS_INTEGER 20)]
     = (e, Live (PyDict [(PyLong 1, PyLong 20)]))
     /\ is_ok e = true
     /\ (List.length [(PyLong 1, PyLong 20)] <= 2)%nat)
  /\ map_to_pyobject (ext := demo_externals) demo_client err0
       ([(AS_INTEGER 1, AS_INTEGER 10)]
        ++ (AS_LIST [AS_INTEGER 2], AS_INTEGER 20) :: [])
     = (mk_error AEROSPIKE_ERR_CLIENT
          "Unable to use unhashable type as a dictionary key", Destroyed).
Proof.
  pose proof (@map_to_pyobject_needs_hashable_keys demo_externals
                demo_client err0) as [Hok Hbad].
  split.
  - apply (Hok [(AS_INTEGER 1, AS_INTEGER 10);
                (AS_DOUBLE double_one, AS_INTEGER 20)]
               [(PyLong 1, PyLong 10); (PyFloat double_one, PyLong 20)]).
    + repeat constructor; exists err0; split; reflexivity.
    + repeat constructor.
    + discriminate.
  - apply (Hbad [(AS_INTEGER 1, AS_INTEGER 10)] [(PyLong 1, PyLong 10)]
             (AS_LIST [AS_INTEGER 2]) (AS_INTEGER 20)
             (PyList [PyLong 2]) (PyLong 20) []).
    + repeat constructor; exists err0; split; reflexivity.
    + exists err0. split; reflexivity.
    + exists err0. split; reflexivity.
    + reflexivity.
Defined.

(* ====================================================================== *)
(** * Strict-type bins of collections *)

(** X29.  [initialize_bin_for_strictypes] does not look at the outcome of
    the collection converters: when the conversion of a list or dict
    value fails, the bin is nevertheless filled, its name copied, and its
    value made to refer to the list or map that [pyobject_to_list] or
    [pyobject_to_map] has already destroyed; the error and the pool are
    those of the failed conversion. *)
Theorem initialize_bin_for_strictypes_keeps_a_destroyed_collection :
  forall (ext : Externals) (self : AerospikeClient) (SERIALIZER_PYTHON : Z)
         (double_to_int64 : double -> Z) (int64_to_double : Z -> double)
         (err : as_error) (bin : string) (pool : as_static_pool),
    strlen bin <= AS_BIN_NAME_MAX_LEN ->
    (forall l,
       is_ok (fst (fst (pyobject_to_list self err (PyList l) None pool
                          SERIALIZER_PYTHON))) = false ->
       initialize_bin_for_strictypes self SERIALIZER_PYTHON double_to_int64
         int64_to_double err (PyList l) bin pool
       = Some (fst (fst (pyobject_to_list self err (PyList l) None pool
                           SERIALIZER_PYTHON)),
               snd (fst (pyobject_to_list self err (PyList l) None pool
                           SERIALIZER_PYTHON)),
               Destroyed, c_str bin))
    /\ (forall d,
          is_ok (fst (fst (pyobject_to_map self err (PyDict d) None pool
                             SERIALIZER_PYTHON))) = false ->
          initialize_bin_for_strictypes self SERIALIZER_PYTHON double_to_int64
            int64_to_double err (PyDict d) bin pool
          = Some (fst (fst (pyobject_to_map self err (PyDict d) None pool
                              SERIALIZER_PYTHON)),
                  snd (fst (pyobject_to_map self err (PyDict d) None pool
                              SERIALIZER_PYTHON)),
                  Destroyed, c_str bin)).
Proof.
  intros ext self SP d2i i2d err bin pool Hbin.
  assert (Hfit : (strlen bin <? AS_BIN_NAME_MAX_LEN + 1) = true)
    by (apply Z.ltb_lt; lia).
  split.
  - intros l Hfail. unfold initialize_bin_for_strictypes.
    cbn [PyInt_Check PyLong_Check PyString_Check PyUnicode_Check PyFloat_Check
         PyList_Check].
    pose proof (pyobject_to_list_releases self err (PyList l) None pool SP)
      as Hrel.
    destruct (pyobject_to_list self err (PyList l) None pool SP)
      as [[e p] o].
    cbn [fst snd] in Hfail |- *. rewrite Hfail in Hrel. subst o.
    unfold strcpy_into. rewrite Hfit. reflexivity.
  - intros d Hfail. unfold initialize_bin_for_strictypes.
    cbn [PyInt_Check PyLong_Check PyString_Check PyUnicode_Check PyFloat_Check
         PyList_Check PyDict_Check].
    pose proof (pyobject_to_map_releases self err (PyDict d) None pool SP)
      as Hrel.
    destruct (pyobject_to_map self err (PyDict d) None pool SP)
      as [[e p] o].
    cbn [fst snd] in Hfail |- *. rewrite Hfail in Hrel. subst o.
    unfold strcpy_into. rewrite Hfit. reflexivity.
Qed.

Lemma initialize_bin_for_strictypes_keeps_a_destroyed_collection_witness :
  initialize_bin_for_strictypes (ext := demo_externals) demo_client 1
    (fun d => d) (fun z => z) err0 (PyList [PyLong 1; PyLong (2 ^ 64)])
    "scores" pool0
  = Some (mk_error AEROSPIKE_ERR_PARAM "integer value exceeds sys.maxsize",
          pool0, Destroyed, "scores").
Proof.
  apply (proj1 (@initialize_bin_for_strictypes_keeps_a_destroyed_collection
                  demo_externals demo_client 1 (fun d => d) (fun z => z)
                  err0 "scores" pool0 ltac:(apply Z.leb_le; reflexivity))
           [PyLong 1; PyLong (2 ^ 64)]).
  reflexivity.
Defined.

(* ====================================================================== *)
(** * The number of bins of a record *)

Section BinCount.

Context {ext : Externals}.
Variable self : AerospikeClient.

(** A record without room takes no bin. *)
Lemma as_record_set_full rec name v :
  bins rec = [] -> bins_capacity rec = 0%nat ->
  as_record_set rec name v = (rec, false).
Proof.
  intros Hb Hc. unfold as_record_set. rewrite Hb, Hc.
  destruct (AS_BIN_NAME_MAX_LEN <? strlen (c_str name)); reflexivity.
Qed.

Lemma record_bins_loop_full items :
  forall err pool rec rv ty ret e p r,
    bins rec = [] -> bins_capacity rec = 0%nat ->
    record_bins_loop self items err pool rec rv ty = (ret, e, p, r) ->
    r = rec.
Proof.
  induction items as [|[key value] tl IH];
    intros err pool rec rv ty ret e p r Hb Hc H.
  - injection H as _ _ _ <-. reflexivity.
  - cbn [record_bins_loop] in H.
    assert (Hstep : step_rec (record_bin_step self err pool rec rv ty key value)
                    = rec).
    { destruct (record_bin_step_sets self err pool rec rv ty key value)
        as [E|(s & v & _ & E & _)]; [exact E|].
      rewrite E, (@as_record_set_full rec s v Hb Hc). reflexivity. }
    destruct (record_bin_step self err pool rec rv ty key value)
      as [e1 p1 r1|e1 p1 r1|e1 p1 r1 rv1]; cbn [step_rec] in Hstep; subst r1.
    + injection H as _ _ _ <-. reflexivity.
    + injection H as _ _ _ <-. reflexivity.
    + exact (IH e1 p1 rec rv1 ty ret e p r Hb Hc H).
Qed.

(** On a client that is not strict a turn of the loop over an integer bin
    goes on to the next bin although the record has not taken the bin. *)
Lemma record_bins_loop_ignores_full_record items :
  strict_types self = false ->
  forallb integer_bin items = true ->
  forall err pool rec rv ty,
    bins rec = [] -> bins_capacity rec = 0%nat ->
    record_bins_loop self items err pool rec rv ty = (false, err, pool, rec).
Proof.
  intros Hstrict. induction items as [|[key value] tl IH];
    intros Hall err pool rec rv ty Hb Hc; [reflexivity|].
  cbn [forallb] in Hall. apply andb_true_iff in Hall.
  destruct Hall as [Hkv Hall]. unfold integer_bin in Hkv. cbn [fst snd] in Hkv.
  apply andb_true_iff in Hkv. destruct Hkv as [Hk Hv].
  destruct key as [| | | |name| | | | | |]; try discriminate Hk.
  destruct value as [| |z| | | | | | | |]; try discriminate Hv.
  cbn [record_bins_loop]. unfold record_bin_step. cbn [PyUnicode_Check].
  rewrite bin_name_of_unicode, Hstrict. cbn [andb].
  cbn [PyBool_Check PyInt_Check PyLong_Check].
  unfold overflowed, PyInt_AsLong.
  rewrite (@PyLong_AsLong_in (PyLong z) z eq_refl Hv).
  cbn [fst snd PyErr_Occurred]. rewrite andb_false_r. cbv iota.
  rewrite (@as_record_set_full rec name (AS_INTEGER z) Hb Hc).
  exact (IH Hall err pool rec false ty Hb Hc).
Qed.

End BinCount.

(** X30.  [pyobject_to_record] hands the number of bins to
    [as_record_init] as it gets it from [PyDict_Size], and the driver takes
    it as a [uint16_t]: for a dict whose number of bins is a multiple of
    2^16 the record is initialised without room for a bin, every
    [as_record_set] fails, and whatever record is handed back holds no bin
    at all.  On a client that is not strict the failures are not looked
    at: a dict of 2^16 integer bins is converted with status OK to an
    empty record. *)
Theorem pyobject_to_record_counts_bins_in_16_bits :
  forall (ext : Externals) (self : AerospikeClient) (err : as_error)
         (d : pydict) (ty : Z) (pool : as_static_pool),
    to_unsigned 16 (Z.of_nat (List.length d)) = 0 ->
    (forall py_meta e p r,
       pyobject_to_record self err (Some (PyDict d)) py_meta ty pool
       = (e, p, Live r) ->
       bins r = [])
    /\ (strict_types self = false ->
        forallb integer_bin d = true ->
        pyobject_to_record self err (Some (PyDict d)) None ty pool
        = (err0, pool, Live (mk_record empty_key 0 0 0 []))).
Proof.
  intros ext self err d ty pool Hsize.
  assert (Hinit : as_record_init (PyDict_Size (PyDict d))
                  = mk_record empty_key 0 0 0 []).
  { unfold as_record_init. cbn [PyDict_Size]. rewrite Hsize. reflexivity. }
  split.
  - intros py_meta e p r H.
    unfold pyobject_to_record in H. cbn [PyDict_Check dict_items] in H.
    rewrite Hinit in H.
    destruct (record_bins_loop self d (as_error_reset err) pool
                (mk_record empty_key 0 0 0 []) false ty)
      as [[[ret e1] p1] r1] eqn:Hloop.
    pose proof (@record_bins_loop_full ext self d (as_error_reset err) pool
                  (mk_record empty_key 0 0 0 []) false ty ret e1 p1 r1
                  eq_refl eq_refl Hloop) as ->.
    destruct ret.
    + injection H as _ _ <-. reflexivity.
    + pose proof (record_meta_bins e1 (mk_record empty_key 0 0 0 []) py_meta)
        as Hm.
      destruct (record_meta e1 _ py_meta) as [e2 r2]. cbn [snd] in Hm.
      destruct (negb (is_ok e2)); [discriminate H|].
      injection H as _ _ <-. exact Hm.
  - intros Hstrict Hall.
    unfold pyobject_to_record. cbn [PyDict_Check dict_items].
    rewrite Hinit.
    rewrite (@record_bins_loop_ignores_full_record ext self d Hstrict Hall
               (as_error_reset err) pool (mk_record empty_key 0 0 0 []) false
               ty eq_refl eq_refl).
    reflexivity.
Qed.

Lemma wide_record_length : List.length wide_record = (2 ^ 16)%nat.
Proof. unfold wide_record. rewrite length_map, length_seq. reflexivity. Qed.

Lemma wide_record_bins : forallb integer_bin wide_record = true.
Proof.
  apply forallb_forall. intros kv Hin. unfold wide_record in Hin.
  apply in_map_iff in Hin. destruct Hin as (i & <- & Hi).
  apply in_seq in Hi. unfold integer_bin. cbn [fst snd PyUnicode_Check andb].
  unfold in_long, LONG_MIN, LONG_MAX.
  apply andb_true_iff. split; apply Z.leb_le.
  - apply Z.le_trans with 0; [discriminate|apply Nat2Z.is_nonneg].
  - apply Z.le_trans with (Z.of_nat (2 ^ 16)).
    + apply Nat2Z.inj_le. apply Nat.lt_le_incl. exact (proj2 Hi).
    + rewrite <- wide_record_length. unfold wide_record.
      rewrite length_map, length_seq. vm_compute. discriminate.
Qed.

Lemma pyobject_to_record_counts_bins_in_16_bits_witness :
  List.length wide_record = (2 ^ 16)%nat
  /\ pyobject_to_record (ext := demo_externals) demo_client err0
       (Some (PyDict wide_record)) None 0 pool0
     = (err0, pool0, Live (mk_record empty_key 0 0 0 [])).
Proof.
  split; [exact wide_record_length|].
  refine (proj2 (@pyobject_to_record_counts_bins_in_16_bits demo_externals
                   demo_client err0 wide_record 0 pool0 _)
            eq_refl wide_record_bins).
  rewrite wide_record_length. vm_compute. reflexivity.
Defined.
